(** * Agent-based epidemic simulator: scheduler, agents and models

    A shallow embedding of [time.py] (the activation schedulers),
    [ComportamientoVirus_FINAL.py] (the base SIR model) and
    [VirusConEstrategias.py] (the SIR model with distancing, quarantine and
    vaccination), followed by the properties established for them.

    Conventions of the embedding.
    - Python integers are [Z].  The scheduler clock [time] is a float that
      only ever holds 0.0, 1.0, 2.0, ...; it is a [Z] here.
    - Probabilities and uniform draws are rationals ([Q]); every float is a
      rational and the code only compares them.  [int(N * rate)] is the
      truncation of the exact product.
    - Randomness is an effect: a program is a tree whose nodes ask the random
      source for a draw ([Prog]); [interp] runs a program against a
      [RandomSource].
    - An exception aborts the program ([Raise]).
    - Agent objects live in the scheduler's dictionary; the grid refers to
      them by [unique_id]. *)

From Stdlib Require Import String ZArith QArith List Bool Lia Permutation FinFun.
Import ListNotations.
Close Scope Q_scope.
Open Scope Z_scope.

Set Implicit Arguments.

(** ** Exceptions and results *)

Inductive Exn : Type :=
| DuplicateAgent (unique_id : Z)  (* Exception("Agent with unique id ... already added.") *)
| KeyError (key : Z)              (* del d[k] with k absent *)
| ValueError                      (* randrange over an empty range *)
| IndexError                      (* choice from an empty sequence *)
| TypeError                       (* a position is None where a cell is needed *)
| AttributeError (name : string)  (* the agent has no method of that name *)
| AlreadyPlaced (unique_id : Z)   (* the grid refuses to place a placed agent *)
| Dangling (unique_id : Z).       (* an identity that names no agent object *)

Inductive result (A : Type) : Type :=
| Ok (a : A)
| Err (e : Exn).
Arguments Err {A} e.

(** ** Programs that draw from the random source *)

Inductive Prog (A : Type) : Type :=
| Ret (a : A)
| Raise (e : Exn)
| Random (k : Q -> Prog A)                      (* random.random() *)
| Randrange (n : Z) (k : Z -> Prog A)           (* random.randrange(n) *)
| Choice (n : nat) (k : nat -> Prog A)          (* index picked by random.choice *)
| Shuffle (l : list Z) (k : list Z -> Prog A).  (* random.shuffle(l) *)
Arguments Raise {A} e.
Arguments Random {A} k.
Arguments Randrange {A} n k.
Arguments Choice {A} n k.
Arguments Shuffle {A} l k.

Fixpoint pbind {A B : Type} (p : Prog A) (f : A -> Prog B) : Prog B :=
  match p with
  | Ret a => f a
  | Raise e => Raise e
  | Random k => Random (fun q => pbind (k q) f)
  | Randrange n k => Randrange n (fun z => pbind (k z) f)
  | Choice n k => Choice n (fun i => pbind (k i) f)
  | Shuffle l k => Shuffle l (fun l' => pbind (k l') f)
  end.

(** State passing on top of [Prog]: the monad the methods are written in. *)
Definition M (S A : Type) : Type := S -> Prog (A * S).

Definition ret {S A : Type} (a : A) : M S A := fun s => Ret (a, s).
Definition bind {S A B : Type} (c : M S A) (f : A -> M S B) : M S B :=
  fun s => pbind (c s) (fun r => f (fst r) (snd r)).
Definition raise {S A : Type} (e : Exn) : M S A := fun _ => Raise e.
Definition gets {S A : Type} (f : S -> A) : M S A := fun s => Ret (f s, s).
Definition modify {S : Type} (f : S -> S) : M S unit := fun s => Ret (tt, f s).
Definition lift {S A : Type} (p : Prog A) : M S A :=
  fun s => pbind p (fun a => Ret (a, s)).

Declare Scope prog_scope.
Delimit Scope prog_scope with prog.
Notation "x <- c1 ;; c2" := (bind c1 (fun x => c2))
  (at level 61, c1 at next level, right associativity) : prog_scope.
Notation "c1 ;; c2" := (bind c1 (fun _ => c2))
  (at level 61, right associativity) : prog_scope.
Open Scope prog_scope.

(** [for x in l: body x] *)
Fixpoint for_each {S X : Type} (l : list X) (body : X -> M S unit) : M S unit :=
  match l with
  | [] => ret tt
  | x :: rest => body x ;; for_each rest body
  end.

(** [range(n)] *)
Definition range (n : Z) : list Z := map Z.of_nat (seq 0 (Z.to_nat n)).

(** *** The draws *)

Definition random_random {S : Type} : M S Q := lift (Random (fun q => Ret q)).

Definition random_randrange {S : Type} (n : Z) : M S Z :=
  if n <=? 0 then raise ValueError else lift (Randrange n (fun z => Ret z)).

Definition random_choice {S X : Type} (seq : list X) : M S X :=
  match seq with
  | [] => raise IndexError
  | _ :: _ =>
      lift (Choice (length seq) (fun i =>
              match nth_error seq i with
              | Some x => Ret x
              | None => Raise IndexError
              end))
  end.

Definition random_shuffle {S : Type} (l : list Z) : M S (list Z) :=
  lift (Shuffle l (fun l' => Ret l')).

(** Comparison of rationals, as [<] on floats. *)
Definition Qlt_bool (x y : Q) : bool := negb (Qle_bool y x).

(** [int(x)]: truncation towards zero. *)
Definition int_of_Q (x : Q) : Z := Z.quot (Qnum x) (Zpos (Qden x)).

(** ** The random source *)

Class RandomSource : Type := {
  rng : Type;
  rng_random : rng -> Q * rng;
  rng_randrange : Z -> rng -> Z * rng;
  rng_choice : nat -> rng -> nat * rng;
  rng_shuffle : list Z -> rng -> list Z * rng
}.

(** The part of the source's contract the program relies on: [choice] picks
    an index of the sequence and [shuffle] keeps the elements. *)
Record RandomLaws (RS : RandomSource) : Prop := {
  choice_lt : forall (n : nat) (g : rng), (0 < n)%nat -> (fst (rng_choice n g) < n)%nat;
  shuffle_perm : forall (l : list Z) (g : rng), Permutation l (fst (rng_shuffle l g))
}.

Fixpoint interp {RS : RandomSource} {A : Type} (p : Prog A) (g : rng) : result (A * rng) :=
  match p with
  | Ret a => Ok (a, g)
  | Raise e => Err e
  | Random k => let (q, g') := rng_random g in interp (k q) g'
  | Randrange n k => let (z, g') := rng_randrange n g in interp (k z) g'
  | Choice n k => let (i, g') := rng_choice n g in interp (k i) g'
  | Shuffle l k => let (l', g') := rng_shuffle l g in interp (k l') g'
  end.

(** A scripted source for examples: the draws are read off a tape, 0 once
    the tape is used up.  [random] yields hundredths, [shuffle] rotates. *)
Definition tape_pop (t : list Z) : Z * list Z :=
  match t with
  | [] => (0, [])
  | d :: t' => (d, t')
  end.

Definition tape_rotate (d : Z) (l : list Z) : list Z :=
  let k := Z.to_nat (d mod Z.of_nat (length l)) in skipn k l ++ firstn k l.

#[export] Instance TapeSource : RandomSource := {|
  rng := list Z;
  rng_random := fun t => let (d, t') := tape_pop t in (Qmake (d mod 100) 100, t');
  rng_randrange := fun n t => let (d, t') := tape_pop t in (d mod n, t');
  rng_choice := fun n t => let (d, t') := tape_pop t in (Z.to_nat (d mod Z.of_nat n), t');
  rng_shuffle := fun l t => let (d, t') := tape_pop t in (tape_rotate d l, t')
|}.

(** ** Dictionaries in insertion order *)

Definition dict (A : Type) : Type := list (Z * A).

Section Dict.
Variable A : Type.

Fixpoint dict_get (k : Z) (d : dict A) : option A :=
  match d with
  | [] => None
  | (k', v) :: d' => if k' =? k then Some v else dict_get k d'
  end.

Definition dict_mem (k : Z) (d : dict A) : bool :=
  match dict_get k d with Some _ => true | None => false end.

Definition dict_keys (d : dict A) : list Z := map fst d.
Definition dict_values (d : dict A) : list A := map snd d.

(** [d[k] = v] for a key that is not in [d]: appended last. *)
Definition dict_add (k : Z) (v : A) (d : dict A) : dict A := d ++ [(k, v)].

(** [del d[k]] for a key of [d]. *)
Definition dict_del (k : Z) (d : dict A) : dict A :=
  filter (fun kv => negb (fst kv =? k)) d.

(** Mutation of the object stored under [k]. *)
Definition dict_update (k : Z) (f : A -> A) (d : dict A) : dict A :=
  map (fun kv => if fst kv =? k then (fst kv, f (snd kv)) else kv) d.
End Dict.

(** ** time.py: the schedulers *)

(** What a pass over the scheduled keys did with each of them.  The list of
    events is returned next to the state; the program never reads it. *)
Inductive Event : Type :=
| Activated (key : Z) (method : string)
| Skipped (key : Z).

Definition event_key (e : Event) : Z :=
  match e with
  | Activated key _ => key
  | Skipped key => key
  end.

Module MesaTime.
Section Scheduler.
Variables Agent Fields : Type.
Variable unique_id : Agent -> Z.

(** [BaseScheduler.__init__]: the state shared by the four scheduler classes.
    [_agents] is the [dict] from [unique_id] to agent. *)
Record BaseScheduler : Type := mkScheduler {
  steps : Z;
  time : Z;
  _agents : dict Agent
}.

(** The model a scheduler belongs to: the scheduler itself and the model's
    other attributes. *)
Record Model : Type := mkModel {
  schedule : BaseScheduler;
  fields : Fields
}.

Definition new_scheduler : BaseScheduler :=
  {| steps := 0; time := 0; _agents := [] |}.

Definition set_agents (d : dict Agent) (s : BaseScheduler) : BaseScheduler :=
  {| steps := steps s; time := time s; _agents := d |}.

Definition set_schedule (s : BaseScheduler) (m : Model) : Model :=
  {| schedule := s; fields := fields m |}.

Definition set_fields (f : Fields) (m : Model) : Model :=
  {| schedule := schedule m; fields := f |}.

(** [BaseScheduler.add] *)
Definition add (agent : Agent) (s : BaseScheduler) : result BaseScheduler :=
  if dict_mem (unique_id agent) (_agents s)
  then Err (DuplicateAgent (unique_id agent))
  else Ok (set_agents (dict_add (unique_id agent) agent (_agents s)) s).

(** [BaseScheduler.remove]: [del self._agents[agent.unique_id]] *)
Definition remove (agent : Agent) (s : BaseScheduler) : result BaseScheduler :=
  if dict_mem (unique_id agent) (_agents s)
  then Ok (set_agents (dict_del (unique_id agent) (_agents s)) s)
  else Err (KeyError (unique_id agent)).

(** [BaseScheduler.remove] together with the scheduler it leaves behind: the
    scheduler object when the call is over, and the exception the call
    ended with, if any.  [del] of a key that the dictionary does not hold
    raises [KeyError] and deletes nothing. *)
Definition remove_in_place (agent : Agent) (s : BaseScheduler)
    : BaseScheduler * option Exn :=
  if dict_mem (unique_id agent) (_agents s)
  then (set_agents (dict_del (unique_id agent) (_agents s)) s, None)
  else (s, Some (KeyError (unique_id agent))).

(** [BaseScheduler.get_agent_count] *)
Definition get_agent_count (s : BaseScheduler) : Z :=
  Z.of_nat (length (_agents s)).

(** [BaseScheduler.agents] *)
Definition agents (s : BaseScheduler) : list Agent := dict_values (_agents s).

(** The scheduler's methods as steps of a model program. *)
Definition on_schedule (f : BaseScheduler -> result BaseScheduler) : M Model unit :=
  fun m =>
    match f (schedule m) with
    | Ok s => Ret (tt, set_schedule s m)
    | Err e => Raise e
    end.

Definition schedule_add (agent : Agent) : M Model unit := on_schedule (add agent).
Definition schedule_remove (agent : Agent) : M Model unit := on_schedule (remove agent).

(** [getattr(agent, method)()]: what calling a method of an agent does to
    the model.  An agent's method may change anything, the scheduler's
    population included. *)
Variable call : string -> Agent -> M Model unit.

(** [BaseScheduler.agent_buffer], the keys it walks through: the snapshot
    [list(self._agents.keys())], shuffled on request. *)
Definition agent_buffer (shuffled : bool) : M Model (list Z) :=
  agent_keys <- gets (fun m => dict_keys (_agents (schedule m))) ;;
  if shuffled then random_shuffle agent_keys else ret agent_keys.

(** The loop over the snapshot, with the consumer's call inlined:
    [for key in agent_keys: if key in self._agents: self._agents[key].method()]. *)
Fixpoint activation_pass (method : string) (agent_keys : list Z) : M Model (list Event) :=
  match agent_keys with
  | [] => ret []
  | key :: rest =>
      present <- gets (fun m => dict_get key (_agents (schedule m))) ;;
      match present with
      | Some agent =>
          call method agent ;;
          evs <- activation_pass method rest ;;
          ret (Activated key method :: evs)
      | None =>
          evs <- activation_pass method rest ;;
          ret (Skipped key :: evs)
      end
  end.

(** [self.steps += 1; self.time += 1] *)
Definition tick_clock (m : Model) : Model :=
  set_schedule {| steps := steps (schedule m) + 1;
                  time := time (schedule m) + 1;
                  _agents := _agents (schedule m) |} m.

Definition advance_clock : M Model unit := modify tick_clock.

(** [BaseScheduler.step]; the result lists the events of its one pass. *)
Definition BaseScheduler_step : M Model (list (list Event)) :=
  agent_keys <- agent_buffer false ;;
  evs <- activation_pass "step" agent_keys ;;
  advance_clock ;;
  ret [evs].

(** [RandomActivation.step] *)
Definition RandomActivation_step : M Model (list (list Event)) :=
  agent_keys <- agent_buffer true ;;
  evs <- activation_pass "step" agent_keys ;;
  advance_clock ;;
  ret [evs].

(** [SimultaneousActivation.step]: two passes, each over its own buffer. *)
Definition SimultaneousActivation_step : M Model (list (list Event)) :=
  agent_keys <- agent_buffer false ;;
  evs1 <- activation_pass "step" agent_keys ;;
  agent_keys' <- agent_buffer false ;;
  evs2 <- activation_pass "advance" agent_keys' ;;
  advance_clock ;;
  ret [evs1; evs2].

(** The stage loop of [StagedActivation.step]. *)
Fixpoint staged_stages (stage_list : list string) (shuffle shuffle_between_stages : bool)
    (agent_keys : list Z) : M Model (list (list Event)) :=
  match stage_list with
  | [] => ret []
  | stage :: stages =>
      evs <- activation_pass stage agent_keys ;;
      agent_keys' <- (if shuffle && shuffle_between_stages
                      then random_shuffle agent_keys else ret agent_keys) ;;
      rest <- staged_stages stages shuffle shuffle_between_stages agent_keys' ;;
      ret (evs :: rest)
  end.

(** [StagedActivation.step]; [stage_list], [shuffle] and
    [shuffle_between_stages] are the attributes set by its [__init__]. *)
Definition StagedActivation_step (stage_list : list string)
    (shuffle shuffle_between_stages : bool) : M Model (list (list Event)) :=
  agent_keys <- gets (fun m => dict_keys (_agents (schedule m))) ;;
  agent_keys <- (if shuffle then random_shuffle agent_keys else ret agent_keys) ;;
  passes <- staged_stages stage_list shuffle shuffle_between_stages agent_keys ;;
  advance_clock ;;
  ret passes.

End Scheduler.
End MesaTime.

(** ** The grid *)

Module Grid.

(** Modelled from the spec: the toroidal multi-occupancy grid
    ([mesa.space.MultiGrid] is not part of the sources).  The grid keeps who
    is placed where, in the order of placement; an identity is placed at most
    once, so the occupants of a cell and the position of an agent are two
    readings of the same list. *)
Record MultiGrid : Type := mkGrid {
  width : Z;
  height : Z;
  placements : list (Z * (Z * Z))
}.

(** Modelled from the spec: coordinates wrap on both axes. *)
Definition torus_adj (g : MultiGrid) (pos : Z * Z) : Z * Z :=
  (fst pos mod width g, snd pos mod height g).

(** Modelled from the spec: the position of an agent ([agent.pos]), absent
    when the agent is not placed. *)
Definition agent_pos (unique_id : Z) (g : MultiGrid) : option (Z * Z) :=
  dict_get unique_id (placements g).

(** Modelled from the spec: [placeAgent] registers the occupancy at the
    wrapped coordinates and fails if the agent is already placed. *)
Definition place_agent (unique_id : Z) (pos : Z * Z) (g : MultiGrid) : result MultiGrid :=
  match agent_pos unique_id g with
  | Some _ => Err (AlreadyPlaced unique_id)
  | None =>
      Ok {| width := width g; height := height g;
            placements := dict_add unique_id (torus_adj g pos) (placements g) |}
  end.

(** Modelled from the spec: [removeAgent] deregisters the occupancy and is a
    no-op on an agent that is not placed. *)
Definition remove_agent (unique_id : Z) (g : MultiGrid) : MultiGrid :=
  {| width := width g; height := height g;
     placements := dict_del unique_id (placements g) |}.

(** Modelled from the spec: [moveAgent] is remove, then place. *)
Definition move_agent (unique_id : Z) (pos : Z * Z) (g : MultiGrid) : result MultiGrid :=
  place_agent unique_id pos (remove_agent unique_id g).

(** Modelled from the spec: the 8 wrapped Moore neighbours of a cell, the
    cell itself left out ([moore=True, include_center=False]). *)
Definition get_neighborhood (g : MultiGrid) (pos : Z * Z) : list (Z * Z) :=
  map (fun d => torus_adj g (fst pos + fst d, snd pos + snd d))
      [(-1, -1); (-1, 0); (-1, 1); (0, -1); (0, 1); (1, -1); (1, 0); (1, 1)].

(** Modelled from the spec: [occupantsAt] for one cell, in the order of
    placement ([get_cell_list_contents([pos])]). *)
Definition get_cell_list_contents (g : MultiGrid) (pos : Z * Z) : list Z :=
  map fst (filter (fun p => (fst (snd p) =? fst pos) && (snd (snd p) =? snd pos))
                  (placements g)).

End Grid.

(** ** The epidemiological state *)

Inductive State : Type := Susceptible | Infected | Recovered.

Definition state_eqb (a b : State) : bool :=
  match a, b with
  | Susceptible, Susceptible | Infected, Infected | Recovered, Recovered => true
  | _, _ => false
  end.

(** One row of the data collector: the three model reporters. *)
Record Snapshot : Type := mkSnapshot {
  snap_susceptible : Z;
  snap_infected : Z;
  snap_recovered : Z
}.

(** The methods of an agent, as entries of the call log. *)
Inductive Method : Type := UpdateStatus | Move | Infect.

(** ** ComportamientoVirus_FINAL.py: the base model *)

Module ComportamientoVirus.
Import MesaTime.

(** [InfectionAgent.__init__].  [pos] is kept by the grid. *)
Record InfectionAgent : Type := mkAgent {
  unique_id : Z;
  state : State;
  infection_time : Z
}.

(** The attributes of [InfectionModel] next to [schedule]; [calls] is the
    log of the agent methods entered, which the program never reads. *)
Record Fields : Type := mkFields {
  num_agents : Z;
  grid : Grid.MultiGrid;
  running : bool;
  infection_rate : Q;
  recovery_time : Z;
  datacollector : list Snapshot;
  calls : list (Z * Method)
}.

Definition Model : Type := MesaTime.Model InfectionAgent Fields.

Definition new_agent (unique_id : Z) : InfectionAgent :=
  {| unique_id := unique_id; state := Susceptible; infection_time := 0 |}.

Definition set_state (s : State) (a : InfectionAgent) : InfectionAgent :=
  {| unique_id := unique_id a; state := s; infection_time := infection_time a |}.

Definition set_infection_time (t : Z) (a : InfectionAgent) : InfectionAgent :=
  {| unique_id := unique_id a; state := state a; infection_time := t |}.

Definition the_agents (m : Model) : dict InfectionAgent := _agents (schedule m).
Definition the_grid (m : Model) : Grid.MultiGrid := grid (fields m).
Definition now (m : Model) : Z := time (schedule m).

Definition set_grid (g : Grid.MultiGrid) (m : Model) : Model :=
  set_fields {| num_agents := num_agents (fields m); grid := g;
                running := running (fields m);
                infection_rate := infection_rate (fields m);
                recovery_time := recovery_time (fields m);
                datacollector := datacollector (fields m);
                calls := calls (fields m) |} m.

Definition set_running (b : bool) (m : Model) : Model :=
  set_fields {| num_agents := num_agents (fields m); grid := grid (fields m);
                running := b;
                infection_rate := infection_rate (fields m);
                recovery_time := recovery_time (fields m);
                datacollector := datacollector (fields m);
                calls := calls (fields m) |} m.

Definition set_datacollector (d : list Snapshot) (m : Model) : Model :=
  set_fields {| num_agents := num_agents (fields m); grid := grid (fields m);
                running := running (fields m);
                infection_rate := infection_rate (fields m);
                recovery_time := recovery_time (fields m);
                datacollector := d;
                calls := calls (fields m) |} m.

Definition set_calls (c : list (Z * Method)) (m : Model) : Model :=
  set_fields {| num_agents := num_agents (fields m); grid := grid (fields m);
                running := running (fields m);
                infection_rate := infection_rate (fields m);
                recovery_time := recovery_time (fields m);
                datacollector := datacollector (fields m);
                calls := c |} m.

(** Reading an agent object through its identity. *)
Definition get_agent (unique_id : Z) : M Model InfectionAgent :=
  fun m =>
    match dict_get unique_id (the_agents m) with
    | Some a => Ret (a, m)
    | None => Raise (Dangling unique_id)
    end.

(** Assigning to attributes of an agent object. *)
Definition update_agent (unique_id : Z) (f : InfectionAgent -> InfectionAgent) : M Model unit :=
  modify (fun m => set_schedule (set_agents (dict_update unique_id f (the_agents m)) (schedule m)) m).

(** [agent.pos], which must be a cell. *)
Definition self_pos (unique_id : Z) : M Model (Z * Z) :=
  fun m =>
    match Grid.agent_pos unique_id (the_grid m) with
    | Some pos => Ret (pos, m)
    | None => Raise TypeError
    end.

Definition on_grid (f : Grid.MultiGrid -> result Grid.MultiGrid) : M Model unit :=
  fun m =>
    match f (the_grid m) with
    | Ok g => Ret (tt, set_grid g m)
    | Err e => Raise e
    end.

Definition log_call (self : Z) (method : Method) : M Model unit :=
  modify (fun m => set_calls (calls (fields m) ++ [(self, method)]) m).

(** [x = randrange(grid.width); y = randrange(grid.height); place_agent(agent, (x, y))] *)
Definition place_at_random (unique_id : Z) : M Model unit :=
  w <- gets (fun m => Grid.width (the_grid m)) ;;
  x <- random_randrange w ;;
  h <- gets (fun m => Grid.height (the_grid m)) ;;
  y <- random_randrange h ;;
  on_grid (Grid.place_agent unique_id (x, y)).

(** [InfectionAgent.move] *)
Definition move (self : Z) : M Model unit :=
  log_call self Move ;;
  pos <- self_pos self ;;
  g <- gets the_grid ;;
  new_position <- random_choice (Grid.get_neighborhood g pos) ;;
  on_grid (Grid.move_agent self new_position).

(** [InfectionAgent.update_status] *)
Definition update_status (self : Z) : M Model unit :=
  log_call self UpdateStatus ;;
  a <- get_agent self ;;
  if state_eqb (state a) Infected then
    t <- gets now ;;
    rt <- gets (fun m => recovery_time (fields m)) ;;
    let time_infected := t - infection_time a in
    if rt <=? time_infected then update_agent self (set_state Recovered)
    else ret tt
  else ret tt.

(** The body of the loop of [infect] for one cellmate. *)
Definition infect_other (other_agent : Z) : M Model unit :=
  o <- get_agent other_agent ;;
  if state_eqb (state o) Susceptible then
    r <- random_random ;;
    rate <- gets (fun m => infection_rate (fields m)) ;;
    if Qlt_bool r rate then
      update_agent other_agent (set_state Infected) ;;
      t <- gets now ;;
      update_agent other_agent (set_infection_time t)
    else ret tt
  else ret tt.

(** [InfectionAgent.infect] *)
Definition infect (self : Z) : M Model unit :=
  log_call self Infect ;;
  a <- get_agent self ;;
  if state_eqb (state a) Infected then
    pos <- self_pos self ;;
    cellmates <- gets (fun m => Grid.get_cell_list_contents (the_grid m) pos) ;;
    if (1 <? length cellmates)%nat then for_each cellmates infect_other
    else ret tt
  else ret tt.

(** [InfectionAgent.step] *)
Definition agent_step (self : Z) : M Model unit :=
  update_status self ;;
  move self ;;
  infect self.

(** [getattr(agent, method)()]: method lookup on an [InfectionAgent], by
    the names of the four methods the class defines. *)
Definition call (method : string) (agent : InfectionAgent) : M Model unit :=
  if String.eqb method "step" then agent_step (unique_id agent)
  else if String.eqb method "update_status" then update_status (unique_id agent)
  else if String.eqb method "move" then move (unique_id agent)
  else if String.eqb method "infect" then infect (unique_id agent)
  else raise (AttributeError method).

(** [sum(1 for a in m.schedule.agents if a.state == s)] *)
Fixpoint count_state (s : State) (l : list InfectionAgent) : Z :=
  match l with
  | [] => 0
  | a :: l' => if state_eqb (state a) s then 1 + count_state s l' else count_state s l'
  end.

Definition report (s : State) (m : Model) : Z := count_state s (agents (schedule m)).

(** [self.datacollector.collect(self)]: one row with the three reporters. *)
Definition collect : M Model unit :=
  modify (fun m =>
    set_datacollector
      (datacollector (fields m) ++
         [{| snap_susceptible := report Susceptible m;
             snap_infected := report Infected m;
             snap_recovered := report Recovered m |}]) m).

(** The parameters of [InfectionModel.__init__]. *)
Record Config : Type := mkConfig {
  cfg_N : Z;
  cfg_width : Z;
  cfg_height : Z;
  cfg_initial_infected : Z;
  cfg_infection_rate : Q;
  cfg_recovery_time : Z
}.

Definition default_config : Config :=
  {| cfg_N := 100; cfg_width := 20; cfg_height := 20; cfg_initial_infected := 5;
     cfg_infection_rate := Qmake 1 10; cfg_recovery_time := 15 |}.

(** The model before the loop that creates the agents. *)
Definition empty_model (cfg : Config) : Model :=
  {| schedule := new_scheduler InfectionAgent;
     fields := {| num_agents := cfg_N cfg;
                  grid := {| Grid.width := cfg_width cfg; Grid.height := cfg_height cfg;
                             Grid.placements := [] |};
                  running := true;
                  infection_rate := cfg_infection_rate cfg;
                  recovery_time := cfg_recovery_time cfg;
                  datacollector := [];
                  calls := [] |} |}.

(** The body of the loop of [InfectionModel.__init__] for agent [i]. *)
Definition create_agent (cfg : Config) (i : Z) : M Model unit :=
  let agent := new_agent i in
  schedule_add unique_id agent ;;
  place_at_random i ;;
  if i <? cfg_initial_infected cfg then
    update_agent i (set_state Infected) ;;
    t <- gets now ;;
    update_agent i (set_infection_time t)
  else ret tt.

(** [InfectionModel.__init__] *)
Definition InfectionModel (cfg : Config) : Prog Model :=
  pbind (for_each (range (cfg_N cfg)) (create_agent cfg) (empty_model cfg))
        (fun r => Ret (snd r)).

(** [InfectionModel.step] *)
Definition step : M Model unit :=
  RandomActivation_step call ;;
  collect ;;
  infected <- gets (report Infected) ;;
  if infected =? 0 then modify (set_running false) else ret tt.

(** [n] calls of [model.step()]. *)
Fixpoint steps_n (n : nat) : M Model unit :=
  match n with
  | O => ret tt
  | S n' => step ;; steps_n n'
  end.

(** A run: construction, then [n] ticks. *)
Definition simulate (cfg : Config) (n : nat) : Prog Model :=
  pbind (InfectionModel cfg) (fun m => pbind (steps_n n m) (fun r => Ret (snd r))).

(** The loop of the [__main__] block:
    [for i in range(...): if model.running: model.step() else: break] *)
Fixpoint main_loop (l : list Z) : M Model unit :=
  match l with
  | [] => ret tt
  | _ :: rest =>
      still_running <- gets (fun m => running (fields m)) ;;
      if still_running then step ;; main_loop rest else ret tt
  end.

(** The [__main__] block up to the model whose rows it prints: the
    constructor, one tick, then the loop over [range(simulation_steps - 1)]. *)
Definition main_block (cfg : Config) (simulation_steps : Z) : Prog Model :=
  pbind (InfectionModel cfg) (fun model =>
  pbind ((step ;; main_loop (range (simulation_steps - 1))) model) (fun r => Ret (snd r))).

(** The arguments of the constructor in the [__main__] block, and its
    [SIMULATION_STEPS]. *)
Definition main_config : Config :=
  {| cfg_N := 100; cfg_width := 20; cfg_height := 20; cfg_initial_infected := 5;
     cfg_infection_rate := Qmake 1 5; cfg_recovery_time := 15 |}.

Definition SIMULATION_STEPS : Z := 100.

Definition main : Prog Model := main_block main_config SIMULATION_STEPS.

End ComportamientoVirus.

(** ** VirusConEstrategias.py: the model with intervention strategies *)

Module VirusConEstrategias.
Import MesaTime.

(** [InfectionAgent.__init__].  [pos] is kept by the grid. *)
Record InfectionAgent : Type := mkAgent {
  unique_id : Z;
  state : State;
  infection_time : Z;
  is_quarantined : bool
}.

(** The attributes of [InfectionModel] next to [schedule]; [calls] is the
    log of the agent methods entered, which the program never reads. *)
Record Fields : Type := mkFields {
  num_agents : Z;
  grid : Grid.MultiGrid;
  running : bool;
  infection_rate : Q;
  recovery_time : Z;
  social_distancing_rate : Q;
  quarantine_enabled : bool;
  datacollector : list Snapshot;
  calls : list (Z * Method)
}.

Definition Model : Type := MesaTime.Model InfectionAgent Fields.

Definition new_agent (unique_id : Z) : InfectionAgent :=
  {| unique_id := unique_id; state := Susceptible; infection_time := 0;
     is_quarantined := false |}.

Definition set_state (s : State) (a : InfectionAgent) : InfectionAgent :=
  {| unique_id := unique_id a; state := s; infection_time := infection_time a;
     is_quarantined := is_quarantined a |}.

Definition set_infection_time (t : Z) (a : InfectionAgent) : InfectionAgent :=
  {| unique_id := unique_id a; state := state a; infection_time := t;
     is_quarantined := is_quarantined a |}.

Definition set_is_quarantined (b : bool) (a : InfectionAgent) : InfectionAgent :=
  {| unique_id := unique_id a; state := state a; infection_time := infection_time a;
     is_quarantined := b |}.

Definition the_agents (m : Model) : dict InfectionAgent := _agents (schedule m).
Definition the_grid (m : Model) : Grid.MultiGrid := grid (fields m).
Definition now (m : Model) : Z := time (schedule m).

Definition set_grid (g : Grid.MultiGrid) (m : Model) : Model :=
  set_fields {| num_agents := num_agents (fields m); grid := g;
                running := running (fields m);
                infection_rate := infection_rate (fields m);
                recovery_time := recovery_time (fields m);
                social_distancing_rate := social_distancing_rate (fields m);
                quarantine_enabled := quarantine_enabled (fields m);
                datacollector := datacollector (fields m);
                calls := calls (fields m) |} m.

Definition set_running (b : bool) (m : Model) : Model :=
  set_fields {| num_agents := num_agents (fields m); grid := grid (fields m);
                running := b;
                infection_rate := infection_rate (fields m);
                recovery_time := recovery_time (fields m);
                social_distancing_rate := social_distancing_rate (fields m);
                quarantine_enabled := quarantine_enabled (fields m);
                datacollector := datacollector (fields m);
                calls := calls (fields m) |} m.

Definition set_datacollector (d : list Snapshot) (m : Model) : Model :=
  set_fields {| num_agents := num_agents (fields m); grid := grid (fields m);
                running := running (fields m);
                infection_rate := infection_rate (fields m);
                recovery_time := recovery_time (fields m);
                social_distancing_rate := social_distancing_rate (fields m);
                quarantine_enabled := quarantine_enabled (fields m);
                datacollector := d;
                calls := calls (fields m) |} m.

Definition set_calls (c : list (Z * Method)) (m : Model) : Model :=
  set_fields {| num_agents := num_agents (fields m); grid := grid (fields m);
                running := running (fields m);
                infection_rate := infection_rate (fields m);
                recovery_time := recovery_time (fields m);
                social_distancing_rate := social_distancing_rate (fields m);
                quarantine_enabled := quarantine_enabled (fields m);
                datacollector := datacollector (fields m);
                calls := c |} m.

(** Reading an agent object through its identity. *)
Definition get_agent (unique_id : Z) : M Model InfectionAgent :=
  fun m =>
    match dict_get unique_id (the_agents m) with
    | Some a => Ret (a, m)
    | None => Raise (Dangling unique_id)
    end.

(** Assigning to attributes of an agent object. *)
Definition update_agent (unique_id : Z) (f : InfectionAgent -> InfectionAgent) : M Model unit :=
  modify (fun m => set_schedule (set_agents (dict_update unique_id f (the_agents m)) (schedule m)) m).

(** [agent.pos], which must be a cell. *)
Definition self_pos (unique_id : Z) : M Model (Z * Z) :=
  fun m =>
    match Grid.agent_pos unique_id (the_grid m) with
    | Some pos => Ret (pos, m)
    | None => Raise TypeError
    end.

Definition on_grid (f : Grid.MultiGrid -> result Grid.MultiGrid) : M Model unit :=
  fun m =>
    match f (the_grid m) with
    | Ok g => Ret (tt, set_grid g m)
    | Err e => Raise e
    end.

Definition log_call (self : Z) (method : Method) : M Model unit :=
  modify (fun m => set_calls (calls (fields m) ++ [(self, method)]) m).

(** [x = randrange(grid.width); y = randrange(grid.height); place_agent(agent, (x, y))] *)
Definition place_at_random (unique_id : Z) : M Model unit :=
  w <- gets (fun m => Grid.width (the_grid m)) ;;
  x <- random_randrange w ;;
  h <- gets (fun m => Grid.height (the_grid m)) ;;
  y <- random_randrange h ;;
  on_grid (Grid.place_agent unique_id (x, y)).

(** [InfectionAgent.move]: social distancing keeps the agent in place unless
    the draw exceeds the rate. *)
Definition move (self : Z) : M Model unit :=
  log_call self Move ;;
  r <- random_random ;;
  rate <- gets (fun m => social_distancing_rate (fields m)) ;;
  if Qlt_bool rate r then
    pos <- self_pos self ;;
    g <- gets the_grid ;;
    new_position <- random_choice (Grid.get_neighborhood g pos) ;;
    on_grid (Grid.move_agent self new_position)
  else ret tt.

(** [InfectionAgent.update_status] *)
Definition update_status (self : Z) : M Model unit :=
  log_call self UpdateStatus ;;
  a <- get_agent self ;;
  if state_eqb (state a) Infected then
    t <- gets now ;;
    rt <- gets (fun m => recovery_time (fields m)) ;;
    let time_infected := t - infection_time a in
    if rt <=? time_infected then
      update_agent self (set_state Recovered) ;;
      if is_quarantined a then
        update_agent self (set_is_quarantined false) ;;
        place_at_random self
      else ret tt
    else ret tt
  else ret tt.

(** The body of the loop of [infect] for one cellmate. *)
Definition infect_other (other : Z) : M Model unit :=
  o <- get_agent other ;;
  if state_eqb (state o) Susceptible then
    r <- random_random ;;
    rate <- gets (fun m => infection_rate (fields m)) ;;
    if Qlt_bool r rate then
      update_agent other (set_state Infected) ;;
      t <- gets now ;;
      update_agent other (set_infection_time t) ;;
      quarantine <- gets (fun m => quarantine_enabled (fields m)) ;;
      if quarantine then
        update_agent other (set_is_quarantined true) ;;
        modify (fun m => set_grid (Grid.remove_agent other (the_grid m)) m)
      else ret tt
    else ret tt
  else ret tt.

(** [InfectionAgent.infect] *)
Definition infect (self : Z) : M Model unit :=
  log_call self Infect ;;
  a <- get_agent self ;;
  if state_eqb (state a) Infected then
    pos <- self_pos self ;;
    cellmates <- gets (fun m => Grid.get_cell_list_contents (the_grid m) pos) ;;
    for_each cellmates infect_other
  else ret tt.

(** [InfectionAgent.step]: a quarantined agent only waits to recover. *)
Definition agent_step (self : Z) : M Model unit :=
  a <- get_agent self ;;
  if is_quarantined a then
    update_status self
  else
    update_status self ;;
    move self ;;
    infect self.

(** [getattr(agent, method)()]: method lookup on an [InfectionAgent], by
    the names of the four methods the class defines. *)
Definition call (method : string) (agent : InfectionAgent) : M Model unit :=
  if String.eqb method "step" then agent_step (unique_id agent)
  else if String.eqb method "update_status" then update_status (unique_id agent)
  else if String.eqb method "move" then move (unique_id agent)
  else if String.eqb method "infect" then infect (unique_id agent)
  else raise (AttributeError method).

(** [sum(1 for a in m.schedule.agents if a.state == s)] *)
Fixpoint count_state (s : State) (l : list InfectionAgent) : Z :=
  match l with
  | [] => 0
  | a :: l' => if state_eqb (state a) s then 1 + count_state s l' else count_state s l'
  end.

Definition report (s : State) (m : Model) : Z := count_state s (agents (schedule m)).

(** [self.datacollector.collect(self)]: one row with the three reporters. *)
Definition collect : M Model unit :=
  modify (fun m =>
    set_datacollector
      (datacollector (fields m) ++
         [{| snap_susceptible := report Susceptible m;
             snap_infected := report Infected m;
             snap_recovered := report Recovered m |}]) m).

(** The parameters of [InfectionModel.__init__]. *)
Record Config : Type := mkConfig {
  cfg_N : Z;
  cfg_width : Z;
  cfg_height : Z;
  cfg_initial_infected : Z;
  cfg_infection_rate : Q;
  cfg_recovery_time : Z;
  cfg_social_distancing_rate : Q;
  cfg_quarantine_enabled : bool;
  cfg_initial_vaccinated_rate : Q
}.

Definition default_config : Config :=
  {| cfg_N := 100; cfg_width := 20; cfg_height := 20; cfg_initial_infected := 5;
     cfg_infection_rate := Qmake 1 10; cfg_recovery_time := 15;
     cfg_social_distancing_rate := 0%Q; cfg_quarantine_enabled := false;
     cfg_initial_vaccinated_rate := 0%Q |}.

(** The model before the loop that creates the agents. *)
Definition empty_model (cfg : Config) : Model :=
  {| schedule := new_scheduler InfectionAgent;
     fields := {| num_agents := cfg_N cfg;
                  grid := {| Grid.width := cfg_width cfg; Grid.height := cfg_height cfg;
                             Grid.placements := [] |};
                  running := true;
                  infection_rate := cfg_infection_rate cfg;
                  recovery_time := cfg_recovery_time cfg;
                  social_distancing_rate := cfg_social_distancing_rate cfg;
                  quarantine_enabled := cfg_quarantine_enabled cfg;
                  datacollector := [];
                  calls := [] |} |}.

(** [initial_infected + int(N * initial_vaccinated_rate)].  A rate is the
    rational number that the float denotes, and the product is taken
    exactly before [int] truncates it; the code truncates the product
    rounded to a float.  The two differ where that rounding reaches an
    integer from below, as for [N = 3] and the float nearest one third (the
    code gets 1, the exact product truncates to 0), or where the rate is
    written as a decimal the float only approximates. *)
Definition infection_window (cfg : Config) : Z :=
  cfg_initial_infected cfg +
  int_of_Q (Qmult (inject_Z (cfg_N cfg)) (cfg_initial_vaccinated_rate cfg)).

(** The body of the loop of [InfectionModel.__init__] for agent [i]. *)
Definition create_agent (cfg : Config) (i : Z) : M Model unit :=
  r <- random_random ;;
  let agent := if Qlt_bool r (cfg_initial_vaccinated_rate cfg)
               then set_state Recovered (new_agent i) else new_agent i in
  schedule_add unique_id agent ;;
  place_at_random i ;;
  a <- get_agent i ;;
  if state_eqb (state a) Susceptible && (i <? infection_window cfg) then
    update_agent i (set_state Infected) ;;
    t <- gets now ;;
    update_agent i (set_infection_time t)
  else ret tt.

(** [InfectionModel.__init__] *)
Definition InfectionModel (cfg : Config) : Prog Model :=
  pbind (for_each (range (cfg_N cfg)) (create_agent cfg) (empty_model cfg))
        (fun r => Ret (snd r)).

(** [InfectionModel.step] *)
Definition step : M Model unit :=
  RandomActivation_step call ;;
  collect ;;
  infected <- gets (report Infected) ;;
  if infected =? 0 then modify (set_running false) else ret tt.

(** [n] calls of [model.step()]. *)
Fixpoint steps_n (n : nat) : M Model unit :=
  match n with
  | O => ret tt
  | S n' => step ;; steps_n n'
  end.

(** A run: construction, then [n] ticks. *)
Definition simulate (cfg : Config) (n : nat) : Prog Model :=
  pbind (InfectionModel cfg) (fun m => pbind (steps_n n m) (fun r => Ret (snd r))).

(** The loop of the [__main__] block:
    [for i in range(...): if model.running: model.step() else: break] *)
Fixpoint main_loop (l : list Z) : M Model unit :=
  match l with
  | [] => ret tt
  | _ :: rest =>
      still_running <- gets (fun m => running (fields m)) ;;
      if still_running then step ;; main_loop rest else ret tt
  end.

(** The [__main__] block up to the model whose rows it prints: the
    constructor, one tick, then the loop over [range(simulation_steps - 1)]. *)
Definition main_block (cfg : Config) (simulation_steps : Z) : Prog Model :=
  pbind (InfectionModel cfg) (fun model =>
  pbind ((step ;; main_loop (range (simulation_steps - 1))) model) (fun r => Ret (snd r))).

(** The arguments of the constructor in the [__main__] block, and its
    [SIMULATION_STEPS]. *)
Definition main_config : Config :=
  {| cfg_N := 200; cfg_width := 20; cfg_height := 20; cfg_initial_infected := 10;
     cfg_infection_rate := Qmake 1 4; cfg_recovery_time := 15;
     cfg_social_distancing_rate := Qmake 1 2; cfg_quarantine_enabled := true;
     cfg_initial_vaccinated_rate := Qmake 3 10 |}.

Definition SIMULATION_STEPS : Z := 150.

Definition main : Prog Model := main_block main_config SIMULATION_STEPS.

End VirusConEstrategias.

(** * Specification vocabulary *)

(** [safe Q p]: whatever the random source answers (within its contract),
    [p] raises nothing and ends in a result that satisfies [Q]. *)
Inductive safe {A : Type} (Q : A -> Prop) : Prog A -> Prop :=
| safe_Ret : forall a, Q a -> safe Q (Ret a)
| safe_Random : forall k, (forall q, safe Q (k q)) -> safe Q (Random k)
| safe_Randrange : forall n k, (forall z, safe Q (k z)) -> safe Q (Randrange n k)
| safe_Choice : forall n k,
    (0 < n)%nat -> (forall i, (i < n)%nat -> safe Q (k i)) -> safe Q (Choice n k)
| safe_Shuffle : forall l k,
    (forall l', Permutation l l' -> safe Q (k l')) -> safe Q (Shuffle l k).

(** Total correctness of a step of a program: from a state in [P] it ends,
    without an exception, in a state and result in [Q]. *)
Definition triple {S A : Type} (P : S -> Prop) (c : M S A) (Q : A -> S -> Prop) : Prop :=
  forall s, P s -> safe (fun r => Q (fst r) (snd r)) (c s).

(** ** Vocabulary for the schedulers *)

(** The identities present in the population, in insertion order. *)
Definition population {Agent Fields : Type} (m : MesaTime.Model Agent Fields) : list Z :=
  dict_keys (MesaTime._agents (MesaTime.schedule m)).

(** A tick "schedules the population of the start of the tick" when every
    pass it completes has its turns on exactly the identities that were
    present when the tick began. *)
Definition schedules_tick_start_population {RS : RandomSource} {Agent Fields : Type}
    (tick : M (MesaTime.Model Agent Fields) (list (list Event))) : Prop :=
  forall m g passes m' g',
    interp (tick m) g = Ok ((passes, m'), g') ->
    forall evs, In evs passes -> Permutation (map event_key evs) (population m).

(** What happens at the turn of [key], which the pass reaches in state [m]
    with the random source in state [g]: the outcome of the turn and the
    event it leaves. *)
Definition turn_of {RS : RandomSource} {Agent Fields : Type}
    (call : string -> Agent -> M (MesaTime.Model Agent Fields) unit)
    (method : string) (key : Z) (m : MesaTime.Model Agent Fields) (g : rng)
    : result (Event * MesaTime.Model Agent Fields * rng) :=
  match dict_get key (MesaTime._agents (MesaTime.schedule m)) with
  | Some agent =>
      match interp (call method agent m) g with
      | Ok ((_, m1), g1) => Ok (Activated key method, m1, g1)
      | Err e => Err e
      end
  | None => Ok (Skipped key, m, g)
  end.

(** An agent that grows the population: when agent 0 steps it adds agent 1
    to the schedule.  Agents are their own identities here. *)
Definition spawner_call (method : string) (agent : Z) : M (MesaTime.Model Z unit) unit :=
  if String.eqb method "step" then
    if agent =? 0 then MesaTime.schedule_add (fun a => a) 1 else ret tt
  else ret tt.

Definition spawner_model : MesaTime.Model Z unit :=
  {| MesaTime.schedule := {| MesaTime.steps := 0; MesaTime.time := 0;
                             MesaTime._agents := [(0, 0)] |};
     MesaTime.fields := tt |}.

(** An agent that removes agent 2 from the schedule when it steps. *)
Definition remover_call (method : string) (agent : Z) : M (MesaTime.Model Z unit) unit :=
  if String.eqb method "step" then
    if agent =? 1 then MesaTime.schedule_remove (fun a => a) 2 else ret tt
  else ret tt.

Definition remover_model : MesaTime.Model Z unit :=
  {| MesaTime.schedule := {| MesaTime.steps := 0; MesaTime.time := 0;
                             MesaTime._agents := [(1, 1); (2, 2); (3, 3)] |};
     MesaTime.fields := tt |}.

(** ** Vocabulary for the model with strategies *)

Module EstrategiasSpec.
Import VirusConEstrategias.

(** What no method of an agent ever writes: the clock, the parameters, the
    flag [running], the collected rows and the size of the grid. *)
Definition frame_of (m : Model) : Z * Z * (Z * bool * Q * Z * Q * bool * list Snapshot) * (Z * Z) :=
  (MesaTime.steps (MesaTime.schedule m), MesaTime.time (MesaTime.schedule m),
   (num_agents (MesaTime.fields m), running (MesaTime.fields m),
    infection_rate (MesaTime.fields m), recovery_time (MesaTime.fields m),
    social_distancing_rate (MesaTime.fields m), quarantine_enabled (MesaTime.fields m),
    datacollector (MesaTime.fields m)),
   (Grid.width (the_grid m), Grid.height (the_grid m))).

(** The state of the identity [k]: an agent is stored under its own
    identity, is off the grid exactly while quarantined, and is quarantined
    only while infected; an identity without an agent is not on the grid. *)
Definition agent_ok (k : Z) (oa : option InfectionAgent) (op : option (Z * Z)) : Prop :=
  match oa with
  | Some a =>
      unique_id a = k /\
      (is_quarantined a = true <-> op = None) /\
      (is_quarantined a = true -> state a = Infected)
  | None => op = None
  end.

(** The invariant of the model: the population is [range N], the frame is
    [fr], the call log is [c], every identity is in order, and the agents of
    [R0] are recovered. *)
Record Inv (N : Z) (fr : Z * Z * (Z * bool * Q * Z * Q * bool * list Snapshot) * (Z * Z))
    (R0 : list Z) (c : list (Z * Method)) (m : Model) : Prop := {
  inv_keys : population m = range N;
  inv_frame : frame_of m = fr;
  inv_dims : 0 < Grid.width (the_grid m) /\ 0 < Grid.height (the_grid m);
  inv_calls : calls (MesaTime.fields m) = c;
  inv_agents : forall k,
    agent_ok k (dict_get k (the_agents m)) (Grid.agent_pos k (the_grid m));
  inv_recovered : forall k, In k R0 ->
    exists a, dict_get k (the_agents m) = Some a /\ state a = Recovered
}.

(** [placed_if b self]: when [b] holds, the agent [self] is on the grid. *)
Definition placed_if (b : bool) (self : Z) (m : Model) : Prop :=
  b = true -> Grid.agent_pos self (the_grid m) <> None.


(** The methods entered by one activation of [self], by its quarantine flag
    when the activation begins. *)
Definition step_calls (self : Z) (quarantined : bool) : list (Z * Method) :=
  if quarantined then [(self, UpdateStatus)]
  else [(self, UpdateStatus); (self, Move); (self, Infect)].


(** The agent [i] as the constructor of the model with strategies may leave
    it: vaccinated, or infected at time 0 with its index inside the window,
    or susceptible with its index outside of it. *)
Definition constructed_ok (cfg : Config) (i : Z) (a : InfectionAgent) : Prop :=
  infection_time a = 0 /\ is_quarantined a = false /\
  (state a = Recovered \/
   (state a = Infected /\ i < infection_window cfg) \/
   (state a = Susceptible /\ infection_window cfg <= i)).

End EstrategiasSpec.

Module EstrategiasTick.
Import VirusConEstrategias EstrategiasSpec.

(** The row the data collector records in state [m]. *)
Definition snapshot_of (m : Model) : Snapshot :=
  {| snap_susceptible := report Susceptible m;
     snap_infected := report Infected m;
     snap_recovered := report Recovered m |}.

(** The parameters fixed at construction. *)
Definition params_of (m : Model) : Z * Q * Z * Q * bool * Z * Z :=
  (num_agents (MesaTime.fields m), infection_rate (MesaTime.fields m),
   recovery_time (MesaTime.fields m), social_distancing_rate (MesaTime.fields m),
   quarantine_enabled (MesaTime.fields m),
   Grid.width (the_grid m), Grid.height (the_grid m)).

(** What one call of [InfectionModel.step] does to the model's own
    attributes, from [m0] to [m']. *)
Record tick_post (m0 m' : Model) : Prop := {
  tp_time : now m' = now m0 + 1;
  tp_steps : MesaTime.steps (MesaTime.schedule m') = MesaTime.steps (MesaTime.schedule m0) + 1;
  tp_rows : datacollector (MesaTime.fields m') =
            datacollector (MesaTime.fields m0) ++ [snapshot_of m'];
  tp_running : running (MesaTime.fields m') =
               running (MesaTime.fields m0) && negb (report Infected m' =? 0);
  tp_params : params_of m' = params_of m0
}.

(** What [n] ticks do, from [m0] to [m']: the clock advances by [n], the
    parameters stay, [running] does not come back once false, and [n] rows
    are appended, each of which adds up to the size of [range N]. *)
Record run_post (N : Z) (n : nat) (m0 m' : Model) : Prop := {
  rp_time : now m' = now m0 + Z.of_nat n;
  rp_params : params_of m' = params_of m0;
  rp_running : running (MesaTime.fields m0) = false -> running (MesaTime.fields m') = false;
  rp_rows : exists rows,
    datacollector (MesaTime.fields m') = datacollector (MesaTime.fields m0) ++ rows /\
    length rows = n /\
    Forall (fun s => snap_susceptible s + snap_infected s + snap_recovered s
                     = Z.of_nat (length (range N))) rows
}.

End EstrategiasTick.

(** The sum of the three counts of a row. *)
Definition snapshot_total (s : Snapshot) : Z :=
  snap_susceptible s + snap_infected s + snap_recovered s.

(** ** Vocabulary for the base model *)

Module ComportamientoSpec.
Import ComportamientoVirus.

(** What no method of an agent ever writes: the clock, the parameters, the
    flag [running], the collected rows and the size of the grid. *)
Definition frame_of (m : Model) : Z * Z * (Z * bool * Q * Z * list Snapshot) * (Z * Z) :=
  (MesaTime.steps (MesaTime.schedule m), MesaTime.time (MesaTime.schedule m),
   (num_agents (MesaTime.fields m), running (MesaTime.fields m),
    infection_rate (MesaTime.fields m), recovery_time (MesaTime.fields m),
    datacollector (MesaTime.fields m)),
   (Grid.width (the_grid m), Grid.height (the_grid m))).

(** The state of the identity [k]: an agent is stored under its own
    identity and is on the grid; an identity without an agent is not. *)
Definition agent_ok (k : Z) (oa : option InfectionAgent) (op : option (Z * Z)) : Prop :=
  match oa with
  | Some a => unique_id a = k /\ op <> None
  | None => op = None
  end.

(** The invariant of the model: the population is [range N], the frame is
    [fr], the call log is [c], every identity is in order, and the agents of
    [R0] are recovered. *)
Record Inv (N : Z) (fr : Z * Z * (Z * bool * Q * Z * list Snapshot) * (Z * Z))
    (R0 : list Z) (c : list (Z * Method)) (m : Model) : Prop := {
  inv_keys : population m = range N;
  inv_frame : frame_of m = fr;
  inv_dims : 0 < Grid.width (the_grid m) /\ 0 < Grid.height (the_grid m);
  inv_calls : calls (MesaTime.fields m) = c;
  inv_agents : forall k,
    agent_ok k (dict_get k (the_agents m)) (Grid.agent_pos k (the_grid m));
  inv_recovered : forall k, In k R0 ->
    exists a, dict_get k (the_agents m) = Some a /\ state a = Recovered
}.

(** The methods entered by one activation of [self]. *)
Definition step_calls (self : Z) : list (Z * Method) :=
  [(self, UpdateStatus); (self, Move); (self, Infect)].

(** The row the data collector records in state [m]. *)
Definition snapshot_of (m : Model) : Snapshot :=
  {| snap_susceptible := report Susceptible m;
     snap_infected := report Infected m;
     snap_recovered := report Recovered m |}.

(** The parameters fixed at construction. *)
Definition params_of (m : Model) : Z * Q * Z * Z * Z :=
  (num_agents (MesaTime.fields m), infection_rate (MesaTime.fields m),
   recovery_time (MesaTime.fields m),
   Grid.width (the_grid m), Grid.height (the_grid m)).

(** What one call of [InfectionModel.step] does to the model's own
    attributes, from [m0] to [m']. *)
Record tick_post (m0 m' : Model) : Prop := {
  tp_time : now m' = now m0 + 1;
  tp_steps : MesaTime.steps (MesaTime.schedule m') = MesaTime.steps (MesaTime.schedule m0) + 1;
  tp_rows : datacollector (MesaTime.fields m') =
            datacollector (MesaTime.fields m0) ++ [snapshot_of m'];
  tp_running : running (MesaTime.fields m') =
               running (MesaTime.fields m0) && negb (report Infected m' =? 0);
  tp_params : params_of m' = params_of m0
}.

(** What [n] ticks do, from [m0] to [m']. *)
Record run_post (N : Z) (n : nat) (m0 m' : Model) : Prop := {
  rp_time : now m' = now m0 + Z.of_nat n;
  rp_params : params_of m' = params_of m0;
  rp_running : running (MesaTime.fields m0) = false -> running (MesaTime.fields m') = false;
  rp_rows : exists rows,
    datacollector (MesaTime.fields m') = datacollector (MesaTime.fields m0) ++ rows /\
    length rows = n /\
    Forall (fun s => snap_susceptible s + snap_infected s + snap_recovered s
                     = Z.of_nat (length (range N))) rows
}.

(** The agent [i] as the constructor of the base model leaves it. *)
Definition constructed_agent (cfg : Config) (i : Z) : InfectionAgent :=
  if i <? cfg_initial_infected cfg
  then {| unique_id := i; state := Infected; infection_time := 0 |}
  else new_agent i.

Definition constructed_agents (cfg : Config) (N : Z) : dict InfectionAgent :=
  map (fun i => (i, constructed_agent cfg i)) (range N).

End ComportamientoSpec.

(** ** Concrete inputs *)

(** A run of the model with strategies in which an infection is followed by
    quarantine: two agents on a grid of one cell, agent 0 infected at
    construction, certain infection, recovery after one tick. *)
Definition quarantine_config : VirusConEstrategias.Config :=
  {| VirusConEstrategias.cfg_N := 2; VirusConEstrategias.cfg_width := 1; VirusConEstrategias.cfg_height := 1;
     VirusConEstrategias.cfg_initial_infected := 1; VirusConEstrategias.cfg_infection_rate := Qmake 1 1;
     VirusConEstrategias.cfg_recovery_time := 1; VirusConEstrategias.cfg_social_distancing_rate := 0%Q;
     VirusConEstrategias.cfg_quarantine_enabled := true; VirusConEstrategias.cfg_initial_vaccinated_rate := 0%Q |}.


(** Four agents, one to be infected, half of the population to be
    vaccinated; and a tape on which no vaccination draw is below the rate. *)
Definition window_config : VirusConEstrategias.Config :=
  {| VirusConEstrategias.cfg_N := 4; VirusConEstrategias.cfg_width := 2; VirusConEstrategias.cfg_height := 2;
     VirusConEstrategias.cfg_initial_infected := 1; VirusConEstrategias.cfg_infection_rate := Qmake 1 10;
     VirusConEstrategias.cfg_recovery_time := 15; VirusConEstrategias.cfg_social_distancing_rate := 0%Q;
     VirusConEstrategias.cfg_quarantine_enabled := false; VirusConEstrategias.cfg_initial_vaccinated_rate := Qmake 1 2 |}.

Definition nobody_vaccinated_tape : list Z := [50; 0; 0; 50; 0; 0; 50; 0; 0; 50; 0; 0].

(** Three agents, one to be infected, a vaccination rate of 3/10; and a
    tape on which agent 0 is vaccinated and the others are not. *)
Definition narrow_config : VirusConEstrategias.Config :=
  {| VirusConEstrategias.cfg_N := 3; VirusConEstrategias.cfg_width := 2; VirusConEstrategias.cfg_height := 2;
     VirusConEstrategias.cfg_initial_infected := 1; VirusConEstrategias.cfg_infection_rate := Qmake 1 10;
     VirusConEstrategias.cfg_recovery_time := 15; VirusConEstrategias.cfg_social_distancing_rate := 0%Q;
     VirusConEstrategias.cfg_quarantine_enabled := false; VirusConEstrategias.cfg_initial_vaccinated_rate := Qmake 3 10 |}.

Definition first_vaccinated_tape : list Z := [0; 0; 0; 50; 0; 0; 50; 0; 0].

(** An event is an activation by [method], or a turn that was skipped. *)
Definition event_calls (method : string) (e : Event) : Prop :=
  match e with
  | Activated _ method' => method' = method
  | Skipped _ => True
  end.

(** How a run of the [__main__] block ends: it has recorded at least one
    row and at most [simulation_steps] (one when that is less), no row
    before the last has zero infected, the last one has if the run stopped
    short; [still_running] tells whether the last row has any infected, and
    [clock] is the number of rows. *)
Definition main_outcome (simulation_steps : Z) (rows : list Snapshot)
    (still_running : bool) (clock : Z) : Prop :=
  exists front last,
    rows = front ++ [last] /\
    Forall (fun s => snap_infected s <> 0) front /\
    still_running = negb (snap_infected last =? 0) /\
    clock = Z.of_nat (length rows) /\
    clock <= Z.max 1 simulation_steps /\
    (clock < Z.max 1 simulation_steps -> snap_infected last = 0).

(** ** What a program may return *)

(** [leaves Q p]: every result that [p] returns satisfies [Q], whatever is
    drawn; nothing is said of a run that raises. *)
Inductive leaves {A : Type} (Q : A -> Prop) : Prog A -> Prop :=
| leaves_Ret a : Q a -> leaves Q (Ret a)
| leaves_Raise e : leaves Q (Raise e)
| leaves_Random k : (forall q, leaves Q (k q)) -> leaves Q (Random k)
| leaves_Randrange n k : (forall z, leaves Q (k z)) -> leaves Q (Randrange n k)
| leaves_Choice n k : (forall i, leaves Q (k i)) -> leaves Q (Choice n k)
| leaves_Shuffle l k : (forall l', leaves Q (k l')) -> leaves Q (Shuffle l k).

(** [ensures P c Q]: from a state in [P], whatever [c] returns is in [Q]. *)
Definition ensures {S A : Type} (P : S -> Prop) (c : M S A) (Q : A -> S -> Prop) : Prop :=
  forall s, P s -> leaves (fun r => Q (fst r) (snd r)) (c s).

(** ** The course of an agent in the model with strategies *)

Module EstrategiasCourse.
Import VirusConEstrategias.

(** What [infect] writes to an agent it infects at time [t]. *)
Definition infected_at (t : Z) (quarantine : bool) (a : InfectionAgent) : InfectionAgent :=
  let a' := set_infection_time t (set_state Infected a) in
  if quarantine then set_is_quarantined true a' else a'.

(** What [update_status] writes to an agent that recovers. *)
Definition recovered (a : InfectionAgent) : InfectionAgent :=
  let a' := set_state Recovered a in
  if is_quarantined a then set_is_quarantined false a' else a'.

(** [course rt q lo hi a a']: the agent [a] becomes [a'] by infections of a
    susceptible agent and recoveries of an infected one that is due, each
    at a time from [lo] up to, but excluding, [hi]. *)
Inductive course (rt : Z) (q : bool) (lo hi : Z) : InfectionAgent -> InfectionAgent -> Prop :=
| course_same a : course rt q lo hi a a
| course_infected a b t :
    course rt q lo hi a b -> state b = Susceptible -> lo <= t < hi ->
    course rt q lo hi a (infected_at t q b)
| course_recovered a b t :
    course rt q lo hi a b -> state b = Infected -> lo <= t < hi ->
    rt <= t - infection_time b ->
    course rt q lo hi a (recovered b).

(** [follows rt q lo hi m0 m]: the parameters of [m] are [rt] and [q], and
    every agent of [m0] is in [m], after a course between [lo] and [hi]. *)
Record follows (rt : Z) (q : bool) (lo hi : Z) (m0 m : Model) : Prop := {
  fo_recovery_time : recovery_time (MesaTime.fields m) = rt;
  fo_quarantine : quarantine_enabled (MesaTime.fields m) = q;
  fo_agents : forall k a, dict_get k (the_agents m0) = Some a ->
    exists a', dict_get k (the_agents m) = Some a' /\ course rt q lo hi a a'
}.

(** The state of the model inside the tick of time [t], for a course that
    began at time [lo]. *)
Definition within_tick (rt : Z) (q : bool) (lo t : Z) (m0 m : Model) : Prop :=
  now m = t /\ lo <= t /\ follows rt q lo (t + 1) m0 m.

(** The state of the model inside the tick that began in [m0]. *)
Definition in_tick_of (m0 m : Model) : Prop :=
  within_tick (recovery_time (MesaTime.fields m0)) (quarantine_enabled (MesaTime.fields m0))
              (now m0) (now m0) m0 m.

(** The position of a state in the order Susceptible, Infected, Recovered. *)
Definition rank (s : State) : Z :=
  match s with Susceptible => 0 | Infected => 1 | Recovered => 2 end.

(** The agent [k] is due in [m]: it is infected and has been so for the
    recovery time. *)
Definition due (k : Z) (m : Model) : Prop :=
  exists a, dict_get k (the_agents m) = Some a /\ state a = Infected /\
            recovery_time (MesaTime.fields m) <= now m - infection_time a.

Definition is_recovered (k : Z) (m : Model) : Prop :=
  exists a, dict_get k (the_agents m) = Some a /\ state a = Recovered.

End EstrategiasCourse.

(** ** The course of an agent in the base model *)

Module ComportamientoCourse.
Import ComportamientoVirus.

(** What [infect] writes to an agent it infects at time [t]. *)
Definition infected_at (t : Z) (a : InfectionAgent) : InfectionAgent :=
  set_infection_time t (set_state Infected a).

(** What [update_status] writes to an agent that recovers. *)
Definition recovered (a : InfectionAgent) : InfectionAgent := set_state Recovered a.

(** [course rt lo hi a a']: the agent [a] becomes [a'] by infections of a
    susceptible agent and recoveries of an infected one that is due, each
    at a time from [lo] up to, but excluding, [hi]. *)
Inductive course (rt : Z) (lo hi : Z) : InfectionAgent -> InfectionAgent -> Prop :=
| course_same a : course rt lo hi a a
| course_infected a b t :
    course rt lo hi a b -> state b = Susceptible -> lo <= t < hi ->
    course rt lo hi a (infected_at t b)
| course_recovered a b t :
    course rt lo hi a b -> state b = Infected -> lo <= t < hi ->
    rt <= t - infection_time b ->
    course rt lo hi a (recovered b).

(** [follows rt lo hi m0 m]: the recovery time of [m] is [rt], and every
    agent of [m0] is in [m], after a course between [lo] and [hi]. *)
Record follows (rt : Z) (lo hi : Z) (m0 m : Model) : Prop := {
  fo_recovery_time : recovery_time (MesaTime.fields m) = rt;
  fo_agents : forall k a, dict_get k (the_agents m0) = Some a ->
    exists a', dict_get k (the_agents m) = Some a' /\ course rt lo hi a a'
}.

(** The state of the model inside the tick of time [t], for a course that
    began at time [lo]. *)
Definition within_tick (rt : Z) (lo t : Z) (m0 m : Model) : Prop :=
  now m = t /\ lo <= t /\ follows rt lo (t + 1) m0 m.

(** The state of the model inside the tick that began in [m0]. *)
Definition in_tick_of (m0 m : Model) : Prop :=
  within_tick (recovery_time (MesaTime.fields m0)) (now m0) (now m0) m0 m.

(** The agent [k] is due in [m]: it is infected and has been so for the
    recovery time. *)
Definition due (k : Z) (m : Model) : Prop :=
  exists a, dict_get k (the_agents m) = Some a /\ state a = Infected /\
            recovery_time (MesaTime.fields m) <= now m - infection_time a.

Definition is_recovered (k : Z) (m : Model) : Prop :=
  exists a, dict_get k (the_agents m) = Some a /\ state a = Recovered.

End ComportamientoCourse.

(** [descends prev rows]: each row has no more susceptible and no fewer
    recovered agents than the one before it, [prev] coming before the
    first. *)
Fixpoint descends (prev : Snapshot) (rows : list Snapshot) : Prop :=
  match rows with
  | [] => True
  | r :: rest =>
      snap_susceptible r <= snap_susceptible prev /\
      snap_recovered prev <= snap_recovered r /\
      descends r rest
  end.

(** Nobody in the dictionary [A] of the model with strategies is infected. *)
Definition est_nobody_infected (A : dict VirusConEstrategias.InfectionAgent) : Prop :=
  forall k a, dict_get k A = Some a -> VirusConEstrategias.state a <> Infected.

(** Nobody in the dictionary [A] of the base model is infected. *)
Definition cv_nobody_infected (A : dict ComportamientoVirus.InfectionAgent) : Prop :=
  forall k a, dict_get k A = Some a -> ComportamientoVirus.state a <> Infected.

(** ** How long an epidemic can last *)

Module EstrategiasSpread.
Import VirusConEstrategias.

(** [timely rt C m]: the recovery time is [rt], and the infection time of
    every agent that is not susceptible, plus [max rt 0] for every agent
    that still is, stays within [C]. *)
Definition timely (rt C : Z) (m : Model) : Prop :=
  recovery_time (MesaTime.fields m) = rt /\
  forall k a, dict_get k (the_agents m) = Some a -> state a <> Susceptible ->
    infection_time a + report Susceptible m * Z.max rt 0 <= C.

(** [fresh self m]: if the agent [self] is infected, it is not due. *)
Definition fresh (self : Z) (m : Model) : Prop :=
  forall b, dict_get self (the_agents m) = Some b -> state b = Infected ->
    now m - infection_time b < recovery_time (MesaTime.fields m).

End EstrategiasSpread.

Module ComportamientoSpread.
Import ComportamientoVirus.

(** [timely rt C m]: the recovery time is [rt], and the infection time of
    every agent that is not susceptible, plus [max rt 0] for every agent
    that still is, stays within [C]. *)
Definition timely (rt C : Z) (m : Model) : Prop :=
  recovery_time (MesaTime.fields m) = rt /\
  forall k a, dict_get k (the_agents m) = Some a -> state a <> Susceptible ->
    infection_time a + report Susceptible m * Z.max rt 0 <= C.

(** [fresh self m]: if the agent [self] is infected, it is not due. *)
Definition fresh (self : Z) (m : Model) : Prop :=
  forall b, dict_get self (the_agents m) = Some b -> state b = Infected ->
    now m - infection_time b < recovery_time (MesaTime.fields m).

End ComportamientoSpread.

(** ** What a program may return when the draws are known to be in range *)

(** [leaves_when D Q p]: every result that [p] returns satisfies [Q],
    provided every value drawn by [random.random()] satisfies [D]. *)
Inductive leaves_when {A : Type} (D : Q -> Prop) (P : A -> Prop) : Prog A -> Prop :=
| leaves_when_Ret a : P a -> leaves_when D P (Ret a)
| leaves_when_Raise e : leaves_when D P (Raise e)
| leaves_when_Random k :
    (forall q, D q -> leaves_when D P (k q)) -> leaves_when D P (Random k)
| leaves_when_Randrange n k :
    (forall z, leaves_when D P (k z)) -> leaves_when D P (Randrange n k)
| leaves_when_Choice n k :
    (forall i, leaves_when D P (k i)) -> leaves_when D P (Choice n k)
| leaves_when_Shuffle l k :
    (forall l', leaves_when D P (k l')) -> leaves_when D P (Shuffle l k).

Definition ensures_when {S A : Type} (D : Q -> Prop) (P : S -> Prop) (c : M S A)
    (R : A -> S -> Prop) : Prop :=
  forall s, P s -> leaves_when D (fun r => R (fst r) (snd r)) (c s).

(** [random.random()] yields a float below 1, and not below 0. *)
Definition random_below_one (RS : RandomSource) : Prop :=
  forall g : rng, (fst (rng_random g) < 1)%Q.

Definition random_not_negative (RS : RandomSource) : Prop :=
  forall g : rng, (0 <= fst (rng_random g))%Q.

(** The state of a model with strategies under full social distancing and
    without quarantine: the grid is [G], and nobody is quarantined. *)
Definition est_locked_down (G : Grid.MultiGrid) (m : VirusConEstrategias.Model) : Prop :=
  VirusConEstrategias.the_grid m = G /\
  VirusConEstrategias.quarantine_enabled (MesaTime.fields m) = false /\
  (1 <= VirusConEstrategias.social_distancing_rate (MesaTime.fields m))%Q /\
  forall k a, dict_get k (VirusConEstrategias.the_agents m) = Some a ->
    VirusConEstrategias.is_quarantined a = false.

(** Four agents on a 2 by 2 grid that never move: social distancing at rate
    1, no quarantine. *)
Definition lockdown_config : VirusConEstrategias.Config :=
  {| VirusConEstrategias.cfg_N := 4; VirusConEstrategias.cfg_width := 2; VirusConEstrategias.cfg_height := 2;
     VirusConEstrategias.cfg_initial_infected := 1; VirusConEstrategias.cfg_infection_rate := Qmake 1 2;
     VirusConEstrategias.cfg_recovery_time := 3; VirusConEstrategias.cfg_social_distancing_rate := Qmake 1 1;
     VirusConEstrategias.cfg_quarantine_enabled := false; VirusConEstrategias.cfg_initial_vaccinated_rate := 0%Q |}.

(** The agent [i] as the constructor of the model with strategies leaves it
    when nobody is vaccinated. *)
Definition est_unvaccinated_agent (cfg : VirusConEstrategias.Config) (i : Z)
    : VirusConEstrategias.InfectionAgent :=
  if i <? VirusConEstrategias.cfg_initial_infected cfg
  then VirusConEstrategias.set_infection_time 0
         (VirusConEstrategias.set_state Infected (VirusConEstrategias.new_agent i))
  else VirusConEstrategias.new_agent i.

Definition est_unvaccinated_agents (cfg : VirusConEstrategias.Config) (N : Z)
    : dict VirusConEstrategias.InfectionAgent :=
  map (fun i => (i, est_unvaccinated_agent cfg i)) (range N).
(** * Properties *)

(** ** Programs *)

Lemma safe_mono {A : Type} (Q Q' : A -> Prop) (p : Prog A) :
  (forall a, Q a -> Q' a) -> safe Q p -> safe Q' p.
Proof.
  intros HQ H. induction H; constructor; auto.
Qed.

Lemma safe_pbind {A B : Type} (Q : B -> Prop) (p : Prog A) (f : A -> Prog B) :
  safe (fun a => safe Q (f a)) p -> safe Q (pbind p f).
Proof.
  intros H. induction H; simpl; try (constructor; auto); assumption.
Qed.

Lemma safe_pbind_inv {A B : Type} (Q : B -> Prop) (p : Prog A) (f : A -> Prog B) :
  safe Q (pbind p f) -> safe (fun a => safe Q (f a)) p.
Proof.
  induction p; simpl; intros Hs.
  - constructor. exact Hs.
  - inversion Hs.
  - inversion Hs; subst. constructor. auto.
  - inversion Hs; subst. constructor. auto.
  - inversion Hs; subst. constructor; auto.
  - inversion Hs; subst. constructor. auto.
Qed.

(** A safe program runs to completion against any source that keeps its
    contract. *)
Lemma safe_interp {RS : RandomSource} (laws : RandomLaws RS) {A : Type}
    (Q : A -> Prop) (p : Prog A) :
  safe Q p -> forall g, exists a g', interp p g = Ok (a, g') /\ Q a.
Proof.
  intros H. induction H; intros g; simpl.
  - eauto.
  - destruct (rng_random g) as [q g']. auto.
  - destruct (rng_randrange n g) as [z g']. auto.
  - pose proof (@choice_lt _ laws n g H) as Hlt.
    destruct (rng_choice n g) as [i g']. simpl in Hlt. auto.
  - pose proof (@shuffle_perm _ laws l g) as Hp.
    destruct (rng_shuffle l g) as [l' g']. simpl in Hp. auto.
Qed.

Lemma interp_pbind {RS : RandomSource} {A B : Type} (p : Prog A) (f : A -> Prog B) (g : rng) :
  interp (pbind p f) g =
  match interp p g with
  | Ok (a, g') => interp (f a) g'
  | Err e => Err e
  end.
Proof.
  revert g. induction p; intros g; simpl; auto.
  - destruct (rng_random g); auto.
  - destruct (rng_randrange n g); auto.
  - destruct (rng_choice n g); auto.
  - destruct (rng_shuffle l g); auto.
Qed.

Section Triples.
Context {S : Type}.

Lemma triple_ret {A : Type} (P : S -> Prop) (a : A) (Q : A -> S -> Prop) :
  (forall s, P s -> Q a s) -> triple P (ret a) Q.
Proof. intros H s Hs. constructor. simpl. auto. Qed.

Lemma triple_bind {A B : Type} (P : S -> Prop) (c : M S A) (R : A -> S -> Prop)
    (f : A -> M S B) (Q : B -> S -> Prop) :
  triple P c R -> (forall a, triple (R a) (f a) Q) -> triple P (bind c f) Q.
Proof.
  intros Hc Hf s Hs. unfold bind. apply safe_pbind.
  eapply safe_mono; [|apply Hc; exact Hs].
  intros [a s'] Hr. simpl in *. apply Hf. exact Hr.
Qed.

Lemma triple_conseq {A : Type} (P P' : S -> Prop) (c : M S A) (Q Q' : A -> S -> Prop) :
  triple P' c Q' -> (forall s, P s -> P' s) -> (forall a s, Q' a s -> Q a s) ->
  triple P c Q.
Proof.
  intros Hc HP HQ s Hs. eapply safe_mono; [|apply Hc; auto].
  intros [a s']. simpl. auto.
Qed.

Lemma triple_gets {A : Type} (P : S -> Prop) (f : S -> A) (Q : A -> S -> Prop) :
  (forall s, P s -> Q (f s) s) -> triple P (gets f) Q.
Proof. intros H s Hs. constructor. simpl. auto. Qed.

Lemma triple_modify (P : S -> Prop) (f : S -> S) (Q : unit -> S -> Prop) :
  (forall s, P s -> Q tt (f s)) -> triple P (modify f) Q.
Proof. intros H s Hs. constructor. simpl. auto. Qed.

Lemma triple_random (P : S -> Prop) (Q : Q -> S -> Prop) :
  (forall q s, P s -> Q q s) -> triple P random_random Q.
Proof.
  intros H s Hs. unfold random_random, lift. simpl.
  constructor. intros q. constructor. simpl. auto.
Qed.

Lemma triple_randrange (P : S -> Prop) (n : Z) (Q : Z -> S -> Prop) :
  0 < n -> (forall z s, P s -> Q z s) -> triple P (random_randrange n) Q.
Proof.
  intros Hn H s Hs. unfold random_randrange.
  destruct (Z.leb_spec n 0); [lia|].
  unfold lift. simpl. constructor. intros z. constructor. simpl. auto.
Qed.

Lemma triple_choice {X : Type} (P : S -> Prop) (l : list X) (Q : X -> S -> Prop) :
  l <> [] -> (forall x s, In x l -> P s -> Q x s) -> triple P (random_choice l) Q.
Proof.
  intros Hl H s Hs. unfold random_choice.
  destruct l as [|x0 l0]; [congruence|].
  unfold lift. simpl pbind. constructor; [simpl; lia|].
  intros i Hi. destruct (nth_error (x0 :: l0) i) as [x|] eqn:E.
  - simpl. constructor. simpl. apply H; auto. eapply nth_error_In; eauto.
  - apply nth_error_None in E. simpl in *. lia.
Qed.

Lemma triple_shuffle (P : S -> Prop) (l : list Z) (Q : list Z -> S -> Prop) :
  (forall l' s, Permutation l l' -> P s -> Q l' s) -> triple P (random_shuffle l) Q.
Proof.
  intros H s Hs. unfold random_shuffle, lift. simpl.
  constructor. intros l' Hp. constructor. simpl. auto.
Qed.

Lemma triple_for_each {X : Type} (I : S -> Prop) (l : list X) (body : X -> M S unit) :
  (forall x, In x l -> triple I (body x) (fun _ => I)) ->
  triple I (for_each l body) (fun _ => I).
Proof.
  induction l as [|x l IH]; intros Hb; simpl.
  - apply triple_ret. auto.
  - eapply triple_bind.
    + apply Hb. left. reflexivity.
    + intros u. apply IH. intros y Hy. apply Hb. right. exact Hy.
Qed.

End Triples.

(** ** Dictionaries *)

Section DictFacts.
Context {A : Type}.
Implicit Types (d : dict A) (k : Z).

Lemma dict_get_update k k' (f : A -> A) d :
  dict_get k (dict_update k' f d) =
  if k =? k' then option_map f (dict_get k d) else dict_get k d.
Proof.
  induction d as [|[k0 v] d IH]; simpl.
  - destruct (k =? k'); reflexivity.
  - destruct (Z.eqb_spec k0 k'); simpl.
    + destruct (Z.eqb_spec k0 k); subst.
      * rewrite Z.eqb_refl. reflexivity.
      * exact IH.
    + destruct (Z.eqb_spec k0 k); subst.
      * destruct (Z.eqb_spec k k'); [contradiction|reflexivity].
      * exact IH.
Qed.

Lemma dict_keys_update k (f : A -> A) d :
  dict_keys (dict_update k f d) = dict_keys d.
Proof.
  unfold dict_keys, dict_update. rewrite map_map. apply map_ext.
  intros [k0 v]. simpl. destruct (k0 =? k); reflexivity.
Qed.

Lemma dict_values_update_length k (f : A -> A) d :
  length (dict_update k f d) = length d.
Proof. unfold dict_update. apply length_map. Qed.

Lemma dict_update_update k (f g : A -> A) d :
  dict_update k f (dict_update k g d) = dict_update k (fun a => f (g a)) d.
Proof.
  unfold dict_update. rewrite map_map. apply map_ext.
  intros [k0 v]. simpl. destruct (Z.eqb_spec k0 k); simpl.
  - subst. rewrite Z.eqb_refl. reflexivity.
  - destruct (Z.eqb_spec k0 k); [contradiction|reflexivity].
Qed.

Lemma dict_get_del k k' d :
  dict_get k (dict_del k' d) = if k =? k' then None else dict_get k d.
Proof.
  induction d as [|[k0 v] d IH]; simpl.
  - destruct (k =? k'); reflexivity.
  - destruct (Z.eqb_spec k0 k'); simpl.
    + subst. destruct (Z.eqb_spec k' k); subst.
      * rewrite Z.eqb_refl in IH. rewrite Z.eqb_refl. exact IH.
      * rewrite IH. reflexivity.
    + destruct (Z.eqb_spec k0 k); subst.
      * destruct (Z.eqb_spec k k'); [contradiction|reflexivity].
      * exact IH.
Qed.

Lemma dict_get_add k k' (v : A) d :
  dict_get k (dict_add k' v d) =
  match dict_get k d with
  | Some x => Some x
  | None => if k' =? k then Some v else None
  end.
Proof.
  unfold dict_add. induction d as [|[k0 v0] d IH]; simpl.
  - reflexivity.
  - destruct (k0 =? k); [reflexivity|exact IH].
Qed.

Lemma dict_keys_add k (v : A) d : dict_keys (dict_add k v d) = dict_keys d ++ [k].
Proof. unfold dict_keys, dict_add. rewrite map_app. reflexivity. Qed.

Lemma dict_get_In_keys k d : dict_get k d <> None <-> In k (dict_keys d).
Proof.
  induction d as [|[k0 v] d IH]; simpl.
  - split; [congruence|tauto].
  - destruct (Z.eqb_spec k0 k).
    + split; [auto|congruence].
    + rewrite IH. split; [auto|]. intros [H|H]; [contradiction|exact H].
Qed.

Lemma dict_get_None_keys k d : dict_get k d = None <-> ~ In k (dict_keys d).
Proof.
  rewrite <- dict_get_In_keys. destruct (dict_get k d); split; intros H.
  - discriminate.
  - exfalso. apply H. discriminate.
  - intros H'. apply H'. reflexivity.
  - reflexivity.
Qed.

Lemma dict_get_In k (a : A) d : dict_get k d = Some a -> In (k, a) d.
Proof.
  induction d as [|[k0 v] d IH]; simpl; [congruence|].
  destruct (Z.eqb_spec k0 k).
  - intros H. inversion H. subst. left. reflexivity.
  - intros H. right. auto.
Qed.

Lemma dict_mem_keys k d : dict_mem k d = true <-> In k (dict_keys d).
Proof.
  unfold dict_mem. rewrite <- dict_get_In_keys.
  destruct (dict_get k d); split; congruence.
Qed.

Lemma dict_keys_del k d :
  dict_keys (dict_del k d) = filter (fun x => negb (x =? k)) (dict_keys d).
Proof.
  unfold dict_keys, dict_del. induction d as [|[k0 v] d IH]; simpl; [reflexivity|].
  destruct (k0 =? k); simpl; rewrite IH; reflexivity.
Qed.

Lemma dict_update_id k d : dict_update k (fun a => a) d = d.
Proof.
  unfold dict_update. rewrite <- (map_id d) at 2. apply map_ext.
  intros [k0 v]. simpl. destruct (k0 =? k); reflexivity.
Qed.

End DictFacts.

(** ** The schedulers *)

Section SchedulerFacts.
Context {RS : RandomSource}.
Variables Agent Fields : Type.
Variable unique_id : Agent -> Z.
Variable call : string -> Agent -> M (MesaTime.Model Agent Fields) unit.

Lemma remove_absent (agent : Agent) (s : MesaTime.BaseScheduler Agent) :
  ~ In (unique_id agent) (dict_keys (MesaTime._agents s)) ->
  MesaTime.remove unique_id agent s = Err (KeyError (unique_id agent)).
Proof.
  intros H. unfold MesaTime.remove.
  destruct (dict_mem (unique_id agent) (MesaTime._agents s)) eqn:E; [|reflexivity].
  apply dict_mem_keys in E. contradiction.
Qed.

Lemma remove_present (agent : Agent) (s : MesaTime.BaseScheduler Agent) :
  In (unique_id agent) (dict_keys (MesaTime._agents s)) ->
  MesaTime.remove unique_id agent s =
  Ok (MesaTime.set_agents (dict_del (unique_id agent) (MesaTime._agents s)) s).
Proof.
  intros H. unfold MesaTime.remove.
  apply dict_mem_keys in H. rewrite H. reflexivity.
Qed.

(** A completed pass has one event per scheduled key, in the scheduled
    order. *)
Lemma activation_pass_keys method agent_keys :
  forall m g evs m' g',
    interp (MesaTime.activation_pass call method agent_keys m) g = Ok ((evs, m'), g') ->
    map event_key evs = agent_keys.
Proof.
  induction agent_keys as [|key rest IH]; intros m g evs m' g' H.
  - simpl in H. inversion H. reflexivity.
  - simpl in H. unfold bind, gets in H. simpl in H.
    destruct (dict_get key (MesaTime._agents (MesaTime.schedule m))) as [a|].
    + rewrite interp_pbind in H.
      destruct (interp (call method a m) g) as [[[u m1] g1]|e]; [|discriminate].
      simpl in H. rewrite interp_pbind in H.
      destruct (interp (MesaTime.activation_pass call method rest m1) g1)
        as [[[evs1 m2] g2]|e] eqn:E; [|discriminate].
      simpl in H. inversion H; subst. simpl. f_equal. eapply IH; eauto.
    + rewrite interp_pbind in H.
      destruct (interp (MesaTime.activation_pass call method rest m) g)
        as [[[evs1 m2] g2]|e] eqn:E; [|discriminate].
      simpl in H. inversion H; subst. simpl. f_equal. eapply IH; eauto.
Qed.

End SchedulerFacts.

Section PassFacts.
Context {RS : RandomSource}.
Variables Agent Fields : Type.
Variable call : string -> Agent -> M (MesaTime.Model Agent Fields) unit.

(** The pass, one turn at a time. *)
Lemma activation_pass_cons method key rest (m : MesaTime.Model Agent Fields) g :
  interp (MesaTime.activation_pass call method (key :: rest) m) g =
  match turn_of call method key m g with
  | Ok (e, m1, g1) =>
      match interp (MesaTime.activation_pass call method rest m1) g1 with
      | Ok ((evs, m'), g') => Ok ((e :: evs, m'), g')
      | Err x => Err x
      end
  | Err x => Err x
  end.
Proof.
  simpl. unfold bind, gets, turn_of. simpl.
  destruct (dict_get key (MesaTime._agents (MesaTime.schedule m))) as [a|].
  - rewrite interp_pbind.
    destruct (interp (call method a m) g) as [[[u m1] g1]|x]; [|reflexivity].
    simpl. rewrite interp_pbind.
    destruct (interp (MesaTime.activation_pass call method rest m1) g1)
      as [[[evs1 m2] g2]|x]; reflexivity.
  - rewrite interp_pbind.
    destruct (interp (MesaTime.activation_pass call method rest m) g)
      as [[[evs1 m2] g2]|x]; reflexivity.
Qed.

Lemma activation_pass_nil method (m : MesaTime.Model Agent Fields) g :
  interp (MesaTime.activation_pass call method [] m) g = Ok (([], m), g).
Proof. reflexivity. Qed.

(** The turn of a key is reached after the pass over the keys scheduled
    before it, is decided there by the presence of the key alone, and is
    followed by the pass over the keys scheduled after it. *)
Lemma activation_pass_turn method pre key post :
  forall (m : MesaTime.Model Agent Fields) g evs m' g',
    interp (MesaTime.activation_pass call method (pre ++ key :: post) m) g
      = Ok ((evs, m'), g') ->
    exists evs1 m1 g1 e m2 g2 evs2,
      interp (MesaTime.activation_pass call method pre m) g = Ok ((evs1, m1), g1) /\
      turn_of call method key m1 g1 = Ok (e, m2, g2) /\
      interp (MesaTime.activation_pass call method post m2) g2 = Ok ((evs2, m'), g') /\
      evs = evs1 ++ e :: evs2.
Proof.
  induction pre as [|k0 pre IH]; intros m g evs m' g' H.
  - simpl app in H. rewrite activation_pass_cons in H.
    destruct (turn_of call method key m g) as [[[e m2] g2]|x] eqn:Et; [|discriminate].
    destruct (interp (MesaTime.activation_pass call method post m2) g2)
      as [[[evs2 m3] g3]|x] eqn:Ep; [|discriminate].
    inversion H; subst.
    exists [], m, g, e, m2, g2, evs2. rewrite activation_pass_nil. auto.
  - simpl app in H. rewrite activation_pass_cons in H.
    destruct (turn_of call method k0 m g) as [[[e0 m0] g0]|x] eqn:Et; [|discriminate].
    destruct (interp (MesaTime.activation_pass call method (pre ++ key :: post) m0) g0)
      as [[[evs0 m3] g3]|x] eqn:Ep; [|discriminate].
    inversion H; subst.
    destruct (IH _ _ _ _ _ Ep) as (evs1 & m1 & g1 & e & m2 & g2 & evs2 & H1 & H2 & H3 & H4).
    exists (e0 :: evs1), m1, g1, e, m2, g2, evs2.
    rewrite activation_pass_cons, Et, H1. subst. auto.
Qed.

(** Among the events of a completed pass over distinct keys, each scheduled
    key has exactly one. *)
Lemma activation_pass_once method agent_keys (m : MesaTime.Model Agent Fields) g evs m' g' :
  NoDup agent_keys ->
  interp (MesaTime.activation_pass call method agent_keys m) g = Ok ((evs, m'), g') ->
  forall key, In key agent_keys ->
    length (filter (fun e => event_key e =? key) evs) = 1%nat.
Proof.
  intros Hnd H key Hin.
  apply activation_pass_keys in H. subst agent_keys.
  clear m g m' g'. induction evs as [|e evs IH]; simpl in *; [contradiction|].
  inversion Hnd as [|x l Hnot Hnd']; subst.
  destruct (Z.eqb_spec (event_key e) key) as [E|E].
  - simpl. f_equal. subst key.
    clear IH Hin Hnd Hnd'. induction evs as [|e' evs IH]; simpl; [reflexivity|].
    destruct (Z.eqb_spec (event_key e') (event_key e)) as [E'|E'].
    + exfalso. apply Hnot. left. exact E'.
    + apply IH. intros Hc. apply Hnot. right. exact Hc.
  - destruct Hin as [Hin|Hin]; [contradiction|]. auto.
Qed.

End PassFacts.

Lemma interp_bind {RS : RandomSource} {S A B : Type} (c : M S A) (f : A -> M S B) s g :
  interp (bind c f s) g =
  match interp (c s) g with
  | Ok ((a, s'), g') => interp (f a s') g'
  | Err e => Err e
  end.
Proof.
  unfold bind. rewrite interp_pbind.
  destruct (interp (c s) g) as [[[a s'] g']|e]; reflexivity.
Qed.

Lemma interp_shuffle {RS : RandomSource} {S : Type} (l : list Z) (s : S) g :
  interp (random_shuffle l s) g = Ok ((fst (rng_shuffle l g), s), snd (rng_shuffle l g)).
Proof.
  unfold random_shuffle, lift. simpl. destruct (rng_shuffle l g). reflexivity.
Qed.

Section PolicyFacts.
Context {RS : RandomSource}.
Variable laws : RandomLaws RS.
Variables Agent Fields : Type.
Variable call : string -> Agent -> M (MesaTime.Model Agent Fields) unit.

(** The keys a buffer walks through are the population, reordered at most. *)
Lemma agent_buffer_spec shuffled (m : MesaTime.Model Agent Fields) g :
  exists order g1,
    interp (MesaTime.agent_buffer shuffled m) g = Ok ((order, m), g1) /\
    Permutation (population m) order /\
    (shuffled = false -> order = population m /\ g1 = g).
Proof.
  unfold MesaTime.agent_buffer. rewrite interp_bind. unfold gets. simpl interp.
  destruct shuffled.
  - rewrite interp_shuffle. do 2 eexists. split; [reflexivity|]. split.
    + apply (shuffle_perm laws).
    + discriminate.
  - do 2 eexists. split; [reflexivity|]. split; [apply Permutation_refl|auto].
Qed.

Lemma BaseScheduler_step_spec (m : MesaTime.Model Agent Fields) g passes m' g' :
  interp (MesaTime.BaseScheduler_step call m) g = Ok ((passes, m'), g') ->
  exists evs m1,
    interp (MesaTime.activation_pass call "step" (population m) m) g = Ok ((evs, m1), g') /\
    passes = [evs] /\ m' = MesaTime.tick_clock m1.
Proof.
  unfold MesaTime.BaseScheduler_step. rewrite interp_bind.
  destruct (agent_buffer_spec false m g) as (order & g1 & Hb & _ & Hf).
  destruct (Hf eq_refl) as [-> ->]. rewrite Hb. rewrite interp_bind.
  destruct (interp (MesaTime.activation_pass call "step" (population m) m) g)
    as [[[evs m1] g2]|e]; [|discriminate].
  simpl. intros H. inversion H; subst. eauto.
Qed.

Lemma RandomActivation_step_spec (m : MesaTime.Model Agent Fields) g passes m' g' :
  interp (MesaTime.RandomActivation_step call m) g = Ok ((passes, m'), g') ->
  exists order g1 evs m1,
    Permutation (population m) order /\
    interp (MesaTime.activation_pass call "step" order m) g1 = Ok ((evs, m1), g') /\
    passes = [evs] /\ m' = MesaTime.tick_clock m1.
Proof.
  unfold MesaTime.RandomActivation_step. rewrite interp_bind.
  destruct (agent_buffer_spec true m g) as (order & g1 & Hb & Hp & _).
  rewrite Hb. rewrite interp_bind.
  destruct (interp (MesaTime.activation_pass call "step" order m) g1)
    as [[[evs m1] g2]|e] eqn:E; [|discriminate].
  simpl. intros H. inversion H; subst. exists order, g1, evs, m1. auto.
Qed.

Lemma SimultaneousActivation_step_spec (m : MesaTime.Model Agent Fields) g passes m' g' :
  interp (MesaTime.SimultaneousActivation_step call m) g = Ok ((passes, m'), g') ->
  exists evs1 m1 g1 evs2 m2,
    interp (MesaTime.activation_pass call "step" (population m) m) g = Ok ((evs1, m1), g1) /\
    interp (MesaTime.activation_pass call "advance" (population m1) m1) g1
      = Ok ((evs2, m2), g') /\
    passes = [evs1; evs2] /\ m' = MesaTime.tick_clock m2.
Proof.
  unfold MesaTime.SimultaneousActivation_step. rewrite interp_bind.
  destruct (agent_buffer_spec false m g) as (order & g0 & Hb & _ & Hf).
  destruct (Hf eq_refl) as [-> ->]. rewrite Hb. rewrite interp_bind.
  destruct (interp (MesaTime.activation_pass call "step" (population m) m) g)
    as [[[evs1 m1] g1]|e]; [|discriminate].
  rewrite interp_bind.
  destruct (agent_buffer_spec false m1 g1) as (order' & g0' & Hb' & _ & Hf').
  destruct (Hf' eq_refl) as [-> ->]. rewrite Hb'. rewrite interp_bind.
  destruct (interp (MesaTime.activation_pass call "advance" (population m1) m1) g1)
    as [[[evs2 m2] g2]|e] eqn:E2; [|discriminate].
  simpl. intros H. inversion H; subst. exists evs1, m1, g1, evs2, m2.
  repeat split; auto.
Qed.

Lemma staged_stages_spec stage_list shuffle sbs keys0 :
  forall agent_keys (m : MesaTime.Model Agent Fields) g passes m' g',
    Permutation keys0 agent_keys ->
    interp (MesaTime.staged_stages call stage_list shuffle sbs agent_keys m) g
      = Ok ((passes, m'), g') ->
    length passes = length stage_list /\
    Forall (fun evs => Permutation (map event_key evs) keys0) passes.
Proof.
  induction stage_list as [|stage stages IH]; intros agent_keys m g passes m' g' Hp H.
  - simpl in H. inversion H; subst. split; [reflexivity|constructor].
  - simpl in H. rewrite interp_bind in H.
    destruct (interp (MesaTime.activation_pass call stage agent_keys m) g)
      as [[[evs m1] g1]|e] eqn:E; [|discriminate].
    apply activation_pass_keys in E.
    rewrite interp_bind in H.
    assert (Hk : exists keys' g2,
      interp ((if shuffle && sbs then random_shuffle agent_keys else ret agent_keys) m1) g1
        = Ok ((keys', m1), g2) /\ Permutation keys0 keys').
    { destruct (shuffle && sbs).
      - rewrite interp_shuffle. do 2 eexists. split; [reflexivity|].
        eapply Permutation_trans; [exact Hp|apply (shuffle_perm laws)].
      - do 2 eexists. split; [reflexivity|exact Hp]. }
    destruct Hk as (keys' & g2 & Hk & Hp'). rewrite Hk in H.
    rewrite interp_bind in H.
    destruct (interp (MesaTime.staged_stages call stages shuffle sbs keys' m1) g2)
      as [[[rest m2] g3]|e] eqn:E2; [|discriminate].
    simpl in H. inversion H; subst.
    destruct (IH _ _ _ _ _ _ Hp' E2) as [Hl Hf].
    split; [simpl; congruence|].
    constructor; [|exact Hf]. apply Permutation_sym. exact Hp.
Qed.

Lemma BaseScheduler_schedules_start :
  schedules_tick_start_population (MesaTime.BaseScheduler_step call).
Proof.
  intros m g passes m' g' H evs Hin.
  apply BaseScheduler_step_spec in H. destruct H as (evs0 & m1 & H & -> & _).
  destruct Hin as [<-|[]]. apply activation_pass_keys in H. rewrite H.
  apply Permutation_refl.
Qed.

Lemma RandomActivation_schedules_start :
  schedules_tick_start_population (MesaTime.RandomActivation_step call).
Proof.
  intros m g passes m' g' H evs Hin.
  apply RandomActivation_step_spec in H.
  destruct H as (order & g1 & evs0 & m1 & Hp & H & -> & _).
  destruct Hin as [<-|[]]. apply activation_pass_keys in H. rewrite H.
  apply Permutation_sym. exact Hp.
Qed.

Lemma StagedActivation_schedules_start stage_list shuffle sbs :
  schedules_tick_start_population
    (MesaTime.StagedActivation_step call stage_list shuffle sbs).
Proof.
  intros m g passes m' g' H evs Hin.
  unfold MesaTime.StagedActivation_step in H. rewrite interp_bind in H.
  unfold gets in H at 1. simpl interp in H at 1. cbv iota beta in H.
  rewrite interp_bind in H.
  assert (Hk : exists keys' g2,
    interp ((if shuffle then random_shuffle (population m) else ret (population m)) m) g
      = Ok ((keys', m), g2) /\ Permutation (population m) keys').
  { destruct shuffle.
    - rewrite interp_shuffle. do 2 eexists. split; [reflexivity|].
      apply (shuffle_perm laws).
    - do 2 eexists. split; [reflexivity|apply Permutation_refl]. }
  destruct Hk as (keys' & g2 & Hk & Hp).
  unfold population in Hk at 1 2. rewrite Hk in H.
  rewrite interp_bind in H.
  destruct (interp (MesaTime.staged_stages call stage_list shuffle sbs keys' m) g2)
    as [[[ps m2] g3]|e] eqn:E; [|discriminate].
  simpl in H. inversion H; subst.
  eapply staged_stages_spec in E; [|exact Hp]. destruct E as [_ Hf].
  rewrite Forall_forall in Hf. auto.
Qed.

End PolicyFacts.

(** ** The scripted source keeps the contract *)

Lemma tape_rotate_perm (d : Z) (l : list Z) : Permutation l (tape_rotate d l).
Proof.
  unfold tape_rotate.
  set (k := Z.to_nat (d mod Z.of_nat (length l))).
  rewrite <- (firstn_skipn k l) at 1. apply Permutation_app_comm.
Qed.

Lemma tape_laws : RandomLaws TapeSource.
Proof.
  split.
  - intros n g Hn. simpl. destruct (tape_pop g) as [d t]. simpl.
    assert (0 <= d mod Z.of_nat n < Z.of_nat n) by (apply Z.mod_pos_bound; lia).
    lia.
  - intros l g. simpl. destruct (tape_pop g) as [d t]. simpl.
    apply tape_rotate_perm.
Qed.

(** ** Removal from the schedule (C3) *)

(** C3, as stated, fails: removing an identity that is not in the population
    is not a no-op.  On the empty schedule the removal of agent 7 raises
    [KeyError] instead of returning the schedule. *)
Lemma remove_absent_is_not_noop :
  MesaTime.remove (fun a : Z => a) 7 (MesaTime.new_scheduler Z) = Err (KeyError 7) /\
  MesaTime.remove (fun a : Z => a) 7 (MesaTime.new_scheduler Z)
    <> Ok (MesaTime.new_scheduler Z).
Proof.
  split; [reflexivity|discriminate].
Qed.

(** The two readings of [remove] agree: the result is the scheduler left
    behind when the call returns, and the exception when it raises. *)
Lemma remove_in_place_remove (Agent : Type) (unique_id : Agent -> Z)
    (agent : Agent) (s : MesaTime.BaseScheduler Agent) :
  MesaTime.remove unique_id agent s =
  match MesaTime.remove_in_place unique_id agent s with
  | (s', None) => Ok s'
  | (_, Some e) => Err e
  end.
Proof.
  unfold MesaTime.remove, MesaTime.remove_in_place.
  destruct (dict_mem (unique_id agent) (MesaTime._agents s)); reflexivity.
Qed.

(** [BaseScheduler.step] catches nothing: an exception raised by the method
    of the first agent of the schedule is the outcome of the step. *)
Lemma BaseScheduler_step_raises_at_first (Agent Fields : Type) {RS : RandomSource}
    (call : string -> Agent -> M (MesaTime.Model Agent Fields) unit)
    (m : MesaTime.Model Agent Fields) (key : Z) (a : Agent) (rest : dict Agent)
    (e : Exn) (g : rng) :
  MesaTime._agents (MesaTime.schedule m) = (key, a) :: rest ->
  call "step"%string a m = Raise e ->
  interp (MesaTime.BaseScheduler_step call m) g = Err e.
Proof.
  intros Hd Hc. unfold MesaTime.BaseScheduler_step.
  rewrite interp_bind.
  change (interp (MesaTime.agent_buffer false m) g)
    with (Ok ((dict_keys (MesaTime._agents (MesaTime.schedule m)), m), g)).
  cbv iota beta. rewrite Hd. cbn [dict_keys map fst].
  rewrite interp_bind. cbn [MesaTime.activation_pass].
  rewrite interp_bind.
  change (interp (gets (fun m0 => dict_get key (MesaTime._agents (MesaTime.schedule m0))) m) g)
    with (Ok ((dict_get key (MesaTime._agents (MesaTime.schedule m)), m), g)).
  cbv iota beta. rewrite Hd. cbn [dict_get]. rewrite Z.eqb_refl.
  rewrite interp_bind. rewrite Hc. reflexivity.
Qed.

(** C3, amended: [remove] called with an agent whose identity is not in the
    population raises [KeyError] for that identity, so it is not a no-op
    and removal is not total.  The failed call leaves the scheduler as it
    found it: the scheduler object after the call is the one before it.
    The scheduler does not catch the exception: a [BaseScheduler.step] in
    which the [step] method of the first scheduled agent makes such a call
    ends with that [KeyError], so the tick is not total either. *)
Theorem remove_absent_raises (Agent : Type) (unique_id : Agent -> Z)
    (agent : Agent) (s : MesaTime.BaseScheduler Agent) :
  ~ In (unique_id agent) (dict_keys (MesaTime._agents s)) ->
  MesaTime.remove unique_id agent s = Err (KeyError (unique_id agent)) /\
  MesaTime.remove_in_place unique_id agent s = (s, Some (KeyError (unique_id agent))) /\
  forall (Fields : Type) (RS : RandomSource)
         (call : string -> Agent -> M (MesaTime.Model Agent Fields) unit)
         (f : Fields) (key : Z) (a : Agent) (rest : dict Agent) (g : rng),
    MesaTime._agents s = (key, a) :: rest ->
    (forall m, call "step"%string a m = MesaTime.schedule_remove unique_id agent m) ->
    interp (MesaTime.BaseScheduler_step call (MesaTime.mkModel s f)) g
      = Err (KeyError (unique_id agent)).
Proof.
  intros H. pose proof (remove_absent unique_id agent s H) as E.
  split; [exact E|]. split.
  - unfold MesaTime.remove_in_place.
    destruct (dict_mem (unique_id agent) (MesaTime._agents s)) eqn:Em; [|reflexivity].
    apply dict_mem_keys in Em. contradiction.
  - intros Fields RS call f key a rest g Hd Hc.
    apply BaseScheduler_step_raises_at_first with (key := key) (a := a) (rest := rest).
    + exact Hd.
    + rewrite Hc. unfold MesaTime.schedule_remove, MesaTime.on_schedule. simpl.
      rewrite E. reflexivity.
Qed.

Lemma remove_absent_raises_witness :
  ~ In 2 (dict_keys (MesaTime._agents
            (MesaTime.mkScheduler 0 0 [(1, 1); (3, 3)]))) /\
  MesaTime.remove (fun a : Z => a) 2 (MesaTime.mkScheduler 0 0 [(1, 1); (3, 3)])
    = Err (KeyError 2) /\
  MesaTime.remove_in_place (fun a : Z => a) 2 (MesaTime.mkScheduler 0 0 [(1, 1); (3, 3)])
    = (MesaTime.mkScheduler 0 0 [(1, 1); (3, 3)], Some (KeyError 2)) /\
  interp (RS := TapeSource)
    (MesaTime.BaseScheduler_step
       (fun (_ : string) (_ : Z) => MesaTime.schedule_remove (Fields := unit) (fun a : Z => a) 2)
       (MesaTime.mkModel (MesaTime.mkScheduler 0 0 [(1, 1); (3, 3)]) tt))
    ([] : list Z)
    = Err (KeyError 2).
Proof.
  assert (H : ~ In 2 (dict_keys (MesaTime._agents
                        (MesaTime.mkScheduler 0 0 [(1, 1); (3, 3)])))).
  { simpl. intros [H|[H|[]]]; discriminate. }
  destruct (remove_absent_raises (fun a : Z => a) 2
              (MesaTime.mkScheduler 0 0 [(1, 1); (3, 3)]) H) as (E1 & E2 & E3).
  split; [exact H|]. split; [exact E1|]. split; [exact E2|].
  exact (E3 unit TapeSource
            (fun (_ : string) (_ : Z) => MesaTime.schedule_remove (Fields := unit) (fun a : Z => a) 2)
            tt 1 1 [(3, 3)] ([] : list Z) eq_refl (fun m => eq_refl)).
Defined.

(** A removal of an identity that is present deletes that identity and
    leaves every other entry, and the clock, as they were. *)
Lemma remove_present_spec (Agent : Type) (unique_id : Agent -> Z)
    (agent : Agent) (s : MesaTime.BaseScheduler Agent) :
  In (unique_id agent) (dict_keys (MesaTime._agents s)) ->
  exists s',
    MesaTime.remove unique_id agent s = Ok s' /\
    dict_get (unique_id agent) (MesaTime._agents s') = None /\
    (forall k, k <> unique_id agent ->
       dict_get k (MesaTime._agents s') = dict_get k (MesaTime._agents s)) /\
    MesaTime.steps s' = MesaTime.steps s /\ MesaTime.time s' = MesaTime.time s.
Proof.
  intros H. eexists. split; [apply remove_present; exact H|]. simpl.
  split; [|split; [|split; reflexivity]].
  - rewrite dict_get_del, Z.eqb_refl. reflexivity.
  - intros k Hk. rewrite dict_get_del.
    destruct (Z.eqb_spec k (unique_id agent)); [contradiction|reflexivity].
Qed.

(** ** The activation contract (C4) *)

(** C4, as stated, fails for the simultaneous policy: its second pass takes
    a buffer of its own, so an identity added during the first pass gets a
    turn in the tick although it was not present when the tick began. *)
Lemma simultaneous_schedules_newcomer :
  ~ schedules_tick_start_population (RS := TapeSource)
      (MesaTime.SimultaneousActivation_step spawner_call).
Proof.
  intros H.
  assert (E : interp (MesaTime.SimultaneousActivation_step spawner_call spawner_model)
                ([] : list Z)
              = Ok (([[Activated 0 "step"];
                      [Activated 0 "advance"; Activated 1 "advance"]],
                     MesaTime.mkModel (MesaTime.mkScheduler 1 1 [(0, 0); (1, 1)]) tt),
                    [])) by reflexivity.
  specialize (H _ _ _ _ _ E [Activated 0 "advance"; Activated 1 "advance"]).
  assert (Hin : In [Activated 0 "advance"; Activated 1 "advance"]
                  [[Activated 0 "step"];
                   [Activated 0 "advance"; Activated 1 "advance"]])
    by (right; left; reflexivity).
  apply H in Hin. apply Permutation_length in Hin. discriminate.
Qed.

(** C4, amended.  Under the sequential, random and staged policies every
    pass of a tick has its turns on exactly the identities present when the
    tick began (in insertion order, or a shuffle of it); under the
    simultaneous policy the first pass does, and the second pass has its
    turns on the identities present when that pass begins.  In every pass
    each scheduled identity has exactly one turn; a turn reached with the
    identity still present calls the agent's method once, a turn reached
    with the identity removed is skipped and leaves the state untouched, and
    in both cases the pass goes on with the identities scheduled after it. *)
Theorem scheduler_activation_contract (RS : RandomSource) (laws : RandomLaws RS)
    (Agent Fields : Type) (call : string -> Agent -> M (MesaTime.Model Agent Fields) unit) :
  schedules_tick_start_population (MesaTime.BaseScheduler_step call) /\
  schedules_tick_start_population (MesaTime.RandomActivation_step call) /\
  (forall stage_list shuffle shuffle_between_stages,
     schedules_tick_start_population
       (MesaTime.StagedActivation_step call stage_list shuffle shuffle_between_stages)) /\
  (forall m g passes m' g',
     interp (MesaTime.SimultaneousActivation_step call m) g = Ok ((passes, m'), g') ->
     exists evs1 m1 g1 evs2 m2,
       interp (MesaTime.activation_pass call "step" (population m) m) g
         = Ok ((evs1, m1), g1) /\
       interp (MesaTime.activation_pass call "advance" (population m1) m1) g1
         = Ok ((evs2, m2), g') /\
       passes = [evs1; evs2] /\ m' = MesaTime.tick_clock m2) /\
  (forall method agent_keys m g evs m' g',
     interp (MesaTime.activation_pass call method agent_keys m) g = Ok ((evs, m'), g') ->
     map event_key evs = agent_keys /\
     (NoDup agent_keys ->
      forall key, In key agent_keys ->
        length (filter (fun e => event_key e =? key) evs) = 1%nat)) /\
  (forall method pre key post m g evs m' g',
     interp (MesaTime.activation_pass call method (pre ++ key :: post) m) g
       = Ok ((evs, m'), g') ->
     exists evs1 m1 g1 e m2 g2 evs2,
       interp (MesaTime.activation_pass call method pre m) g = Ok ((evs1, m1), g1) /\
       turn_of call method key m1 g1 = Ok (e, m2, g2) /\
       interp (MesaTime.activation_pass call method post m2) g2 = Ok ((evs2, m'), g') /\
       evs = evs1 ++ e :: evs2).
Proof.
  split; [exact (@BaseScheduler_schedules_start RS laws Agent Fields call)|].
  split; [exact (@RandomActivation_schedules_start RS laws Agent Fields call)|].
  split; [intros; apply (@StagedActivation_schedules_start RS laws)|].
  split; [intros m g passes m' g'; apply (@SimultaneousActivation_step_spec RS laws)|].
  split.
  - intros method agent_keys m g evs m' g' H. split.
    + eapply activation_pass_keys; eauto.
    + intros Hnd. eapply activation_pass_once; eauto.
  - intros method pre key post. apply activation_pass_turn.
Qed.

(** The contract at work: agent 1 removes agent 2 before the turn of agent 2
    comes; agent 2 is skipped, agents 1 and 3 are activated. *)
Example removed_agent_is_skipped :
  interp (MesaTime.RandomActivation_step remover_call remover_model) ([2] : list Z)
  = Ok (([[Activated 3 "step"; Activated 1 "step"; Skipped 2]],
         MesaTime.mkModel (MesaTime.mkScheduler 1 1 [(1, 1); (3, 3)]) tt), []).
Proof. reflexivity. Qed.

Lemma scheduler_activation_contract_witness :
  RandomLaws TapeSource /\
  schedules_tick_start_population (RS := TapeSource)
    (MesaTime.RandomActivation_step remover_call).
Proof.
  split; [exact tape_laws|].
  exact (proj1 (proj2 (scheduler_activation_contract tape_laws remover_call))).
Defined.

(** ** The grid *)

Lemma agent_pos_remove k k' g :
  Grid.agent_pos k (Grid.remove_agent k' g) =
  if k =? k' then None else Grid.agent_pos k g.
Proof. unfold Grid.agent_pos, Grid.remove_agent. simpl. apply dict_get_del. Qed.

Lemma place_agent_ok k pos g :
  Grid.agent_pos k g = None ->
  exists g', Grid.place_agent k pos g = Ok g' /\
    Grid.width g' = Grid.width g /\ Grid.height g' = Grid.height g /\
    Grid.agent_pos k g' = Some (Grid.torus_adj g pos) /\
    (forall k', k' <> k -> Grid.agent_pos k' g' = Grid.agent_pos k' g).
Proof.
  intros H. unfold Grid.place_agent. rewrite H. eexists. split; [reflexivity|].
  unfold Grid.agent_pos in *. simpl. repeat split.
  - rewrite dict_get_add, H, Z.eqb_refl. reflexivity.
  - intros k' Hk. rewrite dict_get_add.
    destruct (dict_get k' (Grid.placements g)); [reflexivity|].
    destruct (Z.eqb_spec k k'); [congruence|reflexivity].
Qed.

Lemma move_agent_ok k pos g :
  exists g', Grid.move_agent k pos g = Ok g' /\
    Grid.width g' = Grid.width g /\ Grid.height g' = Grid.height g /\
    Grid.agent_pos k g' <> None /\
    (forall k', k' <> k -> Grid.agent_pos k' g' = Grid.agent_pos k' g).
Proof.
  unfold Grid.move_agent.
  destruct (@place_agent_ok k pos (Grid.remove_agent k g)) as (g' & H1 & H2 & H3 & H4 & H5).
  - rewrite agent_pos_remove, Z.eqb_refl. reflexivity.
  - exists g'. split; [exact H1|]. simpl in *. repeat split; auto.
    + congruence.
    + intros k' Hk. rewrite H5 by exact Hk. rewrite agent_pos_remove.
      destruct (Z.eqb_spec k' k); [contradiction|reflexivity].
Qed.

Lemma cell_contents_placed g pos k :
  In k (Grid.get_cell_list_contents g pos) -> Grid.agent_pos k g <> None.
Proof.
  unfold Grid.get_cell_list_contents, Grid.agent_pos. intros H.
  apply dict_get_In_keys. unfold dict_keys.
  apply in_map_iff in H. destruct H as (p & <- & Hp).
  apply filter_In in Hp. apply in_map. tauto.
Qed.

Lemma get_neighborhood_nonempty g pos : Grid.get_neighborhood g pos <> [].
Proof. unfold Grid.get_neighborhood. simpl. discriminate. Qed.

Lemma triple_pure {S A : Type} (P : S -> Prop) (phi : Prop) (c : M S A) (Q : A -> S -> Prop) :
  (phi -> triple P c Q) -> triple (fun s => P s /\ phi) c Q.
Proof. intros H s [Hs Hphi]. apply H; assumption. Qed.

Lemma random_choice_safe {S X : Type} (l : list X) (s : S) (Q : X * S -> Prop) :
  l <> [] -> (forall x, In x l -> Q (x, s)) -> safe Q (random_choice l s).
Proof.
  intros Hl H.
  assert (T : triple (fun s' => s' = s) (random_choice l) (fun x s' => Q (x, s'))).
  { apply triple_choice; auto. intros x s' Hx ->. auto. }
  eapply safe_mono; [|apply T; reflexivity]. intros [x s']. simpl. auto.
Qed.

Lemma state_eqb_eq a b : state_eqb a b = true <-> a = b.
Proof. destruct a, b; simpl; split; congruence. Qed.


(** ** Invariants through a pass *)

Section PassTriples.
Variables Agent Fields : Type.
Variable call : string -> Agent -> M (MesaTime.Model Agent Fields) unit.
Variable I : MesaTime.Model Agent Fields -> Prop.

(** If every call on an agent that is present keeps [I], a pass keeps [I]
    and completes. *)
Lemma activation_pass_triple method agent_keys :
  (forall key a,
     triple (fun m => I m /\ dict_get key (MesaTime._agents (MesaTime.schedule m)) = Some a)
            (call method a) (fun _ => I)) ->
  triple I (MesaTime.activation_pass call method agent_keys) (fun _ => I).
Proof.
  intros Hcall. induction agent_keys as [|key rest IH]; simpl.
  - apply triple_ret. auto.
  - eapply triple_bind with
      (R := fun present m =>
              I m /\ present = dict_get key (MesaTime._agents (MesaTime.schedule m))).
    { apply triple_gets. auto. }
    intros [a|].
    + eapply triple_bind with (R := fun _ => I).
      { eapply triple_conseq; [apply (Hcall key a)| |].
        - intros m [Hm E]. split; [exact Hm|congruence].
        - auto. }
      intros ?. eapply triple_bind; [exact IH|].
      intros evs. apply triple_ret. auto.
    + eapply triple_bind with (R := fun _ => I).
      { eapply triple_conseq; [exact IH| |].
        - intros m [Hm _]. exact Hm.
        - auto. }
      intros evs. apply triple_ret. auto.
Qed.

Lemma RandomActivation_step_triple :
  (forall key a,
     triple (fun m => I m /\ dict_get key (MesaTime._agents (MesaTime.schedule m)) = Some a)
            (call "step" a) (fun _ => I)) ->
  triple I (MesaTime.RandomActivation_step call)
         (fun _ m' => exists m1, I m1 /\ m' = MesaTime.tick_clock m1).
Proof.
  intros Hcall. unfold MesaTime.RandomActivation_step.
  eapply triple_bind with (R := fun _ => I).
  { unfold MesaTime.agent_buffer.
    eapply triple_bind with (R := fun _ => I); [apply triple_gets; auto|].
    intros agent_keys. apply triple_shuffle. auto. }
  intros agent_keys.
  eapply triple_bind; [apply activation_pass_triple; exact Hcall|].
  intros evs.
  eapply triple_bind with (R := fun _ m' => exists m1, I m1 /\ m' = MesaTime.tick_clock m1).
  { apply triple_modify. intros m Hm. eauto. }
  intros ?. apply triple_ret. auto.
Qed.

End PassTriples.


(** ** Ranges *)

Lemma range_of_nat (j : nat) : range (Z.of_nat j) = map Z.of_nat (seq 0 j).
Proof. unfold range. rewrite Nat2Z.id. reflexivity. Qed.

Lemma range_succ (j : nat) : range (Z.of_nat (S j)) = range (Z.of_nat j) ++ [Z.of_nat j].
Proof. rewrite !range_of_nat. rewrite seq_S, map_app. reflexivity. Qed.

Lemma range_fresh (j : nat) : ~ In (Z.of_nat j) (range (Z.of_nat j)).
Proof.
  rewrite range_of_nat. intros H. apply in_map_iff in H.
  destruct H as (x & Hx & Hin). apply Nat2Z.inj in Hx. subst x.
  apply in_seq in Hin. lia.
Qed.

Lemma range_to_nat (N : Z) : range (Z.of_nat (Z.to_nat N)) = range N.
Proof. unfold range. rewrite Nat2Z.id. reflexivity. Qed.

Lemma triple_for_range {S : Type} (I : nat -> S -> Prop) (body : Z -> M S unit) (len : nat) :
  forall start,
  (forall j, (start <= j < start + len)%nat ->
     triple (I j) (body (Z.of_nat j)) (fun _ => I (Datatypes.S j))) ->
  triple (I start) (for_each (map Z.of_nat (seq start len)) body)
         (fun _ => I (start + len)%nat).
Proof.
  induction len as [|len IH]; intros start Hb; simpl.
  - apply triple_ret. intros s Hs. rewrite Nat.add_0_r. exact Hs.
  - eapply triple_bind; [apply Hb; lia|].
    intros ?. eapply triple_conseq; [apply (IH (Datatypes.S start))| |].
    + intros j Hj. apply Hb. lia.
    + auto.
    + intros ? s Hs. simpl in Hs. rewrite Nat.add_succ_r. exact Hs.
Qed.


Opaque Grid.get_neighborhood.

(** ** The model with strategies: what one activation preserves *)

Section EstrategiasFacts.
Import VirusConEstrategias EstrategiasSpec EstrategiasTick.

Lemma est_Inv_step N fr R0 c c' (m m' : Model) k0 (F : InfectionAgent -> InfectionAgent) :
  Inv N fr R0 c m ->
  the_agents m' = dict_update k0 F (the_agents m) ->
  frame_of m' = frame_of m ->
  calls (MesaTime.fields m') = c' ->
  (forall k, k <> k0 ->
     Grid.agent_pos k (the_grid m') = Grid.agent_pos k (the_grid m)) ->
  (forall a, dict_get k0 (the_agents m) = Some a ->
     agent_ok k0 (Some (F a)) (Grid.agent_pos k0 (the_grid m')) /\
     (state a = Recovered -> state (F a) = Recovered)) ->
  (dict_get k0 (the_agents m) = None -> Grid.agent_pos k0 (the_grid m') = None) ->
  Inv N fr R0 c' m'.
Proof.
  intros [Hk Hf Hd Hc Ha Hr] Hag Hfr Hcalls Hpos Hnew Hnone.
  split.
  - unfold population in *. unfold the_agents in Hag. rewrite Hag.
    rewrite dict_keys_update. exact Hk.
  - congruence.
  - unfold frame_of in Hfr. inversion Hfr. lia.
  - exact Hcalls.
  - intros k. rewrite Hag, dict_get_update.
    destruct (Z.eqb_spec k k0) as [->|Hne].
    + destruct (dict_get k0 (the_agents m)) as [a|] eqn:E; simpl.
      * apply Hnew. reflexivity.
      * apply Hnone. reflexivity.
    + rewrite Hpos by exact Hne. apply Ha.
  - intros k Hin. destruct (Hr k Hin) as (a & Ha1 & Ha2).
    rewrite Hag, dict_get_update.
    destruct (Z.eqb_spec k k0) as [->|Hne].
    + rewrite Ha1. simpl. eexists. split; [reflexivity|].
      apply Hnew; assumption.
    + eauto.
Qed.


Lemma est_self_known N fr R0 c m self :
  Inv N fr R0 c m -> In self (range N) ->
  exists a, dict_get self (the_agents m) = Some a.
Proof.
  intros HI Hself.
  assert (Hin : dict_get self (the_agents m) <> None).
  { apply dict_get_In_keys. destruct HI as [Hk _ _ _ _ _].
    unfold population in Hk. unfold the_agents. rewrite Hk. exact Hself. }
  destruct (dict_get self (the_agents m)) as [a|]; [eauto|congruence].
Qed.

Lemma est_place_at_random_safe (m : Model) self (Q : unit * Model -> Prop) :
  0 < Grid.width (the_grid m) -> 0 < Grid.height (the_grid m) ->
  Grid.agent_pos self (the_grid m) = None ->
  (forall g', Grid.width g' = Grid.width (the_grid m) ->
              Grid.height g' = Grid.height (the_grid m) ->
              Grid.agent_pos self g' <> None ->
              (forall k, k <> self -> Grid.agent_pos k g' = Grid.agent_pos k (the_grid m)) ->
              Q (tt, set_grid g' m)) ->
  safe Q (place_at_random self m).
Proof.
  intros Hw Hh Hpos HQ.
  unfold place_at_random, bind, gets, random_randrange. simpl.
  destruct (Z.leb_spec (Grid.width (the_grid m)) 0); [lia|].
  unfold lift. simpl. constructor. intros x.
  destruct (Z.leb_spec (Grid.height (the_grid m)) 0); [lia|].
  simpl. constructor. intros y. unfold on_grid.
  destruct (@place_agent_ok self (x, y) (the_grid m) Hpos) as (g' & E & H1 & H2 & H3 & H4).
  rewrite E. simpl. constructor. apply HQ; auto. congruence.
Qed.



Ltac munfold :=
  unfold frame_of, population, update_agent, modify,
    set_grid, set_calls, set_running, set_datacollector in *;
  unfold the_agents, the_grid, now,
    MesaTime.set_schedule, MesaTime.set_agents, MesaTime.set_fields in *;
  simpl in *.

Lemma est_log_call_triple N fr R0 c b k self method :
  triple (fun m => Inv N fr R0 c m /\ placed_if b k m) (log_call self method)
         (fun _ m => Inv N fr R0 (c ++ [(self, method)]) m /\ placed_if b k m).
Proof.
  apply triple_modify. intros m [HI Hp]. pose proof HI as [Hk Hf Hd Hc Ha Hr].
  split; [|exact Hp].
  eapply est_Inv_step with (k0 := self) (F := fun a => a); eauto.
  - simpl. rewrite dict_update_id. reflexivity.
  - simpl. rewrite Hc. reflexivity.
  - intros a0 Ha0. split; [|auto]. specialize (Ha self). rewrite Ha0 in Ha. exact Ha.
  - intros Hn. specialize (Ha self). rewrite Hn in Ha. exact Ha.
Qed.

Lemma est_update_status_triple N fr R0 c b self :
  In self (range N) ->
  triple (fun m => Inv N fr R0 c m /\ placed_if b self m) (update_status self)
         (fun _ m => Inv N fr R0 (c ++ [(self, UpdateStatus)]) m /\ placed_if b self m).
Proof.
  intros Hself. unfold update_status.
  eapply triple_bind; [apply est_log_call_triple|].
  intros _ m [HI Hpl]. generalize dependent (c ++ [(self, UpdateStatus)]). clear c. intros c HI.
  destruct (est_self_known self HI Hself) as [a Ea].
  pose proof HI as [Hk Hf Hd Hc Ha Hr]. pose proof (Ha self) as Hok.
  rewrite Ea in Hok. simpl in Hok. destruct Hok as (Hid & Hq & Hqi).
  unfold bind, get_agent. rewrite Ea. simpl.
  destruct (state_eqb (state a) Infected) eqn:Es; [|constructor; split; assumption].
  unfold gets. simpl.
  destruct (recovery_time (MesaTime.fields m) <=? now m - infection_time a);
    [|constructor; split; assumption].
  unfold update_agent, modify. simpl.
  destruct (is_quarantined a) eqn:Eq.
  - simpl. apply est_place_at_random_safe.
    + apply Hd.
    + apply Hd.
    + apply Hq. reflexivity.
    + intros g' Hw Hh Hp Hother. split; [|intros _; exact Hp].
      eapply est_Inv_step with (k0 := self)
        (F := fun a => set_is_quarantined false (set_state Recovered a)); eauto.
      * munfold. rewrite dict_update_update. reflexivity.
      * munfold. rewrite Hw, Hh. reflexivity.
      * intros a0 Ha0. rewrite Ea in Ha0. inversion Ha0; subst a0. simpl.
        repeat split; auto; try congruence.
      * congruence.
  - constructor. simpl. split; [|exact Hpl].
    eapply est_Inv_step with (k0 := self) (F := set_state Recovered); eauto.
    + intros a0 Ha0. rewrite Ea in Ha0. inversion Ha0; subst a0. simpl.
      rewrite Eq. repeat split; auto; try congruence.
      intros H. apply Hq in H. congruence.
    + congruence.
Qed.

Lemma est_move_triple N fr R0 c self :
  In self (range N) ->
  triple (fun m => Inv N fr R0 c m /\ placed_if true self m) (move self)
         (fun _ m => Inv N fr R0 (c ++ [(self, Move)]) m /\ placed_if true self m).
Proof.
  intros Hself. unfold move.
  eapply triple_bind; [apply est_log_call_triple|].
  intros _ m [HI Hpl]. generalize dependent (c ++ [(self, Move)]). clear c. intros c HI.
  destruct (est_self_known self HI Hself) as [a Ea].
  pose proof HI as [Hk Hf Hd Hc Ha Hr]. pose proof (Ha self) as Hok.
  rewrite Ea in Hok. simpl in Hok. destruct Hok as (Hid & Hq & Hqi).
  specialize (Hpl eq_refl).
  unfold bind, random_random, lift. simpl. constructor. intros r.
  unfold gets. simpl.
  destruct (Qlt_bool (social_distancing_rate (MesaTime.fields m)) r);
    [|constructor; split; [assumption|intros _; assumption]].
  unfold self_pos.
  destruct (Grid.agent_pos self (the_grid m)) as [pos|] eqn:Epos; [|congruence].
  simpl.
  apply safe_pbind. apply random_choice_safe; [apply get_neighborhood_nonempty|].
  intros new_position _. simpl. unfold on_grid.
  destruct (move_agent_ok self new_position (the_grid m)) as (g' & E & Hw & Hh & Hp & Hother).
  rewrite E. constructor. simpl. split; [|intros _; exact Hp].
  eapply est_Inv_step with (k0 := self) (F := fun a => a); eauto.
  - munfold. rewrite dict_update_id. reflexivity.
  - munfold. rewrite Hw, Hh. reflexivity.
  - intros a0 Ha0. rewrite Ea in Ha0. inversion Ha0; subst a0. simpl.
    split; [|auto]. repeat split; auto; intros H.
    all: try (apply Hq in H; congruence).
    all: try (munfold; congruence).
  - congruence.
Qed.

Lemma est_infect_other_triple N fr R0 c other :
  In other (range N) ->
  triple (Inv N fr R0 c) (infect_other other) (fun _ => Inv N fr R0 c).
Proof.
  intros Hother m HI.
  destruct (est_self_known other HI Hother) as [o Eo].
  pose proof HI as [Hk Hf Hd Hc Ha Hr]. pose proof (Ha other) as Hok.
  rewrite Eo in Hok. simpl in Hok. destruct Hok as (Hid & Hq & Hqi).
  unfold infect_other, bind, get_agent. rewrite Eo. simpl.
  destruct (state_eqb (state o) Susceptible) eqn:Es; [|constructor; exact HI].
  apply state_eqb_eq in Es.
  unfold random_random, lift. simpl. constructor. intros r.
  unfold gets. simpl.
  destruct (Qlt_bool r (infection_rate (MesaTime.fields m))); [|constructor; exact HI].
  unfold update_agent, modify. simpl.
  destruct (quarantine_enabled (MesaTime.fields m)); simpl; constructor; simpl.
  - eapply est_Inv_step with (k0 := other)
      (F := fun a => set_is_quarantined true
                       (set_infection_time (now m) (set_state Infected a))); eauto.
    + munfold. rewrite !dict_update_update. reflexivity.
    + intros k Hne. munfold. rewrite agent_pos_remove.
      destruct (Z.eqb_spec k other); [contradiction|reflexivity].
    + intros a0 Ha0. rewrite Eo in Ha0. inversion Ha0; subst a0. munfold.
      rewrite agent_pos_remove, Z.eqb_refl.
      repeat split; auto; congruence.
    + intros _. munfold. rewrite agent_pos_remove, Z.eqb_refl. reflexivity.
  - eapply est_Inv_step with (k0 := other)
      (F := fun a => set_infection_time (now m) (set_state Infected a)); eauto.
    + munfold. rewrite !dict_update_update. reflexivity.
    + intros a0 Ha0. rewrite Eo in Ha0. inversion Ha0; subst a0. munfold.
      repeat split; auto; try congruence; tauto.
    + congruence.
Qed.

Lemma est_infect_triple N fr R0 c self :
  In self (range N) ->
  triple (fun m => Inv N fr R0 c m /\ placed_if true self m) (infect self)
         (fun _ m => Inv N fr R0 (c ++ [(self, Infect)]) m).
Proof.
  intros Hself. unfold infect.
  eapply triple_bind; [apply est_log_call_triple|].
  intros _ m [HI Hpl]. generalize dependent (c ++ [(self, Infect)]). clear c. intros c HI.
  destruct (est_self_known self HI Hself) as [a Ea].
  pose proof HI as [Hk Hf Hd Hc Ha Hr].
  specialize (Hpl eq_refl).
  unfold bind, get_agent. rewrite Ea. simpl.
  destruct (state_eqb (state a) Infected); [|constructor; exact HI].
  unfold self_pos.
  destruct (Grid.agent_pos self (the_grid m)) as [pos|] eqn:Epos; [|congruence].
  simpl. unfold gets. simpl.
  apply triple_for_each; [|exact HI].
  intros other Hin. apply est_infect_other_triple.
  apply cell_contents_placed in Hin.
  specialize (Ha other).
  destruct (dict_get other (the_agents m)) as [o|] eqn:Eo; [|simpl in Ha; congruence].
  assert (Hx : dict_get other (the_agents m) <> None) by congruence.
  apply dict_get_In_keys in Hx. unfold population in Hk. unfold the_agents in Hx.
  rewrite Hk in Hx. exact Hx.
Qed.


Lemma est_agent_step_triple N fr R0 c self a :
  In self (range N) ->
  triple (fun m => Inv N fr R0 c m /\ dict_get self (the_agents m) = Some a)
         (agent_step self)
         (fun _ m => Inv N fr R0 (c ++ step_calls self (is_quarantined a)) m).
Proof.
  intros Hself. unfold agent_step.
  eapply triple_bind with
    (R := fun a' m => (Inv N fr R0 c m /\ dict_get self (the_agents m) = Some a) /\ a' = a).
  { intros m [HI Ea]. unfold get_agent. rewrite Ea. constructor. simpl. auto. }
  intros a'. apply triple_pure. intros ->. unfold step_calls.
  destruct (is_quarantined a) eqn:Eq.
  - eapply triple_conseq; [apply (@est_update_status_triple N fr R0 c false self Hself)| |].
    + intros m [HI Ea]. split; [exact HI|]. intros H. discriminate.
    + intros ? m [HI _]. exact HI.
  - eapply triple_bind with
      (R := fun _ m => Inv N fr R0 (c ++ [(self, UpdateStatus)]) m /\ placed_if true self m).
    { eapply triple_conseq; [apply (@est_update_status_triple N fr R0 c true self Hself)| |].
      - intros m [HI Ea]. split; [exact HI|]. intros _ Hn.
        pose proof HI as [Hk Hf Hd Hc Ha Hr]. specialize (Ha self).
        rewrite Ea in Ha. simpl in Ha. destruct Ha as (_ & Hq & _).
        apply Hq in Hn. congruence.
      - auto. }
    intros ?. eapply triple_bind; [apply est_move_triple; exact Hself|].
    intros ?. eapply triple_conseq; [apply est_infect_triple; exact Hself| |].
    + intros m H. exact H.
    + intros ? m HI. simpl in HI. rewrite <- !app_assoc in HI. exact HI.
Qed.

Lemma est_call_triple N fr R0 method key a :
  method = "step"%string ->
  triple (fun m => (exists c, Inv N fr R0 c m) /\
                   dict_get key (MesaTime._agents (MesaTime.schedule m)) = Some a)
         (call method a)
         (fun _ m => exists c, Inv N fr R0 c m).
Proof.
  intros -> m [[c HI] Ea]. unfold call. simpl.
  pose proof HI as [Hk Hf Hd Hc Ha Hr].
  pose proof (Ha key) as Hok. unfold the_agents in Hok. rewrite Ea in Hok.
  destruct Hok as (Hid & _). rewrite Hid.
  assert (Hkey : In key (range N)).
  { rewrite <- Hk. unfold population. apply dict_get_In_keys. congruence. }
  eapply safe_mono; [|apply (@est_agent_step_triple N fr R0 c key a Hkey m); auto].
  intros [u m']. simpl. eauto.
Qed.

Lemma est_Inv_reframe N fr R0 c (m m' : Model) :
  Inv N fr R0 c m ->
  the_agents m' = the_agents m ->
  the_grid m' = the_grid m ->
  calls (MesaTime.fields m') = calls (MesaTime.fields m) ->
  Inv N (frame_of m') R0 c m'.
Proof.
  intros [Hk Hf Hd Hc Ha Hr] Hag Hg Hcalls. split.
  - unfold population in *. unfold the_agents in Hag. rewrite Hag. exact Hk.
  - reflexivity.
  - rewrite Hg. exact Hd.
  - congruence.
  - intros k. rewrite Hag, Hg. apply Ha.
  - intros k Hin. rewrite Hag. auto.
Qed.

Lemma est_step_triple N R0 c (m0 : Model) :
  triple (fun m => m = m0 /\ Inv N (frame_of m0) R0 c m0) step
         (fun _ m' => (exists c', Inv N (frame_of m') R0 c' m') /\ tick_post m0 m').
Proof.
  unfold step.
  eapply triple_bind with
    (R := fun _ m' => exists m1 c1, Inv N (frame_of m0) R0 c1 m1 /\ m' = MesaTime.tick_clock m1).
  { eapply triple_conseq;
      [apply (@RandomActivation_step_triple _ _ call
                (fun m => exists c1, Inv N (frame_of m0) R0 c1 m))| |].
    - intros key a. apply est_call_triple. reflexivity.
    - intros m [-> HI]. eauto.
    - intros ? m (m1 & (c1 & HI) & ->). eauto. }
  intros ? m (m1 & c1 & HI & ->).
  pose proof HI as [Hk Hf Hd Hc Ha Hr].
  assert (Hfr := Hf). unfold frame_of in Hfr.
  injection Hfr as Hsteps Htime Hnum Hrun Hir Hrt Hsdr Hqe Hdc Hw Hh.
  unfold bind, collect, modify, gets. simpl.
  match goal with |- context [if ?b then _ else _] => destruct b eqn:Einf end.
  - constructor. simpl. split.
    + exists c1. eapply est_Inv_reframe; [exact HI|reflexivity..].
    + split.
      * munfold. lia.
      * munfold. lia.
      * unfold snapshot_of, report, MesaTime.agents. munfold. rewrite Hdc. reflexivity.
      * unfold report, MesaTime.agents in *. munfold. rewrite Einf.
        rewrite andb_false_r. reflexivity.
      * unfold params_of. munfold. congruence.
  - constructor. simpl. split.
    + exists c1. eapply est_Inv_reframe; [exact HI|reflexivity..].
    + split.
      * munfold. lia.
      * munfold. lia.
      * unfold snapshot_of, report, MesaTime.agents. munfold. rewrite Hdc. reflexivity.
      * unfold report, MesaTime.agents in *. munfold. rewrite Einf.
        rewrite andb_true_r. congruence.
      * unfold params_of. munfold. congruence.
Qed.

Lemma est_count_total (l : list InfectionAgent) :
  count_state Susceptible l + count_state Infected l + count_state Recovered l
  = Z.of_nat (length l).
Proof.
  induction l as [|a l IH]; [reflexivity|].
  cbn [count_state length]. destruct (state a); simpl state_eqb; cbv iota; lia.
Qed.

Lemma est_snapshot_total N fr R0 c (m : Model) :
  Inv N fr R0 c m ->
  report Susceptible m + report Infected m + report Recovered m
  = Z.of_nat (length (range N)).
Proof.
  intros [Hk _ _ _ _ _]. unfold report. rewrite est_count_total.
  unfold MesaTime.agents, dict_values. rewrite length_map.
  rewrite <- Hk. unfold population, dict_keys. rewrite length_map. reflexivity.
Qed.

Lemma est_steps_n_triple N R0 n :
  forall c (m0 : Model),
  triple (fun m => m = m0 /\ Inv N (frame_of m0) R0 c m0) (steps_n n)
         (fun _ m' => (exists c', Inv N (frame_of m') R0 c' m') /\ run_post N n m0 m').
Proof.
  induction n as [|n IH]; intros c m0.
  - simpl. apply triple_ret. intros m [-> HI]. split; [eauto|].
    split; try reflexivity; auto.
    + lia.
    + exists []. rewrite app_nil_r. auto.
  - cbn [steps_n].
    eapply triple_bind; [apply est_step_triple|].
    intros ? m1 [[c1 HI1] Ht].
    eapply safe_mono; [|apply (IH c1 m1 m1); auto].
    intros [u m'] [HI' Hr]. simpl in *. split; [exact HI'|].
    destruct Ht as [Ht1 Ht2 Ht3 Ht4 Ht5]. destruct Hr as [Hr1 Hr2 Hr3 (rows & Hr4 & Hr5 & Hr6)].
    split.
    + lia.
    + congruence.
    + intros Hf. apply Hr3. rewrite Ht4, Hf. reflexivity.
    + exists (snapshot_of m1 :: rows). split; [|split].
      * rewrite Hr4, Ht3, <- app_assoc. reflexivity.
      * simpl. congruence.
      * constructor; [|exact Hr6]. simpl. eapply est_snapshot_total; eauto.
Qed.


Lemma est_Inv_add (j : nat) fr R0 c (m m' : Model) (agent : InfectionAgent) :
  Inv (Z.of_nat j) fr R0 c m ->
  unique_id agent = Z.of_nat j ->
  is_quarantined agent = false ->
  the_agents m' = dict_add (Z.of_nat j) agent (the_agents m) ->
  frame_of m' = frame_of m ->
  calls (MesaTime.fields m') = calls (MesaTime.fields m) ->
  (forall k, k <> Z.of_nat j ->
     Grid.agent_pos k (the_grid m') = Grid.agent_pos k (the_grid m)) ->
  Grid.agent_pos (Z.of_nat j) (the_grid m') <> None ->
  Inv (Z.of_nat (S j)) fr R0 c m'.
Proof.
  intros [Hk Hf Hd Hc Ha Hr] Hid Hq Hag Hfr Hcalls Hpos Hplaced.
  assert (Hfresh : dict_get (Z.of_nat j) (the_agents m) = None).
  { apply dict_get_None_keys. unfold population in Hk. unfold the_agents.
    rewrite Hk. apply range_fresh. }
  split.
  - unfold population in *. unfold the_agents in Hag. rewrite Hag, dict_keys_add, Hk.
    symmetry. apply range_succ.
  - congruence.
  - unfold frame_of in Hfr. inversion Hfr. lia.
  - congruence.
  - intros k. rewrite Hag, dict_get_add.
    destruct (Z.eqb_spec (Z.of_nat j) k) as [<-|Hne].
    + rewrite Hfresh. simpl. split; [exact Hid|]. rewrite Hq. split; [|discriminate].
      split; [discriminate|]. intros H. contradiction.
    + rewrite Hpos by congruence. specialize (Ha k).
      destruct (dict_get k (the_agents m)); exact Ha.
  - intros k Hin. destruct (Hr k Hin) as (a & Ha1 & Ha2).
    rewrite Hag, dict_get_add, Ha1. eauto.
Qed.

Lemma est_create_agent_triple (cfg : Config) (j : nat) fr :
  triple (Inv (Z.of_nat j) fr [] []) (create_agent cfg (Z.of_nat j))
         (fun _ => Inv (Z.of_nat (S j)) fr [] []).
Proof.
  intros m HI. pose proof HI as [Hk Hf Hd Hc Ha Hr].
  assert (Hfresh : dict_get (Z.of_nat j) (the_agents m) = None).
  { apply dict_get_None_keys. unfold population in Hk. unfold the_agents.
    rewrite Hk. apply range_fresh. }
  assert (Hmem : forall a, unique_id a = Z.of_nat j ->
            dict_mem (unique_id a) (MesaTime._agents (MesaTime.schedule m)) = false).
  { intros a ->. unfold dict_mem. unfold the_agents in Hfresh. rewrite Hfresh. reflexivity. }
  assert (Hunplaced : Grid.agent_pos (Z.of_nat j) (the_grid m) = None).
  { specialize (Ha (Z.of_nat j)). rewrite Hfresh in Ha. exact Ha. }
  unfold create_agent, bind at 1, random_random, lift. simpl. constructor. intros r.
  set (agent := if Qlt_bool r (cfg_initial_vaccinated_rate cfg)
                then set_state Recovered (new_agent (Z.of_nat j))
                else new_agent (Z.of_nat j)).
  assert (Hid : unique_id agent = Z.of_nat j) by (unfold agent; destruct (Qlt_bool _ _); reflexivity).
  assert (Hq : is_quarantined agent = false) by (unfold agent; destruct (Qlt_bool _ _); reflexivity).
  unfold bind at 1, MesaTime.schedule_add, MesaTime.on_schedule, MesaTime.add.
  rewrite (Hmem agent Hid). simpl. rewrite Hid.
  unfold bind at 1. apply safe_pbind. apply est_place_at_random_safe; try apply Hd; [exact Hunplaced|].
  intros g' Hw Hh Hp Hother. simpl.
  set (m1 := set_grid g' _).
  assert (HI1 : Inv (Z.of_nat (S j)) fr [] [] m1).
  { eapply est_Inv_add with (agent := agent); eauto.
    - unfold m1. munfold. rewrite Hw, Hh. reflexivity. }
  assert (E1 : dict_get (Z.of_nat j) (the_agents m1) = Some agent).
  { unfold m1. munfold. rewrite dict_get_add, Hfresh, Z.eqb_refl. reflexivity. }
  clearbody m1. unfold bind, get_agent. rewrite E1. simpl.
  destruct (state_eqb (state agent) Susceptible && (Z.of_nat j <? infection_window cfg))
    eqn:Eb; [|constructor; exact HI1].
  apply andb_prop in Eb. destruct Eb as [Es _]. apply state_eqb_eq in Es.
  unfold update_agent, modify, gets. simpl. constructor. simpl.
  eapply est_Inv_step with (k0 := Z.of_nat j)
    (F := fun a => set_infection_time (now m1) (set_state Infected a)); eauto.
  - munfold. rewrite dict_update_update. reflexivity.
  - destruct HI1 as [_ _ _ Hc1 _ _]. exact Hc1.
  - intros a0 Ha0. rewrite E1 in Ha0. inversion Ha0; subst a0.
    destruct HI1 as [_ _ _ _ Ha1 _]. specialize (Ha1 (Z.of_nat j)). rewrite E1 in Ha1.
    simpl in Ha1. destruct Ha1 as (H1 & H2 & H3). munfold.
    split; [|congruence]. repeat split; auto; try congruence; tauto.
  - congruence.
Qed.

Lemma est_empty_model_Inv (cfg : Config) :
  0 < cfg_width cfg -> 0 < cfg_height cfg ->
  Inv 0 (frame_of (empty_model cfg)) [] [] (empty_model cfg).
Proof.
  intros Hw Hh. split; try reflexivity.
  - simpl. auto.
  - intros k Hin. destruct Hin.
Qed.

Lemma est_Inv_range N N' fr R0 c (m : Model) :
  range N = range N' -> Inv N fr R0 c m -> Inv N' fr R0 c m.
Proof.
  intros E [Hk Hf Hd Hc Ha Hr]. split; auto. congruence.
Qed.

Lemma est_InfectionModel_safe (cfg : Config) :
  0 < cfg_width cfg -> 0 < cfg_height cfg ->
  safe (fun m => Inv (cfg_N cfg) (frame_of (empty_model cfg)) [] [] m)
       (InfectionModel cfg).
Proof.
  intros Hw Hh. unfold InfectionModel. apply safe_pbind.
  pose proof (@triple_for_range Model
                (fun j => Inv (Z.of_nat j) (frame_of (empty_model cfg)) [] [])
                (create_agent cfg) (Z.to_nat (cfg_N cfg)) 0%nat) as T.
  eapply safe_mono; [|apply T].
  - intros [u m] HI. simpl in *. constructor.
    eapply est_Inv_range; [|exact HI]. apply range_to_nat.
  - intros j _. apply est_create_agent_triple.
  - apply est_empty_model_Inv; assumption.
Qed.


Lemma est_Inv_R0 N fr R0 R0' c (m : Model) :
  Inv N fr R0 c m ->
  (forall k, In k R0' -> exists a, dict_get k (the_agents m) = Some a /\ state a = Recovered) ->
  Inv N fr R0' c m.
Proof. intros [Hk Hf Hd Hc Ha Hr] H. split; auto. Qed.

Lemma est_Inv_frame N fr R0 c (m : Model) : Inv N fr R0 c m -> fr = frame_of m.
Proof. intros [Hk Hf Hd Hc Ha Hr]. congruence. Qed.

Context {RS : RandomSource}.
Variable laws : RandomLaws RS.

Lemma est_interp_steps_n_add n k (m : Model) g :
  interp (steps_n (n + k) m) g =
  match interp (steps_n n m) g with
  | Ok ((_, m1), g1) => interp (steps_n k m1) g1
  | Err e => Err e
  end.
Proof.
  revert m g. induction n as [|n IH]; intros m g.
  - reflexivity.
  - cbn [Nat.add steps_n]. rewrite !interp_bind.
    destruct (interp (step m) g) as [[[u m1] g1]|e]; [|reflexivity].
    apply IH.
Qed.

Lemma est_interp_simulate cfg n g :
  interp (simulate cfg n) g =
  match interp (InfectionModel cfg) g with
  | Ok (m0, g0) =>
      match interp (steps_n n m0) g0 with
      | Ok ((_, m), g') => Ok (m, g')
      | Err e => Err e
      end
  | Err e => Err e
  end.
Proof.
  unfold simulate. rewrite interp_pbind.
  destruct (interp (InfectionModel cfg) g) as [[m0 g0]|e]; [|reflexivity].
  rewrite interp_pbind.
  destruct (interp (steps_n n m0) g0) as [[[u m] g']|e]; reflexivity.
Qed.

(** Continuing a run: from a state in the invariant, [k] ticks complete
    and keep the invariant. *)
Lemma est_continue N R0 c (m : Model) k g :
  Inv N (frame_of m) R0 c m ->
  exists m' g',
    interp (steps_n k m) g = Ok ((tt, m'), g') /\
    (exists c', Inv N (frame_of m') R0 c' m') /\ run_post N k m m'.
Proof.
  intros HI.
  destruct (safe_interp laws (@est_steps_n_triple N R0 k c m m (conj eq_refl HI)) g)
    as ([[] m'] & g' & E & H1 & H2).
  simpl in *. eauto.
Qed.

(** A run of [n] ticks completes; the state it reaches is in the
    invariant. *)
Lemma est_run (cfg : Config) n g :
  0 < cfg_width cfg -> 0 < cfg_height cfg ->
  exists m0 g0 m g',
    interp (InfectionModel cfg) g = Ok (m0, g0) /\
    interp (steps_n n m0) g0 = Ok ((tt, m), g') /\
    interp (simulate cfg n) g = Ok (m, g') /\
    Inv (cfg_N cfg) (frame_of (empty_model cfg)) [] [] m0 /\
    (exists c, Inv (cfg_N cfg) (frame_of m) [] c m) /\
    run_post (cfg_N cfg) n m0 m.
Proof.
  intros Hw Hh.
  destruct (safe_interp laws (est_InfectionModel_safe cfg Hw Hh) g) as (m0 & g0 & E0 & HI0).
  assert (HI0' := HI0). rewrite (est_Inv_frame HI0) in HI0'.
  destruct (est_continue n g0 HI0') as (m & g' & E & HI & Hr).
  exists m0, g0, m, g'. rewrite est_interp_simulate, E0, E.
  split; [reflexivity|]. split; [reflexivity|]. split; [reflexivity|].
  split; [exact HI0|]. split; assumption.
Qed.


End EstrategiasFacts.

(** ** The base model: what one activation preserves *)

Section ComportamientoFacts.
Import ComportamientoVirus ComportamientoSpec.

Ltac cunfold :=
  unfold frame_of, population, update_agent, modify,
    set_grid, set_calls, set_running, set_datacollector in *;
  unfold the_agents, the_grid, now,
    MesaTime.set_schedule, MesaTime.set_agents, MesaTime.set_fields in *;
  simpl in *.

Lemma cv_Inv_step N fr R0 c c' (m m' : Model) k0 (F : InfectionAgent -> InfectionAgent) :
  Inv N fr R0 c m ->
  the_agents m' = dict_update k0 F (the_agents m) ->
  frame_of m' = frame_of m ->
  calls (MesaTime.fields m') = c' ->
  (forall k, k <> k0 ->
     Grid.agent_pos k (the_grid m') = Grid.agent_pos k (the_grid m)) ->
  (forall a, dict_get k0 (the_agents m) = Some a ->
     agent_ok k0 (Some (F a)) (Grid.agent_pos k0 (the_grid m')) /\
     (state a = Recovered -> state (F a) = Recovered)) ->
  (dict_get k0 (the_agents m) = None -> Grid.agent_pos k0 (the_grid m') = None) ->
  Inv N fr R0 c' m'.
Proof.
  intros [Hk Hf Hd Hc Ha Hr] Hag Hfr Hcalls Hpos Hnew Hnone.
  split.
  - unfold population in *. unfold the_agents in Hag. rewrite Hag.
    rewrite dict_keys_update. exact Hk.
  - congruence.
  - unfold frame_of in Hfr. inversion Hfr. lia.
  - exact Hcalls.
  - intros k. rewrite Hag, dict_get_update.
    destruct (Z.eqb_spec k k0) as [->|Hne].
    + destruct (dict_get k0 (the_agents m)) as [a|] eqn:E; simpl.
      * apply Hnew. reflexivity.
      * apply Hnone. reflexivity.
    + rewrite Hpos by exact Hne. apply Ha.
  - intros k Hin. destruct (Hr k Hin) as (a & Ha1 & Ha2).
    rewrite Hag, dict_get_update.
    destruct (Z.eqb_spec k k0) as [->|Hne].
    + rewrite Ha1. simpl. eexists. split; [reflexivity|].
      apply Hnew; assumption.
    + eauto.
Qed.

Lemma cv_self_known N fr R0 c m self :
  Inv N fr R0 c m -> In self (range N) ->
  exists a, dict_get self (the_agents m) = Some a /\ unique_id a = self /\
            Grid.agent_pos self (the_grid m) <> None.
Proof.
  intros HI Hself.
  assert (Hin : dict_get self (the_agents m) <> None).
  { apply dict_get_In_keys. destruct HI as [Hk _ _ _ _ _].
    unfold population in Hk. unfold the_agents. rewrite Hk. exact Hself. }
  destruct HI as [_ _ _ _ Ha _]. specialize (Ha self).
  destruct (dict_get self (the_agents m)) as [a|]; [|congruence].
  destruct Ha. eauto.
Qed.

Lemma cv_Inv_same N fr R0 c c' (m m' : Model) :
  Inv N fr R0 c m ->
  the_agents m' = the_agents m ->
  frame_of m' = frame_of m ->
  calls (MesaTime.fields m') = c' ->
  (forall k, (Grid.agent_pos k (the_grid m') = None <->
              Grid.agent_pos k (the_grid m) = None)) ->
  Inv N fr R0 c' m'.
Proof.
  intros [Hk Hf Hd Hc Ha Hr] Hag Hfr Hcalls Hpos. split.
  - unfold population in *. unfold the_agents in Hag. rewrite Hag. exact Hk.
  - congruence.
  - unfold frame_of in Hfr. inversion Hfr. lia.
  - exact Hcalls.
  - intros k. rewrite Hag. specialize (Ha k). specialize (Hpos k).
    destruct (dict_get k (the_agents m)); simpl in *.
    + destruct Ha as [H1 H2]. split; [exact H1|]. tauto.
    + tauto.
  - intros k Hin. rewrite Hag. auto.
Qed.

Lemma cv_log_call_triple N fr R0 c self method :
  triple (Inv N fr R0 c) (log_call self method)
         (fun _ => Inv N fr R0 (c ++ [(self, method)])).
Proof.
  apply triple_modify. intros m HI. pose proof HI as [Hk Hf Hd Hc Ha Hr].
  eapply cv_Inv_same; eauto.
  - simpl. rewrite Hc. reflexivity.
  - intros k. reflexivity.
Qed.

Lemma cv_update_status_triple N fr R0 c self :
  In self (range N) ->
  triple (Inv N fr R0 c) (update_status self)
         (fun _ => Inv N fr R0 (c ++ [(self, UpdateStatus)])).
Proof.
  intros Hself. unfold update_status.
  eapply triple_bind; [apply cv_log_call_triple|].
  intros [] m HI. generalize dependent (c ++ [(self, UpdateStatus)]). clear c. intros c HI.
  destruct (cv_self_known self HI Hself) as (a & Ea & Hid & Hpl).
  pose proof HI as [Hk Hf Hd Hc Ha Hr].
  unfold bind, get_agent. rewrite Ea. simpl.
  destruct (state_eqb (state a) Infected) eqn:Es; [|constructor; exact HI].
  unfold gets. simpl.
  destruct (recovery_time (MesaTime.fields m) <=? now m - infection_time a);
    [|constructor; exact HI].
  unfold update_agent, modify. constructor. simpl.
  eapply cv_Inv_step with (k0 := self) (F := set_state Recovered); eauto.
  - intros a0 Ha0. rewrite Ea in Ha0. inversion Ha0; subst a0. simpl. auto.
  - congruence.
Qed.

Lemma cv_move_triple N fr R0 c self :
  In self (range N) ->
  triple (Inv N fr R0 c) (move self)
         (fun _ => Inv N fr R0 (c ++ [(self, Move)])).
Proof.
  intros Hself. unfold move.
  eapply triple_bind; [apply cv_log_call_triple|].
  intros [] m HI. generalize dependent (c ++ [(self, Move)]). clear c. intros c HI.
  destruct (cv_self_known self HI Hself) as (a & Ea & Hid & Hpl).
  pose proof HI as [Hk Hf Hd Hc Ha Hr].
  unfold bind, self_pos.
  destruct (Grid.agent_pos self (the_grid m)) as [pos|] eqn:Epos; [|congruence].
  simpl. unfold gets. simpl.
  apply safe_pbind. apply random_choice_safe; [apply get_neighborhood_nonempty|].
  intros new_position _. simpl. unfold on_grid.
  destruct (move_agent_ok self new_position (the_grid m)) as (g' & E & Hw & Hh & Hp & Hother).
  rewrite E. constructor. simpl.
  eapply cv_Inv_same; eauto.
  - cunfold. rewrite Hw, Hh. reflexivity.
  - intros k. cunfold. destruct (Z.eq_dec k self) as [->|Hne].
    + rewrite Epos. split; intros H; congruence.
    + rewrite Hother by exact Hne. reflexivity.
Qed.

Lemma cv_infect_other_triple N fr R0 c other_agent :
  In other_agent (range N) ->
  triple (Inv N fr R0 c) (infect_other other_agent) (fun _ => Inv N fr R0 c).
Proof.
  intros Hother m HI.
  destruct (cv_self_known other_agent HI Hother) as (o & Eo & Hid & Hpl).
  pose proof HI as [Hk Hf Hd Hc Ha Hr].
  unfold infect_other, bind, get_agent. rewrite Eo. simpl.
  destruct (state_eqb (state o) Susceptible) eqn:Es; [|constructor; exact HI].
  apply state_eqb_eq in Es.
  unfold random_random, lift. simpl. constructor. intros r.
  unfold gets. simpl.
  destruct (Qlt_bool r (infection_rate (MesaTime.fields m))); [|constructor; exact HI].
  unfold update_agent, modify. simpl. constructor. simpl.
  eapply cv_Inv_step with (k0 := other_agent)
    (F := fun a => set_infection_time (now m) (set_state Infected a)); eauto.
  - cunfold. rewrite !dict_update_update. reflexivity.
  - intros a0 Ha0. rewrite Eo in Ha0. inversion Ha0; subst a0. cunfold.
    repeat split; auto; congruence.
  - congruence.
Qed.

Lemma cv_infect_triple N fr R0 c self :
  In self (range N) ->
  triple (Inv N fr R0 c) (infect self)
         (fun _ => Inv N fr R0 (c ++ [(self, Infect)])).
Proof.
  intros Hself. unfold infect.
  eapply triple_bind; [apply cv_log_call_triple|].
  intros [] m HI. generalize dependent (c ++ [(self, Infect)]). clear c. intros c HI.
  destruct (cv_self_known self HI Hself) as (a & Ea & Hid & Hpl).
  pose proof HI as [Hk Hf Hd Hc Ha Hr].
  unfold bind, get_agent. rewrite Ea. simpl.
  destruct (state_eqb (state a) Infected); [|constructor; exact HI].
  unfold self_pos.
  destruct (Grid.agent_pos self (the_grid m)) as [pos|] eqn:Epos; [|congruence].
  simpl. unfold gets. simpl.
  destruct (1 <? length (Grid.get_cell_list_contents (the_grid m) pos))%nat;
    [|constructor; exact HI].
  apply triple_for_each; [|exact HI].
  intros other Hin. apply cv_infect_other_triple.
  apply cell_contents_placed in Hin.
  specialize (Ha other).
  destruct (dict_get other (the_agents m)) as [o|] eqn:Eo; [|simpl in Ha; congruence].
  assert (Hx : dict_get other (the_agents m) <> None) by congruence.
  apply dict_get_In_keys in Hx. unfold population in Hk. unfold the_agents in Hx.
  rewrite Hk in Hx. exact Hx.
Qed.

Lemma cv_agent_step_triple N fr R0 c self :
  In self (range N) ->
  triple (Inv N fr R0 c) (agent_step self)
         (fun _ m => Inv N fr R0 (c ++ step_calls self) m).
Proof.
  intros Hself. unfold agent_step, step_calls.
  eapply triple_bind; [apply cv_update_status_triple; exact Hself|].
  intros ?. eapply triple_bind; [apply cv_move_triple; exact Hself|].
  intros ?. eapply triple_conseq; [apply cv_infect_triple; exact Hself| |].
  - intros m H. exact H.
  - intros ? m HI. simpl in HI. rewrite <- !app_assoc in HI. exact HI.
Qed.

Lemma cv_call_triple N fr R0 method key a :
  method = "step"%string ->
  triple (fun m => (exists c, Inv N fr R0 c m) /\
                   dict_get key (MesaTime._agents (MesaTime.schedule m)) = Some a)
         (call method a)
         (fun _ m => exists c, Inv N fr R0 c m).
Proof.
  intros -> m [[c HI] Ea]. unfold call. simpl.
  pose proof HI as [Hk Hf Hd Hc Ha Hr].
  pose proof (Ha key) as Hok. unfold the_agents in Hok. rewrite Ea in Hok.
  destruct Hok as (Hid & _). rewrite Hid.
  assert (Hkey : In key (range N)).
  { rewrite <- Hk. unfold population. apply dict_get_In_keys. congruence. }
  eapply safe_mono; [|apply (@cv_agent_step_triple N fr R0 c key Hkey m); auto].
  intros [u m']. simpl. eauto.
Qed.


Lemma cv_Inv_reframe N fr R0 c (m m' : Model) :
  Inv N fr R0 c m ->
  the_agents m' = the_agents m ->
  the_grid m' = the_grid m ->
  calls (MesaTime.fields m') = calls (MesaTime.fields m) ->
  Inv N (frame_of m') R0 c m'.
Proof.
  intros [Hk Hf Hd Hc Ha Hr] Hag Hg Hcalls. split.
  - unfold population in *. unfold the_agents in Hag. rewrite Hag. exact Hk.
  - reflexivity.
  - rewrite Hg. exact Hd.
  - congruence.
  - intros k. rewrite Hag, Hg. apply Ha.
  - intros k Hin. rewrite Hag. auto.
Qed.

Lemma cv_step_triple N R0 c (m0 : Model) :
  triple (fun m => m = m0 /\ Inv N (frame_of m0) R0 c m0) step
         (fun _ m' => (exists c', Inv N (frame_of m') R0 c' m') /\ tick_post m0 m').
Proof.
  unfold step.
  eapply triple_bind with
    (R := fun _ m' => exists m1 c1, Inv N (frame_of m0) R0 c1 m1 /\ m' = MesaTime.tick_clock m1).
  { eapply triple_conseq;
      [apply (@RandomActivation_step_triple _ _ call
                (fun m => exists c1, Inv N (frame_of m0) R0 c1 m))| |].
    - intros key a. apply cv_call_triple. reflexivity.
    - intros m [-> HI]. eauto.
    - intros ? m (m1 & (c1 & HI) & ->). eauto. }
  intros ? m (m1 & c1 & HI & ->).
  pose proof HI as [Hk Hf Hd Hc Ha Hr].
  assert (Hfr := Hf). unfold frame_of in Hfr.
  injection Hfr as Hsteps Htime Hnum Hrun Hir Hrt Hdc Hw Hh.
  unfold bind, collect, modify, gets. simpl.
  match goal with |- context [if ?b then _ else _] => destruct b eqn:Einf end.
  - constructor. simpl. split.
    + exists c1. eapply cv_Inv_reframe; [exact HI|reflexivity..].
    + split.
      * cunfold. lia.
      * cunfold. lia.
      * unfold snapshot_of, report, MesaTime.agents. cunfold. rewrite Hdc. reflexivity.
      * unfold report, MesaTime.agents in *. cunfold. rewrite Einf.
        rewrite andb_false_r. reflexivity.
      * unfold params_of. cunfold. congruence.
  - constructor. simpl. split.
    + exists c1. eapply cv_Inv_reframe; [exact HI|reflexivity..].
    + split.
      * cunfold. lia.
      * cunfold. lia.
      * unfold snapshot_of, report, MesaTime.agents. cunfold. rewrite Hdc. reflexivity.
      * unfold report, MesaTime.agents in *. cunfold. rewrite Einf.
        rewrite andb_true_r. congruence.
      * unfold params_of. cunfold. congruence.
Qed.

Lemma cv_count_total (l : list InfectionAgent) :
  count_state Susceptible l + count_state Infected l + count_state Recovered l
  = Z.of_nat (length l).
Proof.
  induction l as [|a l IH]; [reflexivity|].
  cbn [count_state length]. destruct (state a); simpl state_eqb; cbv iota; lia.
Qed.

Lemma cv_snapshot_total N fr R0 c (m : Model) :
  Inv N fr R0 c m ->
  report Susceptible m + report Infected m + report Recovered m
  = Z.of_nat (length (range N)).
Proof.
  intros [Hk _ _ _ _ _]. unfold report. rewrite cv_count_total.
  unfold MesaTime.agents, dict_values. rewrite length_map.
  rewrite <- Hk. unfold population, dict_keys. rewrite length_map. reflexivity.
Qed.

Lemma cv_steps_n_triple N R0 n :
  forall c (m0 : Model),
  triple (fun m => m = m0 /\ Inv N (frame_of m0) R0 c m0) (steps_n n)
         (fun _ m' => (exists c', Inv N (frame_of m') R0 c' m') /\ run_post N n m0 m').
Proof.
  induction n as [|n IH]; intros c m0.
  - simpl. apply triple_ret. intros m [-> HI]. split; [eauto|].
    split; try reflexivity; auto.
    + lia.
    + exists []. rewrite app_nil_r. auto.
  - cbn [steps_n].
    eapply triple_bind; [apply cv_step_triple|].
    intros ? m1 [[c1 HI1] Ht].
    eapply safe_mono; [|apply (IH c1 m1 m1); auto].
    intros [u m'] [HI' Hr]. simpl in *. split; [exact HI'|].
    destruct Ht as [Ht1 Ht2 Ht3 Ht4 Ht5]. destruct Hr as [Hr1 Hr2 Hr3 (rows & Hr4 & Hr5 & Hr6)].
    split.
    + lia.
    + congruence.
    + intros Hf. apply Hr3. rewrite Ht4, Hf. reflexivity.
    + exists (snapshot_of m1 :: rows). split; [|split].
      * rewrite Hr4, Ht3, <- app_assoc. reflexivity.
      * simpl. congruence.
      * constructor; [|exact Hr6]. simpl. eapply cv_snapshot_total; eauto.
Qed.

Lemma cv_Inv_add (j : nat) fr R0 c (m m' : Model) (agent : InfectionAgent) :
  Inv (Z.of_nat j) fr R0 c m ->
  unique_id agent = Z.of_nat j ->
  the_agents m' = dict_add (Z.of_nat j) agent (the_agents m) ->
  frame_of m' = frame_of m ->
  calls (MesaTime.fields m') = calls (MesaTime.fields m) ->
  (forall k, k <> Z.of_nat j ->
     Grid.agent_pos k (the_grid m') = Grid.agent_pos k (the_grid m)) ->
  Grid.agent_pos (Z.of_nat j) (the_grid m') <> None ->
  Inv (Z.of_nat (S j)) fr R0 c m'.
Proof.
  intros [Hk Hf Hd Hc Ha Hr] Hid Hag Hfr Hcalls Hpos Hplaced.
  assert (Hfresh : dict_get (Z.of_nat j) (the_agents m) = None).
  { apply dict_get_None_keys. unfold population in Hk. unfold the_agents.
    rewrite Hk. apply range_fresh. }
  split.
  - unfold population in *. unfold the_agents in Hag. rewrite Hag, dict_keys_add, Hk.
    symmetry. apply range_succ.
  - congruence.
  - unfold frame_of in Hfr. inversion Hfr. lia.
  - congruence.
  - intros k. rewrite Hag, dict_get_add.
    destruct (Z.eqb_spec (Z.of_nat j) k) as [<-|Hne].
    + rewrite Hfresh. simpl. auto.
    + rewrite Hpos by congruence. specialize (Ha k).
      destruct (dict_get k (the_agents m)); exact Ha.
  - intros k Hin. destruct (Hr k Hin) as (a & Ha1 & Ha2).
    rewrite Hag, dict_get_add, Ha1. eauto.
Qed.

Lemma cv_place_at_random_safe (m : Model) self (Q : unit * Model -> Prop) :
  0 < Grid.width (the_grid m) -> 0 < Grid.height (the_grid m) ->
  Grid.agent_pos self (the_grid m) = None ->
  (forall g', Grid.width g' = Grid.width (the_grid m) ->
              Grid.height g' = Grid.height (the_grid m) ->
              Grid.agent_pos self g' <> None ->
              (forall k, k <> self -> Grid.agent_pos k g' = Grid.agent_pos k (the_grid m)) ->
              Q (tt, set_grid g' m)) ->
  safe Q (place_at_random self m).
Proof.
  intros Hw Hh Hpos HQ.
  unfold place_at_random, bind, gets, random_randrange. simpl.
  destruct (Z.leb_spec (Grid.width (the_grid m)) 0); [lia|].
  unfold lift. simpl. constructor. intros x.
  destruct (Z.leb_spec (Grid.height (the_grid m)) 0); [lia|].
  simpl. constructor. intros y. unfold on_grid.
  destruct (@place_agent_ok self (x, y) (the_grid m) Hpos) as (g' & E & H1 & H2 & H3 & H4).
  rewrite E. simpl. constructor. apply HQ; auto. congruence.
Qed.

Lemma cv_create_agent_triple (cfg : Config) (j : nat) fr :
  triple (Inv (Z.of_nat j) fr [] []) (create_agent cfg (Z.of_nat j))
         (fun _ => Inv (Z.of_nat (S j)) fr [] []).
Proof.
  intros m HI. pose proof HI as [Hk Hf Hd Hc Ha Hr].
  assert (Hfresh : dict_get (Z.of_nat j) (the_agents m) = None).
  { apply dict_get_None_keys. unfold population in Hk. unfold the_agents.
    rewrite Hk. apply range_fresh. }
  assert (Hunplaced : Grid.agent_pos (Z.of_nat j) (the_grid m) = None).
  { specialize (Ha (Z.of_nat j)). rewrite Hfresh in Ha. exact Ha. }
  unfold create_agent, bind at 1, MesaTime.schedule_add, MesaTime.on_schedule, MesaTime.add.
  unfold dict_mem. cbn [unique_id new_agent]. unfold the_agents in Hfresh. rewrite Hfresh.
  cbn [pbind fst snd].
  unfold bind at 1. apply safe_pbind.
  apply cv_place_at_random_safe; try apply Hd; [exact Hunplaced|].
  intros g' Hw Hh Hp Hother. simpl.
  set (m1 := set_grid g' _).
  assert (HI1 : Inv (Z.of_nat (S j)) fr [] [] m1).
  { eapply cv_Inv_add with (agent := new_agent (Z.of_nat j)); eauto.
    - unfold m1. cunfold. rewrite Hw, Hh. reflexivity. }
  assert (E1 : dict_get (Z.of_nat j) (the_agents m1) = Some (new_agent (Z.of_nat j))).
  { unfold m1. cunfold. rewrite dict_get_add, Hfresh, Z.eqb_refl. reflexivity. }
  clearbody m1.
  destruct (Z.of_nat j <? cfg_initial_infected cfg); [|constructor; exact HI1].
  unfold bind, update_agent, modify, gets. simpl. constructor. simpl.
  eapply cv_Inv_step with (k0 := Z.of_nat j)
    (F := fun a => set_infection_time (now m1) (set_state Infected a)); eauto.
  - cunfold. rewrite dict_update_update. reflexivity.
  - destruct HI1 as [_ _ _ Hc1 _ _]. exact Hc1.
  - intros a0 Ha0. rewrite E1 in Ha0. inversion Ha0; subst a0.
    destruct HI1 as [_ _ _ _ Ha1 _]. specialize (Ha1 (Z.of_nat j)). rewrite E1 in Ha1.
    simpl in Ha1. destruct Ha1 as (H1 & H2). cunfold.
    split; [|congruence]. auto.
  - congruence.
Qed.

Lemma cv_empty_model_Inv (cfg : Config) :
  0 < cfg_width cfg -> 0 < cfg_height cfg ->
  Inv 0 (frame_of (empty_model cfg)) [] [] (empty_model cfg).
Proof.
  intros Hw Hh. split; try reflexivity.
  - simpl. auto.
  - intros k Hin. destruct Hin.
Qed.

Lemma cv_Inv_range N N' fr R0 c (m : Model) :
  range N = range N' -> Inv N fr R0 c m -> Inv N' fr R0 c m.
Proof.
  intros E [Hk Hf Hd Hc Ha Hr]. split; auto. congruence.
Qed.

Lemma cv_InfectionModel_safe (cfg : Config) :
  0 < cfg_width cfg -> 0 < cfg_height cfg ->
  safe (fun m => Inv (cfg_N cfg) (frame_of (empty_model cfg)) [] [] m)
       (InfectionModel cfg).
Proof.
  intros Hw Hh. unfold InfectionModel. apply safe_pbind.
  pose proof (@triple_for_range Model
                (fun j => Inv (Z.of_nat j) (frame_of (empty_model cfg)) [] [])
                (create_agent cfg) (Z.to_nat (cfg_N cfg)) 0%nat) as T.
  eapply safe_mono; [|apply T].
  - intros [u m] HI. simpl in *. constructor.
    eapply cv_Inv_range; [|exact HI]. apply range_to_nat.
  - intros j _. apply cv_create_agent_triple.
  - apply cv_empty_model_Inv; assumption.
Qed.

Lemma cv_Inv_R0 N fr R0 R0' c (m : Model) :
  Inv N fr R0 c m ->
  (forall k, In k R0' -> exists a, dict_get k (the_agents m) = Some a /\ state a = Recovered) ->
  Inv N fr R0' c m.
Proof. intros [Hk Hf Hd Hc Ha Hr] H. split; auto. Qed.

Lemma cv_Inv_frame N fr R0 c (m : Model) : Inv N fr R0 c m -> fr = frame_of m.
Proof. intros [Hk Hf Hd Hc Ha Hr]. congruence. Qed.

Context {RS : RandomSource}.
Variable laws : RandomLaws RS.

Lemma cv_interp_steps_n_add n k (m : Model) g :
  interp (steps_n (n + k) m) g =
  match interp (steps_n n m) g with
  | Ok ((_, m1), g1) => interp (steps_n k m1) g1
  | Err e => Err e
  end.
Proof.
  revert m g. induction n as [|n IH]; intros m g.
  - reflexivity.
  - cbn [Nat.add steps_n]. rewrite !interp_bind.
    destruct (interp (step m) g) as [[[u m1] g1]|e]; [|reflexivity].
    apply IH.
Qed.

Lemma cv_interp_simulate cfg n g :
  interp (simulate cfg n) g =
  match interp (InfectionModel cfg) g with
  | Ok (m0, g0) =>
      match interp (steps_n n m0) g0 with
      | Ok ((_, m), g') => Ok (m, g')
      | Err e => Err e
      end
  | Err e => Err e
  end.
Proof.
  unfold simulate. rewrite interp_pbind.
  destruct (interp (InfectionModel cfg) g) as [[m0 g0]|e]; [|reflexivity].
  rewrite interp_pbind.
  destruct (interp (steps_n n m0) g0) as [[[u m] g']|e]; reflexivity.
Qed.

(** Continuing a run: from a state in the invariant, [k] ticks complete
    and keep the invariant. *)
Lemma cv_continue N R0 c (m : Model) k g :
  Inv N (frame_of m) R0 c m ->
  exists m' g',
    interp (steps_n k m) g = Ok ((tt, m'), g') /\
    (exists c', Inv N (frame_of m') R0 c' m') /\ run_post N k m m'.
Proof.
  intros HI.
  destruct (safe_interp laws (@cv_steps_n_triple N R0 k c m m (conj eq_refl HI)) g)
    as ([[] m'] & g' & E & H1 & H2).
  simpl in *. eauto.
Qed.

(** A run of [n] ticks completes; the state it reaches is in the
    invariant. *)
Lemma cv_run (cfg : Config) n g :
  0 < cfg_width cfg -> 0 < cfg_height cfg ->
  exists m0 g0 m g',
    interp (InfectionModel cfg) g = Ok (m0, g0) /\
    interp (steps_n n m0) g0 = Ok ((tt, m), g') /\
    interp (simulate cfg n) g = Ok (m, g') /\
    Inv (cfg_N cfg) (frame_of (empty_model cfg)) [] [] m0 /\
    (exists c, Inv (cfg_N cfg) (frame_of m) [] c m) /\
    run_post (cfg_N cfg) n m0 m.
Proof.
  intros Hw Hh.
  destruct (safe_interp laws (cv_InfectionModel_safe cfg Hw Hh) g) as (m0 & g0 & E0 & HI0).
  assert (HI0' := HI0). rewrite (cv_Inv_frame HI0) in HI0'.
  destruct (cv_continue n g0 HI0') as (m & g' & E & HI & Hr).
  exists m0, g0, m, g'. rewrite cv_interp_simulate, E0, E.
  split; [reflexivity|]. split; [reflexivity|]. split; [reflexivity|].
  split; [exact HI0|]. split; assumption.
Qed.

End ComportamientoFacts.

(** ** The base model: what the constructor builds *)

Section ComportamientoConstruction.
Import ComportamientoVirus ComportamientoSpec.

Ltac cunfold :=
  unfold frame_of, population, update_agent, modify,
    set_grid, set_calls, set_running, set_datacollector in *;
  unfold the_agents, the_grid, now,
    MesaTime.set_schedule, MesaTime.set_agents, MesaTime.set_fields in *;
  simpl in *.

Lemma dict_update_fresh {A : Type} (k : Z) (f : A -> A) (d : dict A) :
  ~ In k (dict_keys d) -> dict_update k f d = d.
Proof.
  unfold dict_update, dict_keys. induction d as [|[k0 v] d IH]; simpl; intros H; [reflexivity|].
  destruct (Z.eqb_spec k0 k) as [->|Hne]; [exfalso; auto|].
  f_equal. apply IH. intros Hin. apply H. right. exact Hin.
Qed.

Lemma dict_update_last {A : Type} (k : Z) (f : A -> A) (a : A) (d : dict A) :
  ~ In k (dict_keys d) -> dict_update k f (d ++ [(k, a)]) = d ++ [(k, f a)].
Proof.
  intros H. unfold dict_update. rewrite map_app. simpl. rewrite Z.eqb_refl.
  f_equal. apply dict_update_fresh. exact H.
Qed.

Lemma constructed_agents_keys cfg N : dict_keys (constructed_agents cfg N) = range N.
Proof.
  unfold constructed_agents, dict_keys. rewrite map_map. simpl. apply map_id.
Qed.

Lemma cv_create_agent_exact (cfg : Config) (j : nat) fr :
  triple (fun m => Inv (Z.of_nat j) fr [] [] m /\ now m = 0 /\
                   the_agents m = constructed_agents cfg (Z.of_nat j))
         (create_agent cfg (Z.of_nat j))
         (fun _ m => Inv (Z.of_nat (S j)) fr [] [] m /\ now m = 0 /\
                     the_agents m = constructed_agents cfg (Z.of_nat (S j))).
Proof.
  intros m (HI & Hnow & Hexact). pose proof HI as [Hk Hf Hd Hc Ha Hr].
  assert (Hfresh : dict_get (Z.of_nat j) (the_agents m) = None).
  { apply dict_get_None_keys. unfold population in Hk. unfold the_agents.
    rewrite Hk. apply range_fresh. }
  assert (Hunplaced : Grid.agent_pos (Z.of_nat j) (the_grid m) = None).
  { specialize (Ha (Z.of_nat j)). rewrite Hfresh in Ha. exact Ha. }
  assert (Hnext : forall a, a = constructed_agent cfg (Z.of_nat j) ->
            the_agents m ++ [(Z.of_nat j, a)] = constructed_agents cfg (Z.of_nat (S j))).
  { intros a ->. rewrite Hexact. unfold constructed_agents.
    rewrite range_succ, map_app. reflexivity. }
  unfold create_agent, bind at 1, MesaTime.schedule_add, MesaTime.on_schedule, MesaTime.add.
  unfold dict_mem. cbn [unique_id new_agent]. unfold the_agents in Hfresh. rewrite Hfresh.
  cbn [pbind fst snd].
  unfold bind at 1. apply safe_pbind.
  apply cv_place_at_random_safe; try apply Hd; [exact Hunplaced|].
  intros g' Hw Hh Hp Hother. simpl.
  set (m1 := set_grid g' _).
  assert (HI1 : Inv (Z.of_nat (S j)) fr [] [] m1).
  { eapply cv_Inv_add with (agent := new_agent (Z.of_nat j)); eauto.
    - unfold m1. cunfold. rewrite Hw, Hh. reflexivity. }
  assert (E1 : dict_get (Z.of_nat j) (the_agents m1) = Some (new_agent (Z.of_nat j))).
  { unfold m1. cunfold. rewrite dict_get_add, Hfresh, Z.eqb_refl. reflexivity. }
  assert (Hag1 : the_agents m1 = the_agents m ++ [(Z.of_nat j, new_agent (Z.of_nat j))])
    by reflexivity.
  assert (Hnow1 : now m1 = 0) by exact Hnow.
  clearbody m1.
  destruct (Z.of_nat j <? cfg_initial_infected cfg) eqn:Ei.
  - unfold bind, update_agent, modify, gets. simpl. constructor. simpl. split; [|split].
    + eapply cv_Inv_step with (k0 := Z.of_nat j)
        (F := fun a => set_infection_time (now m1) (set_state Infected a)); eauto.
      * cunfold. rewrite dict_update_update. reflexivity.
      * destruct HI1 as [_ _ _ Hc1 _ _]. exact Hc1.
      * intros a0 Ha0. rewrite E1 in Ha0. inversion Ha0; subst a0.
        destruct HI1 as [_ _ _ _ Ha1 _]. specialize (Ha1 (Z.of_nat j)). rewrite E1 in Ha1.
        simpl in Ha1. destruct Ha1 as (H1 & H2). cunfold.
        split; [|congruence]. auto.
      * congruence.
    + exact Hnow1.
    + cunfold. rewrite dict_update_update, Hag1.
      rewrite dict_update_last by (rewrite Hk; apply range_fresh).
      apply Hnext. unfold constructed_agent. rewrite Ei, Hnow1. reflexivity.
  - constructor. simpl. split; [exact HI1|]. split; [exact Hnow1|].
    rewrite Hag1. apply Hnext. unfold constructed_agent. rewrite Ei. reflexivity.
Qed.


Lemma cv_count_state_app s (l1 l2 : list InfectionAgent) :
  count_state s (l1 ++ l2) = count_state s l1 + count_state s l2.
Proof.
  induction l1 as [|a l1 IH]; cbn [count_state app]; [reflexivity|].
  destruct (state_eqb (state a) s); rewrite IH; lia.
Qed.

Lemma cv_count_constructed (cfg : Config) (j : nat) :
  0 <= cfg_initial_infected cfg ->
  count_state Infected (dict_values (constructed_agents cfg (Z.of_nat j)))
  = Z.min (Z.of_nat j) (cfg_initial_infected cfg).
Proof.
  intros Hii. induction j as [|j IH].
  - simpl. lia.
  - unfold constructed_agents, dict_values in *.
    rewrite range_succ, !map_app, cv_count_state_app, IH. cbn [map snd count_state].
    unfold constructed_agent.
    destruct (Z.ltb_spec (Z.of_nat j) (cfg_initial_infected cfg));
      cbn [state new_agent state_eqb]; lia.
Qed.

Lemma cv_InfectionModel_exact (cfg : Config) :
  0 < cfg_width cfg -> 0 < cfg_height cfg ->
  safe (fun m => the_agents m = constructed_agents cfg (cfg_N cfg))
       (InfectionModel cfg).
Proof.
  intros Hw Hh. unfold InfectionModel. apply safe_pbind.
  pose proof (@triple_for_range Model
                (fun j m => Inv (Z.of_nat j) (frame_of (empty_model cfg)) [] [] m /\
                            now m = 0 /\
                            the_agents m = constructed_agents cfg (Z.of_nat j))
                (create_agent cfg) (Z.to_nat (cfg_N cfg)) 0%nat) as T.
  eapply safe_mono; [|apply T].
  - intros [u m] (_ & _ & HE). simpl in *. constructor.
    rewrite HE. unfold constructed_agents. rewrite range_to_nat. reflexivity.
  - intros j _. apply cv_create_agent_exact.
  - split; [apply cv_empty_model_Inv; assumption|]. split; reflexivity.
Qed.

Context {RS : RandomSource}.
Variable laws : RandomLaws RS.

(** The constructor of the base model does what C1 says: the agents
    [0, ..., initial_infected - 1] are Infected with [infection_time = 0],
    the others are Susceptible, and the number of Infected agents is
    [initial_infected]. *)
Theorem base_construction_infects_first (cfg : Config) (g : rng) :
  0 < cfg_width cfg -> 0 < cfg_height cfg ->
  0 <= cfg_initial_infected cfg <= cfg_N cfg ->
  exists m g',
    interp (InfectionModel cfg) g = Ok (m, g') /\
    the_agents m = constructed_agents cfg (cfg_N cfg) /\
    report Infected m = cfg_initial_infected cfg.
Proof.
  intros Hw Hh Hii.
  destruct (safe_interp laws (cv_InfectionModel_exact cfg Hw Hh) g) as (m & g' & E & HE).
  exists m, g'. split; [exact E|]. split; [exact HE|].
  unfold report, MesaTime.agents. unfold the_agents in HE. rewrite HE.
  rewrite <- (Z2Nat.id (cfg_N cfg)) by lia.
  rewrite cv_count_constructed by lia. lia.
Qed.

End ComportamientoConstruction.

(** ** The model with strategies: what the constructor builds *)

Section EstrategiasConstruction.
Import VirusConEstrategias EstrategiasSpec EstrategiasTick.

Ltac munfold :=
  unfold frame_of, population, update_agent, modify,
    set_grid, set_calls, set_running, set_datacollector in *;
  unfold the_agents, the_grid, now,
    MesaTime.set_schedule, MesaTime.set_agents, MesaTime.set_fields in *;
  simpl in *.

Lemma est_create_agent_window (cfg : Config) (j : nat) fr :
  triple (fun m => Inv (Z.of_nat j) fr [] [] m /\ now m = 0 /\
                   forall i a, dict_get i (the_agents m) = Some a -> constructed_ok cfg i a)
         (create_agent cfg (Z.of_nat j))
         (fun _ m => Inv (Z.of_nat (S j)) fr [] [] m /\ now m = 0 /\
                     forall i a, dict_get i (the_agents m) = Some a -> constructed_ok cfg i a).
Proof.
  intros m (HI & Hnow & Hall). pose proof HI as [Hk Hf Hd Hc Ha Hr].
  assert (Hfresh : dict_get (Z.of_nat j) (the_agents m) = None).
  { apply dict_get_None_keys. unfold population in Hk. unfold the_agents.
    rewrite Hk. apply range_fresh. }
  assert (Hmem : forall a, unique_id a = Z.of_nat j ->
            dict_mem (unique_id a) (MesaTime._agents (MesaTime.schedule m)) = false).
  { intros a ->. unfold dict_mem. unfold the_agents in Hfresh. rewrite Hfresh. reflexivity. }
  assert (Hunplaced : Grid.agent_pos (Z.of_nat j) (the_grid m) = None).
  { specialize (Ha (Z.of_nat j)). rewrite Hfresh in Ha. exact Ha. }
  unfold create_agent, bind at 1, random_random, lift. simpl. constructor. intros r.
  set (agent := if Qlt_bool r (cfg_initial_vaccinated_rate cfg)
                then set_state Recovered (new_agent (Z.of_nat j))
                else new_agent (Z.of_nat j)).
  assert (Hid : unique_id agent = Z.of_nat j) by (unfold agent; destruct (Qlt_bool _ _); reflexivity).
  assert (Hq : is_quarantined agent = false) by (unfold agent; destruct (Qlt_bool _ _); reflexivity).
  assert (Hit : infection_time agent = 0) by (unfold agent; destruct (Qlt_bool _ _); reflexivity).
  assert (Hst : state agent = Recovered \/ state agent = Susceptible)
    by (unfold agent; destruct (Qlt_bool _ _); auto).
  unfold bind at 1, MesaTime.schedule_add, MesaTime.on_schedule, MesaTime.add.
  rewrite (Hmem agent Hid). simpl. rewrite Hid.
  unfold bind at 1. apply safe_pbind. apply est_place_at_random_safe; try apply Hd; [exact Hunplaced|].
  intros g' Hw Hh Hp Hother. simpl.
  set (m1 := set_grid g' _).
  assert (HI1 : Inv (Z.of_nat (S j)) fr [] [] m1).
  { eapply est_Inv_add with (agent := agent); eauto.
    - unfold m1. munfold. rewrite Hw, Hh. reflexivity. }
  assert (E1 : dict_get (Z.of_nat j) (the_agents m1) = Some agent).
  { unfold m1. munfold. rewrite dict_get_add, Hfresh, Z.eqb_refl. reflexivity. }
  assert (Hold : forall i, i <> Z.of_nat j ->
            dict_get i (the_agents m1) = dict_get i (the_agents m)).
  { intros i Hne. unfold m1. munfold. rewrite dict_get_add.
    destruct (dict_get i (MesaTime._agents (MesaTime.schedule m))); [reflexivity|].
    destruct (Z.eqb_spec (Z.of_nat j) i); [congruence|reflexivity]. }
  assert (Hnow1 : now m1 = 0) by exact Hnow.
  clearbody m1. unfold bind, get_agent. rewrite E1. simpl.
  destruct (state_eqb (state agent) Susceptible && (Z.of_nat j <? infection_window cfg))
    eqn:Eb.
  - apply andb_prop in Eb. destruct Eb as [Es Ew]. apply state_eqb_eq in Es.
    apply Z.ltb_lt in Ew.
    unfold update_agent, modify, gets. simpl. constructor. simpl. split; [|split].
    + eapply est_Inv_step with (k0 := Z.of_nat j)
        (F := fun a => set_infection_time (now m1) (set_state Infected a)); eauto.
      * munfold. rewrite dict_update_update. reflexivity.
      * destruct HI1 as [_ _ _ Hc1 _ _]. exact Hc1.
      * intros a0 Ha0. rewrite E1 in Ha0. inversion Ha0; subst a0.
        destruct HI1 as [_ _ _ _ Ha1 _]. specialize (Ha1 (Z.of_nat j)). rewrite E1 in Ha1.
        simpl in Ha1. destruct Ha1 as (H1 & H2 & H3). munfold.
        split; [|congruence]. repeat split; auto; try congruence; tauto.
      * congruence.
    + exact Hnow1.
    + intros i a.
      cbn [the_agents MesaTime._agents MesaTime.schedule MesaTime.set_schedule
           MesaTime.set_agents].
      rewrite dict_update_update, dict_get_update.
      destruct (Z.eqb_spec i (Z.of_nat j)) as [->|Hne].
      * rewrite E1. simpl. intros Ha0. inversion Ha0; subst a.
        unfold constructed_ok. simpl. split; [exact Hnow1|]. split; [exact Hq|]. auto.
      * intros Hi. apply (Hall i a). rewrite <- Hold by exact Hne. exact Hi.
  - constructor. simpl. split; [exact HI1|]. split; [exact Hnow1|].
    intros i a. destruct (Z.eq_dec i (Z.of_nat j)) as [->|Hne].
    + rewrite E1. intros Ha0. inversion Ha0; subst a.
      unfold constructed_ok. split; [exact Hit|]. split; [exact Hq|].
      destruct Hst as [Hst|Hst]; [auto|]. right. right. split; [exact Hst|].
      rewrite Hst in Eb. simpl in Eb. apply Z.ltb_ge. exact Eb.
    + rewrite Hold by exact Hne. apply Hall.
Qed.

Lemma est_InfectionModel_window (cfg : Config) :
  0 < cfg_width cfg -> 0 < cfg_height cfg ->
  safe (fun m => forall i a, dict_get i (the_agents m) = Some a -> constructed_ok cfg i a)
       (InfectionModel cfg).
Proof.
  intros Hw Hh. unfold InfectionModel. apply safe_pbind.
  pose proof (@triple_for_range Model
                (fun j m => Inv (Z.of_nat j) (frame_of (empty_model cfg)) [] [] m /\
                            now m = 0 /\
                            forall i a, dict_get i (the_agents m) = Some a ->
                                        constructed_ok cfg i a)
                (create_agent cfg) (Z.to_nat (cfg_N cfg)) 0%nat) as T.
  eapply safe_mono; [|apply T].
  - intros [u m] (_ & _ & HE). simpl in *. constructor. exact HE.
  - intros j _. apply est_create_agent_window.
  - split; [apply est_empty_model_Inv; assumption|]. split; [reflexivity|].
    intros i a H. discriminate.
Qed.

Context {RS : RandomSource}.
Variable laws : RandomLaws RS.

(** What the constructor of the model with strategies does: every agent it
    leaves Infected has an index below
    [initial_infected + int(N * initial_vaccinated_rate)] and
    [infection_time = 0], and every agent it leaves Susceptible has an index
    at or above that bound.  The agents that are not vaccinated are not
    counted anywhere. *)
Theorem strategies_construction_infects_by_index (cfg : Config) (g : rng) :
  0 < cfg_width cfg -> 0 < cfg_height cfg ->
  exists m g',
    interp (InfectionModel cfg) g = Ok (m, g') /\
    forall i a, dict_get i (the_agents m) = Some a -> constructed_ok cfg i a.
Proof.
  intros Hw Hh.
  destruct (safe_interp laws (est_InfectionModel_window cfg Hw Hh) g) as (m & g' & E & HE).
  eauto.
Qed.

End EstrategiasConstruction.

(** ** Facts shared by the main results *)

Lemma range_length (N : Z) : 0 <= N -> Z.of_nat (length (range N)) = N.
Proof. intros H. unfold range. rewrite length_map, length_seq. lia. Qed.

Lemma range_NoDup (N : Z) : NoDup (range N).
Proof.
  unfold range. apply Injective_map_NoDup.
  - intros x y. apply Nat2Z.inj.
  - apply seq_NoDup.
Qed.

Lemma dict_get_of_In {A : Type} (k : Z) (a : A) (d : dict A) :
  NoDup (dict_keys d) -> In (k, a) d -> dict_get k d = Some a.
Proof.
  induction d as [|[k0 v] d IH]; simpl; intros Hnd Hin; [contradiction|].
  inversion Hnd as [|x l Hnot Hnd']; subst.
  destruct Hin as [E|Hin].
  - inversion E; subst. rewrite Z.eqb_refl. reflexivity.
  - destruct (Z.eqb_spec k0 k) as [->|Hne]; [|auto].
    exfalso. apply Hnot. change (In (fst (k, a)) (map fst d)). apply in_map. exact Hin.
Qed.

(** ** The counter of a state and the agents in that state *)

Section EstrategiasCount.
Import VirusConEstrategias.

Lemma est_count_zero s (l : list InfectionAgent) :
  count_state s l = 0 -> Forall (fun a => state a <> s) l.
Proof.
  assert (Hnn : forall l', 0 <= count_state s l').
  { induction l' as [|a l' IH]; cbn [count_state]; [lia|].
    destruct (state_eqb (state a) s); lia. }
  induction l as [|a l IH]; intros H; constructor.
  - cbn [count_state] in H. destruct (state_eqb (state a) s) eqn:E.
    + specialize (Hnn l). lia.
    + intros Hs. apply state_eqb_eq in Hs. congruence.
  - apply IH. cbn [count_state] in H. destruct (state_eqb (state a) s).
    + specialize (Hnn l). lia.
    + exact H.
Qed.

Lemma est_extinct (m : Model) :
  report Infected m = 0 -> est_nobody_infected (the_agents m).
Proof.
  intros H k a Ea. apply est_count_zero in H.
  rewrite Forall_forall in H. apply H.
  unfold MesaTime.agents, dict_values. apply dict_get_In in Ea.
  apply in_map with (f := snd) in Ea. exact Ea.
Qed.

Lemma est_count_none s (l : list InfectionAgent) :
  Forall (fun a => state a <> s) l -> count_state s l = 0.
Proof.
  induction 1 as [|a l Ha _ IH]; [reflexivity|].
  cbn [count_state]. destruct (state_eqb (state a) s) eqn:E; [|exact IH].
  apply state_eqb_eq in E. contradiction.
Qed.

(** The reporter of the infected is zero exactly when no scheduled agent is
    Infected. *)
Lemma est_report_none (m : Model) :
  NoDup (dict_keys (the_agents m)) ->
  report Infected m = 0 <-> est_nobody_infected (the_agents m).
Proof.
  intros Hnd. split; [apply est_extinct|].
  intros H. unfold report, MesaTime.agents. apply est_count_none.
  apply Forall_forall. intros a Ha. unfold dict_values in Ha.
  apply in_map_iff in Ha. destruct Ha as ([k a'] & <- & Hin).
  apply (H k). apply dict_get_of_In; assumption.
Qed.

End EstrategiasCount.

Section ComportamientoCount.
Import ComportamientoVirus.

Lemma cv_count_zero s (l : list InfectionAgent) :
  count_state s l = 0 -> Forall (fun a => state a <> s) l.
Proof.
  assert (Hnn : forall l', 0 <= count_state s l').
  { induction l' as [|a l' IH]; cbn [count_state]; [lia|].
    destruct (state_eqb (state a) s); lia. }
  induction l as [|a l IH]; intros H; constructor.
  - cbn [count_state] in H. destruct (state_eqb (state a) s) eqn:E.
    + specialize (Hnn l). lia.
    + intros Hs. apply state_eqb_eq in Hs. congruence.
  - apply IH. cbn [count_state] in H. destruct (state_eqb (state a) s).
    + specialize (Hnn l). lia.
    + exact H.
Qed.

Lemma cv_extinct (m : Model) :
  report Infected m = 0 -> cv_nobody_infected (the_agents m).
Proof.
  intros H k a Ea. apply cv_count_zero in H.
  rewrite Forall_forall in H. apply H.
  unfold MesaTime.agents, dict_values. apply dict_get_In in Ea.
  apply in_map with (f := snd) in Ea. exact Ea.
Qed.

Lemma cv_count_none s (l : list InfectionAgent) :
  Forall (fun a => state a <> s) l -> count_state s l = 0.
Proof.
  induction 1 as [|a l Ha _ IH]; [reflexivity|].
  cbn [count_state]. destruct (state_eqb (state a) s) eqn:E; [|exact IH].
  apply state_eqb_eq in E. contradiction.
Qed.

(** The reporter of the infected is zero exactly when no scheduled agent is
    Infected. *)
Lemma cv_report_none (m : Model) :
  NoDup (dict_keys (the_agents m)) ->
  report Infected m = 0 <-> cv_nobody_infected (the_agents m).
Proof.
  intros Hnd. split; [apply cv_extinct|].
  intros H. unfold report, MesaTime.agents. apply cv_count_none.
  apply Forall_forall. intros a Ha. unfold dict_values in Ha.
  apply in_map_iff in Ha. destruct Ha as ([k a'] & <- & Hin).
  apply (H k). apply dict_get_of_In; assumption.
Qed.

End ComportamientoCount.

(** * Main results *)


(** ** C10: the population of the schedule *)

(** C10.  In both models, after construction and after any number of ticks
    the schedule holds exactly the agents 0, ..., N-1 that construction
    registered, so its agent count is N; in the model with strategies an
    agent is off the grid exactly while it is quarantined, and it is still
    in the schedule then. *)
Theorem population_is_never_reduced (RS : RandomSource) (laws : RandomLaws RS)
    (cv : ComportamientoVirus.Config) (est : VirusConEstrategias.Config) (n : nat) (g : rng) :
  0 < ComportamientoVirus.cfg_width cv -> 0 < ComportamientoVirus.cfg_height cv -> 0 <= ComportamientoVirus.cfg_N cv ->
  0 < VirusConEstrategias.cfg_width est -> 0 < VirusConEstrategias.cfg_height est -> 0 <= VirusConEstrategias.cfg_N est ->
  (exists m g',
     interp (ComportamientoVirus.simulate cv n) g = Ok (m, g') /\
     population m = range (ComportamientoVirus.cfg_N cv) /\
     MesaTime.get_agent_count (MesaTime.schedule m) = ComportamientoVirus.cfg_N cv) /\
  (exists m g',
     interp (VirusConEstrategias.simulate est n) g = Ok (m, g') /\
     population m = range (VirusConEstrategias.cfg_N est) /\
     MesaTime.get_agent_count (MesaTime.schedule m) = VirusConEstrategias.cfg_N est /\
     forall k a, dict_get k (VirusConEstrategias.the_agents m) = Some a ->
       (VirusConEstrategias.is_quarantined a = true <-> Grid.agent_pos k (VirusConEstrategias.the_grid m) = None)).
Proof.
  intros Hw Hh HN Hw' Hh' HN'. split.
  - destruct (cv_run laws cv n g Hw Hh) as (m0 & g0 & m & g' & _ & _ & E & _ & [c HI] & _).
    exists m, g'. split; [exact E|]. destruct HI as [Hk _ _ _ _ _]. split; [exact Hk|].
    unfold MesaTime.get_agent_count. unfold population, dict_keys in Hk.
    rewrite <- (length_map fst), Hk. apply range_length. exact HN.
  - destruct (est_run laws est n g Hw' Hh') as (m0 & g0 & m & g' & _ & _ & E & _ & [c HI] & _).
    exists m, g'. split; [exact E|]. destruct HI as [Hk _ _ _ Ha _]. split; [exact Hk|].
    split.
    + unfold MesaTime.get_agent_count. unfold population, dict_keys in Hk.
      rewrite <- (length_map fst), Hk. apply range_length. exact HN'.
    + intros k a Ea. specialize (Ha k). rewrite Ea in Ha. apply Ha.
Qed.

(** ** C5: conservation *)

(** C5.  In both models every row the data collector has recorded after
    [n] ticks (one row per tick) has Susceptible + Infected + Recovered equal
    to the population size N; a quarantined agent is an Infected one among
    the agents counted. *)
Theorem counts_add_up_to_population (RS : RandomSource) (laws : RandomLaws RS)
    (cv : ComportamientoVirus.Config) (est : VirusConEstrategias.Config) (n : nat) (g : rng) :
  0 < ComportamientoVirus.cfg_width cv -> 0 < ComportamientoVirus.cfg_height cv -> 0 <= ComportamientoVirus.cfg_N cv ->
  0 < VirusConEstrategias.cfg_width est -> 0 < VirusConEstrategias.cfg_height est -> 0 <= VirusConEstrategias.cfg_N est ->
  (exists m g',
     interp (ComportamientoVirus.simulate cv n) g = Ok (m, g') /\
     length (ComportamientoVirus.datacollector (MesaTime.fields m)) = n /\
     Forall (fun row => snapshot_total row = ComportamientoVirus.cfg_N cv)
            (ComportamientoVirus.datacollector (MesaTime.fields m))) /\
  (exists m g',
     interp (VirusConEstrategias.simulate est n) g = Ok (m, g') /\
     length (VirusConEstrategias.datacollector (MesaTime.fields m)) = n /\
     Forall (fun row => snapshot_total row = VirusConEstrategias.cfg_N est)
            (VirusConEstrategias.datacollector (MesaTime.fields m))).
Proof.
  intros Hw Hh HN Hw' Hh' HN'. split.
  - destruct (cv_run laws cv n g Hw Hh)
      as (m0 & g0 & m & g' & _ & _ & E & HI0 & _ & [_ _ _ (rows & Hr1 & Hr2 & Hr3)]).
    exists m, g'. split; [exact E|].
    assert (Hd0 : ComportamientoVirus.datacollector (MesaTime.fields m0) = []).
    { destruct HI0 as [_ Hf _ _ _ _]. unfold ComportamientoSpec.frame_of in Hf.
      inversion Hf. reflexivity. }
    rewrite Hr1, Hd0. simpl. split; [exact Hr2|].
    eapply Forall_impl; [|exact Hr3]. intros row Hrow. unfold snapshot_total.
    rewrite Hrow. apply range_length. exact HN.
  - destruct (est_run laws est n g Hw' Hh')
      as (m0 & g0 & m & g' & _ & _ & E & HI0 & _ & [_ _ _ (rows & Hr1 & Hr2 & Hr3)]).
    exists m, g'. split; [exact E|].
    assert (Hd0 : VirusConEstrategias.datacollector (MesaTime.fields m0) = []).
    { destruct HI0 as [_ Hf _ _ _ _]. unfold EstrategiasSpec.frame_of in Hf.
      inversion Hf. reflexivity. }
    rewrite Hr1, Hd0. simpl. split; [exact Hr2|].
    eapply Forall_impl; [|exact Hr3]. intros row Hrow. unfold snapshot_total.
    rewrite Hrow. apply range_length. exact HN'.
Qed.

(** ** C7: quarantine implies infection *)

(** C7.  In the model with strategies, after construction and after every
    tick, every agent of the schedule whose quarantine flag is set is in
    state Infected. *)
Theorem quarantined_agents_are_infected (RS : RandomSource) (laws : RandomLaws RS)
    (est : VirusConEstrategias.Config) (n : nat) (g : rng) :
  0 < VirusConEstrategias.cfg_width est -> 0 < VirusConEstrategias.cfg_height est ->
  exists m g',
    interp (VirusConEstrategias.simulate est n) g = Ok (m, g') /\
    forall a, In a (MesaTime.agents (MesaTime.schedule m)) ->
      VirusConEstrategias.is_quarantined a = true -> VirusConEstrategias.state a = Infected.
Proof.
  intros Hw Hh.
  destruct (est_run laws est n g Hw Hh) as (m0 & g0 & m & g' & _ & _ & E & _ & [c HI] & _).
  exists m, g'. split; [exact E|]. intros a Hin Hq.
  destruct HI as [Hk _ _ _ Ha _].
  unfold MesaTime.agents, dict_values in Hin. apply in_map_iff in Hin.
  destruct Hin as ([k a'] & <- & Hin). simpl in *.
  apply dict_get_of_In in Hin.
  - specialize (Ha k). unfold VirusConEstrategias.the_agents in Ha. rewrite Hin in Ha. apply Ha. exact Hq.
  - unfold population in Hk. rewrite Hk. apply range_NoDup.
Qed.

(** ** C6: Recovered is terminal *)

Lemma cv_simulate_add {RS : RandomSource} (cv : ComportamientoVirus.Config) n k g m0 g0 m g1 m' g2 :
  interp (ComportamientoVirus.InfectionModel cv) g = Ok (m0, g0) ->
  interp (ComportamientoVirus.steps_n n m0) g0 = Ok ((tt, m), g1) ->
  interp (ComportamientoVirus.steps_n k m) g1 = Ok ((tt, m'), g2) ->
  interp (ComportamientoVirus.simulate cv (n + k)) g = Ok (m', g2).
Proof.
  intros E0 E1 E2. rewrite cv_interp_simulate, E0, cv_interp_steps_n_add, E1, E2.
  reflexivity.
Qed.

Lemma est_simulate_add {RS : RandomSource} (est : VirusConEstrategias.Config) n k g m0 g0 m g1 m' g2 :
  interp (VirusConEstrategias.InfectionModel est) g = Ok (m0, g0) ->
  interp (VirusConEstrategias.steps_n n m0) g0 = Ok ((tt, m), g1) ->
  interp (VirusConEstrategias.steps_n k m) g1 = Ok ((tt, m'), g2) ->
  interp (VirusConEstrategias.simulate est (n + k)) g = Ok (m', g2).
Proof.
  intros E0 E1 E2. rewrite est_interp_simulate, E0, est_interp_steps_n_add, E1, E2.
  reflexivity.
Qed.

(** C6.  In both models, an agent that is Recovered after [n] ticks of a run
    is Recovered after [n + k] ticks of that run, for every [k]: no method
    takes an agent out of Recovered. *)
Theorem recovered_is_terminal (RS : RandomSource) (laws : RandomLaws RS)
    (cv : ComportamientoVirus.Config) (est : VirusConEstrategias.Config) (n k : nat) (g : rng) :
  0 < ComportamientoVirus.cfg_width cv -> 0 < ComportamientoVirus.cfg_height cv ->
  0 < VirusConEstrategias.cfg_width est -> 0 < VirusConEstrategias.cfg_height est ->
  (exists m g1 m' g2,
     interp (ComportamientoVirus.simulate cv n) g = Ok (m, g1) /\
     interp (ComportamientoVirus.simulate cv (n + k)) g = Ok (m', g2) /\
     interp (ComportamientoVirus.steps_n k m) g1 = Ok ((tt, m'), g2) /\
     forall id a, dict_get id (ComportamientoVirus.the_agents m) = Some a -> ComportamientoVirus.state a = Recovered ->
       exists a', dict_get id (ComportamientoVirus.the_agents m') = Some a' /\ ComportamientoVirus.state a' = Recovered) /\
  (exists m g1 m' g2,
     interp (VirusConEstrategias.simulate est n) g = Ok (m, g1) /\
     interp (VirusConEstrategias.simulate est (n + k)) g = Ok (m', g2) /\
     interp (VirusConEstrategias.steps_n k m) g1 = Ok ((tt, m'), g2) /\
     forall id a, dict_get id (VirusConEstrategias.the_agents m) = Some a -> VirusConEstrategias.state a = Recovered ->
       exists a', dict_get id (VirusConEstrategias.the_agents m') = Some a' /\ VirusConEstrategias.state a' = Recovered).
Proof.
  intros Hw Hh Hw' Hh'. split.
  - destruct (cv_run laws cv n g Hw Hh) as (m0 & g0 & m & g1 & E0 & E1 & E & _ & [c HI] & _).
    set (R0 := filter (fun id => match dict_get id (ComportamientoVirus.the_agents m) with
                                 | Some a => state_eqb (ComportamientoVirus.state a) Recovered
                                 | None => false
                                 end) (population m)).
    assert (HI' : ComportamientoSpec.Inv (ComportamientoVirus.cfg_N cv) (ComportamientoSpec.frame_of m) R0 c m).
    { eapply cv_Inv_R0; [exact HI|]. intros id Hin. apply filter_In in Hin.
      destruct Hin as [_ Hin]. destruct (dict_get id (ComportamientoVirus.the_agents m)) as [a|]; [|discriminate].
      exists a. split; [reflexivity|]. apply state_eqb_eq. exact Hin. }
    destruct (cv_continue laws k g1 HI') as (m' & g2 & E2 & [c' HI2] & _).
    exists m, g1, m', g2. split; [exact E|]. split; [eapply cv_simulate_add; eauto|].
    split; [exact E2|]. intros id a Ea Hs.
    destruct HI2 as [_ _ _ _ _ Hr]. apply Hr. unfold R0. apply filter_In. split.
    + unfold population. apply dict_get_In_keys. unfold ComportamientoVirus.the_agents in Ea. congruence.
    + rewrite Ea. apply state_eqb_eq. exact Hs.
  - destruct (est_run laws est n g Hw' Hh') as (m0 & g0 & m & g1 & E0 & E1 & E & _ & [c HI] & _).
    set (R0 := filter (fun id => match dict_get id (VirusConEstrategias.the_agents m) with
                                 | Some a => state_eqb (VirusConEstrategias.state a) Recovered
                                 | None => false
                                 end) (population m)).
    assert (HI' : EstrategiasSpec.Inv (VirusConEstrategias.cfg_N est) (EstrategiasSpec.frame_of m) R0 c m).
    { eapply est_Inv_R0; [exact HI|]. intros id Hin. apply filter_In in Hin.
      destruct Hin as [_ Hin]. destruct (dict_get id (VirusConEstrategias.the_agents m)) as [a|]; [|discriminate].
      exists a. split; [reflexivity|]. apply state_eqb_eq. exact Hin. }
    destruct (est_continue laws k g1 HI') as (m' & g2 & E2 & [c' HI2] & _).
    exists m, g1, m', g2. split; [exact E|]. split; [eapply est_simulate_add; eauto|].
    split; [exact E2|]. intros id a Ea Hs.
    destruct HI2 as [_ _ _ _ _ Hr]. apply Hr. unfold R0. apply filter_In. split.
    + unfold population. apply dict_get_In_keys. unfold VirusConEstrategias.the_agents in Ea. congruence.
    + rewrite Ea. apply state_eqb_eq. exact Hs.
Qed.

(** ** C8: the flag [running] *)

Lemma cv_running_facts (RS : RandomSource) (laws : RandomLaws RS)
    (cv : ComportamientoVirus.Config) (n k : nat) (g : rng) :
  0 < ComportamientoVirus.cfg_width cv -> 0 < ComportamientoVirus.cfg_height cv ->
  exists m0 g0 m g1 m1 g2 m' g3,
    interp (ComportamientoVirus.InfectionModel cv) g = Ok (m0, g0) /\
    ComportamientoVirus.running (MesaTime.fields m0) = true /\
    interp (ComportamientoVirus.simulate cv n) g = Ok (m, g1) /\
    interp (ComportamientoVirus.step m) g1 = Ok ((tt, m1), g2) /\
    interp (ComportamientoVirus.simulate cv (n + 1)) g = Ok (m1, g2) /\
    ComportamientoVirus.running (MesaTime.fields m1) =
      ComportamientoVirus.running (MesaTime.fields m) && negb (ComportamientoVirus.report Infected m1 =? 0) /\
    (ComportamientoVirus.report Infected m1 = 0 <-> cv_nobody_infected (ComportamientoVirus.the_agents m1)) /\
    (cv_nobody_infected (ComportamientoVirus.the_agents m1) ->
     ComportamientoVirus.running (MesaTime.fields m1) = false) /\
    ((exists key a, dict_get key (ComportamientoVirus.the_agents m1) = Some a /\ ComportamientoVirus.state a = Infected) ->
     ComportamientoVirus.running (MesaTime.fields m1) = ComportamientoVirus.running (MesaTime.fields m)) /\
    interp (ComportamientoVirus.simulate cv (n + k)) g = Ok (m', g3) /\
    (ComportamientoVirus.running (MesaTime.fields m) = false -> ComportamientoVirus.running (MesaTime.fields m') = false).
Proof.
  intros Hw Hh.
  destruct (cv_run laws cv n g Hw Hh) as (m0 & g0 & m & g1 & E0 & E1 & E & HI0 & [c HI] & _).
  destruct (safe_interp laws (@cv_step_triple (ComportamientoVirus.cfg_N cv) [] c m m (conj eq_refl HI)) g1)
    as ([[] m1] & g2 & Es & [c1 HI1] & Ht).
  assert (Hz : ComportamientoVirus.report Infected m1 = 0 <-> cv_nobody_infected (ComportamientoVirus.the_agents m1)).
  { apply cv_report_none. change (NoDup (population m1)).
    pose proof (ComportamientoSpec.inv_keys HI1) as Hk. simpl in Hk. rewrite Hk.
    apply range_NoDup. }
  assert (Hrun := ComportamientoSpec.tp_running Ht). simpl in Hrun.
  destruct (cv_continue laws k g1 HI) as (m' & g3 & Ek & _ & Hr).
  exists m0, g0, m, g1, m1, g2, m', g3.
  split; [exact E0|]. split.
  { destruct HI0 as [_ Hf _ _ _ _]. unfold ComportamientoSpec.frame_of in Hf.
    inversion Hf. reflexivity. }
  split; [exact E|]. split; [exact Es|]. split.
  { eapply cv_simulate_add; eauto. cbn [ComportamientoVirus.steps_n]. rewrite interp_bind, Es. reflexivity. }
  split; [exact Hrun|]. split; [exact Hz|]. split.
  { intros Hn. apply Hz in Hn. rewrite Hrun, Hn. apply andb_false_r. }
  split.
  { intros (key & a & Ea & Hs).
    destruct (Z.eqb_spec (ComportamientoVirus.report Infected m1) 0) as [H0|H0].
    - apply Hz in H0. exfalso. exact (H0 key a Ea Hs).
    - rewrite Hrun. apply andb_true_r. }
  split; [eapply cv_simulate_add; eauto|]. apply Hr.
Qed.

Lemma est_running_facts (RS : RandomSource) (laws : RandomLaws RS)
    (est : VirusConEstrategias.Config) (n k : nat) (g : rng) :
  0 < VirusConEstrategias.cfg_width est -> 0 < VirusConEstrategias.cfg_height est ->
  exists m0 g0 m g1 m1 g2 m' g3,
    interp (VirusConEstrategias.InfectionModel est) g = Ok (m0, g0) /\
    VirusConEstrategias.running (MesaTime.fields m0) = true /\
    interp (VirusConEstrategias.simulate est n) g = Ok (m, g1) /\
    interp (VirusConEstrategias.step m) g1 = Ok ((tt, m1), g2) /\
    interp (VirusConEstrategias.simulate est (n + 1)) g = Ok (m1, g2) /\
    VirusConEstrategias.running (MesaTime.fields m1) =
      VirusConEstrategias.running (MesaTime.fields m) && negb (VirusConEstrategias.report Infected m1 =? 0) /\
    (VirusConEstrategias.report Infected m1 = 0 <-> est_nobody_infected (VirusConEstrategias.the_agents m1)) /\
    (est_nobody_infected (VirusConEstrategias.the_agents m1) ->
     VirusConEstrategias.running (MesaTime.fields m1) = false) /\
    ((exists key a, dict_get key (VirusConEstrategias.the_agents m1) = Some a /\ VirusConEstrategias.state a = Infected) ->
     VirusConEstrategias.running (MesaTime.fields m1) = VirusConEstrategias.running (MesaTime.fields m)) /\
    interp (VirusConEstrategias.simulate est (n + k)) g = Ok (m', g3) /\
    (VirusConEstrategias.running (MesaTime.fields m) = false -> VirusConEstrategias.running (MesaTime.fields m') = false).
Proof.
  intros Hw Hh.
  destruct (est_run laws est n g Hw Hh) as (m0 & g0 & m & g1 & E0 & E1 & E & HI0 & [c HI] & _).
  destruct (safe_interp laws (@est_step_triple (VirusConEstrategias.cfg_N est) [] c m m (conj eq_refl HI)) g1)
    as ([[] m1] & g2 & Es & [c1 HI1] & Ht).
  assert (Hz : VirusConEstrategias.report Infected m1 = 0 <-> est_nobody_infected (VirusConEstrategias.the_agents m1)).
  { apply est_report_none. change (NoDup (population m1)).
    pose proof (EstrategiasSpec.inv_keys HI1) as Hk. simpl in Hk. rewrite Hk.
    apply range_NoDup. }
  assert (Hrun := EstrategiasTick.tp_running Ht). simpl in Hrun.
  destruct (est_continue laws k g1 HI) as (m' & g3 & Ek & _ & Hr).
  exists m0, g0, m, g1, m1, g2, m', g3.
  split; [exact E0|]. split.
  { destruct HI0 as [_ Hf _ _ _ _]. unfold EstrategiasSpec.frame_of in Hf.
    inversion Hf. reflexivity. }
  split; [exact E|]. split; [exact Es|]. split.
  { eapply est_simulate_add; eauto. cbn [VirusConEstrategias.steps_n]. rewrite interp_bind, Es. reflexivity. }
  split; [exact Hrun|]. split; [exact Hz|]. split.
  { intros Hn. apply Hz in Hn. rewrite Hrun, Hn. apply andb_false_r. }
  split.
  { intros (key & a & Ea & Hs).
    destruct (Z.eqb_spec (VirusConEstrategias.report Infected m1) 0) as [H0|H0].
    - apply Hz in H0. exfalso. exact (H0 key a Ea Hs).
    - rewrite Hrun. apply andb_true_r. }
  split; [eapply est_simulate_add; eauto|]. apply Hr.
Qed.

(** C8.  In both models [running] is true after construction; the tick that
    takes the run from [n] to [n + 1] ticks leaves [running] as it was if
    some scheduled agent is in state Infected when the tick ends and sets
    it to false if none is, the count the tick tests being zero exactly
    when no scheduled agent is in state Infected; and if [running] is false
    after [n] ticks it is false after [n + k] ticks, for every [k]. *)
Theorem running_is_write_once (RS : RandomSource) (laws : RandomLaws RS)
    (cv : ComportamientoVirus.Config) (est : VirusConEstrategias.Config) (n k : nat) (g : rng) :
  0 < ComportamientoVirus.cfg_width cv -> 0 < ComportamientoVirus.cfg_height cv ->
  0 < VirusConEstrategias.cfg_width est -> 0 < VirusConEstrategias.cfg_height est ->
  (exists m0 g0 m g1 m1 g2 m' g3,
     interp (ComportamientoVirus.InfectionModel cv) g = Ok (m0, g0) /\
     ComportamientoVirus.running (MesaTime.fields m0) = true /\
     interp (ComportamientoVirus.simulate cv n) g = Ok (m, g1) /\
     interp (ComportamientoVirus.step m) g1 = Ok ((tt, m1), g2) /\
     interp (ComportamientoVirus.simulate cv (n + 1)) g = Ok (m1, g2) /\
     ComportamientoVirus.running (MesaTime.fields m1) =
       ComportamientoVirus.running (MesaTime.fields m) && negb (ComportamientoVirus.report Infected m1 =? 0) /\
     (ComportamientoVirus.report Infected m1 = 0 <-> cv_nobody_infected (ComportamientoVirus.the_agents m1)) /\
     (cv_nobody_infected (ComportamientoVirus.the_agents m1) ->
      ComportamientoVirus.running (MesaTime.fields m1) = false) /\
     ((exists key a, dict_get key (ComportamientoVirus.the_agents m1) = Some a /\ ComportamientoVirus.state a = Infected) ->
      ComportamientoVirus.running (MesaTime.fields m1) = ComportamientoVirus.running (MesaTime.fields m)) /\
     interp (ComportamientoVirus.simulate cv (n + k)) g = Ok (m', g3) /\
     (ComportamientoVirus.running (MesaTime.fields m) = false -> ComportamientoVirus.running (MesaTime.fields m') = false)) /\
  (exists m0 g0 m g1 m1 g2 m' g3,
     interp (VirusConEstrategias.InfectionModel est) g = Ok (m0, g0) /\
     VirusConEstrategias.running (MesaTime.fields m0) = true /\
     interp (VirusConEstrategias.simulate est n) g = Ok (m, g1) /\
     interp (VirusConEstrategias.step m) g1 = Ok ((tt, m1), g2) /\
     interp (VirusConEstrategias.simulate est (n + 1)) g = Ok (m1, g2) /\
     VirusConEstrategias.running (MesaTime.fields m1) =
       VirusConEstrategias.running (MesaTime.fields m) && negb (VirusConEstrategias.report Infected m1 =? 0) /\
     (VirusConEstrategias.report Infected m1 = 0 <-> est_nobody_infected (VirusConEstrategias.the_agents m1)) /\
     (est_nobody_infected (VirusConEstrategias.the_agents m1) ->
      VirusConEstrategias.running (MesaTime.fields m1) = false) /\
     ((exists key a, dict_get key (VirusConEstrategias.the_agents m1) = Some a /\ VirusConEstrategias.state a = Infected) ->
      VirusConEstrategias.running (MesaTime.fields m1) = VirusConEstrategias.running (MesaTime.fields m)) /\
     interp (VirusConEstrategias.simulate est (n + k)) g = Ok (m', g3) /\
     (VirusConEstrategias.running (MesaTime.fields m) = false -> VirusConEstrategias.running (MesaTime.fields m') = false)).
Proof.
  intros Hw Hh Hw' Hh'. split.
  - apply cv_running_facts; assumption.
  - apply est_running_facts; assumption.
Qed.

(** ** C2: the methods of one activation *)

(** C2, as stated, fails in the model with strategies: an agent that is
    quarantined when it is activated runs [update_status] only, also in the
    tick in which it recovers.  After one tick of the run below agent 1 is
    Infected and quarantined; its next activation makes it Recovered, clears
    the flag, and enters neither [move] nor [infect]. *)
Lemma quarantined_recovery_skips_move_and_infect :
  exists m g1 m' g2 a a',
    interp (VirusConEstrategias.simulate quarantine_config 1) ([] : list Z) = Ok (m, g1) /\
    dict_get 1 (VirusConEstrategias.the_agents m) = Some a /\
    VirusConEstrategias.state a = Infected /\ VirusConEstrategias.is_quarantined a = true /\
    interp (VirusConEstrategias.agent_step 1 m) g1 = Ok ((tt, m'), g2) /\
    dict_get 1 (VirusConEstrategias.the_agents m') = Some a' /\
    VirusConEstrategias.state a' = Recovered /\ VirusConEstrategias.is_quarantined a' = false /\
    VirusConEstrategias.calls (MesaTime.fields m') = VirusConEstrategias.calls (MesaTime.fields m) ++ [(1, UpdateStatus)] /\
    VirusConEstrategias.calls (MesaTime.fields m') <>
      VirusConEstrategias.calls (MesaTime.fields m) ++ [(1, UpdateStatus); (1, Move); (1, Infect)].
Proof.
  do 6 eexists.
  split; [vm_compute; reflexivity|].
  split; [vm_compute; reflexivity|].
  split; [reflexivity|]. split; [reflexivity|].
  split; [vm_compute; reflexivity|].
  split; [vm_compute; reflexivity|].
  split; [reflexivity|]. split; [reflexivity|].
  split; [vm_compute; reflexivity|].
  vm_compute. discriminate.
Qed.

(** C2, amended.  Take any activation in the tick that follows [n] ticks of
    a run: the pass has gone through the keys [pre] and reaches the turn of
    [key].  In the base model the activation enters [update_status], [move]
    and [infect], in this order.  In the model with strategies it does so
    when the agent is not quarantined at that moment, whether or not it
    recovers in this [update_status]; when the agent is quarantined at that
    moment the activation enters [update_status] only, also when it recovers
    there and the flag is cleared. *)
Theorem activation_runs_methods_by_quarantine (RS : RandomSource) (laws : RandomLaws RS)
    (cv : ComportamientoVirus.Config) (est : VirusConEstrategias.Config) (n : nat) (g : rng) :
  0 < ComportamientoVirus.cfg_width cv -> 0 < ComportamientoVirus.cfg_height cv ->
  0 < VirusConEstrategias.cfg_width est -> 0 < VirusConEstrategias.cfg_height est ->
  (exists m g1,
     interp (ComportamientoVirus.simulate cv n) g = Ok (m, g1) /\
     forall pre key g2, In key (population m) ->
       exists evs m1 g3 m2 g4,
         interp (MesaTime.activation_pass ComportamientoVirus.call "step" pre m) g2 = Ok ((evs, m1), g3) /\
         interp (ComportamientoVirus.agent_step key m1) g3 = Ok ((tt, m2), g4) /\
         ComportamientoVirus.calls (MesaTime.fields m2) =
           ComportamientoVirus.calls (MesaTime.fields m1) ++
           [(key, UpdateStatus); (key, Move); (key, Infect)]) /\
  (exists m g1,
     interp (VirusConEstrategias.simulate est n) g = Ok (m, g1) /\
     forall pre key g2, In key (population m) ->
       exists evs m1 g3 a m2 g4,
         interp (MesaTime.activation_pass VirusConEstrategias.call "step" pre m) g2 = Ok ((evs, m1), g3) /\
         dict_get key (VirusConEstrategias.the_agents m1) = Some a /\
         interp (VirusConEstrategias.agent_step key m1) g3 = Ok ((tt, m2), g4) /\
         VirusConEstrategias.calls (MesaTime.fields m2) =
           VirusConEstrategias.calls (MesaTime.fields m1) ++
           (if VirusConEstrategias.is_quarantined a then [(key, UpdateStatus)]
            else [(key, UpdateStatus); (key, Move); (key, Infect)])).
Proof.
  intros Hw Hh Hw' Hh'. split.
  - destruct (cv_run laws cv n g Hw Hh) as (m0 & g0 & m & g1 & _ & _ & E & _ & [c HI] & _).
    exists m, g1. split; [exact E|]. intros pre key g2 Hkey.
    assert (Hk : In key (range (ComportamientoVirus.cfg_N cv))).
    { destruct HI as [Hk _ _ _ _ _]. rewrite <- Hk. exact Hkey. }
    assert (T : triple
              (fun m' => exists c', ComportamientoSpec.Inv (ComportamientoVirus.cfg_N cv)
                                      (ComportamientoSpec.frame_of m) [] c' m')
              (MesaTime.activation_pass ComportamientoVirus.call "step" pre)
              (fun _ m' => exists c', ComportamientoSpec.Inv (ComportamientoVirus.cfg_N cv)
                                        (ComportamientoSpec.frame_of m) [] c' m')).
    { apply activation_pass_triple. intros key0 a. apply cv_call_triple. reflexivity. }
    destruct (safe_interp laws (T m (ex_intro _ c HI)) g2) as ([evs m1] & g3 & E1 & c1 & HI1).
    simpl in HI1.
    destruct (safe_interp laws (@cv_agent_step_triple _ _ [] c1 key Hk m1 HI1) g3)
      as ([[] m2] & g4 & E2 & HI2).
    simpl in HI2. exists evs, m1, g3, m2, g4.
    split; [exact E1|]. split; [exact E2|].
    destruct HI1 as [_ _ _ Hc1 _ _]. destruct HI2 as [_ _ _ Hc2 _ _].
    rewrite Hc1, Hc2. reflexivity.
  - destruct (est_run laws est n g Hw' Hh') as (m0 & g0 & m & g1 & _ & _ & E & _ & [c HI] & _).
    exists m, g1. split; [exact E|]. intros pre key g2 Hkey.
    assert (Hk : In key (range (VirusConEstrategias.cfg_N est))).
    { destruct HI as [Hk _ _ _ _ _]. rewrite <- Hk. exact Hkey. }
    assert (T : triple
              (fun m' => exists c', EstrategiasSpec.Inv (VirusConEstrategias.cfg_N est)
                                      (EstrategiasSpec.frame_of m) [] c' m')
              (MesaTime.activation_pass VirusConEstrategias.call "step" pre)
              (fun _ m' => exists c', EstrategiasSpec.Inv (VirusConEstrategias.cfg_N est)
                                        (EstrategiasSpec.frame_of m) [] c' m')).
    { apply activation_pass_triple. intros key0 a. apply est_call_triple. reflexivity. }
    destruct (safe_interp laws (T m (ex_intro _ c HI)) g2) as ([evs m1] & g3 & E1 & c1 & HI1).
    simpl in HI1.
    destruct (est_self_known key HI1 Hk) as [a Ea].
    destruct (safe_interp laws (@est_agent_step_triple _ _ [] c1 key a Hk m1 (conj HI1 Ea)) g3)
      as ([[] m2] & g4 & E2 & HI2).
    simpl in HI2. exists evs, m1, g3, a, m2, g4.
    split; [exact E1|]. split; [exact Ea|]. split; [exact E2|].
    destruct HI1 as [_ _ _ Hc1 _ _]. destruct HI2 as [_ _ _ Hc2 _ _].
    rewrite Hc1, Hc2. reflexivity.
Qed.


(** ** C1: the agents infected at construction *)

(** C1 on the code.  The constructor of the model with strategies infects
    the agents that are not vaccinated among those with an index below
    [initial_infected + int(N * initial_vaccinated_rate)], not the first
    [initial_infected] of the agents that are not vaccinated.  With
    [initial_infected = 1]: when none of four agents is vaccinated at rate
    1/2, three of them are infected; when the first of three agents is
    vaccinated at rate 3/10, none is infected although two are not
    vaccinated. *)
Theorem construction_infects_an_index_window :
  (exists m g',
     interp (VirusConEstrategias.InfectionModel window_config) nobody_vaccinated_tape = Ok (m, g') /\
     VirusConEstrategias.cfg_initial_infected window_config = 1 /\
     VirusConEstrategias.report Recovered m = 0 /\
     VirusConEstrategias.report Susceptible m + VirusConEstrategias.report Infected m = 4 /\
     VirusConEstrategias.report Infected m = 3) /\
  (exists m g',
     interp (VirusConEstrategias.InfectionModel narrow_config) first_vaccinated_tape = Ok (m, g') /\
     VirusConEstrategias.cfg_initial_infected narrow_config = 1 /\
     VirusConEstrategias.report Recovered m = 1 /\
     VirusConEstrategias.report Susceptible m + VirusConEstrategias.report Infected m = 2 /\
     VirusConEstrategias.report Infected m = 0).
Proof.
  split; do 2 eexists; (split; [vm_compute; reflexivity|]); repeat split.
Qed.

(** ** The theorems at concrete inputs *)

Ltac dims := vm_compute; solve [reflexivity | discriminate].

Lemma population_is_never_reduced_witness :
  0 < ComportamientoVirus.cfg_width ComportamientoVirus.default_config /\ 0 < ComportamientoVirus.cfg_height ComportamientoVirus.default_config /\
  0 <= ComportamientoVirus.cfg_N ComportamientoVirus.default_config /\
  0 < VirusConEstrategias.cfg_width quarantine_config /\ 0 < VirusConEstrategias.cfg_height quarantine_config /\
  0 <= VirusConEstrategias.cfg_N quarantine_config /\
  (exists m g',
     interp (ComportamientoVirus.simulate ComportamientoVirus.default_config 3) ([5; 1; 4] : list Z) = Ok (m, g') /\
     population m = range (ComportamientoVirus.cfg_N ComportamientoVirus.default_config) /\
     MesaTime.get_agent_count (MesaTime.schedule m) = ComportamientoVirus.cfg_N ComportamientoVirus.default_config) /\
  (exists m g',
     interp (VirusConEstrategias.simulate quarantine_config 3) ([5; 1; 4] : list Z) = Ok (m, g') /\
     population m = range (VirusConEstrategias.cfg_N quarantine_config) /\
     MesaTime.get_agent_count (MesaTime.schedule m) = VirusConEstrategias.cfg_N quarantine_config /\
     forall k a, dict_get k (VirusConEstrategias.the_agents m) = Some a ->
       (VirusConEstrategias.is_quarantined a = true <-> Grid.agent_pos k (VirusConEstrategias.the_grid m) = None)).
Proof.
  assert (H1 : 0 < ComportamientoVirus.cfg_width ComportamientoVirus.default_config) by dims.
  assert (H2 : 0 < ComportamientoVirus.cfg_height ComportamientoVirus.default_config) by dims.
  assert (H3 : 0 <= ComportamientoVirus.cfg_N ComportamientoVirus.default_config) by dims.
  assert (H4 : 0 < VirusConEstrategias.cfg_width quarantine_config) by dims.
  assert (H5 : 0 < VirusConEstrategias.cfg_height quarantine_config) by dims.
  assert (H6 : 0 <= VirusConEstrategias.cfg_N quarantine_config) by dims.
  split; [exact H1|]. split; [exact H2|]. split; [exact H3|].
  split; [exact H4|]. split; [exact H5|]. split; [exact H6|].
  exact (population_is_never_reduced tape_laws ComportamientoVirus.default_config quarantine_config 3
           ([5; 1; 4] : list Z) H1 H2 H3 H4 H5 H6).
Defined.

Lemma counts_add_up_to_population_witness :
  0 < ComportamientoVirus.cfg_width ComportamientoVirus.default_config /\ 0 < ComportamientoVirus.cfg_height ComportamientoVirus.default_config /\
  0 <= ComportamientoVirus.cfg_N ComportamientoVirus.default_config /\
  0 < VirusConEstrategias.cfg_width quarantine_config /\ 0 < VirusConEstrategias.cfg_height quarantine_config /\
  0 <= VirusConEstrategias.cfg_N quarantine_config /\
  (exists m g',
     interp (ComportamientoVirus.simulate ComportamientoVirus.default_config 3) ([5; 1; 4] : list Z) = Ok (m, g') /\
     length (ComportamientoVirus.datacollector (MesaTime.fields m)) = 3%nat /\
     Forall (fun row => snapshot_total row = ComportamientoVirus.cfg_N ComportamientoVirus.default_config)
            (ComportamientoVirus.datacollector (MesaTime.fields m))) /\
  (exists m g',
     interp (VirusConEstrategias.simulate quarantine_config 3) ([5; 1; 4] : list Z) = Ok (m, g') /\
     length (VirusConEstrategias.datacollector (MesaTime.fields m)) = 3%nat /\
     Forall (fun row => snapshot_total row = VirusConEstrategias.cfg_N quarantine_config)
            (VirusConEstrategias.datacollector (MesaTime.fields m))).
Proof.
  assert (H1 : 0 < ComportamientoVirus.cfg_width ComportamientoVirus.default_config) by dims.
  assert (H2 : 0 < ComportamientoVirus.cfg_height ComportamientoVirus.default_config) by dims.
  assert (H3 : 0 <= ComportamientoVirus.cfg_N ComportamientoVirus.default_config) by dims.
  assert (H4 : 0 < VirusConEstrategias.cfg_width quarantine_config) by dims.
  assert (H5 : 0 < VirusConEstrategias.cfg_height quarantine_config) by dims.
  assert (H6 : 0 <= VirusConEstrategias.cfg_N quarantine_config) by dims.
  split; [exact H1|]. split; [exact H2|]. split; [exact H3|].
  split; [exact H4|]. split; [exact H5|]. split; [exact H6|].
  exact (counts_add_up_to_population tape_laws ComportamientoVirus.default_config quarantine_config 3
           ([5; 1; 4] : list Z) H1 H2 H3 H4 H5 H6).
Defined.

Lemma quarantined_agents_are_infected_witness :
  0 < VirusConEstrategias.cfg_width quarantine_config /\ 0 < VirusConEstrategias.cfg_height quarantine_config /\
  exists m g',
    interp (VirusConEstrategias.simulate quarantine_config 1) ([] : list Z) = Ok (m, g') /\
    forall a, In a (MesaTime.agents (MesaTime.schedule m)) ->
      VirusConEstrategias.is_quarantined a = true -> VirusConEstrategias.state a = Infected.
Proof.
  assert (H4 : 0 < VirusConEstrategias.cfg_width quarantine_config) by dims.
  assert (H5 : 0 < VirusConEstrategias.cfg_height quarantine_config) by dims.
  split; [exact H4|]. split; [exact H5|].
  exact (quarantined_agents_are_infected tape_laws quarantine_config 1 ([] : list Z) H4 H5).
Defined.

Lemma recovered_is_terminal_witness :
  0 < ComportamientoVirus.cfg_width ComportamientoVirus.default_config /\ 0 < ComportamientoVirus.cfg_height ComportamientoVirus.default_config /\
  0 < VirusConEstrategias.cfg_width quarantine_config /\ 0 < VirusConEstrategias.cfg_height quarantine_config /\
  (exists m g1 m' g2,
     interp (ComportamientoVirus.simulate ComportamientoVirus.default_config 3) ([5; 1; 4] : list Z) = Ok (m, g1) /\
     interp (ComportamientoVirus.simulate ComportamientoVirus.default_config (3 + 2)) ([5; 1; 4] : list Z) = Ok (m', g2) /\
     interp (ComportamientoVirus.steps_n 2 m) g1 = Ok ((tt, m'), g2) /\
     forall id a, dict_get id (ComportamientoVirus.the_agents m) = Some a -> ComportamientoVirus.state a = Recovered ->
       exists a', dict_get id (ComportamientoVirus.the_agents m') = Some a' /\ ComportamientoVirus.state a' = Recovered) /\
  (exists m g1 m' g2,
     interp (VirusConEstrategias.simulate quarantine_config 3) ([5; 1; 4] : list Z) = Ok (m, g1) /\
     interp (VirusConEstrategias.simulate quarantine_config (3 + 2)) ([5; 1; 4] : list Z) = Ok (m', g2) /\
     interp (VirusConEstrategias.steps_n 2 m) g1 = Ok ((tt, m'), g2) /\
     forall id a, dict_get id (VirusConEstrategias.the_agents m) = Some a -> VirusConEstrategias.state a = Recovered ->
       exists a', dict_get id (VirusConEstrategias.the_agents m') = Some a' /\ VirusConEstrategias.state a' = Recovered).
Proof.
  assert (H1 : 0 < ComportamientoVirus.cfg_width ComportamientoVirus.default_config) by dims.
  assert (H2 : 0 < ComportamientoVirus.cfg_height ComportamientoVirus.default_config) by dims.
  assert (H4 : 0 < VirusConEstrategias.cfg_width quarantine_config) by dims.
  assert (H5 : 0 < VirusConEstrategias.cfg_height quarantine_config) by dims.
  split; [exact H1|]. split; [exact H2|]. split; [exact H4|]. split; [exact H5|].
  exact (recovered_is_terminal tape_laws ComportamientoVirus.default_config quarantine_config 3 2
           ([5; 1; 4] : list Z) H1 H2 H4 H5).
Defined.

Lemma running_is_write_once_witness :
  0 < ComportamientoVirus.cfg_width ComportamientoVirus.default_config /\ 0 < ComportamientoVirus.cfg_height ComportamientoVirus.default_config /\
  0 < VirusConEstrategias.cfg_width quarantine_config /\ 0 < VirusConEstrategias.cfg_height quarantine_config /\
  (exists m0 g0 m g1 m1 g2 m' g3,
     interp (ComportamientoVirus.InfectionModel ComportamientoVirus.default_config) ([5; 1; 4] : list Z) = Ok (m0, g0) /\
     ComportamientoVirus.running (MesaTime.fields m0) = true /\
     interp (ComportamientoVirus.simulate ComportamientoVirus.default_config 3) ([5; 1; 4] : list Z) = Ok (m, g1) /\
     interp (ComportamientoVirus.step m) g1 = Ok ((tt, m1), g2) /\
     interp (ComportamientoVirus.simulate ComportamientoVirus.default_config (3 + 1)) ([5; 1; 4] : list Z) = Ok (m1, g2) /\
     ComportamientoVirus.running (MesaTime.fields m1) =
       ComportamientoVirus.running (MesaTime.fields m) && negb (ComportamientoVirus.report Infected m1 =? 0) /\
     (ComportamientoVirus.report Infected m1 = 0 <-> cv_nobody_infected (ComportamientoVirus.the_agents m1)) /\
     (cv_nobody_infected (ComportamientoVirus.the_agents m1) ->
      ComportamientoVirus.running (MesaTime.fields m1) = false) /\
     ((exists key a, dict_get key (ComportamientoVirus.the_agents m1) = Some a /\ ComportamientoVirus.state a = Infected) ->
      ComportamientoVirus.running (MesaTime.fields m1) = ComportamientoVirus.running (MesaTime.fields m)) /\
     interp (ComportamientoVirus.simulate ComportamientoVirus.default_config (3 + 2)) ([5; 1; 4] : list Z) = Ok (m', g3) /\
     (ComportamientoVirus.running (MesaTime.fields m) = false -> ComportamientoVirus.running (MesaTime.fields m') = false)) /\
  (exists m0 g0 m g1 m1 g2 m' g3,
     interp (VirusConEstrategias.InfectionModel quarantine_config) ([5; 1; 4] : list Z) = Ok (m0, g0) /\
     VirusConEstrategias.running (MesaTime.fields m0) = true /\
     interp (VirusConEstrategias.simulate quarantine_config 3) ([5; 1; 4] : list Z) = Ok (m, g1) /\
     interp (VirusConEstrategias.step m) g1 = Ok ((tt, m1), g2) /\
     interp (VirusConEstrategias.simulate quarantine_config (3 + 1)) ([5; 1; 4] : list Z) = Ok (m1, g2) /\
     VirusConEstrategias.running (MesaTime.fields m1) =
       VirusConEstrategias.running (MesaTime.fields m) && negb (VirusConEstrategias.report Infected m1 =? 0) /\
     (VirusConEstrategias.report Infected m1 = 0 <-> est_nobody_infected (VirusConEstrategias.the_agents m1)) /\
     (est_nobody_infected (VirusConEstrategias.the_agents m1) ->
      VirusConEstrategias.running (MesaTime.fields m1) = false) /\
     ((exists key a, dict_get key (VirusConEstrategias.the_agents m1) = Some a /\ VirusConEstrategias.state a = Infected) ->
      VirusConEstrategias.running (MesaTime.fields m1) = VirusConEstrategias.running (MesaTime.fields m)) /\
     interp (VirusConEstrategias.simulate quarantine_config (3 + 2)) ([5; 1; 4] : list Z) = Ok (m', g3) /\
     (VirusConEstrategias.running (MesaTime.fields m) = false -> VirusConEstrategias.running (MesaTime.fields m') = false)).
Proof.
  assert (H1 : 0 < ComportamientoVirus.cfg_width ComportamientoVirus.default_config) by dims.
  assert (H2 : 0 < ComportamientoVirus.cfg_height ComportamientoVirus.default_config) by dims.
  assert (H4 : 0 < VirusConEstrategias.cfg_width quarantine_config) by dims.
  assert (H5 : 0 < VirusConEstrategias.cfg_height quarantine_config) by dims.
  split; [exact H1|]. split; [exact H2|]. split; [exact H4|]. split; [exact H5|].
  exact (running_is_write_once tape_laws ComportamientoVirus.default_config quarantine_config 3 2
           ([5; 1; 4] : list Z) H1 H2 H4 H5).
Defined.

Lemma activation_runs_methods_by_quarantine_witness :
  0 < ComportamientoVirus.cfg_width ComportamientoVirus.default_config /\ 0 < ComportamientoVirus.cfg_height ComportamientoVirus.default_config /\
  0 < VirusConEstrategias.cfg_width quarantine_config /\ 0 < VirusConEstrategias.cfg_height quarantine_config /\
  (exists m g1,
     interp (ComportamientoVirus.simulate ComportamientoVirus.default_config 3) ([5; 1; 4] : list Z) = Ok (m, g1) /\
     forall pre key g2, In key (population m) ->
       exists evs m1 g3 m2 g4,
         interp (MesaTime.activation_pass ComportamientoVirus.call "step" pre m) g2 = Ok ((evs, m1), g3) /\
         interp (ComportamientoVirus.agent_step key m1) g3 = Ok ((tt, m2), g4) /\
         ComportamientoVirus.calls (MesaTime.fields m2) =
           ComportamientoVirus.calls (MesaTime.fields m1) ++
           [(key, UpdateStatus); (key, Move); (key, Infect)]) /\
  (exists m g1,
     interp (VirusConEstrategias.simulate quarantine_config 3) ([5; 1; 4] : list Z) = Ok (m, g1) /\
     forall pre key g2, In key (population m) ->
       exists evs m1 g3 a m2 g4,
         interp (MesaTime.activation_pass VirusConEstrategias.call "step" pre m) g2 = Ok ((evs, m1), g3) /\
         dict_get key (VirusConEstrategias.the_agents m1) = Some a /\
         interp (VirusConEstrategias.agent_step key m1) g3 = Ok ((tt, m2), g4) /\
         VirusConEstrategias.calls (MesaTime.fields m2) =
           VirusConEstrategias.calls (MesaTime.fields m1) ++
           (if VirusConEstrategias.is_quarantined a then [(key, UpdateStatus)]
            else [(key, UpdateStatus); (key, Move); (key, Infect)])).
Proof.
  assert (H1 : 0 < ComportamientoVirus.cfg_width ComportamientoVirus.default_config) by dims.
  assert (H2 : 0 < ComportamientoVirus.cfg_height ComportamientoVirus.default_config) by dims.
  assert (H4 : 0 < VirusConEstrategias.cfg_width quarantine_config) by dims.
  assert (H5 : 0 < VirusConEstrategias.cfg_height quarantine_config) by dims.
  split; [exact H1|]. split; [exact H2|]. split; [exact H4|]. split; [exact H5|].
  exact (activation_runs_methods_by_quarantine tape_laws ComportamientoVirus.default_config quarantine_config 3
           ([5; 1; 4] : list Z) H1 H2 H4 H5).
Defined.

(** * Further properties *)

(** ** The population of a scheduler *)

Lemma dict_del_fresh {A : Type} (k : Z) (d : dict A) :
  ~ In k (dict_keys d) -> dict_del k d = d.
Proof.
  unfold dict_del, dict_keys. induction d as [|[k0 v] d IH]; simpl; intros H; [reflexivity|].
  destruct (Z.eqb_spec k0 k) as [->|Hne]; [exfalso; auto|].
  simpl. f_equal. apply IH. intros Hin. apply H. right. exact Hin.
Qed.

Lemma dict_del_length {A : Type} (k : Z) (d : dict A) :
  NoDup (dict_keys d) -> In k (dict_keys d) ->
  S (length (dict_del k d)) = length d.
Proof.
  unfold dict_del, dict_keys. induction d as [|[k0 v] d IH]; simpl; intros Hnd Hin; [contradiction|].
  inversion Hnd as [|x l Hnot Hnd']; subst.
  destruct (Z.eqb_spec k0 k) as [->|Hne]; simpl.
  - f_equal. change (length (dict_del k d) = length d). rewrite dict_del_fresh; auto.
  - f_equal. apply IH; [exact Hnd'|]. destruct Hin; [contradiction|assumption].
Qed.

Section PopulationFacts.
Variable Agent : Type.
Variable unique_id : Agent -> Z.
Implicit Types (s : MesaTime.BaseScheduler Agent) (agent : Agent).

(** X1.  [add] of an agent whose identity is not in the schedule succeeds:
    the agent is stored under its identity, after all the agents that were
    there, the agent count grows by one, and nothing else changes. *)
Theorem add_registers_last agent s :
  ~ In (unique_id agent) (dict_keys (MesaTime._agents s)) ->
  exists s',
    MesaTime.add unique_id agent s = Ok s' /\
    dict_get (unique_id agent) (MesaTime._agents s') = Some agent /\
    dict_keys (MesaTime._agents s') = dict_keys (MesaTime._agents s) ++ [unique_id agent] /\
    MesaTime.agents s' = MesaTime.agents s ++ [agent] /\
    MesaTime.get_agent_count s' = MesaTime.get_agent_count s + 1 /\
    (forall k, k <> unique_id agent ->
       dict_get k (MesaTime._agents s') = dict_get k (MesaTime._agents s)) /\
    MesaTime.steps s' = MesaTime.steps s /\ MesaTime.time s' = MesaTime.time s.
Proof.
  intros Hfresh. unfold MesaTime.add.
  assert (Hget : dict_get (unique_id agent) (MesaTime._agents s) = None)
    by (apply dict_get_None_keys; exact Hfresh).
  unfold dict_mem. rewrite Hget. eexists. split; [reflexivity|]. simpl.
  split; [|split; [|split; [|split; [|split; [|split; reflexivity]]]]].
  - rewrite dict_get_add, Hget, Z.eqb_refl. reflexivity.
  - apply dict_keys_add.
  - unfold MesaTime.agents, dict_values, dict_add. simpl. rewrite map_app. reflexivity.
  - unfold MesaTime.get_agent_count, dict_add. simpl. rewrite length_app. simpl. lia.
  - intros k Hk. rewrite dict_get_add.
    destruct (dict_get k (MesaTime._agents s)); [reflexivity|].
    destruct (Z.eqb_spec (unique_id agent) k); [congruence|reflexivity].
Qed.

(** X3.  The identities of a schedule stay pairwise distinct under [add]
    and [remove]. *)
Theorem schedule_identities_stay_distinct agent s s' :
  NoDup (dict_keys (MesaTime._agents s)) ->
  MesaTime.add unique_id agent s = Ok s' \/ MesaTime.remove unique_id agent s = Ok s' ->
  NoDup (dict_keys (MesaTime._agents s')).
Proof.
  intros Hnd [H|H].
  - unfold MesaTime.add in H.
    destruct (dict_mem (unique_id agent) (MesaTime._agents s)) eqn:E; [discriminate|].
    inversion H; subst. simpl. rewrite dict_keys_add.
    apply NoDup_app_remove_l with (l := []). simpl.
    apply Permutation_NoDup with (l := unique_id agent :: dict_keys (MesaTime._agents s)).
    + apply Permutation_cons_append.
    + constructor; [|exact Hnd]. intros Hin. apply dict_mem_keys in Hin. congruence.
  - unfold MesaTime.remove in H.
    destruct (dict_mem (unique_id agent) (MesaTime._agents s)) eqn:E; [|discriminate].
    inversion H; subst. simpl. rewrite dict_keys_del. apply NoDup_filter. exact Hnd.
Qed.

(** X4.  [remove] of an agent whose identity is in the schedule deletes
    that identity and no other: the remaining agents keep their order, the
    agent count drops by one, and the clock is untouched. *)
Theorem remove_deletes_one agent s :
  NoDup (dict_keys (MesaTime._agents s)) ->
  In (unique_id agent) (dict_keys (MesaTime._agents s)) ->
  exists s',
    MesaTime.remove unique_id agent s = Ok s' /\
    dict_get (unique_id agent) (MesaTime._agents s') = None /\
    dict_keys (MesaTime._agents s') =
      filter (fun k => negb (k =? unique_id agent)) (dict_keys (MesaTime._agents s)) /\
    MesaTime.get_agent_count s' = MesaTime.get_agent_count s - 1 /\
    (forall k, k <> unique_id agent ->
       dict_get k (MesaTime._agents s') = dict_get k (MesaTime._agents s)) /\
    MesaTime.steps s' = MesaTime.steps s /\ MesaTime.time s' = MesaTime.time s.
Proof.
  intros Hnd Hin. eexists. split; [apply remove_present; exact Hin|]. simpl.
  split; [|split; [|split; [|split; [|split; reflexivity]]]].
  - rewrite dict_get_del, Z.eqb_refl. reflexivity.
  - apply dict_keys_del.
  - unfold MesaTime.get_agent_count. simpl.
    pose proof (dict_del_length (unique_id agent) (MesaTime._agents s) Hnd Hin). lia.
  - intros k Hk. rewrite dict_get_del.
    destruct (Z.eqb_spec k (unique_id agent)); [contradiction|reflexivity].
Qed.

(** X5.  Removing an agent right after adding it gives back the schedule
    as it was. *)
Theorem add_then_remove agent s :
  ~ In (unique_id agent) (dict_keys (MesaTime._agents s)) ->
  exists s1,
    MesaTime.add unique_id agent s = Ok s1 /\
    MesaTime.remove unique_id agent s1 = Ok s.
Proof.
  intros Hfresh. unfold MesaTime.add.
  assert (Hget : dict_get (unique_id agent) (MesaTime._agents s) = None)
    by (apply dict_get_None_keys; exact Hfresh).
  unfold dict_mem. rewrite Hget. eexists. split; [reflexivity|].
  unfold MesaTime.remove, dict_mem. simpl.
  rewrite dict_get_add, Hget, Z.eqb_refl.
  unfold MesaTime.set_agents. simpl. destruct s as [st ti ag]. simpl in *. f_equal. f_equal.
  unfold dict_del, dict_add. rewrite filter_app. simpl. rewrite Z.eqb_refl. simpl.
  rewrite app_nil_r. apply (dict_del_fresh _ _ Hfresh).
Qed.

End PopulationFacts.

(** ** Order and stages *)


Section OrderFacts.
Context {RS : RandomSource}.
Variables Agent Fields : Type.
Variable call : string -> Agent -> M (MesaTime.Model Agent Fields) unit.

Lemma activation_pass_methods method agent_keys :
  forall (m : MesaTime.Model Agent Fields) g evs m' g',
    interp (MesaTime.activation_pass call method agent_keys m) g = Ok ((evs, m'), g') ->
    Forall (event_calls method) evs.
Proof.
  induction agent_keys as [|key rest IH]; intros m g evs m' g' H.
  - rewrite activation_pass_nil in H. inversion H. constructor.
  - rewrite activation_pass_cons in H. unfold turn_of in H.
    destruct (dict_get key (MesaTime._agents (MesaTime.schedule m))) as [a|].
    + destruct (interp (call method a m) g) as [[[u m1] g1]|x]; [|discriminate].
      destruct (interp (MesaTime.activation_pass call method rest m1) g1)
        as [[[evs1 m2] g2]|x] eqn:E; [|discriminate].
      inversion H; subst. constructor; [reflexivity|]. eapply IH; eauto.
    + destruct (interp (MesaTime.activation_pass call method rest m) g)
        as [[[evs1 m2] g2]|x] eqn:E; [|discriminate].
      inversion H; subst. constructor; [exact I|]. eapply IH; eauto.
Qed.

(** X6.  A tick of the base scheduler that completes is one pass that gives
    the agents their turns in the order in which they were added, calls
    only [step], and ends by advancing [steps] and [time] by one, which
    leaves the dictionary of the agents and the model's other attributes as
    the pass left them. *)
Theorem BaseScheduler_step_in_insertion_order (m : MesaTime.Model Agent Fields) g passes m' g' :
  interp (MesaTime.BaseScheduler_step call m) g = Ok ((passes, m'), g') ->
  exists evs m1,
    passes = [evs] /\
    map event_key evs = population m /\
    Forall (event_calls "step") evs /\
    interp (MesaTime.activation_pass call "step" (population m) m) g = Ok ((evs, m1), g') /\
    MesaTime.steps (MesaTime.schedule m') = MesaTime.steps (MesaTime.schedule m1) + 1 /\
    MesaTime.time (MesaTime.schedule m') = MesaTime.time (MesaTime.schedule m1) + 1 /\
    MesaTime._agents (MesaTime.schedule m') = MesaTime._agents (MesaTime.schedule m1) /\
    population m' = population m1 /\ MesaTime.fields m' = MesaTime.fields m1.
Proof.
  unfold MesaTime.BaseScheduler_step. rewrite interp_bind.
  change (interp (MesaTime.agent_buffer false m) g) with (Ok ((population m, m), g)).
  cbv iota beta. rewrite interp_bind.
  destruct (interp (MesaTime.activation_pass call "step" (population m) m) g)
    as [[[evs m1] g1]|e] eqn:E; [|discriminate].
  simpl. intros H. inversion H; subst. exists evs, m1.
  split; [reflexivity|]. split; [eapply activation_pass_keys; eauto|].
  split; [eapply activation_pass_methods; eauto|]. split; [reflexivity|].
  repeat split.
Qed.

Lemma staged_stages_structure stage_list shuffle sbs :
  forall agent_keys (m : MesaTime.Model Agent Fields) g passes m' g',
    interp (MesaTime.staged_stages call stage_list shuffle sbs agent_keys m) g
      = Ok ((passes, m'), g') ->
    Forall2 (fun stage evs => Forall (event_calls stage) evs) stage_list passes /\
    (shuffle && sbs = false ->
     Forall (fun evs => map event_key evs = agent_keys) passes).
Proof.
  induction stage_list as [|stage stages IH]; intros agent_keys m g passes m' g' H.
  - simpl in H. inversion H; subst. split; constructor.
  - simpl in H. rewrite interp_bind in H.
    destruct (interp (MesaTime.activation_pass call stage agent_keys m) g)
      as [[[evs m1] g1]|e] eqn:E; [|discriminate].
    rewrite interp_bind in H.
    destruct (shuffle && sbs) eqn:Eb.
    + rewrite interp_shuffle in H. rewrite interp_bind in H.
      destruct (interp (MesaTime.staged_stages call stages shuffle sbs
                          (fst (rng_shuffle agent_keys g1)) m1) (snd (rng_shuffle agent_keys g1)))
        as [[[rest m2] g3]|e] eqn:E2; [|discriminate].
      simpl in H. inversion H; subst.
      destruct (IH _ _ _ _ _ _ E2) as [Hm _].
      split; [|discriminate]. constructor; [|exact Hm].
      eapply activation_pass_methods; eauto.
    + change (interp (ret agent_keys m1) g1) with (Ok ((agent_keys, m1), g1)) in H.
      cbv iota beta in H. rewrite interp_bind in H.
      destruct (interp (MesaTime.staged_stages call stages shuffle sbs agent_keys m1) g1)
        as [[[rest m2] g3]|e] eqn:E2; [|discriminate].
      simpl in H. inversion H; subst.
      destruct (IH _ _ _ _ _ _ E2) as [Hm Hk].
      split.
      * constructor; [|exact Hm]. eapply activation_pass_methods; eauto.
      * intros _. constructor; [|auto]. eapply activation_pass_keys; eauto.
Qed.

(** X7.  A tick of the staged scheduler that completes makes one pass per
    stage, in the order of the stage list, and the activations of a pass
    call the method of its stage only.  Unless it shuffles between stages,
    all the passes give the turns in one and the same order, which is the
    insertion order when shuffling is off altogether. *)
Theorem StagedActivation_step_stage_by_stage stage_list shuffle shuffle_between_stages
    (m : MesaTime.Model Agent Fields) g passes m' g' :
  interp (MesaTime.StagedActivation_step call stage_list shuffle shuffle_between_stages m) g
    = Ok ((passes, m'), g') ->
  Forall2 (fun stage evs => Forall (event_calls stage) evs) stage_list passes /\
  (shuffle && shuffle_between_stages = false ->
   exists order, Forall (fun evs => map event_key evs = order) passes /\
                 (shuffle = false -> order = population m)).
Proof.
  unfold MesaTime.StagedActivation_step. rewrite interp_bind.
  change (interp (gets (fun m0 : MesaTime.Model Agent Fields =>
                          dict_keys (MesaTime._agents (MesaTime.schedule m0))) m) g)
    with (Ok ((population m, m), g)).
  cbv iota beta. rewrite interp_bind.
  destruct shuffle.
  - rewrite interp_shuffle. rewrite interp_bind.
    destruct (interp (MesaTime.staged_stages call stage_list true shuffle_between_stages
                        (fst (rng_shuffle (population m) g)) m)
                     (snd (rng_shuffle (population m) g)))
      as [[[ps m2] g3]|e] eqn:E; [|discriminate].
    simpl. intros H. inversion H; subst.
    destruct (staged_stages_structure _ _ _ _ _ _ E) as [Hm Hk].
    split; [exact Hm|]. intros Hb. eexists. split; [apply Hk; exact Hb|]. discriminate.
  - change (interp (ret (population m) m) g) with (Ok ((population m, m), g)).
    cbv iota beta. rewrite interp_bind.
    destruct (interp (MesaTime.staged_stages call stage_list false shuffle_between_stages
                        (population m) m) g)
      as [[[ps m2] g3]|e] eqn:E; [|discriminate].
    simpl. intros H. inversion H; subst.
    destruct (staged_stages_structure _ _ _ _ _ _ E) as [Hm Hk].
    split; [exact Hm|]. intros Hb. eexists. split; [apply Hk; exact Hb|]. reflexivity.
Qed.

End OrderFacts.

(** ** Nobody is skipped *)

Section NobodySkipped.
Variables Agent Fields : Type.
Variable call : string -> Agent -> M (MesaTime.Model Agent Fields) unit.
Variable I : MesaTime.Model Agent Fields -> Prop.

(** If every call keeps [I], and [I] keeps the keys of the pass in the
    schedule, the pass activates every key, in order. *)
Lemma activation_pass_all_triple method agent_keys :
  (forall key a,
     triple (fun m => I m /\ dict_get key (MesaTime._agents (MesaTime.schedule m)) = Some a)
            (call method a) (fun _ => I)) ->
  (forall m key, I m -> In key agent_keys ->
     dict_get key (MesaTime._agents (MesaTime.schedule m)) <> None) ->
  triple I (MesaTime.activation_pass call method agent_keys)
         (fun evs m => I m /\ evs = map (fun key => Activated key method) agent_keys).
Proof.
  intros Hcall. induction agent_keys as [|key rest IH]; intros Hin; simpl.
  - apply triple_ret. auto.
  - eapply triple_bind with
      (R := fun present m =>
              I m /\ present = dict_get key (MesaTime._agents (MesaTime.schedule m))).
    { apply triple_gets. auto. }
    intros [a|].
    + eapply triple_bind with (R := fun _ => I).
      { eapply triple_conseq; [apply (Hcall key a)| |].
        - intros m [Hm E]. split; [exact Hm|congruence].
        - auto. }
      intros ?. eapply triple_bind.
      { apply IH. intros m k Hm Hk. apply Hin; [exact Hm|right; exact Hk]. }
      intros evs. apply triple_ret. intros m [Hm ->]. auto.
    + intros m [Hm E]. exfalso. apply (Hin m key Hm); [left; reflexivity|congruence].
Qed.

End NobodySkipped.

(** X8.  In both models, in whatever state a run of [n] ticks has left the
    model and with whatever draws follow, one more tick of the scheduler
    completes and activates every one of the agents 0, ..., N-1 exactly
    once, in the shuffled order: nobody is skipped. *)
Theorem every_agent_is_activated_once_per_tick (RS : RandomSource) (laws : RandomLaws RS)
    (cv : ComportamientoVirus.Config) (est : VirusConEstrategias.Config) (n : nat) (g : rng) :
  0 < ComportamientoVirus.cfg_width cv -> 0 < ComportamientoVirus.cfg_height cv ->
  0 < VirusConEstrategias.cfg_width est -> 0 < VirusConEstrategias.cfg_height est ->
  (exists m g1,
     interp (ComportamientoVirus.simulate cv n) g = Ok (m, g1) /\
     forall g2, exists order m' g3,
       interp (MesaTime.RandomActivation_step ComportamientoVirus.call m) g2
         = Ok (([map (fun key => Activated key "step") order], m'), g3) /\
       Permutation (range (ComportamientoVirus.cfg_N cv)) order) /\
  (exists m g1,
     interp (VirusConEstrategias.simulate est n) g = Ok (m, g1) /\
     forall g2, exists order m' g3,
       interp (MesaTime.RandomActivation_step VirusConEstrategias.call m) g2
         = Ok (([map (fun key => Activated key "step") order], m'), g3) /\
       Permutation (range (VirusConEstrategias.cfg_N est)) order).
Proof.
  intros Hw Hh Hw' Hh'. split.
  - destruct (cv_run laws cv n g Hw Hh) as (m0 & g0 & m & g1 & _ & _ & E & _ & [c HI] & _).
    exists m, g1. split; [exact E|]. intros g2.
    set (I := fun m' => exists c', ComportamientoSpec.Inv (ComportamientoVirus.cfg_N cv)
                                     (ComportamientoSpec.frame_of m) [] c' m').
    assert (Hcall : forall key a,
              triple (fun m' => I m' /\
                        dict_get key (MesaTime._agents (MesaTime.schedule m')) = Some a)
                     (ComportamientoVirus.call "step" a) (fun _ => I)).
    { intros key a. apply cv_call_triple. reflexivity. }
    destruct (safe_interp laws
                (@RandomActivation_step_triple _ _ ComportamientoVirus.call I Hcall m
                   (ex_intro _ c HI)) g2) as ([passes m'] & g3 & E1 & _).
    destruct (RandomActivation_step_spec laws _ _ _ E1) as (order & g' & evs & m1 & Hp & E2 & -> & ->).
    assert (Hpass := @activation_pass_all_triple _ _ ComportamientoVirus.call I "step" order Hcall).
    assert (Hin : forall m' key, I m' -> In key order ->
              dict_get key (MesaTime._agents (MesaTime.schedule m')) <> None).
    { intros m' key [c' HI'] Hk. apply dict_get_In_keys.
      destruct HI' as [Hk' _ _ _ _ _]. destruct HI as [Hk0 _ _ _ _ _].
      unfold population in *. rewrite Hk', <- Hk0.
      eapply Permutation_in; [apply Permutation_sym; exact Hp|exact Hk]. }
    destruct (safe_interp laws (Hpass Hin m (ex_intro _ c HI)) g')
      as ([evs' m1'] & g3' & E3 & _ & Hev).
    simpl in Hev. rewrite E2 in E3. inversion E3; subst.
    exists order, (MesaTime.tick_clock m1'), g3'. split; [exact E1|].
    destruct HI as [Hk0 _ _ _ _ _]. rewrite <- Hk0. exact Hp.
  - destruct (est_run laws est n g Hw' Hh') as (m0 & g0 & m & g1 & _ & _ & E & _ & [c HI] & _).
    exists m, g1. split; [exact E|]. intros g2.
    set (I := fun m' => exists c', EstrategiasSpec.Inv (VirusConEstrategias.cfg_N est)
                                     (EstrategiasSpec.frame_of m) [] c' m').
    assert (Hcall : forall key a,
              triple (fun m' => I m' /\
                        dict_get key (MesaTime._agents (MesaTime.schedule m')) = Some a)
                     (VirusConEstrategias.call "step" a) (fun _ => I)).
    { intros key a. apply est_call_triple. reflexivity. }
    destruct (safe_interp laws
                (@RandomActivation_step_triple _ _ VirusConEstrategias.call I Hcall m
                   (ex_intro _ c HI)) g2) as ([passes m'] & g3 & E1 & _).
    destruct (RandomActivation_step_spec laws _ _ _ E1) as (order & g' & evs & m1 & Hp & E2 & -> & ->).
    assert (Hpass := @activation_pass_all_triple _ _ VirusConEstrategias.call I "step" order Hcall).
    assert (Hin : forall m' key, I m' -> In key order ->
              dict_get key (MesaTime._agents (MesaTime.schedule m')) <> None).
    { intros m' key [c' HI'] Hk. apply dict_get_In_keys.
      destruct HI' as [Hk' _ _ _ _ _]. destruct HI as [Hk0 _ _ _ _ _].
      unfold population in *. rewrite Hk', <- Hk0.
      eapply Permutation_in; [apply Permutation_sym; exact Hp|exact Hk]. }
    destruct (safe_interp laws (Hpass Hin m (ex_intro _ c HI)) g')
      as ([evs' m1'] & g3' & E3 & _ & Hev).
    simpl in Hev. rewrite E2 in E3. inversion E3; subst.
    exists order, (MesaTime.tick_clock m1'), g3'. split; [exact E1|].
    destruct HI as [Hk0 _ _ _ _ _]. rewrite <- Hk0. exact Hp.
Qed.


(** ** The run of the main block *)

Section EstrategiasMain.
Import VirusConEstrategias EstrategiasSpec EstrategiasTick.
Context {RS : RandomSource}.
Variable laws : RandomLaws RS.

Lemma est_tick N R0 c (m : Model) g :
  Inv N (frame_of m) R0 c m ->
  exists m1 g1,
    interp (step m) g = Ok ((tt, m1), g1) /\
    (exists c1, Inv N (frame_of m1) R0 c1 m1) /\ tick_post m m1.
Proof.
  intros HI.
  destruct (safe_interp laws (@est_step_triple N R0 c m m (conj eq_refl HI)) g)
    as ([[] m1] & g1 & E & H1 & H2).
  simpl in *. eauto.
Qed.

Lemma est_steps_clock N R0 k :
  forall c (m : Model) g m' g',
    Inv N (frame_of m) R0 c m ->
    interp (steps_n k m) g = Ok ((tt, m'), g') ->
    MesaTime.steps (MesaTime.schedule m') = MesaTime.steps (MesaTime.schedule m) + Z.of_nat k /\
    now m' = now m + Z.of_nat k /\
    length (datacollector (MesaTime.fields m')) =
      (length (datacollector (MesaTime.fields m)) + k)%nat.
Proof.
  induction k as [|k IH]; intros c m g m' g' HI E.
  - simpl in E. inversion E; subst. simpl. rewrite Nat.add_0_r. lia.
  - cbn [steps_n] in E. rewrite interp_bind in E.
    destruct (est_tick g HI) as (m1 & g1 & E1 & [c1 HI1] & Ht). rewrite E1 in E.
    destruct (IH _ _ _ _ _ HI1 E) as (H1 & H2 & H3).
    destruct Ht as [Ht1 Ht2 Ht3 _ _]. rewrite H1, H2, H3, Ht1, Ht2, Ht3, length_app.
    simpl. lia.
Qed.

Lemma est_main_loop N R0 l :
  forall c (m : Model) g front last,
    Inv N (frame_of m) R0 c m ->
    datacollector (MesaTime.fields m) = front ++ [last] ->
    Forall (fun s => snap_infected s <> 0) front ->
    running (MesaTime.fields m) = negb (snap_infected last =? 0) ->
    now m = Z.of_nat (length front) + 1 ->
    exists m' g' front' last',
      interp (main_loop l m) g = Ok ((tt, m'), g') /\
      datacollector (MesaTime.fields m') = front' ++ [last'] /\
      Forall (fun s => snap_infected s <> 0) front' /\
      running (MesaTime.fields m') = negb (snap_infected last' =? 0) /\
      now m' = Z.of_nat (length front') + 1 /\
      (length front' <= length front + length l)%nat /\
      ((length front' < length front + length l)%nat -> snap_infected last' = 0).
Proof.
  induction l as [|i rest IH]; intros c m g front last HI Hrows Hnz Hrun Hnow.
  - exists m, g, front, last. simpl. repeat split; auto; lia.
  - cbn [main_loop]. rewrite interp_bind. unfold gets at 1. cbn [interp].
    destruct (running (MesaTime.fields m)) eqn:Er.
    + rewrite interp_bind.
      destruct (est_tick g HI) as (m1 & g1 & E1 & [c1 HI1] & Ht). rewrite E1.
      destruct Ht as [Ht1 _ Ht3 Ht4 _].
      assert (Hlast : snap_infected last <> 0).
      { intros H0. rewrite H0 in Hrun. discriminate. }
      destruct (IH c1 m1 g1 (front ++ [last]) (snapshot_of m1) HI1) as
        (m' & g' & front' & last' & E & H1 & H2 & H3 & H4 & H5 & H6).
      * rewrite Ht3, Hrows; reflexivity.
      * apply Forall_app. split; [exact Hnz|]. constructor; [exact Hlast|constructor].
      * rewrite Ht4, Er. reflexivity.
      * rewrite Ht1, Hnow, length_app. simpl. lia.
      * exists m', g', front', last'. rewrite length_app in H5, H6. simpl in *.
        repeat split; auto; try lia; try (intros Hlt; apply H6; lia).
    + exists m, g, front, last. simpl. repeat split; auto; try lia.
      rewrite Er. exact Hrun.
Qed.

Lemma est_main_block_outcome (cfg : Config) (simulation_steps : Z) g :
  0 < cfg_width cfg -> 0 < cfg_height cfg ->
  exists m g',
    interp (main_block cfg simulation_steps) g = Ok (m, g') /\
    main_outcome simulation_steps (datacollector (MesaTime.fields m))
                 (running (MesaTime.fields m)) (now m).
Proof.
  intros Hw Hh.
  destruct (safe_interp laws (est_InfectionModel_safe cfg Hw Hh) g) as (m0 & g0 & E0 & HI0).
  assert (HI0' := HI0). rewrite (est_Inv_frame HI0) in HI0'.
  destruct (est_tick g0 HI0') as (m1 & g1 & E1 & [c1 HI1] & Ht).
  destruct HI0 as [_ Hf _ _ _ _]. unfold frame_of, empty_model in Hf.
  injection Hf as Hsteps Htime _ Hrun _ _ _ _ Hdc _ _.
  destruct Ht as [Ht1 _ Ht3 Ht4 _].
  destruct (@est_main_loop _ [] (range (simulation_steps - 1)) c1 m1 g1 [] (snapshot_of m1) HI1)
    as (m' & g' & front' & last' & E & H1 & H2 & H3 & H4 & H5 & H6).
  - rewrite Ht3, Hdc; reflexivity.
  - constructor.
  - rewrite Ht4, Hrun. reflexivity.
  - rewrite Ht1. unfold now. rewrite Htime. reflexivity.
  - exists m', g'. split.
    + unfold main_block. rewrite interp_pbind, E0, interp_pbind, interp_bind, E1, E.
      reflexivity.
    + assert (Hlen : length (range (simulation_steps - 1)) = Z.to_nat (simulation_steps - 1)).
      { unfold range. rewrite length_map, length_seq. reflexivity. }
      exists front', last'. rewrite H1, length_app. simpl in *.
      repeat split; auto; try lia; try (intros Hlt; apply H6; lia).
Qed.

End EstrategiasMain.

Section ComportamientoMain.
Import ComportamientoVirus ComportamientoSpec.
Context {RS : RandomSource}.
Variable laws : RandomLaws RS.

Lemma cv_tick N R0 c (m : Model) g :
  Inv N (frame_of m) R0 c m ->
  exists m1 g1,
    interp (step m) g = Ok ((tt, m1), g1) /\
    (exists c1, Inv N (frame_of m1) R0 c1 m1) /\ tick_post m m1.
Proof.
  intros HI.
  destruct (safe_interp laws (@cv_step_triple N R0 c m m (conj eq_refl HI)) g)
    as ([[] m1] & g1 & E & H1 & H2).
  simpl in *. eauto.
Qed.

Lemma cv_steps_clock N R0 k :
  forall c (m : Model) g m' g',
    Inv N (frame_of m) R0 c m ->
    interp (steps_n k m) g = Ok ((tt, m'), g') ->
    MesaTime.steps (MesaTime.schedule m') = MesaTime.steps (MesaTime.schedule m) + Z.of_nat k /\
    now m' = now m + Z.of_nat k /\
    length (datacollector (MesaTime.fields m')) =
      (length (datacollector (MesaTime.fields m)) + k)%nat.
Proof.
  induction k as [|k IH]; intros c m g m' g' HI E.
  - simpl in E. inversion E; subst. simpl. rewrite Nat.add_0_r. lia.
  - cbn [steps_n] in E. rewrite interp_bind in E.
    destruct (cv_tick g HI) as (m1 & g1 & E1 & [c1 HI1] & Ht). rewrite E1 in E.
    destruct (IH _ _ _ _ _ HI1 E) as (H1 & H2 & H3).
    destruct Ht as [Ht1 Ht2 Ht3 _ _]. rewrite H1, H2, H3, Ht1, Ht2, Ht3, length_app.
    simpl. lia.
Qed.

Lemma cv_main_loop N R0 l :
  forall c (m : Model) g front last,
    Inv N (frame_of m) R0 c m ->
    datacollector (MesaTime.fields m) = front ++ [last] ->
    Forall (fun s => snap_infected s <> 0) front ->
    running (MesaTime.fields m) = negb (snap_infected last =? 0) ->
    now m = Z.of_nat (length front) + 1 ->
    exists m' g' front' last',
      interp (main_loop l m) g = Ok ((tt, m'), g') /\
      datacollector (MesaTime.fields m') = front' ++ [last'] /\
      Forall (fun s => snap_infected s <> 0) front' /\
      running (MesaTime.fields m') = negb (snap_infected last' =? 0) /\
      now m' = Z.of_nat (length front') + 1 /\
      (length front' <= length front + length l)%nat /\
      ((length front' < length front + length l)%nat -> snap_infected last' = 0).
Proof.
  induction l as [|i rest IH]; intros c m g front last HI Hrows Hnz Hrun Hnow.
  - exists m, g, front, last. simpl. repeat split; auto; lia.
  - cbn [main_loop]. rewrite interp_bind. unfold gets at 1. cbn [interp].
    destruct (running (MesaTime.fields m)) eqn:Er.
    + rewrite interp_bind.
      destruct (cv_tick g HI) as (m1 & g1 & E1 & [c1 HI1] & Ht). rewrite E1.
      destruct Ht as [Ht1 _ Ht3 Ht4 _].
      assert (Hlast : snap_infected last <> 0).
      { intros H0. rewrite H0 in Hrun. discriminate. }
      destruct (IH c1 m1 g1 (front ++ [last]) (snapshot_of m1) HI1) as
        (m' & g' & front' & last' & E & H1 & H2 & H3 & H4 & H5 & H6).
      * rewrite Ht3, Hrows; reflexivity.
      * apply Forall_app. split; [exact Hnz|]. constructor; [exact Hlast|constructor].
      * rewrite Ht4, Er. reflexivity.
      * rewrite Ht1, Hnow, length_app. simpl. lia.
      * exists m', g', front', last'. rewrite length_app in H5, H6. simpl in *.
        repeat split; auto; try lia; try (intros Hlt; apply H6; lia).
    + exists m, g, front, last. simpl. repeat split; auto; try lia.
      rewrite Er. exact Hrun.
Qed.

Lemma cv_main_block_outcome (cfg : Config) (simulation_steps : Z) g :
  0 < cfg_width cfg -> 0 < cfg_height cfg ->
  exists m g',
    interp (main_block cfg simulation_steps) g = Ok (m, g') /\
    main_outcome simulation_steps (datacollector (MesaTime.fields m))
                 (running (MesaTime.fields m)) (now m).
Proof.
  intros Hw Hh.
  destruct (safe_interp laws (cv_InfectionModel_safe cfg Hw Hh) g) as (m0 & g0 & E0 & HI0).
  assert (HI0' := HI0). rewrite (cv_Inv_frame HI0) in HI0'.
  destruct (cv_tick g0 HI0') as (m1 & g1 & E1 & [c1 HI1] & Ht).
  destruct HI0 as [_ Hf _ _ _ _]. unfold frame_of, empty_model in Hf.
  injection Hf as Hsteps Htime _ Hrun _ _ Hdc _ _.
  destruct Ht as [Ht1 _ Ht3 Ht4 _].
  destruct (@cv_main_loop _ [] (range (simulation_steps - 1)) c1 m1 g1 [] (snapshot_of m1) HI1)
    as (m' & g' & front' & last' & E & H1 & H2 & H3 & H4 & H5 & H6).
  - rewrite Ht3, Hdc; reflexivity.
  - constructor.
  - rewrite Ht4, Hrun. reflexivity.
  - rewrite Ht1. unfold now. rewrite Htime. reflexivity.
  - exists m', g'. split.
    + unfold main_block. rewrite interp_pbind, E0, interp_pbind, interp_bind, E1, E.
      reflexivity.
    + assert (Hlen : length (range (simulation_steps - 1)) = Z.to_nat (simulation_steps - 1)).
      { unfold range. rewrite length_map, length_seq. reflexivity. }
      exists front', last'. rewrite H1, length_app. simpl in *.
      repeat split; auto; try lia; try (intros Hlt; apply H6; lia).
Qed.

End ComportamientoMain.

(** X9.  The [__main__] block of either model, for any constructor arguments
    with a grid of positive size and any [SIMULATION_STEPS], runs to its end.
    It records at least one row, since the first tick is unconditional, and
    at most [SIMULATION_STEPS]; every row but the last has infected agents,
    and when the run stops short of [SIMULATION_STEPS] the last row has
    none.  At the end [running] tells whether the last row has infected
    agents, and the clock equals the number of rows. *)
Theorem main_block_stops_when_nobody_is_infected (RS : RandomSource) (laws : RandomLaws RS)
    (cv : ComportamientoVirus.Config) (est : VirusConEstrategias.Config)
    (simulation_steps : Z) (g : rng) :
  0 < ComportamientoVirus.cfg_width cv -> 0 < ComportamientoVirus.cfg_height cv ->
  0 < VirusConEstrategias.cfg_width est -> 0 < VirusConEstrategias.cfg_height est ->
  (exists m g',
     interp (ComportamientoVirus.main_block cv simulation_steps) g = Ok (m, g') /\
     main_outcome simulation_steps
       (ComportamientoVirus.datacollector (MesaTime.fields m))
       (ComportamientoVirus.running (MesaTime.fields m)) (ComportamientoVirus.now m)) /\
  (exists m g',
     interp (VirusConEstrategias.main_block est simulation_steps) g = Ok (m, g') /\
     main_outcome simulation_steps
       (VirusConEstrategias.datacollector (MesaTime.fields m))
       (VirusConEstrategias.running (MesaTime.fields m)) (VirusConEstrategias.now m)).
Proof.
  intros Hw Hh Hw' Hh'. split.
  - apply cv_main_block_outcome; assumption.
  - apply est_main_block_outcome; assumption.
Qed.

(** X10.  In both models, after construction and [n] ticks the scheduler's
    [steps] and [time] both equal [n], and the data collector holds [n]
    rows. *)
Theorem clock_counts_ticks (RS : RandomSource) (laws : RandomLaws RS)
    (cv : ComportamientoVirus.Config) (est : VirusConEstrategias.Config) (n : nat) (g : rng) :
  0 < ComportamientoVirus.cfg_width cv -> 0 < ComportamientoVirus.cfg_height cv ->
  0 < VirusConEstrategias.cfg_width est -> 0 < VirusConEstrategias.cfg_height est ->
  (exists m g',
     interp (ComportamientoVirus.simulate cv n) g = Ok (m, g') /\
     MesaTime.steps (MesaTime.schedule m) = Z.of_nat n /\
     MesaTime.time (MesaTime.schedule m) = Z.of_nat n /\
     length (ComportamientoVirus.datacollector (MesaTime.fields m)) = n) /\
  (exists m g',
     interp (VirusConEstrategias.simulate est n) g = Ok (m, g') /\
     MesaTime.steps (MesaTime.schedule m) = Z.of_nat n /\
     MesaTime.time (MesaTime.schedule m) = Z.of_nat n /\
     length (VirusConEstrategias.datacollector (MesaTime.fields m)) = n).
Proof.
  intros Hw Hh Hw' Hh'. split.
  - destruct (cv_run laws cv n g Hw Hh) as (m0 & g0 & m & g' & _ & E1 & E & HI0 & _ & _).
    exists m, g'. split; [exact E|].
    assert (HI0' := HI0). rewrite (cv_Inv_frame HI0) in HI0'.
    destruct (cv_steps_clock laws _ _ HI0' E1) as (H1 & H2 & H3).
    destruct HI0 as [_ Hf _ _ _ _].
    unfold ComportamientoSpec.frame_of, ComportamientoVirus.empty_model in Hf.
    injection Hf as Hsteps Htime _ _ _ _ Hdc _ _.
    unfold ComportamientoVirus.now in H2. rewrite H1, H2, H3, Hsteps, Htime, Hdc.
    simpl. repeat split; lia.
  - destruct (est_run laws est n g Hw' Hh') as (m0 & g0 & m & g' & _ & E1 & E & HI0 & _ & _).
    exists m, g'. split; [exact E|].
    assert (HI0' := HI0). rewrite (est_Inv_frame HI0) in HI0'.
    destruct (est_steps_clock laws _ _ HI0' E1) as (H1 & H2 & H3).
    destruct HI0 as [_ Hf _ _ _ _].
    unfold EstrategiasSpec.frame_of, VirusConEstrategias.empty_model in Hf.
    injection Hf as Hsteps Htime _ _ _ _ _ _ Hdc _ _.
    unfold VirusConEstrategias.now in H2. rewrite H1, H2, H3, Hsteps, Htime, Hdc.
    simpl. repeat split; lia.
Qed.



(** ** Partial correctness *)

Lemma leaves_mono {A : Type} (Q Q' : A -> Prop) (p : Prog A) :
  (forall a, Q a -> Q' a) -> leaves Q p -> leaves Q' p.
Proof. intros H L. induction L; constructor; auto. Qed.

Lemma leaves_pbind {A B : Type} (Q : B -> Prop) (p : Prog A) (f : A -> Prog B) :
  leaves (fun a => leaves Q (f a)) p -> leaves Q (pbind p f).
Proof. intros L. induction L; simpl; try constructor; auto. Qed.

Lemma leaves_interp {RS : RandomSource} {A : Type} (Q : A -> Prop) (p : Prog A) :
  leaves Q p -> forall g a g', interp p g = Ok (a, g') -> Q a.
Proof.
  intros L. induction L; intros g x g' E; simpl in E.
  - inversion E; subst. assumption.
  - discriminate.
  - destruct (rng_random g) as [q g1]. eauto.
  - destruct (rng_randrange n g) as [z g1]. eauto.
  - destruct (rng_choice n g) as [i g1]. eauto.
  - destruct (rng_shuffle l g) as [l' g1]. eauto.
Qed.

Lemma safe_leaves {A : Type} (Q Q' : A -> Prop) (p : Prog A) :
  safe Q p -> leaves Q' p -> safe (fun a => Q a /\ Q' a) p.
Proof.
  intros Hs. induction Hs; intros L; inversion L; subst; constructor; auto.
Qed.

Section Ensures.
Variable S : Type.

Lemma ensures_ret {A : Type} (P : S -> Prop) (a : A) (Q : A -> S -> Prop) :
  (forall s, P s -> Q a s) -> ensures P (ret a) Q.
Proof. intros H s Hs. constructor. simpl. auto. Qed.

Lemma ensures_bind {A B : Type} (P : S -> Prop) (c : M S A) (R : A -> S -> Prop)
    (f : A -> M S B) (Q : B -> S -> Prop) :
  ensures P c R -> (forall a, ensures (R a) (f a) Q) -> ensures P (bind c f) Q.
Proof.
  intros Hc Hf s Hs. unfold bind. apply leaves_pbind.
  eapply leaves_mono; [|apply Hc; exact Hs].
  intros [a s'] HR. apply Hf. exact HR.
Qed.

Lemma ensures_conseq {A : Type} (P P' : S -> Prop) (c : M S A) (Q Q' : A -> S -> Prop) :
  ensures P c Q -> (forall s, P' s -> P s) -> (forall a s, Q a s -> Q' a s) ->
  ensures P' c Q'.
Proof.
  intros H HP HQ s Hs. eapply leaves_mono; [|apply H; auto].
  intros [a s']. apply HQ.
Qed.

Lemma ensures_gets {A : Type} (P : S -> Prop) (f : S -> A) (Q : A -> S -> Prop) :
  (forall s, P s -> Q (f s) s) -> ensures P (gets f) Q.
Proof. intros H s Hs. constructor. simpl. auto. Qed.

Lemma ensures_modify (P : S -> Prop) (f : S -> S) (Q : unit -> S -> Prop) :
  (forall s, P s -> Q tt (f s)) -> ensures P (modify f) Q.
Proof. intros H s Hs. constructor. simpl. auto. Qed.

Lemma ensures_shuffle (P : S -> Prop) (l : list Z) (Q : list Z -> S -> Prop) :
  (forall l' s, P s -> Q l' s) -> ensures P (random_shuffle l) Q.
Proof.
  intros H s Hs. unfold random_shuffle, lift. simpl. constructor. intros l'.
  constructor. simpl. auto.
Qed.

Lemma ensures_for_each {X : Type} (I : S -> Prop) (l : list X) (body : X -> M S unit) :
  (forall x, ensures I (body x) (fun _ => I)) ->
  ensures I (for_each l body) (fun _ => I).
Proof.
  intros H. induction l as [|x rest IH]; simpl.
  - apply ensures_ret. auto.
  - eapply ensures_bind; [apply H|]. intros ?. exact IH.
Qed.

End Ensures.

Section PassEnsures.
Variables Agent Fields : Type.
Variable call : string -> Agent -> M (MesaTime.Model Agent Fields) unit.
Variable I : MesaTime.Model Agent Fields -> Prop.

Lemma activation_pass_ensures method agent_keys :
  (forall a, ensures I (call method a) (fun _ => I)) ->
  ensures I (MesaTime.activation_pass call method agent_keys) (fun _ => I).
Proof.
  intros Hcall. induction agent_keys as [|key rest IH]; simpl.
  - apply ensures_ret. auto.
  - eapply ensures_bind with (R := fun _ => I).
    { apply ensures_gets. auto. }
    intros [a|].
    + eapply ensures_bind; [apply Hcall|].
      intros ?. eapply ensures_bind; [exact IH|].
      intros evs. apply ensures_ret. auto.
    + eapply ensures_bind; [exact IH|].
      intros evs. apply ensures_ret. auto.
Qed.

Lemma RandomActivation_step_ensures :
  (forall a, ensures I (call "step" a) (fun _ => I)) ->
  ensures I (MesaTime.RandomActivation_step call)
          (fun _ m' => exists m1, I m1 /\ m' = MesaTime.tick_clock m1).
Proof.
  intros Hcall. unfold MesaTime.RandomActivation_step.
  eapply ensures_bind with (R := fun _ => I).
  { unfold MesaTime.agent_buffer.
    eapply ensures_bind with (R := fun _ => I); [apply ensures_gets; auto|].
    intros agent_keys. apply ensures_shuffle. auto. }
  intros agent_keys.
  eapply ensures_bind; [apply activation_pass_ensures; exact Hcall|].
  intros evs.
  eapply ensures_bind with (R := fun _ m' => exists m1, I m1 /\ m' = MesaTime.tick_clock m1).
  { apply ensures_modify. intros m Hm. eauto. }
  intros ?. apply ensures_ret. auto.
Qed.

End PassEnsures.

(** ** The course of an agent *)

Section EstrategiasCourseFacts.
Import VirusConEstrategias EstrategiasSpec EstrategiasTick EstrategiasCourse.

Lemma est_course_weaken rt q lo hi lo' hi' a a' :
  lo' <= lo -> hi <= hi' -> course rt q lo hi a a' -> course rt q lo' hi' a a'.
Proof.
  intros Hlo Hhi C. induction C.
  - constructor.
  - apply course_infected; auto. lia.
  - eapply course_recovered with (t := t); auto. lia.
Qed.

Lemma est_course_trans rt q lo hi a b c :
  course rt q lo hi a b -> course rt q lo hi b c -> course rt q lo hi a c.
Proof.
  intros C1 C2. induction C2.
  - exact C1.
  - apply course_infected; auto.
  - eapply course_recovered with (t := t); auto.
Qed.

Lemma est_course_id rt q lo hi a a' : course rt q lo hi a a' -> unique_id a' = unique_id a.
Proof.
  intros C. induction C; [reflexivity| |].
  - rewrite <- IHC. unfold infected_at. destruct q; reflexivity.
  - rewrite <- IHC. unfold recovered. destruct (is_quarantined b); reflexivity.
Qed.

Lemma est_recovered_state a : state (recovered a) = Recovered.
Proof. unfold recovered. destruct (is_quarantined a); reflexivity. Qed.

Lemma est_infected_at_state t q a : state (infected_at t q a) = Infected.
Proof. unfold infected_at. destruct q; reflexivity. Qed.

Lemma est_infected_at_time t q a : infection_time (infected_at t q a) = t.
Proof. unfold infected_at. destruct q; reflexivity. Qed.

Lemma est_recovered_time a : infection_time (recovered a) = infection_time a.
Proof. unfold recovered. destruct (is_quarantined a); reflexivity. Qed.

Lemma est_course_rank rt q lo hi a a' :
  course rt q lo hi a a' -> rank (state a) <= rank (state a').
Proof.
  intros C. induction C; [lia| |].
  - rewrite est_infected_at_state. rewrite H in IHC. simpl in *. lia.
  - rewrite est_recovered_state. destruct (state a); simpl; lia.
Qed.

(** A recovered agent stays as it is. *)
Lemma est_course_from_recovered rt q lo hi a a' :
  course rt q lo hi a a' -> state a = Recovered -> a' = a.
Proof.
  intros C Ha. induction C; [reflexivity| |]; specialize (IHC Ha); subst b; congruence.
Qed.

(** An infected agent stays as it is until it recovers, at a time at which
    it is due. *)
Lemma est_course_from_infected rt q lo hi a a' :
  course rt q lo hi a a' -> state a = Infected ->
  a' = a \/
  (a' = recovered a /\ exists t, lo <= t < hi /\ rt <= t - infection_time a).
Proof.
  intros C Ha. induction C; [left; reflexivity| |]; specialize (IHC Ha).
  - destruct IHC as [->|[-> _]]; [congruence|].
    rewrite est_recovered_state in H. discriminate.
  - destruct IHC as [->|[-> _]]; [right; eauto|].
    rewrite est_recovered_state in H. discriminate.
Qed.

(** A susceptible agent stays as it is until it is infected, and the time
    written to it then is a time of the course. *)
Lemma est_course_from_susceptible rt q lo hi a a' :
  course rt q lo hi a a' -> state a = Susceptible ->
  a' = a \/ (state a' <> Susceptible /\ lo <= infection_time a' < hi).
Proof.
  intros C Ha. induction C; [left; reflexivity| |]; specialize (IHC Ha).
  - right. rewrite est_infected_at_state, est_infected_at_time. split; [discriminate|lia].
  - destruct IHC as [->|[_ Ht]]; [congruence|].
    right. rewrite est_recovered_state, est_recovered_time. split; [discriminate|lia].
Qed.

(** Without the quarantine strategy nobody gets quarantined. *)
Lemma est_course_unquarantined rt lo hi a a' :
  course rt false lo hi a a' -> is_quarantined a = false -> is_quarantined a' = false.
Proof.
  intros C Ha. induction C; [exact Ha| |]; specialize (IHC Ha).
  - exact IHC.
  - unfold recovered. rewrite IHC. exact IHC.
Qed.

Lemma est_follows_refl (m : Model) lo hi :
  follows (recovery_time (MesaTime.fields m)) (quarantine_enabled (MesaTime.fields m))
          lo hi m m.
Proof. split; [reflexivity..|]. intros k a E. exists a. split; [exact E|constructor]. Qed.

Lemma est_follows_same rt q lo hi (m0 m m' : Model) :
  follows rt q lo hi m0 m ->
  the_agents m' = the_agents m ->
  recovery_time (MesaTime.fields m') = recovery_time (MesaTime.fields m) ->
  quarantine_enabled (MesaTime.fields m') = quarantine_enabled (MesaTime.fields m) ->
  follows rt q lo hi m0 m'.
Proof.
  intros [H1 H2 H3] Ea Er Eq. split; [congruence..|]. rewrite Ea. exact H3.
Qed.

Lemma est_follows_update rt q lo hi (m0 m m' : Model) k (F : InfectionAgent -> InfectionAgent) :
  follows rt q lo hi m0 m ->
  the_agents m' = dict_update k F (the_agents m) ->
  recovery_time (MesaTime.fields m') = recovery_time (MesaTime.fields m) ->
  quarantine_enabled (MesaTime.fields m') = quarantine_enabled (MesaTime.fields m) ->
  (forall a b, dict_get k (the_agents m) = Some b -> course rt q lo hi a b ->
               course rt q lo hi a (F b)) ->
  follows rt q lo hi m0 m'.
Proof.
  intros [H1 H2 H3] Ea Er Eq HF. split; [congruence..|].
  intros k' a E. destruct (H3 k' a E) as (b & Eb & C).
  rewrite Ea, dict_get_update. destruct (Z.eqb_spec k' k) as [->|Hne].
  - rewrite Eb. simpl. eexists. split; [reflexivity|]. apply HF; assumption.
  - eauto.
Qed.

Lemma est_follows_weaken rt q lo hi lo' hi' (m0 m : Model) :
  lo' <= lo -> hi <= hi' -> follows rt q lo hi m0 m -> follows rt q lo' hi' m0 m.
Proof.
  intros Hlo Hhi [H1 H2 H3]. split; auto.
  intros k a E. destruct (H3 k a E) as (b & Eb & C). exists b. split; [exact Eb|].
  eapply est_course_weaken; eauto.
Qed.

Lemma est_follows_trans rt q lo hi (m0 m1 m2 : Model) :
  follows rt q lo hi m0 m1 -> follows rt q lo hi m1 m2 -> follows rt q lo hi m0 m2.
Proof.
  intros [H1 H2 H3] [H1' H2' H3']. split; auto.
  intros k a E. destruct (H3 k a E) as (b & Eb & C).
  destruct (H3' k b Eb) as (c & Ec & C'). exists c. split; [exact Ec|].
  eapply est_course_trans; eauto.
Qed.

End EstrategiasCourseFacts.

Section EstrategiasCourseMethods.
Import VirusConEstrategias EstrategiasSpec EstrategiasTick EstrategiasCourse.

Ltac munfold :=
  unfold frame_of, population, update_agent, modify,
    set_grid, set_calls, set_running, set_datacollector in *;
  unfold the_agents, the_grid, now,
    MesaTime.set_schedule, MesaTime.set_agents, MesaTime.set_fields in *;
  simpl in *.

Variables (rt : Z) (q : bool) (lo t : Z) (m0 : Model).

Lemma est_within_same (m m' : Model) :
  within_tick rt q lo t m0 m ->
  the_agents m' = the_agents m -> now m' = now m ->
  recovery_time (MesaTime.fields m') = recovery_time (MesaTime.fields m) ->
  quarantine_enabled (MesaTime.fields m') = quarantine_enabled (MesaTime.fields m) ->
  within_tick rt q lo t m0 m'.
Proof.
  intros (Ht & Hlo & HF) Ea En Er Eq. split; [congruence|]. split; [exact Hlo|].
  eapply est_follows_same; eauto.
Qed.

Lemma est_within_recover (m m' : Model) k a F :
  within_tick rt q lo t m0 m ->
  dict_get k (the_agents m) = Some a -> state a = Infected ->
  recovery_time (MesaTime.fields m) <= now m - infection_time a ->
  F a = recovered a ->
  the_agents m' = dict_update k F (the_agents m) -> now m' = now m ->
  recovery_time (MesaTime.fields m') = recovery_time (MesaTime.fields m) ->
  quarantine_enabled (MesaTime.fields m') = quarantine_enabled (MesaTime.fields m) ->
  within_tick rt q lo t m0 m'.
Proof.
  intros (Ht & Hlo & HF) Ek Es Hdue EF Ea En Er Eq. split; [congruence|]. split; [exact Hlo|].
  eapply est_follows_update; eauto.
  intros a0 b Eb C. rewrite Ek in Eb. inversion Eb; subst b. rewrite EF.
  apply course_recovered with (t := now m); auto; [lia|].
  destruct HF as [H1 _ _]. rewrite <- H1. exact Hdue.
Qed.

Lemma est_within_infect (m m' : Model) k a F :
  within_tick rt q lo t m0 m ->
  dict_get k (the_agents m) = Some a -> state a = Susceptible ->
  F a = infected_at (now m) (quarantine_enabled (MesaTime.fields m)) a ->
  the_agents m' = dict_update k F (the_agents m) -> now m' = now m ->
  recovery_time (MesaTime.fields m') = recovery_time (MesaTime.fields m) ->
  quarantine_enabled (MesaTime.fields m') = quarantine_enabled (MesaTime.fields m) ->
  within_tick rt q lo t m0 m'.
Proof.
  intros (Ht & Hlo & HF) Ek Es EF Ea En Er Eq. split; [congruence|]. split; [exact Hlo|].
  eapply est_follows_update; eauto.
  intros a0 b Eb C. rewrite Ek in Eb. inversion Eb; subst b. rewrite EF.
  destruct HF as [_ H2 _]. rewrite H2.
  apply course_infected; auto. lia.
Qed.

Lemma est_log_call_ensures self method :
  ensures (within_tick rt q lo t m0) (log_call self method)
          (fun _ => within_tick rt q lo t m0).
Proof.
  apply ensures_modify. intros m HW. eapply est_within_same; eauto.
Qed.

Lemma est_place_at_random_ensures self :
  ensures (within_tick rt q lo t m0) (place_at_random self)
          (fun _ => within_tick rt q lo t m0).
Proof.
  intros m HW.
  unfold place_at_random, bind, gets, random_randrange. simpl.
  destruct (Grid.width (the_grid m) <=? 0); [constructor|].
  unfold lift. simpl. constructor. intros x.
  destruct (Grid.height (the_grid m) <=? 0); [constructor|].
  simpl. constructor. intros y. unfold on_grid.
  destruct (Grid.place_agent self (x, y) (the_grid m)); simpl; constructor.
  simpl. eapply est_within_same; eauto.
Qed.

Lemma est_update_status_ensures self :
  ensures (within_tick rt q lo t m0) (update_status self)
          (fun _ => within_tick rt q lo t m0).
Proof.
  unfold update_status.
  eapply ensures_bind; [apply est_log_call_ensures|].
  intros _ m HW. unfold bind, get_agent.
  destruct (dict_get self (the_agents m)) as [a|] eqn:Ea; [|constructor]. simpl.
  destruct (state_eqb (state a) Infected) eqn:Es; [|constructor; exact HW].
  apply state_eqb_eq in Es. unfold gets. simpl.
  destruct (Z.leb_spec (recovery_time (MesaTime.fields m)) (now m - infection_time a));
    [|constructor; exact HW].
  unfold update_agent, modify. simpl.
  destruct (is_quarantined a) eqn:Eq0.
  - simpl. eapply leaves_mono; [|apply est_place_at_random_ensures].
    + intros [u m'] H'. exact H'.
    + eapply est_within_recover with (k := self)
        (F := fun a => set_is_quarantined false (set_state Recovered a)); eauto.
      * unfold recovered. rewrite Eq0. reflexivity.
      * munfold. rewrite dict_update_update. reflexivity.
  - constructor. simpl.
    eapply est_within_recover with (k := self) (F := set_state Recovered); eauto.
    unfold recovered. rewrite Eq0. reflexivity.
Qed.

Lemma est_move_ensures self :
  ensures (within_tick rt q lo t m0) (move self) (fun _ => within_tick rt q lo t m0).
Proof.
  unfold move.
  eapply ensures_bind; [apply est_log_call_ensures|].
  intros _ m HW. unfold bind, random_random, lift. simpl. constructor. intros r.
  unfold gets. simpl.
  destruct (Qlt_bool (social_distancing_rate (MesaTime.fields m)) r);
    [|constructor; exact HW].
  unfold self_pos.
  destruct (Grid.agent_pos self (the_grid m)) as [pos|]; [|constructor]. simpl.
  unfold random_choice.
  destruct (Grid.get_neighborhood (the_grid m) pos) as [|c cs]; [constructor|].
  unfold lift. simpl. constructor. intros i.
  destruct (nth_error (c :: cs) i) as [new_position|]; [|constructor]. simpl.
  unfold on_grid.
  destruct (Grid.move_agent self new_position (the_grid m)); simpl; constructor.
  simpl. eapply est_within_same; eauto.
Qed.

Lemma est_infect_other_ensures other :
  ensures (within_tick rt q lo t m0) (infect_other other)
          (fun _ => within_tick rt q lo t m0).
Proof.
  intros m HW. unfold infect_other, bind, get_agent.
  destruct (dict_get other (the_agents m)) as [o|] eqn:Eo; [|constructor]. simpl.
  destruct (state_eqb (state o) Susceptible) eqn:Es; [|constructor; exact HW].
  apply state_eqb_eq in Es.
  unfold random_random, lift. simpl. constructor. intros r.
  unfold gets. simpl.
  destruct (Qlt_bool r (infection_rate (MesaTime.fields m))); [|constructor; exact HW].
  unfold update_agent, modify. simpl.
  destruct (quarantine_enabled (MesaTime.fields m)) eqn:Eq0; simpl; constructor; simpl.
  - eapply est_within_infect with (k := other)
      (F := fun a => set_is_quarantined true
                       (set_infection_time (now m) (set_state Infected a))); eauto.
    + rewrite Eq0. reflexivity.
    + munfold. rewrite !dict_update_update. reflexivity.
  - eapply est_within_infect with (k := other)
      (F := fun a => set_infection_time (now m) (set_state Infected a)); eauto.
    + rewrite Eq0. reflexivity.
    + munfold. rewrite !dict_update_update. reflexivity.
Qed.

Lemma est_infect_ensures self :
  ensures (within_tick rt q lo t m0) (infect self) (fun _ => within_tick rt q lo t m0).
Proof.
  unfold infect.
  eapply ensures_bind; [apply est_log_call_ensures|].
  intros _ m HW. unfold bind, get_agent.
  destruct (dict_get self (the_agents m)) as [a|] eqn:Ea; [|constructor]. simpl.
  destruct (state_eqb (state a) Infected); [|constructor; exact HW].
  unfold self_pos.
  destruct (Grid.agent_pos self (the_grid m)) as [pos|]; [|constructor].
  simpl. unfold gets. simpl.
  apply ensures_for_each; [|exact HW].
  intros other. apply est_infect_other_ensures.
Qed.

Lemma est_agent_step_ensures self :
  ensures (within_tick rt q lo t m0) (agent_step self)
          (fun _ => within_tick rt q lo t m0).
Proof.
  unfold agent_step.
  eapply ensures_bind with (R := fun _ => within_tick rt q lo t m0).
  { intros m HW. unfold get_agent.
    destruct (dict_get self (the_agents m)); constructor. exact HW. }
  intros a. destruct (is_quarantined a).
  - apply est_update_status_ensures.
  - eapply ensures_bind; [apply est_update_status_ensures|].
    intros ?. eapply ensures_bind; [apply est_move_ensures|].
    intros ?. apply est_infect_ensures.
Qed.

Lemma est_call_ensures method a :
  ensures (within_tick rt q lo t m0) (call method a) (fun _ => within_tick rt q lo t m0).
Proof.
  unfold call. destruct (String.eqb method "step").
  - apply est_agent_step_ensures.
  - destruct (String.eqb method "update_status"); [apply est_update_status_ensures|].
    destruct (String.eqb method "move"); [apply est_move_ensures|].
    destruct (String.eqb method "infect"); [apply est_infect_ensures|].
    intros m _. constructor.
Qed.

End EstrategiasCourseMethods.

Lemma leaves_conj {A : Type} (Q Q' : A -> Prop) (p : Prog A) :
  leaves Q p -> leaves Q' p -> leaves (fun a => Q a /\ Q' a) p.
Proof.
  intros L. induction L; intros L'; inversion L'; subst; constructor; auto.
Qed.

Lemma leaves_impl {A : Type} (phi : Prop) (Q : A -> Prop) (p : Prog A) :
  (phi -> leaves Q p) -> leaves (fun a => phi -> Q a) p.
Proof.
  induction p as [a|e|k IH|n k IH|n k IH|l k IH]; intros H; constructor.
  - intros Hphi. specialize (H Hphi). inversion H; assumption.
  - intros x. apply IH. intros Hphi. specialize (H Hphi). inversion H; subst. auto.
  - intros x. apply IH. intros Hphi. specialize (H Hphi). inversion H; subst. auto.
  - intros x. apply IH. intros Hphi. specialize (H Hphi). inversion H; subst. auto.
  - intros x. apply IH. intros Hphi. specialize (H Hphi). inversion H; subst. auto.
Qed.

Section EstrategiasCourseRuns.
Import VirusConEstrategias EstrategiasSpec EstrategiasTick EstrategiasCourse.

Ltac munfold :=
  unfold frame_of, population, update_agent, modify,
    set_grid, set_calls, set_running, set_datacollector in *;
  unfold the_agents, the_grid, now,
    MesaTime.set_schedule, MesaTime.set_agents, MesaTime.set_fields in *;
  simpl in *.

(** One tick, from a state at time [t] whose agents have followed a course
    since [lo], extends the course by the time [t]. *)
Lemma est_step_ensures rt q lo t (m0 : Model) :
  lo <= t ->
  ensures (fun m => now m = t /\ follows rt q lo t m0 m) step
          (fun _ m' => now m' = t + 1 /\ follows rt q lo (t + 1) m0 m').
Proof.
  intros Hlo. unfold step.
  eapply ensures_bind with
    (R := fun _ m' => exists m1, within_tick rt q lo t m0 m1 /\ m' = MesaTime.tick_clock m1).
  { eapply ensures_conseq;
      [apply (@RandomActivation_step_ensures _ _ call (within_tick rt q lo t m0))| |].
    - intros a. apply est_call_ensures.
    - intros m (Ht & HF). split; [exact Ht|]. split; [exact Hlo|].
      eapply est_follows_weaken; [| |exact HF]; lia.
    - auto. }
  intros ? m (m1 & (Ht & _ & HF) & ->).
  unfold bind, collect, modify, gets. simpl.
  match goal with |- context [if ?b then _ else _] => destruct b end.
  - constructor. simpl. split.
    + munfold. lia.
    + eapply est_follows_same; [exact HF|reflexivity..].
  - constructor. simpl. split.
    + munfold. lia.
    + eapply est_follows_same; [exact HF|reflexivity..].
Qed.

Lemma est_steps_n_ensures rt q lo (m0 : Model) k :
  forall t, lo <= t ->
  ensures (fun m => now m = t /\ follows rt q lo t m0 m) (steps_n k)
          (fun _ m' => now m' = t + Z.of_nat k /\ follows rt q lo (t + Z.of_nat k) m0 m').
Proof.
  induction k as [|k IH]; intros t Hlo.
  - simpl. apply ensures_ret. intros m (Ht & HF). rewrite Z.add_0_r. auto.
  - cbn [steps_n]. eapply ensures_bind; [apply est_step_ensures; exact Hlo|].
    intros ?. eapply ensures_conseq; [apply (IH (t + 1)); lia| |].
    + auto.
    + intros ? m [Ht HF]. replace (t + Z.of_nat (S k)) with (t + 1 + Z.of_nat k) by lia. auto.
Qed.

(** The agents after [k] ticks come from the agents before them by a
    course between the two times. *)
Lemma est_course_of_run {RS : RandomSource} (m : Model) k g m' g' :
  interp (steps_n k m) g = Ok ((tt, m'), g') ->
  follows (recovery_time (MesaTime.fields m)) (quarantine_enabled (MesaTime.fields m))
          (now m) (now m + Z.of_nat k) m m'.
Proof.
  intros E.
  assert (L := @est_steps_n_ensures (recovery_time (MesaTime.fields m))
                 (quarantine_enabled (MesaTime.fields m)) (now m) m k (now m)
                 (Z.le_refl _) m).
  assert (P : now m = now m /\
              follows (recovery_time (MesaTime.fields m))
                      (quarantine_enabled (MesaTime.fields m)) (now m) (now m) m m).
  { split; [reflexivity|]. apply est_follows_refl. }
  apply (leaves_interp (L P) _ E).
Qed.

End EstrategiasCourseRuns.

(** ** Recovery when it is due *)

Section EstrategiasDue.
Import VirusConEstrategias EstrategiasSpec EstrategiasTick EstrategiasCourse.

Ltac munfold :=
  unfold frame_of, population, update_agent, modify,
    set_grid, set_calls, set_running, set_datacollector in *;
  unfold the_agents, the_grid, now,
    MesaTime.set_schedule, MesaTime.set_agents, MesaTime.set_fields in *;
  simpl in *.

Lemma est_within_refl (m : Model) :
  within_tick (recovery_time (MesaTime.fields m)) (quarantine_enabled (MesaTime.fields m))
              (now m) (now m) m m.
Proof. split; [reflexivity|]. split; [lia|]. apply est_follows_refl. Qed.

(** A computation that extends courses keeps a recovered agent recovered. *)
Lemma est_keeps_recovered {A : Type} (c : M Model A) k :
  (forall rt q lo t m0,
     ensures (within_tick rt q lo t m0) c (fun _ => within_tick rt q lo t m0)) ->
  ensures (is_recovered k) c (fun _ => is_recovered k).
Proof.
  intros H m (a & Ea & Es).
  eapply leaves_mono; [|apply (H _ _ _ _ m m (est_within_refl m))].
  intros [x m'] (_ & _ & [_ _ HF]). simpl in *.
  destruct (HF k a Ea) as (a' & Ea' & C).
  exists a'. split; [exact Ea'|].
  rewrite (est_course_from_recovered C Es). exact Es.
Qed.

Lemma est_update_status_due self :
  ensures (due self) (update_status self) (fun _ => is_recovered self).
Proof.
  intros m (a & Ea & Es & Hdue).
  unfold update_status, bind, log_call, modify, get_agent. simpl.
  change (the_agents (set_calls (calls (MesaTime.fields m) ++ [(self, UpdateStatus)]) m))
    with (the_agents m).
  rewrite Ea. simpl. rewrite Es. simpl. unfold gets. simpl.
  change (now (set_calls (calls (MesaTime.fields m) ++ [(self, UpdateStatus)]) m))
    with (now m).
  destruct (Z.leb_spec (recovery_time (MesaTime.fields m)) (now m - infection_time a)); [|lia].
  unfold update_agent, modify. simpl.
  destruct (is_quarantined a).
  - simpl. eapply leaves_mono; [|apply (@est_keeps_recovered _ (place_at_random self) self)].
    + intros [u m'] H'. exact H'.
    + intros. apply est_place_at_random_ensures.
    + unfold is_recovered. munfold. rewrite !dict_get_update, Z.eqb_refl.
      rewrite Ea. simpl. eexists. split; [reflexivity|]. reflexivity.
  - constructor. simpl. unfold is_recovered. munfold. rewrite dict_get_update, Z.eqb_refl.
    rewrite Ea. simpl. eexists. split; [reflexivity|]. reflexivity.
Qed.

Lemma est_agent_step_due self :
  ensures (due self) (agent_step self) (fun _ => is_recovered self).
Proof.
  unfold agent_step.
  eapply ensures_bind with (R := fun _ => due self).
  { intros m Hd. unfold get_agent.
    destruct (dict_get self (the_agents m)); constructor. exact Hd. }
  intros a. destruct (is_quarantined a).
  - apply est_update_status_due.
  - eapply ensures_bind; [apply est_update_status_due|].
    intros ?. eapply ensures_bind.
    { apply est_keeps_recovered. intros. apply est_move_ensures. }
    intros ?. apply est_keeps_recovered. intros. apply est_infect_ensures.
Qed.

Section Pass.
Variable m0 : Model.
Hypothesis ids : forall k a, dict_get k (the_agents m0) = Some a -> unique_id a = k.


(** The turn of [key] in the tick that began in [m0]: if the agent was due
    when the tick began, it is recovered after its turn. *)
Lemma est_turn_due key a :
  ensures (fun m => in_tick_of m0 m /\ dict_get key (the_agents m) = Some a) (call "step" a)
          (fun _ m' => in_tick_of m0 m' /\ (due key m0 -> is_recovered key m')).
Proof.
  intros m [HW Ea]. apply leaves_conj.
  - apply est_call_ensures. exact HW.
  - apply leaves_impl. intros (a0 & Ea0 & Es0 & Hdue).
    destruct HW as (Ht & _ & [Hrt _ HF]).
    destruct (HF key a0 Ea0) as (a' & Ea' & C).
    rewrite Ea in Ea'. inversion Ea'; subst a'.
    assert (Hid : unique_id a = key).
    { rewrite (est_course_id C). apply ids. exact Ea0. }
    unfold call. simpl. rewrite Hid.
    destruct (est_course_from_infected C Es0) as [->|[-> _]].
    + apply est_agent_step_due. exists a0. split; [exact Ea|]. split; [exact Es0|].
      rewrite Hrt, Ht. exact Hdue.
    + apply (@est_keeps_recovered _ (agent_step key) key).
      * intros. apply est_agent_step_ensures.
      * eexists. split; [exact Ea|]. apply est_recovered_state.
Qed.

Lemma est_pass_due agent_keys :
  ensures (in_tick_of m0) (MesaTime.activation_pass call "step" agent_keys)
          (fun evs m' => in_tick_of m0 m' /\
             forall k, In (Activated k "step") evs -> due k m0 -> is_recovered k m').
Proof.
  induction agent_keys as [|key rest IH]; simpl.
  - apply ensures_ret. intros m HW. split; [exact HW|]. intros k [].
  - eapply ensures_bind with
      (R := fun present m => in_tick_of m0 m /\ present = dict_get key (the_agents m)).
    { apply ensures_gets. auto. }
    intros [a|].
    + eapply ensures_bind with
        (R := fun _ m' => in_tick_of m0 m' /\ (due key m0 -> is_recovered key m')).
      { eapply ensures_conseq; [apply (@est_turn_due key a)| |].
        - intros m [HW E]. split; [exact HW|congruence].
        - auto. }
      intros ?.
      eapply ensures_bind with
        (R := fun evs m' =>
                (in_tick_of m0 m' /\ forall k, In (Activated k "step") evs -> due k m0 -> is_recovered k m')
                /\ (due key m0 -> is_recovered key m')).
      { intros m [HW Hkey]. apply leaves_conj.
        - apply IH. exact HW.
        - apply leaves_impl. intros Hd.
          apply (@est_keeps_recovered _ (MesaTime.activation_pass call "step" rest) key).
          + intros. apply activation_pass_ensures. intros. apply est_call_ensures.
          + apply Hkey. exact Hd. }
      intros evs. apply ensures_ret. intros m [[HW Hrest] Hkey].
      split; [exact HW|]. intros k [Hk|Hk].
      * inversion Hk; subst. exact Hkey.
      * apply Hrest. exact Hk.
    + eapply ensures_bind with
        (R := fun evs m' =>
                in_tick_of m0 m' /\ forall k, In (Activated k "step") evs -> due k m0 -> is_recovered k m').
      { eapply ensures_conseq; [exact IH| |].
        - intros m [HW _]. exact HW.
        - auto. }
      intros evs. apply ensures_ret. intros m [HW Hrest].
      split; [exact HW|]. intros k [Hk|Hk]; [discriminate|]. apply Hrest. exact Hk.
Qed.

End Pass.

End EstrategiasDue.

Section EstrategiasDuration.
Import VirusConEstrategias EstrategiasSpec EstrategiasTick EstrategiasCourse.
Context {RS : RandomSource}.
Variable laws : RandomLaws RS.

Ltac munfold :=
  unfold frame_of, population, update_agent, modify,
    set_grid, set_calls, set_running, set_datacollector in *;
  unfold the_agents, the_grid, now,
    MesaTime.set_schedule, MesaTime.set_agents, MesaTime.set_fields in *;
  simpl in *.

(** A pass over the population, in any order, activates everybody. *)
Lemma est_pass_everyone N R0 c (m : Model) order g evs m' g' :
  Inv N (frame_of m) R0 c m ->
  Permutation (population m) order ->
  interp (MesaTime.activation_pass call "step" order m) g = Ok ((evs, m'), g') ->
  evs = map (fun key => Activated key "step") order.
Proof.
  intros HI Hp E.
  set (I := fun m' => exists c', Inv N (frame_of m) R0 c' m').
  assert (Hcall : forall key a,
            triple (fun m' => I m' /\
                      dict_get key (MesaTime._agents (MesaTime.schedule m')) = Some a)
                   (call "step" a) (fun _ => I)).
  { intros key a. apply est_call_triple. reflexivity. }
  assert (Hin : forall m' key, I m' -> In key order ->
            dict_get key (MesaTime._agents (MesaTime.schedule m')) <> None).
  { intros m1 key [c' HI'] Hk. apply dict_get_In_keys.
    destruct HI' as [Hk' _ _ _ _ _]. destruct HI as [Hk0 _ _ _ _ _].
    unfold population in *. rewrite Hk', <- Hk0.
    eapply Permutation_in; [apply Permutation_sym; exact Hp|exact Hk]. }
  destruct (safe_interp laws
              (@activation_pass_all_triple _ _ call I "step" order Hcall Hin m
                 (ex_intro _ c HI)) g)
    as ([evs' m1'] & g3' & E3 & _ & Hev).
  simpl in Hev. rewrite E in E3. inversion E3; subst. reflexivity.
Qed.

(** One tick recovers every agent that is due when it begins. *)
Lemma est_tick_recovers N R0 c (m : Model) g m1 g1 :
  Inv N (frame_of m) R0 c m ->
  interp (step m) g = Ok ((tt, m1), g1) ->
  forall k, due k m -> is_recovered k m1.
Proof.
  intros HI E k Hdue. unfold step in E. rewrite interp_bind in E.
  match type of E with
  | match ?x with _ => _ end = _ => destruct x as [[[passes m2] g2]|e] eqn:E1
  end; [|discriminate].
  destruct (RandomActivation_step_spec laws _ _ _ E1)
    as (order & g' & evs & mp & Hp & E2 & -> & ->).
  assert (Hev := est_pass_everyone _ HI Hp E2).
  assert (Hids : forall k a, dict_get k (the_agents m) = Some a -> unique_id a = k).
  { intros k0 a Ea. destruct HI as [_ _ _ _ Ha _]. specialize (Ha k0).
    rewrite Ea in Ha. apply Ha. }
  assert (L := @est_pass_due m Hids order m (est_within_refl m)).
  destruct (leaves_interp L _ E2) as [_ Hrec]. simpl in Hrec.
  assert (Hk : In (Activated k "step") evs).
  { rewrite Hev. apply in_map with (f := fun key => Activated key "step").
    eapply Permutation_in; [exact Hp|]. unfold population.
    apply dict_get_In_keys. destruct Hdue as (a & Ea & _). unfold the_agents in Ea. congruence. }
  specialize (Hrec k Hk Hdue).
  unfold bind, collect, modify, gets in E. simpl in E.
  match type of E with context [if ?b then _ else _] => destruct b end;
    simpl in E; inversion E; subst; exact Hrec.
Qed.

Lemma est_run_keeps_recovered (m : Model) j g m' g' k :
  interp (steps_n j m) g = Ok ((tt, m'), g') ->
  is_recovered k m -> is_recovered k m'.
Proof.
  intros E (a & Ea & Es). destruct (est_course_of_run _ _ _ E) as [_ _ HF].
  destruct (HF k a Ea) as (a' & Ea' & C). exists a'. split; [exact Ea'|].
  rewrite (est_course_from_recovered C Es). exact Es.
Qed.

(** An infected agent is still infected, and untouched, as long as the
    clock has not passed its infection time plus the recovery time. *)
Lemma est_stays_infected (m : Model) j g m' g' k a :
  interp (steps_n j m) g = Ok ((tt, m'), g') ->
  dict_get k (the_agents m) = Some a -> state a = Infected ->
  now m + Z.of_nat j <= infection_time a + recovery_time (MesaTime.fields m) ->
  dict_get k (the_agents m') = Some a.
Proof.
  intros E Ea Es Hle. destruct (est_course_of_run _ _ _ E) as [_ _ HF].
  destruct (HF k a Ea) as (a' & Ea' & C).
  destruct (est_course_from_infected C Es) as [->|[_ (t & Ht & Hd)]]; [exact Ea'|lia].
Qed.

(** An infected agent is recovered once the clock has passed its infection
    time plus the recovery time, and a tick has gone by. *)
Lemma est_recovers_in_time N R0 k a j :
  forall c (m : Model) g m' g',
    Inv N (frame_of m) R0 c m ->
    interp (steps_n j m) g = Ok ((tt, m'), g') ->
    dict_get k (the_agents m) = Some a -> state a = Infected ->
    (0 < j)%nat ->
    infection_time a + recovery_time (MesaTime.fields m) < now m + Z.of_nat j ->
    is_recovered k m'.
Proof.
  induction j as [|j IH]; intros c m g m' g' HI E Ea Es Hj Hlt; [lia|].
  cbn [steps_n] in E. rewrite interp_bind in E.
  destruct (est_tick laws g HI) as (m1 & g1 & E1 & [c1 HI1] & Ht). rewrite E1 in E.
  destruct Ht as [Ht1 _ _ _ Ht5].
  assert (Hrt : recovery_time (MesaTime.fields m1) = recovery_time (MesaTime.fields m)).
  { unfold params_of in Ht5. congruence. }
  destruct (Z.le_gt_cases (recovery_time (MesaTime.fields m)) (now m - infection_time a))
    as [Hdue|Hnot].
  - eapply est_run_keeps_recovered; [exact E|].
    eapply est_tick_recovers; [exact HI|exact E1|].
    exists a. auto.
  - assert (E1' : interp (steps_n 1 m) g = Ok ((tt, m1), g1)).
    { cbn [steps_n]. rewrite interp_bind, E1. reflexivity. }
    destruct (est_course_of_run _ _ _ E1') as [_ _ HF].
    destruct (HF k a Ea) as (a' & Ea' & C).
    destruct (est_course_from_infected C Es) as [->|[-> _]].
    + eapply (IH c1 m1 g1 m' g' HI1 E Ea' Es); lia.
    + eapply est_run_keeps_recovered; [exact E|].
      exists (recovered a). split; [exact Ea'|]. apply est_recovered_state.
Qed.

End EstrategiasDuration.


(** ** The course of an agent in the base model *)

Section ComportamientoCourseFacts.
Import ComportamientoVirus ComportamientoSpec ComportamientoCourse.

Lemma cv_course_weaken rt lo hi lo' hi' a a' :
  lo' <= lo -> hi <= hi' -> course rt lo hi a a' -> course rt lo' hi' a a'.
Proof.
  intros Hlo Hhi C. induction C.
  - constructor.
  - apply course_infected; auto. lia.
  - eapply course_recovered with (t := t); auto. lia.
Qed.

Lemma cv_course_trans rt lo hi a b c :
  course rt lo hi a b -> course rt lo hi b c -> course rt lo hi a c.
Proof.
  intros C1 C2. induction C2.
  - exact C1.
  - apply course_infected; auto.
  - eapply course_recovered with (t := t); auto.
Qed.

Lemma cv_course_id rt lo hi a a' : course rt lo hi a a' -> unique_id a' = unique_id a.
Proof. intros C. induction C; [reflexivity| |]; rewrite <- IHC; reflexivity. Qed.

Lemma cv_course_rank rt lo hi a a' :
  course rt lo hi a a' -> EstrategiasCourse.rank (state a) <= EstrategiasCourse.rank (state a').
Proof.
  intros C. induction C; [lia| |].
  - rewrite H in IHC. simpl in *. lia.
  - destruct (state a); simpl; lia.
Qed.

Lemma cv_course_from_recovered rt lo hi a a' :
  course rt lo hi a a' -> state a = Recovered -> a' = a.
Proof.
  intros C Ha. induction C; [reflexivity| |]; specialize (IHC Ha); subst b; congruence.
Qed.

Lemma cv_course_from_infected rt lo hi a a' :
  course rt lo hi a a' -> state a = Infected ->
  a' = a \/
  (a' = recovered a /\ exists t, lo <= t < hi /\ rt <= t - infection_time a).
Proof.
  intros C Ha. induction C; [left; reflexivity| |]; specialize (IHC Ha).
  - destruct IHC as [->|[-> _]]; [congruence|]. discriminate.
  - destruct IHC as [->|[-> _]]; [right; eauto|]. discriminate.
Qed.

Lemma cv_course_from_susceptible rt lo hi a a' :
  course rt lo hi a a' -> state a = Susceptible ->
  a' = a \/ (state a' <> Susceptible /\ lo <= infection_time a' < hi).
Proof.
  intros C Ha. induction C; [left; reflexivity| |]; specialize (IHC Ha).
  - right. simpl. split; [discriminate|lia].
  - destruct IHC as [->|[_ Ht]]; [congruence|].
    right. simpl. split; [discriminate|lia].
Qed.

Lemma cv_follows_refl (m : Model) lo hi :
  follows (recovery_time (MesaTime.fields m)) lo hi m m.
Proof. split; [reflexivity|]. intros k a E. exists a. split; [exact E|constructor]. Qed.

Lemma cv_follows_same rt lo hi (m0 m m' : Model) :
  follows rt lo hi m0 m ->
  the_agents m' = the_agents m ->
  recovery_time (MesaTime.fields m') = recovery_time (MesaTime.fields m) ->
  follows rt lo hi m0 m'.
Proof.
  intros [H1 H3] Ea Er. split; [congruence|]. rewrite Ea. exact H3.
Qed.

Lemma cv_follows_update rt lo hi (m0 m m' : Model) k (F : InfectionAgent -> InfectionAgent) :
  follows rt lo hi m0 m ->
  the_agents m' = dict_update k F (the_agents m) ->
  recovery_time (MesaTime.fields m') = recovery_time (MesaTime.fields m) ->
  (forall a b, dict_get k (the_agents m) = Some b -> course rt lo hi a b ->
               course rt lo hi a (F b)) ->
  follows rt lo hi m0 m'.
Proof.
  intros [H1 H3] Ea Er HF. split; [congruence|].
  intros k' a E. destruct (H3 k' a E) as (b & Eb & C).
  rewrite Ea, dict_get_update. destruct (Z.eqb_spec k' k) as [->|Hne].
  - rewrite Eb. simpl. eexists. split; [reflexivity|]. apply HF; assumption.
  - eauto.
Qed.

Lemma cv_follows_weaken rt lo hi lo' hi' (m0 m : Model) :
  lo' <= lo -> hi <= hi' -> follows rt lo hi m0 m -> follows rt lo' hi' m0 m.
Proof.
  intros Hlo Hhi [H1 H3]. split; auto.
  intros k a E. destruct (H3 k a E) as (b & Eb & C). exists b. split; [exact Eb|].
  eapply cv_course_weaken; eauto.
Qed.

End ComportamientoCourseFacts.

Section ComportamientoCourseMethods.
Import ComportamientoVirus ComportamientoSpec ComportamientoCourse.

Ltac cunfold :=
  unfold frame_of, population, update_agent, modify,
    set_grid, set_calls, set_running, set_datacollector in *;
  unfold the_agents, the_grid, now,
    MesaTime.set_schedule, MesaTime.set_agents, MesaTime.set_fields in *;
  simpl in *.

Variables (rt : Z) (lo t : Z) (m0 : Model).

Lemma cv_within_same (m m' : Model) :
  within_tick rt lo t m0 m ->
  the_agents m' = the_agents m -> now m' = now m ->
  recovery_time (MesaTime.fields m') = recovery_time (MesaTime.fields m) ->
  within_tick rt lo t m0 m'.
Proof.
  intros (Ht & Hlo & HF) Ea En Er. split; [congruence|]. split; [exact Hlo|].
  eapply cv_follows_same; eauto.
Qed.

Lemma cv_within_recover (m m' : Model) k a F :
  within_tick rt lo t m0 m ->
  dict_get k (the_agents m) = Some a -> state a = Infected ->
  recovery_time (MesaTime.fields m) <= now m - infection_time a ->
  F a = recovered a ->
  the_agents m' = dict_update k F (the_agents m) -> now m' = now m ->
  recovery_time (MesaTime.fields m') = recovery_time (MesaTime.fields m) ->
  within_tick rt lo t m0 m'.
Proof.
  intros (Ht & Hlo & HF) Ek Es Hdue EF Ea En Er. split; [congruence|]. split; [exact Hlo|].
  eapply cv_follows_update; eauto.
  intros a0 b Eb C. rewrite Ek in Eb. inversion Eb; subst b. rewrite EF.
  apply course_recovered with (t := now m); auto; [lia|].
  destruct HF as [H1 _]. rewrite <- H1. exact Hdue.
Qed.

Lemma cv_within_infect (m m' : Model) k a F :
  within_tick rt lo t m0 m ->
  dict_get k (the_agents m) = Some a -> state a = Susceptible ->
  F a = infected_at (now m) a ->
  the_agents m' = dict_update k F (the_agents m) -> now m' = now m ->
  recovery_time (MesaTime.fields m') = recovery_time (MesaTime.fields m) ->
  within_tick rt lo t m0 m'.
Proof.
  intros (Ht & Hlo & HF) Ek Es EF Ea En Er. split; [congruence|]. split; [exact Hlo|].
  eapply cv_follows_update; eauto.
  intros a0 b Eb C. rewrite Ek in Eb. inversion Eb; subst b. rewrite EF.
  apply course_infected; auto. lia.
Qed.

Lemma cv_log_call_ensures self method :
  ensures (within_tick rt lo t m0) (log_call self method)
          (fun _ => within_tick rt lo t m0).
Proof.
  apply ensures_modify. intros m HW. eapply cv_within_same; eauto.
Qed.

Lemma cv_update_status_ensures self :
  ensures (within_tick rt lo t m0) (update_status self)
          (fun _ => within_tick rt lo t m0).
Proof.
  unfold update_status.
  eapply ensures_bind; [apply cv_log_call_ensures|].
  intros _ m HW. unfold bind, get_agent.
  destruct (dict_get self (the_agents m)) as [a|] eqn:Ea; [|constructor]. simpl.
  destruct (state_eqb (state a) Infected) eqn:Es; [|constructor; exact HW].
  apply state_eqb_eq in Es. unfold gets. simpl.
  destruct (Z.leb_spec (recovery_time (MesaTime.fields m)) (now m - infection_time a));
    [|constructor; exact HW].
  unfold update_agent, modify. constructor. simpl.
  eapply cv_within_recover with (k := self) (F := set_state Recovered); eauto.
Qed.

Lemma cv_move_ensures self :
  ensures (within_tick rt lo t m0) (move self) (fun _ => within_tick rt lo t m0).
Proof.
  unfold move.
  eapply ensures_bind; [apply cv_log_call_ensures|].
  intros _ m HW. unfold bind, self_pos.
  destruct (Grid.agent_pos self (the_grid m)) as [pos|]; [|constructor]. simpl.
  unfold gets. simpl. unfold random_choice.
  destruct (Grid.get_neighborhood (the_grid m) pos) as [|c cs]; [constructor|].
  unfold lift. simpl. constructor. intros i.
  destruct (nth_error (c :: cs) i) as [new_position|]; [|constructor]. simpl.
  unfold on_grid.
  destruct (Grid.move_agent self new_position (the_grid m)); simpl; constructor.
  simpl. eapply cv_within_same; eauto.
Qed.

Lemma cv_infect_other_ensures other :
  ensures (within_tick rt lo t m0) (infect_other other)
          (fun _ => within_tick rt lo t m0).
Proof.
  intros m HW. unfold infect_other, bind, get_agent.
  destruct (dict_get other (the_agents m)) as [o|] eqn:Eo; [|constructor]. simpl.
  destruct (state_eqb (state o) Susceptible) eqn:Es; [|constructor; exact HW].
  apply state_eqb_eq in Es.
  unfold random_random, lift. simpl. constructor. intros r.
  unfold gets. simpl.
  destruct (Qlt_bool r (infection_rate (MesaTime.fields m))); [|constructor; exact HW].
  unfold update_agent, modify. simpl. constructor. simpl.
  eapply cv_within_infect with (k := other)
    (F := fun a => set_infection_time (now m) (set_state Infected a)); eauto.
  cunfold. rewrite !dict_update_update. reflexivity.
Qed.

Lemma cv_infect_ensures self :
  ensures (within_tick rt lo t m0) (infect self) (fun _ => within_tick rt lo t m0).
Proof.
  unfold infect.
  eapply ensures_bind; [apply cv_log_call_ensures|].
  intros _ m HW. unfold bind, get_agent.
  destruct (dict_get self (the_agents m)) as [a|] eqn:Ea; [|constructor]. simpl.
  destruct (state_eqb (state a) Infected); [|constructor; exact HW].
  unfold self_pos.
  destruct (Grid.agent_pos self (the_grid m)) as [pos|]; [|constructor].
  simpl. unfold gets. simpl.
  match goal with |- context [if ?b then _ else _] => destruct b end;
    [|constructor; exact HW].
  apply ensures_for_each; [|exact HW].
  intros other. apply cv_infect_other_ensures.
Qed.

Lemma cv_agent_step_ensures self :
  ensures (within_tick rt lo t m0) (agent_step self)
          (fun _ => within_tick rt lo t m0).
Proof.
  unfold agent_step.
  eapply ensures_bind; [apply cv_update_status_ensures|].
  intros ?. eapply ensures_bind; [apply cv_move_ensures|].
  intros ?. apply cv_infect_ensures.
Qed.

Lemma cv_call_ensures method a :
  ensures (within_tick rt lo t m0) (call method a) (fun _ => within_tick rt lo t m0).
Proof.
  unfold call. destruct (String.eqb method "step").
  - apply cv_agent_step_ensures.
  - destruct (String.eqb method "update_status"); [apply cv_update_status_ensures|].
    destruct (String.eqb method "move"); [apply cv_move_ensures|].
    destruct (String.eqb method "infect"); [apply cv_infect_ensures|].
    intros m _. constructor.
Qed.

End ComportamientoCourseMethods.

Section ComportamientoCourseRuns.
Import ComportamientoVirus ComportamientoSpec ComportamientoCourse.

Ltac cunfold :=
  unfold frame_of, population, update_agent, modify,
    set_grid, set_calls, set_running, set_datacollector in *;
  unfold the_agents, the_grid, now,
    MesaTime.set_schedule, MesaTime.set_agents, MesaTime.set_fields in *;
  simpl in *.

Lemma cv_step_ensures rt lo t (m0 : Model) :
  lo <= t ->
  ensures (fun m => now m = t /\ follows rt lo t m0 m) step
          (fun _ m' => now m' = t + 1 /\ follows rt lo (t + 1) m0 m').
Proof.
  intros Hlo. unfold step.
  eapply ensures_bind with
    (R := fun _ m' => exists m1, within_tick rt lo t m0 m1 /\ m' = MesaTime.tick_clock m1).
  { eapply ensures_conseq;
      [apply (@RandomActivation_step_ensures _ _ call (within_tick rt lo t m0))| |].
    - intros a. apply cv_call_ensures.
    - intros m (Ht & HF). split; [exact Ht|]. split; [exact Hlo|].
      eapply cv_follows_weaken; [| |exact HF]; lia.
    - auto. }
  intros ? m (m1 & (Ht & _ & HF) & ->).
  unfold bind, collect, modify, gets. simpl.
  match goal with |- context [if ?b then _ else _] => destruct b end.
  - constructor. simpl. split.
    + cunfold. lia.
    + eapply cv_follows_same; [exact HF|reflexivity..].
  - constructor. simpl. split.
    + cunfold. lia.
    + eapply cv_follows_same; [exact HF|reflexivity..].
Qed.

Lemma cv_steps_n_ensures rt lo (m0 : Model) k :
  forall t, lo <= t ->
  ensures (fun m => now m = t /\ follows rt lo t m0 m) (steps_n k)
          (fun _ m' => now m' = t + Z.of_nat k /\ follows rt lo (t + Z.of_nat k) m0 m').
Proof.
  induction k as [|k IH]; intros t Hlo.
  - simpl. apply ensures_ret. intros m (Ht & HF). rewrite Z.add_0_r. auto.
  - cbn [steps_n]. eapply ensures_bind; [apply cv_step_ensures; exact Hlo|].
    intros ?. eapply ensures_conseq; [apply (IH (t + 1)); lia| |].
    + auto.
    + intros ? m [Ht HF]. replace (t + Z.of_nat (S k)) with (t + 1 + Z.of_nat k) by lia. auto.
Qed.

(** The agents after [k] ticks come from the agents before them by a
    course between the two times. *)
Lemma cv_course_of_run {RS : RandomSource} (m : Model) k g m' g' :
  interp (steps_n k m) g = Ok ((tt, m'), g') ->
  follows (recovery_time (MesaTime.fields m)) (now m) (now m + Z.of_nat k) m m'.
Proof.
  intros E.
  assert (L := @cv_steps_n_ensures (recovery_time (MesaTime.fields m)) (now m) m k (now m)
                 (Z.le_refl _) m).
  assert (P : now m = now m /\
              follows (recovery_time (MesaTime.fields m)) (now m) (now m) m m).
  { split; [reflexivity|]. apply cv_follows_refl. }
  apply (leaves_interp (L P) _ E).
Qed.

End ComportamientoCourseRuns.

Section ComportamientoDue.
Import ComportamientoVirus ComportamientoSpec ComportamientoCourse.

Ltac cunfold :=
  unfold frame_of, population, update_agent, modify,
    set_grid, set_calls, set_running, set_datacollector in *;
  unfold the_agents, the_grid, now,
    MesaTime.set_schedule, MesaTime.set_agents, MesaTime.set_fields in *;
  simpl in *.

Lemma cv_within_refl (m : Model) :
  within_tick (recovery_time (MesaTime.fields m)) (now m) (now m) m m.
Proof. split; [reflexivity|]. split; [lia|]. apply cv_follows_refl. Qed.

Lemma cv_keeps_recovered {A : Type} (c : M Model A) k :
  (forall rt lo t m0,
     ensures (within_tick rt lo t m0) c (fun _ => within_tick rt lo t m0)) ->
  ensures (is_recovered k) c (fun _ => is_recovered k).
Proof.
  intros H m (a & Ea & Es).
  eapply leaves_mono; [|apply (H _ _ _ m m (cv_within_refl m))].
  intros [x m'] (_ & _ & [_ HF]). simpl in *.
  destruct (HF k a Ea) as (a' & Ea' & C).
  exists a'. split; [exact Ea'|].
  rewrite (cv_course_from_recovered C Es). exact Es.
Qed.

Lemma cv_update_status_due self :
  ensures (due self) (update_status self) (fun _ => is_recovered self).
Proof.
  intros m (a & Ea & Es & Hdue).
  unfold update_status, bind, log_call, modify, get_agent. simpl.
  change (the_agents (set_calls (calls (MesaTime.fields m) ++ [(self, UpdateStatus)]) m))
    with (the_agents m).
  rewrite Ea. simpl. rewrite Es. simpl. unfold gets. simpl.
  change (now (set_calls (calls (MesaTime.fields m) ++ [(self, UpdateStatus)]) m))
    with (now m).
  destruct (Z.leb_spec (recovery_time (MesaTime.fields m)) (now m - infection_time a)); [|lia].
  unfold update_agent, modify. constructor. simpl.
  unfold is_recovered. cunfold. rewrite dict_get_update, Z.eqb_refl.
  rewrite Ea. simpl. eexists. split; [reflexivity|]. reflexivity.
Qed.

Lemma cv_agent_step_due self :
  ensures (due self) (agent_step self) (fun _ => is_recovered self).
Proof.
  unfold agent_step.
  eapply ensures_bind; [apply cv_update_status_due|].
  intros ?. eapply ensures_bind.
  { apply cv_keeps_recovered. intros. apply cv_move_ensures. }
  intros ?. apply cv_keeps_recovered. intros. apply cv_infect_ensures.
Qed.

Section Pass.
Variable m0 : Model.
Hypothesis ids : forall k a, dict_get k (the_agents m0) = Some a -> unique_id a = k.

Lemma cv_turn_due key a :
  ensures (fun m => in_tick_of m0 m /\ dict_get key (the_agents m) = Some a) (call "step" a)
          (fun _ m' => in_tick_of m0 m' /\ (due key m0 -> is_recovered key m')).
Proof.
  intros m [HW Ea]. apply leaves_conj.
  - apply cv_call_ensures. exact HW.
  - apply leaves_impl. intros (a0 & Ea0 & Es0 & Hdue).
    destruct HW as (Ht & _ & [Hrt HF]).
    destruct (HF key a0 Ea0) as (a' & Ea' & C).
    rewrite Ea in Ea'. inversion Ea'; subst a'.
    assert (Hid : unique_id a = key).
    { rewrite (cv_course_id C). apply ids. exact Ea0. }
    unfold call. simpl. rewrite Hid.
    destruct (cv_course_from_infected C Es0) as [->|[-> _]].
    + apply cv_agent_step_due. exists a0. split; [exact Ea|]. split; [exact Es0|].
      rewrite Hrt, Ht. exact Hdue.
    + apply (@cv_keeps_recovered _ (agent_step key) key).
      * intros. apply cv_agent_step_ensures.
      * eexists. split; [exact Ea|]. reflexivity.
Qed.

Lemma cv_pass_due agent_keys :
  ensures (in_tick_of m0) (MesaTime.activation_pass call "step" agent_keys)
          (fun evs m' => in_tick_of m0 m' /\
             forall k, In (Activated k "step") evs -> due k m0 -> is_recovered k m').
Proof.
  induction agent_keys as [|key rest IH]; simpl.
  - apply ensures_ret. intros m HW. split; [exact HW|]. intros k [].
  - eapply ensures_bind with
      (R := fun present m => in_tick_of m0 m /\ present = dict_get key (the_agents m)).
    { apply ensures_gets. auto. }
    intros [a|].
    + eapply ensures_bind with
        (R := fun _ m' => in_tick_of m0 m' /\ (due key m0 -> is_recovered key m')).
      { eapply ensures_conseq; [apply (@cv_turn_due key a)| |].
        - intros m [HW E]. split; [exact HW|congruence].
        - auto. }
      intros ?.
      eapply ensures_bind with
        (R := fun evs m' =>
                (in_tick_of m0 m' /\
                 forall k, In (Activated k "step") evs -> due k m0 -> is_recovered k m')
                /\ (due key m0 -> is_recovered key m')).
      { intros m [HW Hkey]. apply leaves_conj.
        - apply IH. exact HW.
        - apply leaves_impl. intros Hd.
          apply (@cv_keeps_recovered _ (MesaTime.activation_pass call "step" rest) key).
          + intros. apply activation_pass_ensures. intros. apply cv_call_ensures.
          + apply Hkey. exact Hd. }
      intros evs. apply ensures_ret. intros m [[HW Hrest] Hkey].
      split; [exact HW|]. intros k [Hk|Hk].
      * inversion Hk; subst. exact Hkey.
      * apply Hrest. exact Hk.
    + eapply ensures_bind with
        (R := fun evs m' =>
                in_tick_of m0 m' /\
                forall k, In (Activated k "step") evs -> due k m0 -> is_recovered k m').
      { eapply ensures_conseq; [exact IH| |].
        - intros m [HW _]. exact HW.
        - auto. }
      intros evs. apply ensures_ret. intros m [HW Hrest].
      split; [exact HW|]. intros k [Hk|Hk]; [discriminate|]. apply Hrest. exact Hk.
Qed.

End Pass.

End ComportamientoDue.

Section ComportamientoDuration.
Import ComportamientoVirus ComportamientoSpec ComportamientoCourse.
Context {RS : RandomSource}.
Variable laws : RandomLaws RS.

Lemma cv_pass_everyone N R0 c (m : Model) order g evs m' g' :
  Inv N (frame_of m) R0 c m ->
  Permutation (population m) order ->
  interp (MesaTime.activation_pass call "step" order m) g = Ok ((evs, m'), g') ->
  evs = map (fun key => Activated key "step") order.
Proof.
  intros HI Hp E.
  set (I := fun m' => exists c', Inv N (frame_of m) R0 c' m').
  assert (Hcall : forall key a,
            triple (fun m' => I m' /\
                      dict_get key (MesaTime._agents (MesaTime.schedule m')) = Some a)
                   (call "step" a) (fun _ => I)).
  { intros key a. apply cv_call_triple. reflexivity. }
  assert (Hin : forall m' key, I m' -> In key order ->
            dict_get key (MesaTime._agents (MesaTime.schedule m')) <> None).
  { intros m1 key [c' HI'] Hk. apply dict_get_In_keys.
    destruct HI' as [Hk' _ _ _ _ _]. destruct HI as [Hk0 _ _ _ _ _].
    unfold population in *. rewrite Hk', <- Hk0.
    eapply Permutation_in; [apply Permutation_sym; exact Hp|exact Hk]. }
  destruct (safe_interp laws
              (@activation_pass_all_triple _ _ call I "step" order Hcall Hin m
                 (ex_intro _ c HI)) g)
    as ([evs' m1'] & g3' & E3 & _ & Hev).
  simpl in Hev. rewrite E in E3. inversion E3; subst. reflexivity.
Qed.

Lemma cv_tick_recovers N R0 c (m : Model) g m1 g1 :
  Inv N (frame_of m) R0 c m ->
  interp (step m) g = Ok ((tt, m1), g1) ->
  forall k, due k m -> is_recovered k m1.
Proof.
  intros HI E k Hdue. unfold step in E. rewrite interp_bind in E.
  match type of E with
  | match ?x with _ => _ end = _ => destruct x as [[[passes m2] g2]|e] eqn:E1
  end; [|discriminate].
  destruct (RandomActivation_step_spec laws _ _ _ E1)
    as (order & g' & evs & mp & Hp & E2 & -> & ->).
  assert (Hev := cv_pass_everyone _ HI Hp E2).
  assert (Hids : forall k a, dict_get k (the_agents m) = Some a -> unique_id a = k).
  { intros k0 a Ea. destruct HI as [_ _ _ _ Ha _]. specialize (Ha k0).
    rewrite Ea in Ha. apply Ha. }
  assert (L := @cv_pass_due m Hids order m (cv_within_refl m)).
  destruct (leaves_interp L _ E2) as [_ Hrec]. simpl in Hrec.
  assert (Hk : In (Activated k "step") evs).
  { rewrite Hev. apply in_map with (f := fun key => Activated key "step").
    eapply Permutation_in; [exact Hp|]. unfold population.
    apply dict_get_In_keys. destruct Hdue as (a & Ea & _). unfold the_agents in Ea. congruence. }
  specialize (Hrec k Hk Hdue).
  unfold bind, collect, modify, gets in E. simpl in E.
  match type of E with context [if ?b then _ else _] => destruct b end;
    simpl in E; inversion E; subst; exact Hrec.
Qed.

Lemma cv_run_keeps_recovered (m : Model) j g m' g' k :
  interp (steps_n j m) g = Ok ((tt, m'), g') ->
  is_recovered k m -> is_recovered k m'.
Proof.
  intros E (a & Ea & Es). destruct (cv_course_of_run _ _ _ E) as [_ HF].
  destruct (HF k a Ea) as (a' & Ea' & C). exists a'. split; [exact Ea'|].
  rewrite (cv_course_from_recovered C Es). exact Es.
Qed.

Lemma cv_stays_infected (m : Model) j g m' g' k a :
  interp (steps_n j m) g = Ok ((tt, m'), g') ->
  dict_get k (the_agents m) = Some a -> state a = Infected ->
  now m + Z.of_nat j <= infection_time a + recovery_time (MesaTime.fields m) ->
  dict_get k (the_agents m') = Some a.
Proof.
  intros E Ea Es Hle. destruct (cv_course_of_run _ _ _ E) as [_ HF].
  destruct (HF k a Ea) as (a' & Ea' & C).
  destruct (cv_course_from_infected C Es) as [->|[_ (t & Ht & Hd)]]; [exact Ea'|lia].
Qed.

Lemma cv_recovers_in_time N R0 k a j :
  forall c (m : Model) g m' g',
    Inv N (frame_of m) R0 c m ->
    interp (steps_n j m) g = Ok ((tt, m'), g') ->
    dict_get k (the_agents m) = Some a -> state a = Infected ->
    (0 < j)%nat ->
    infection_time a + recovery_time (MesaTime.fields m) < now m + Z.of_nat j ->
    is_recovered k m'.
Proof.
  induction j as [|j IH]; intros c m g m' g' HI E Ea Es Hj Hlt; [lia|].
  cbn [steps_n] in E. rewrite interp_bind in E.
  destruct (cv_tick laws g HI) as (m1 & g1 & E1 & [c1 HI1] & Ht). rewrite E1 in E.
  destruct Ht as [Ht1 _ _ _ Ht5].
  assert (Hrt : recovery_time (MesaTime.fields m1) = recovery_time (MesaTime.fields m)).
  { unfold params_of in Ht5. congruence. }
  destruct (Z.le_gt_cases (recovery_time (MesaTime.fields m)) (now m - infection_time a))
    as [Hdue|Hnot].
  - eapply cv_run_keeps_recovered; [exact E|].
    eapply cv_tick_recovers; [exact HI|exact E1|].
    exists a. auto.
  - assert (E1' : interp (steps_n 1 m) g = Ok ((tt, m1), g1)).
    { cbn [steps_n]. rewrite interp_bind, E1. reflexivity. }
    destruct (cv_course_of_run _ _ _ E1') as [_ HF].
    destruct (HF k a Ea) as (a' & Ea' & C).
    destruct (cv_course_from_infected C Es) as [->|[-> _]].
    + eapply (IH c1 m1 g1 m' g' HI1 E Ea' Es); lia.
    + eapply cv_run_keeps_recovered; [exact E|].
      exists (recovered a). split; [exact Ea'|]. reflexivity.
Qed.

End ComportamientoDuration.

(** ** The course of the epidemic *)

Section CourseOfRuns.
Context {RS : RandomSource}.
Variable laws : RandomLaws RS.

(** The state after [n] ticks and the state after [j] more, in the base
    model: the clock, the recovery time, and the run between the two. *)
Lemma cv_two_states (cv : ComportamientoVirus.Config) (n j : nat) (g : rng) :
  0 < ComportamientoVirus.cfg_width cv -> 0 < ComportamientoVirus.cfg_height cv ->
  exists m g1 m' g2 c,
    interp (ComportamientoVirus.simulate cv n) g = Ok (m, g1) /\
    interp (ComportamientoVirus.simulate cv (n + j)) g = Ok (m', g2) /\
    interp (ComportamientoVirus.steps_n j m) g1 = Ok ((tt, m'), g2) /\
    ComportamientoSpec.Inv (ComportamientoVirus.cfg_N cv) (ComportamientoSpec.frame_of m) [] c m /\
    ComportamientoVirus.now m = Z.of_nat n /\
    ComportamientoVirus.recovery_time (MesaTime.fields m) = ComportamientoVirus.cfg_recovery_time cv.
Proof.
  intros Hw Hh.
  destruct (cv_run laws cv n g Hw Hh) as (m0 & g0 & m & g1 & E0 & E1 & E & HI0 & [c HI] & Hr).
  destruct (cv_continue laws j g1 HI) as (m' & g2 & E2 & _ & _).
  exists m, g1, m', g2, c. split; [exact E|]. split; [eapply cv_simulate_add; eauto|].
  split; [exact E2|]. split; [exact HI|].
  destruct Hr as [Hr1 Hr2 _ _]. destruct HI0 as [_ Hf _ _ _ _].
  unfold ComportamientoSpec.frame_of, ComportamientoVirus.empty_model in Hf.
  injection Hf as _ Htime _ _ _ Hrt _ _ _.
  unfold ComportamientoSpec.params_of in Hr2. injection Hr2 as _ _ Hrt' _ _.
  unfold ComportamientoVirus.now in *. split; [lia|]. simpl in *. congruence.
Qed.

Lemma est_two_states (est : VirusConEstrategias.Config) (n j : nat) (g : rng) :
  0 < VirusConEstrategias.cfg_width est -> 0 < VirusConEstrategias.cfg_height est ->
  exists m g1 m' g2 c,
    interp (VirusConEstrategias.simulate est n) g = Ok (m, g1) /\
    interp (VirusConEstrategias.simulate est (n + j)) g = Ok (m', g2) /\
    interp (VirusConEstrategias.steps_n j m) g1 = Ok ((tt, m'), g2) /\
    EstrategiasSpec.Inv (VirusConEstrategias.cfg_N est) (EstrategiasSpec.frame_of m) [] c m /\
    VirusConEstrategias.now m = Z.of_nat n /\
    VirusConEstrategias.recovery_time (MesaTime.fields m) = VirusConEstrategias.cfg_recovery_time est /\
    VirusConEstrategias.quarantine_enabled (MesaTime.fields m) = VirusConEstrategias.cfg_quarantine_enabled est.
Proof.
  intros Hw Hh.
  destruct (est_run laws est n g Hw Hh) as (m0 & g0 & m & g1 & E0 & E1 & E & HI0 & [c HI] & Hr).
  destruct (est_continue laws j g1 HI) as (m' & g2 & E2 & _ & _).
  exists m, g1, m', g2, c. split; [exact E|]. split; [eapply est_simulate_add; eauto|].
  split; [exact E2|]. split; [exact HI|].
  destruct Hr as [Hr1 Hr2 _ _]. destruct HI0 as [_ Hf _ _ _ _].
  unfold EstrategiasSpec.frame_of, VirusConEstrategias.empty_model in Hf.
  injection Hf as _ Htime _ _ _ Hrt _ Hq _ _ _.
  unfold EstrategiasTick.params_of in Hr2. injection Hr2 as _ _ Hrt' _ Hq' _ _.
  unfold VirusConEstrategias.now in *. split; [lia|]. simpl in *. split; congruence.
Qed.

End CourseOfRuns.

(** X11.  In both models an infection lasts the recovery time.  An agent
    that is Infected after [n] ticks has, after [n + j] ticks, the identity,
    the state Infected, the infection time and, in the model with
    strategies, the quarantine flag it had, as long as [n + j] does not
    exceed its infection time plus the recovery time; once [n + j] exceeds
    it, and a tick has gone by, these are what recovery makes of them: the
    state is Recovered, the quarantine flag is cleared, the identity and
    the infection time are the ones it had.  The agent's position is held
    by the grid and is not part of the statement: the agent may have
    moved. *)
Theorem infection_lasts_the_recovery_time (RS : RandomSource) (laws : RandomLaws RS)
    (cv : ComportamientoVirus.Config) (est : VirusConEstrategias.Config) (n j : nat) (g : rng) :
  0 < ComportamientoVirus.cfg_width cv -> 0 < ComportamientoVirus.cfg_height cv ->
  0 < VirusConEstrategias.cfg_width est -> 0 < VirusConEstrategias.cfg_height est ->
  (exists m g1 m' g2,
     interp (ComportamientoVirus.simulate cv n) g = Ok (m, g1) /\
     interp (ComportamientoVirus.simulate cv (n + j)) g = Ok (m', g2) /\
     forall k a,
       dict_get k (ComportamientoVirus.the_agents m) = Some a ->
       ComportamientoVirus.state a = Infected ->
       (Z.of_nat (n + j) <=
          ComportamientoVirus.infection_time a + ComportamientoVirus.cfg_recovery_time cv ->
        dict_get k (ComportamientoVirus.the_agents m') = Some a) /\
       ((0 < j)%nat ->
        ComportamientoVirus.infection_time a + ComportamientoVirus.cfg_recovery_time cv
          < Z.of_nat (n + j) ->
        dict_get k (ComportamientoVirus.the_agents m') = Some (ComportamientoCourse.recovered a))) /\
  (exists m g1 m' g2,
     interp (VirusConEstrategias.simulate est n) g = Ok (m, g1) /\
     interp (VirusConEstrategias.simulate est (n + j)) g = Ok (m', g2) /\
     forall k a,
       dict_get k (VirusConEstrategias.the_agents m) = Some a ->
       VirusConEstrategias.state a = Infected ->
       (Z.of_nat (n + j) <=
          VirusConEstrategias.infection_time a + VirusConEstrategias.cfg_recovery_time est ->
        dict_get k (VirusConEstrategias.the_agents m') = Some a) /\
       ((0 < j)%nat ->
        VirusConEstrategias.infection_time a + VirusConEstrategias.cfg_recovery_time est
          < Z.of_nat (n + j) ->
        dict_get k (VirusConEstrategias.the_agents m') = Some (EstrategiasCourse.recovered a))).
Proof.
  intros Hw Hh Hw' Hh'. split.
  - destruct (cv_two_states laws cv n j g Hw Hh)
      as (m & g1 & m' & g2 & c & E & E' & E2 & HI & Hnow & Hrt).
    exists m, g1, m', g2. split; [exact E|]. split; [exact E'|].
    intros k a Ea Es. split.
    + intros Hle. eapply cv_stays_infected; eauto. rewrite Hnow, Hrt. lia.
    + intros Hj Hlt.
      destruct (@cv_recovers_in_time _ laws _ _ k a j c m g1 m' g2 HI E2 Ea Es Hj)
        as (a' & Ea' & Es'); [rewrite Hnow, Hrt; lia|].
      destruct (cv_course_of_run _ _ _ E2) as [_ HF].
      destruct (HF k a Ea) as (a'' & Ea'' & C). rewrite Ea' in Ea''. inversion Ea''; subst a''.
      destruct (cv_course_from_infected C Es) as [->|[-> _]]; [congruence|exact Ea'].
  - destruct (est_two_states laws est n j g Hw' Hh')
      as (m & g1 & m' & g2 & c & E & E' & E2 & HI & Hnow & Hrt & _).
    exists m, g1, m', g2. split; [exact E|]. split; [exact E'|].
    intros k a Ea Es. split.
    + intros Hle. eapply est_stays_infected; eauto. rewrite Hnow, Hrt. lia.
    + intros Hj Hlt.
      destruct (@est_recovers_in_time _ laws _ _ k a j c m g1 m' g2 HI E2 Ea Es Hj)
        as (a' & Ea' & Es'); [rewrite Hnow, Hrt; lia|].
      destruct (est_course_of_run _ _ _ E2) as [_ _ HF].
      destruct (HF k a Ea) as (a'' & Ea'' & C). rewrite Ea' in Ea''. inversion Ea''; subst a''.
      destruct (est_course_from_infected C Es) as [->|[-> _]]; [congruence|exact Ea'].
Qed.

(** X12.  In both models nobody goes back.  Every agent present after [n]
    ticks is present after [n + j] ticks under the same identity, and its
    state has not moved back in the order Susceptible, Infected, Recovered;
    an agent that was Recovered has the identity, state, infection time
    and, in the model with strategies, quarantine flag it had; an agent
    that was Susceptible has these as it had them, or is no longer
    Susceptible and carries an infection time of one of the ticks in
    between.  Positions are held by the grid and are not part of the
    statement: agents of every state may have moved. *)
Theorem states_only_move_forward (RS : RandomSource) (laws : RandomLaws RS)
    (cv : ComportamientoVirus.Config) (est : VirusConEstrategias.Config) (n j : nat) (g : rng) :
  0 < ComportamientoVirus.cfg_width cv -> 0 < ComportamientoVirus.cfg_height cv ->
  0 < VirusConEstrategias.cfg_width est -> 0 < VirusConEstrategias.cfg_height est ->
  (exists m g1 m' g2,
     interp (ComportamientoVirus.simulate cv n) g = Ok (m, g1) /\
     interp (ComportamientoVirus.simulate cv (n + j)) g = Ok (m', g2) /\
     forall k a,
       dict_get k (ComportamientoVirus.the_agents m) = Some a ->
       exists a',
         dict_get k (ComportamientoVirus.the_agents m') = Some a' /\
         ComportamientoVirus.unique_id a' = ComportamientoVirus.unique_id a /\
         EstrategiasCourse.rank (ComportamientoVirus.state a)
           <= EstrategiasCourse.rank (ComportamientoVirus.state a') /\
         (ComportamientoVirus.state a = Recovered -> a' = a) /\
         (ComportamientoVirus.state a = Susceptible ->
          a' = a \/
          (ComportamientoVirus.state a' <> Susceptible /\
           Z.of_nat n <= ComportamientoVirus.infection_time a' < Z.of_nat (n + j)))) /\
  (exists m g1 m' g2,
     interp (VirusConEstrategias.simulate est n) g = Ok (m, g1) /\
     interp (VirusConEstrategias.simulate est (n + j)) g = Ok (m', g2) /\
     forall k a,
       dict_get k (VirusConEstrategias.the_agents m) = Some a ->
       exists a',
         dict_get k (VirusConEstrategias.the_agents m') = Some a' /\
         VirusConEstrategias.unique_id a' = VirusConEstrategias.unique_id a /\
         EstrategiasCourse.rank (VirusConEstrategias.state a)
           <= EstrategiasCourse.rank (VirusConEstrategias.state a') /\
         (VirusConEstrategias.state a = Recovered -> a' = a) /\
         (VirusConEstrategias.state a = Susceptible ->
          a' = a \/
          (VirusConEstrategias.state a' <> Susceptible /\
           Z.of_nat n <= VirusConEstrategias.infection_time a' < Z.of_nat (n + j)))).
Proof.
  intros Hw Hh Hw' Hh'. split.
  - destruct (cv_two_states laws cv n j g Hw Hh)
      as (m & g1 & m' & g2 & c & E & E' & E2 & HI & Hnow & Hrt).
    exists m, g1, m', g2. split; [exact E|]. split; [exact E'|].
    intros k a Ea.
    destruct (cv_course_of_run _ _ _ E2) as [_ HF].
    destruct (HF k a Ea) as (a' & Ea' & C). exists a'. split; [exact Ea'|].
    split; [eapply cv_course_id; eauto|].
    split; [eapply cv_course_rank; eauto|].
    split; [eapply cv_course_from_recovered; eauto|].
    intros Hs. destruct (cv_course_from_susceptible C Hs) as [->|[H1 H2]]; [left; reflexivity|].
    right. split; [exact H1|]. rewrite Hnow in H2. lia.
  - destruct (est_two_states laws est n j g Hw' Hh')
      as (m & g1 & m' & g2 & c & E & E' & E2 & HI & Hnow & Hrt & _).
    exists m, g1, m', g2. split; [exact E|]. split; [exact E'|].
    intros k a Ea.
    destruct (est_course_of_run _ _ _ E2) as [_ _ HF].
    destruct (HF k a Ea) as (a' & Ea' & C). exists a'. split; [exact Ea'|].
    split; [eapply est_course_id; eauto|].
    split; [eapply est_course_rank; eauto|].
    split; [eapply est_course_from_recovered; eauto|].
    intros Hs. destruct (est_course_from_susceptible C Hs) as [->|[H1 H2]]; [left; reflexivity|].
    right. split; [exact H1|]. rewrite Hnow in H2. lia.
Qed.

(** X13.  With the quarantine strategy switched off, after any number of
    ticks no agent of the model with strategies is quarantined, and every
    agent is on the grid. *)
Theorem nobody_is_quarantined_when_disabled (RS : RandomSource) (laws : RandomLaws RS)
    (est : VirusConEstrategias.Config) (n : nat) (g : rng) :
  0 < VirusConEstrategias.cfg_width est -> 0 < VirusConEstrategias.cfg_height est ->
  VirusConEstrategias.cfg_quarantine_enabled est = false ->
  exists m g',
    interp (VirusConEstrategias.simulate est n) g = Ok (m, g') /\
    forall k a, dict_get k (VirusConEstrategias.the_agents m) = Some a ->
      VirusConEstrategias.is_quarantined a = false /\
      Grid.agent_pos k (VirusConEstrategias.the_grid m) <> None.
Proof.
  intros Hw Hh Hq.
  destruct (est_two_states laws est 0 n g Hw Hh)
    as (m0 & g0 & m & g' & c & E0 & E & E2 & HI0 & _ & _ & Hq0).
  simpl in E. exists m, g'. split; [exact E|].
  assert (Hc : forall i a, dict_get i (VirusConEstrategias.the_agents m0) = Some a ->
                           EstrategiasSpec.constructed_ok est i a).
  { destruct (safe_interp laws (est_InfectionModel_window est Hw Hh) g) as (mc & gc & Ec & Hc).
    rewrite est_interp_simulate in E0. rewrite Ec in E0. simpl in E0.
    inversion E0; subst. exact Hc. }
  destruct (est_continue laws n g0 HI0) as (m1 & g1 & E2' & [c' HI] & _).
  rewrite E2 in E2'. inversion E2'; subst m1 g1.
  assert (Hq' : forall k a, dict_get k (VirusConEstrategias.the_agents m) = Some a ->
                            VirusConEstrategias.is_quarantined a = false).
  { intros k a Ea.
    destruct (est_course_of_run _ _ _ E2) as [_ _ HF].
    assert (Hk : dict_get k (VirusConEstrategias.the_agents m0) <> None).
    { apply dict_get_In_keys. destruct HI0 as [Hk0 _ _ _ _ _]. destruct HI as [Hk1 _ _ _ _ _].
      unfold population in *. unfold VirusConEstrategias.the_agents in *.
      rewrite Hk0, <- Hk1. apply dict_get_In_keys. congruence. }
    destruct (dict_get k (VirusConEstrategias.the_agents m0)) as [a0|] eqn:Ea0; [|congruence].
    destruct (HF k a0 Ea0) as (a' & Ea' & C). rewrite Ea in Ea'. inversion Ea'; subst a'.
    rewrite Hq0, Hq in C. eapply est_course_unquarantined; [exact C|].
    apply (Hc k a0 Ea0). }
  intros k a Ea. split; [eapply Hq'; eauto|].
  destruct HI as [_ _ _ _ Ha _]. specialize (Ha k). rewrite Ea in Ha.
  destruct Ha as (_ & Hiff & _). intros Hn. apply Hiff in Hn.
  rewrite (Hq' k a Ea) in Hn. discriminate.
Qed.


(** ** The curves *)

Lemma dict_values_Forall2 {A : Type} (R : A -> A -> Prop) (d : dict A) :
  forall d' : dict A,
    dict_keys d = dict_keys d' -> NoDup (dict_keys d) ->
    (forall k a, dict_get k d = Some a -> exists a', dict_get k d' = Some a' /\ R a a') ->
    Forall2 R (dict_values d) (dict_values d').
Proof.
  induction d as [|[k a] d IH]; intros [|[k' a'] d'] Hk Hnd H; try discriminate.
  - constructor.
  - simpl in Hk. injection Hk as <- Hk. inversion Hnd as [|? ? Hnotin Hnd']; subst.
    simpl. constructor.
    + destruct (H k a) as (b & Eb & HR); [simpl; rewrite Z.eqb_refl; reflexivity|].
      simpl in Eb. rewrite Z.eqb_refl in Eb. inversion Eb; subst. exact HR.
    + apply IH; [exact Hk|exact Hnd'|].
      intros k0 b Eb.
      assert (Hin : In k0 (dict_keys d)). { apply dict_get_In_keys. congruence. }
      assert (Hne : k <> k0). { intros ->. contradiction. }
      destruct (H k0 b) as (b' & Eb' & HR).
      * simpl. destruct (Z.eqb_spec k k0); [contradiction|exact Eb].
      * simpl in Eb'. destruct (Z.eqb_spec k k0); [contradiction|]. eauto.
Qed.

Section EstrategiasCurves.
Import VirusConEstrategias EstrategiasSpec EstrategiasTick EstrategiasCourse.
Context {RS : RandomSource}.
Variable laws : RandomLaws RS.

Lemma est_count_forward (l l' : list InfectionAgent) :
  Forall2 (fun a a' => rank (state a) <= rank (state a')) l l' ->
  count_state Susceptible l' <= count_state Susceptible l /\
  count_state Recovered l <= count_state Recovered l'.
Proof.
  induction 1 as [|a a' l l' Hr _ IH]; [simpl; lia|].
  cbn [count_state]. revert Hr.
  destruct (state a), (state a'); cbn [state_eqb rank]; intros; lia.
Qed.

(** After some ticks there are no more susceptible and no fewer recovered
    agents than before them. *)
Lemma est_snapshot_forward N R0 c c' (m : Model) k g m' g' :
  Inv N (frame_of m) R0 c m -> Inv N (frame_of m') R0 c' m' ->
  interp (steps_n k m) g = Ok ((tt, m'), g') ->
  report Susceptible m' <= report Susceptible m /\
  report Recovered m <= report Recovered m'.
Proof.
  intros HI HI' E. unfold report, MesaTime.agents. apply est_count_forward.
  destruct (est_course_of_run _ _ _ E) as [_ _ HF].
  destruct HI as [Hk _ _ _ _ _]. destruct HI' as [Hk' _ _ _ _ _]. unfold population in *.
  apply dict_values_Forall2.
  - congruence.
  - rewrite Hk. apply range_NoDup.
  - intros key a Ea. destruct (HF key a Ea) as (a' & Ea' & C).
    exists a'. split; [exact Ea'|]. eapply est_course_rank; eauto.
Qed.

Lemma est_run_descends N R0 k :
  forall c (m : Model) g m' g',
    Inv N (frame_of m) R0 c m ->
    interp (steps_n k m) g = Ok ((tt, m'), g') ->
    exists rows,
      datacollector (MesaTime.fields m') = datacollector (MesaTime.fields m) ++ rows /\
      descends (snapshot_of m) rows.
Proof.
  induction k as [|k IH]; intros c m g m' g' HI E.
  - simpl in E. inversion E; subst. exists []. rewrite app_nil_r. simpl. auto.
  - cbn [steps_n] in E. rewrite interp_bind in E.
    destruct (est_tick laws g HI) as (m1 & g1 & E1 & [c1 HI1] & Ht). rewrite E1 in E.
    destruct (IH _ _ _ _ _ HI1 E) as (rows & Hrows & Hd).
    exists (snapshot_of m1 :: rows). split.
    + destruct Ht as [_ _ Ht3 _ _]. rewrite Hrows, Ht3, <- app_assoc. reflexivity.
    + assert (E1' : interp (steps_n 1 m) g = Ok ((tt, m1), g1)).
      { cbn [steps_n]. rewrite interp_bind, E1. reflexivity. }
      destruct (@est_snapshot_forward N R0 c c1 m 1 g m1 g1 HI HI1 E1') as [H1 H2].
      simpl. auto.
Qed.

End EstrategiasCurves.

Section ComportamientoCurves.
Import ComportamientoVirus ComportamientoSpec ComportamientoCourse.
Context {RS : RandomSource}.
Variable laws : RandomLaws RS.

Lemma cv_count_forward (l l' : list InfectionAgent) :
  Forall2 (fun a a' => EstrategiasCourse.rank (state a) <= EstrategiasCourse.rank (state a')) l l' ->
  count_state Susceptible l' <= count_state Susceptible l /\
  count_state Recovered l <= count_state Recovered l'.
Proof.
  induction 1 as [|a a' l l' Hr _ IH]; [simpl; lia|].
  cbn [count_state]. revert Hr.
  destruct (state a), (state a'); cbn [state_eqb EstrategiasCourse.rank]; intros; lia.
Qed.

Lemma cv_snapshot_forward N R0 c c' (m : Model) k g m' g' :
  Inv N (frame_of m) R0 c m -> Inv N (frame_of m') R0 c' m' ->
  interp (steps_n k m) g = Ok ((tt, m'), g') ->
  report Susceptible m' <= report Susceptible m /\
  report Recovered m <= report Recovered m'.
Proof.
  intros HI HI' E. unfold report, MesaTime.agents. apply cv_count_forward.
  destruct (cv_course_of_run _ _ _ E) as [_ HF].
  destruct HI as [Hk _ _ _ _ _]. destruct HI' as [Hk' _ _ _ _ _]. unfold population in *.
  apply dict_values_Forall2.
  - congruence.
  - rewrite Hk. apply range_NoDup.
  - intros key a Ea. destruct (HF key a Ea) as (a' & Ea' & C).
    exists a'. split; [exact Ea'|]. eapply cv_course_rank; eauto.
Qed.

Lemma cv_run_descends N R0 k :
  forall c (m : Model) g m' g',
    Inv N (frame_of m) R0 c m ->
    interp (steps_n k m) g = Ok ((tt, m'), g') ->
    exists rows,
      datacollector (MesaTime.fields m') = datacollector (MesaTime.fields m) ++ rows /\
      descends (snapshot_of m) rows.
Proof.
  induction k as [|k IH]; intros c m g m' g' HI E.
  - simpl in E. inversion E; subst. exists []. rewrite app_nil_r. simpl. auto.
  - cbn [steps_n] in E. rewrite interp_bind in E.
    destruct (cv_tick laws g HI) as (m1 & g1 & E1 & [c1 HI1] & Ht). rewrite E1 in E.
    destruct (IH _ _ _ _ _ HI1 E) as (rows & Hrows & Hd).
    exists (snapshot_of m1 :: rows). split.
    + destruct Ht as [_ _ Ht3 _ _]. rewrite Hrows, Ht3, <- app_assoc. reflexivity.
    + assert (E1' : interp (steps_n 1 m) g = Ok ((tt, m1), g1)).
      { cbn [steps_n]. rewrite interp_bind, E1. reflexivity. }
      destruct (@cv_snapshot_forward N R0 c c1 m 1 g m1 g1 HI HI1 E1') as [H1 H2].
      simpl. auto.
Qed.

End ComportamientoCurves.

(** X14.  In both models the curve of the susceptible never rises and the
    curve of the recovered never falls: in the rows recorded by [n] ticks,
    every row has no more susceptible and no fewer recovered agents than the
    row before it, and the first row than the constructed population. *)
Theorem susceptible_fall_and_recovered_rise (RS : RandomSource) (laws : RandomLaws RS)
    (cv : ComportamientoVirus.Config) (est : VirusConEstrategias.Config) (n : nat) (g : rng) :
  0 < ComportamientoVirus.cfg_width cv -> 0 < ComportamientoVirus.cfg_height cv ->
  0 < VirusConEstrategias.cfg_width est -> 0 < VirusConEstrategias.cfg_height est ->
  (exists m0 g0 m g',
     interp (ComportamientoVirus.InfectionModel cv) g = Ok (m0, g0) /\
     interp (ComportamientoVirus.simulate cv n) g = Ok (m, g') /\
     descends (ComportamientoSpec.snapshot_of m0)
              (ComportamientoVirus.datacollector (MesaTime.fields m))) /\
  (exists m0 g0 m g',
     interp (VirusConEstrategias.InfectionModel est) g = Ok (m0, g0) /\
     interp (VirusConEstrategias.simulate est n) g = Ok (m, g') /\
     descends (EstrategiasTick.snapshot_of m0)
              (VirusConEstrategias.datacollector (MesaTime.fields m))).
Proof.
  intros Hw Hh Hw' Hh'. split.
  - destruct (cv_run laws cv n g Hw Hh) as (m0 & g0 & m & g' & E0 & E1 & E & HI0 & _ & _).
    exists m0, g0, m, g'. split; [exact E0|]. split; [exact E|].
    assert (HI0' := HI0). rewrite (cv_Inv_frame HI0) in HI0'.
    destruct (cv_run_descends laws _ _ HI0' E1) as (rows & Hrows & Hd).
    destruct HI0 as [_ Hf _ _ _ _].
    unfold ComportamientoSpec.frame_of, ComportamientoVirus.empty_model in Hf.
    injection Hf as _ _ _ _ _ _ Hdc _ _.
    rewrite Hrows, Hdc. exact Hd.
  - destruct (est_run laws est n g Hw' Hh') as (m0 & g0 & m & g' & E0 & E1 & E & HI0 & _ & _).
    exists m0, g0, m, g'. split; [exact E0|]. split; [exact E|].
    assert (HI0' := HI0). rewrite (est_Inv_frame HI0) in HI0'.
    destruct (est_run_descends laws _ _ HI0' E1) as (rows & Hrows & Hd).
    destruct HI0 as [_ Hf _ _ _ _].
    unfold EstrategiasSpec.frame_of, VirusConEstrategias.empty_model in Hf.
    injection Hf as _ _ _ _ _ _ _ _ Hdc _ _.
    rewrite Hrows, Hdc. exact Hd.
Qed.

(** X15.  A tick of the simultaneous scheduler that completes is two
    passes: the first calls [step] only, on the agents present when the
    tick began, in insertion order; the second calls [advance] only, on the
    agents present when the first pass ended. *)
Theorem SimultaneousActivation_step_in_two_phases (RS : RandomSource)
    (Agent Fields : Type) (call : string -> Agent -> M (MesaTime.Model Agent Fields) unit)
    (m : MesaTime.Model Agent Fields) g passes m' g' :
  interp (MesaTime.SimultaneousActivation_step call m) g = Ok ((passes, m'), g') ->
  exists evs1 m1 g1 evs2 m2,
    passes = [evs1; evs2] /\
    interp (MesaTime.activation_pass call "step" (population m) m) g = Ok ((evs1, m1), g1) /\
    interp (MesaTime.activation_pass call "advance" (population m1) m1) g1
      = Ok ((evs2, m2), g') /\
    map event_key evs1 = population m /\ Forall (event_calls "step") evs1 /\
    map event_key evs2 = population m1 /\ Forall (event_calls "advance") evs2 /\
    m' = MesaTime.tick_clock m2.
Proof.
  unfold MesaTime.SimultaneousActivation_step. rewrite interp_bind.
  change (interp (MesaTime.agent_buffer false m) g) with (Ok ((population m, m), g)).
  cbv iota beta. rewrite interp_bind.
  destruct (interp (MesaTime.activation_pass call "step" (population m) m) g)
    as [[[evs1 m1] g1]|e] eqn:E1; [|discriminate].
  rewrite interp_bind.
  change (interp (MesaTime.agent_buffer false m1) g1) with (Ok ((population m1, m1), g1)).
  cbv iota beta. rewrite interp_bind.
  destruct (interp (MesaTime.activation_pass call "advance" (population m1) m1) g1)
    as [[[evs2 m2] g2]|e] eqn:E2; [|discriminate].
  simpl. intros H. inversion H; subst.
  exists evs1, m1, g1, evs2, m2.
  split; [reflexivity|]. split; [first [reflexivity|exact E1]|].
  split; [first [reflexivity|exact E2]|].
  split; [eapply activation_pass_keys; eauto|].
  split; [eapply activation_pass_methods; eauto|].
  split; [eapply activation_pass_keys; eauto|].
  split; [eapply activation_pass_methods; eauto|]. reflexivity.
Qed.

(** ** Who changes whom *)

Section EstrategiasQuiet.
Import VirusConEstrategias EstrategiasSpec EstrategiasTick EstrategiasCourse.

Ltac munfold :=
  unfold frame_of, population, update_agent, modify,
    set_grid, set_calls, set_running, set_datacollector in *;
  unfold the_agents, the_grid, now,
    MesaTime.set_schedule, MesaTime.set_agents, MesaTime.set_fields in *;
  simpl in *.

Lemma est_log_call_agents (A : dict InfectionAgent) self method :
  ensures (fun m => the_agents m = A) (log_call self method) (fun _ m => the_agents m = A).
Proof. apply ensures_modify. intros m H. exact H. Qed.

Lemma est_place_at_random_agents (A : dict InfectionAgent) self :
  ensures (fun m => the_agents m = A) (place_at_random self) (fun _ m => the_agents m = A).
Proof.
  intros m HA.
  unfold place_at_random, bind, gets, random_randrange. simpl.
  destruct (Grid.width (the_grid m) <=? 0); [constructor|].
  unfold lift. simpl. constructor. intros x.
  destruct (Grid.height (the_grid m) <=? 0); [constructor|].
  simpl. constructor. intros y. unfold on_grid.
  destruct (Grid.place_agent self (x, y) (the_grid m)); simpl; constructor.
  exact HA.
Qed.

(** [move] writes to no agent. *)
Lemma est_move_agents (A : dict InfectionAgent) self :
  ensures (fun m => the_agents m = A) (move self) (fun _ m => the_agents m = A).
Proof.
  unfold move.
  eapply ensures_bind; [apply est_log_call_agents|].
  intros _ m HA. unfold bind, random_random, lift. simpl. constructor. intros r.
  unfold gets. simpl.
  destruct (Qlt_bool (social_distancing_rate (MesaTime.fields m)) r);
    [|constructor; exact HA].
  unfold self_pos.
  destruct (Grid.agent_pos self (the_grid m)) as [pos|]; [|constructor]. simpl.
  unfold random_choice.
  destruct (Grid.get_neighborhood (the_grid m) pos) as [|c cs]; [constructor|].
  unfold lift. simpl. constructor. intros i.
  destruct (nth_error (c :: cs) i) as [new_position|]; [|constructor]. simpl.
  unfold on_grid.
  destruct (Grid.move_agent self new_position (the_grid m)); simpl; constructor.
  exact HA.
Qed.


Lemma est_not_infected (a : InfectionAgent) :
  state a <> Infected -> state_eqb (state a) Infected = false.
Proof. destruct (state a); simpl; congruence. Qed.

(** An agent that is not infected does not change in [update_status]. *)
Lemma est_update_status_quiet (A : dict InfectionAgent) self :
  (forall a, dict_get self A = Some a -> state a <> Infected) ->
  ensures (fun m => the_agents m = A) (update_status self) (fun _ m => the_agents m = A).
Proof.
  intros Hs. unfold update_status.
  eapply ensures_bind; [apply est_log_call_agents|].
  intros _ m HA. unfold bind, get_agent.
  destruct (dict_get self (the_agents m)) as [a|] eqn:Ea; [|constructor]. simpl.
  rewrite est_not_infected; [constructor; exact HA|].
  apply Hs. rewrite <- HA. exact Ea.
Qed.

(** An agent that is not infected infects nobody. *)
Lemma est_infect_quiet (A : dict InfectionAgent) self :
  (forall a, dict_get self A = Some a -> state a <> Infected) ->
  ensures (fun m => the_agents m = A) (infect self) (fun _ m => the_agents m = A).
Proof.
  intros Hs. unfold infect.
  eapply ensures_bind; [apply est_log_call_agents|].
  intros _ m HA. unfold bind, get_agent.
  destruct (dict_get self (the_agents m)) as [a|] eqn:Ea; [|constructor]. simpl.
  rewrite est_not_infected; [constructor; exact HA|].
  apply Hs. rewrite <- HA. exact Ea.
Qed.

Lemma est_agent_step_quiet (A : dict InfectionAgent) self :
  (forall a, dict_get self A = Some a -> state a <> Infected) ->
  ensures (fun m => the_agents m = A) (agent_step self) (fun _ m => the_agents m = A).
Proof.
  intros Hs. unfold agent_step.
  eapply ensures_bind with (R := fun _ m => the_agents m = A).
  { intros m HA. unfold get_agent.
    destruct (dict_get self (the_agents m)); constructor. exact HA. }
  intros a. destruct (is_quarantined a).
  - apply est_update_status_quiet. exact Hs.
  - eapply ensures_bind; [apply est_update_status_quiet; exact Hs|].
    intros ?. eapply ensures_bind; [apply est_move_agents|].
    intros ?. apply est_infect_quiet. exact Hs.
Qed.


Lemma est_step_quiet (A : dict InfectionAgent) :
  est_nobody_infected A ->
  ensures (fun m => the_agents m = A) step (fun _ m => the_agents m = A).
Proof.
  intros HA. unfold step.
  eapply ensures_bind with
    (R := fun _ m' => exists m1, the_agents m1 = A /\ m' = MesaTime.tick_clock m1).
  { apply (@RandomActivation_step_ensures _ _ call (fun m => the_agents m = A)).
    intros a. unfold call. simpl. apply est_agent_step_quiet. apply HA. }
  intros ? m (m1 & H1 & ->).
  unfold bind, collect, modify, gets. simpl.
  match goal with |- context [if ?b then _ else _] => destruct b end;
    constructor; exact H1.
Qed.

Lemma est_steps_n_quiet (A : dict InfectionAgent) k :
  est_nobody_infected A ->
  ensures (fun m => the_agents m = A) (steps_n k) (fun _ m => the_agents m = A).
Proof.
  intros HA. induction k as [|k IH]; simpl.
  - apply ensures_ret. auto.
  - eapply ensures_bind; [apply est_step_quiet; exact HA|]. intros ?. exact IH.
Qed.

End EstrategiasQuiet.

Section EstrategiasExtinction.
Import VirusConEstrategias EstrategiasSpec EstrategiasTick EstrategiasCourse.
Context {RS : RandomSource}.
Variable laws : RandomLaws RS.

(** Once nobody is infected, the ticks change no agent and record the same
    row again and again. *)
Lemma est_extinct_run N R0 j :
  forall c (m : Model) g m' g',
    Inv N (frame_of m) R0 c m ->
    report Infected m = 0 ->
    interp (steps_n j m) g = Ok ((tt, m'), g') ->
    the_agents m' = the_agents m /\
    datacollector (MesaTime.fields m') =
      datacollector (MesaTime.fields m) ++ repeat (snapshot_of m) j /\
    ((0 < j)%nat -> running (MesaTime.fields m') = false).
Proof.
  induction j as [|j IH]; intros c m g m' g' HI H0 E.
  - simpl in E. inversion E; subst. simpl. rewrite app_nil_r.
    split; [reflexivity|]. split; [reflexivity|]. lia.
  - cbn [steps_n] in E. rewrite interp_bind in E.
    destruct (est_tick laws g HI) as (m1 & g1 & E1 & [c1 HI1] & Ht). rewrite E1 in E.
    assert (HA : the_agents m1 = the_agents m).
    { apply (leaves_interp (@est_step_quiet (the_agents m) (@est_extinct m H0) m eq_refl) _ E1). }
    assert (Hsnap : snapshot_of m1 = snapshot_of m).
    { unfold snapshot_of, report, MesaTime.agents. unfold the_agents in HA.
      rewrite HA. reflexivity. }
    assert (H1 : report Infected m1 = 0).
    { unfold report, MesaTime.agents in *. unfold the_agents in HA. rewrite HA. exact H0. }
    destruct (IH _ _ _ _ _ HI1 H1 E) as (Ha & Hrows & Hrun).
    destruct Ht as [_ _ Ht3 Ht4 _].
    split; [congruence|]. split.
    + rewrite Hrows, Ht3, Hsnap, <- app_assoc. reflexivity.
    + intros _. destruct j as [|j'].
      * simpl in E. inversion E; subst. rewrite Ht4, H1. apply andb_false_r.
      * apply Hrun. lia.
Qed.

End EstrategiasExtinction.

Section ComportamientoQuiet.
Import ComportamientoVirus ComportamientoSpec ComportamientoCourse.

Lemma cv_log_call_agents (A : dict InfectionAgent) self method :
  ensures (fun m => the_agents m = A) (log_call self method) (fun _ m => the_agents m = A).
Proof. apply ensures_modify. intros m H. exact H. Qed.

(** [move] writes to no agent. *)
Lemma cv_move_agents (A : dict InfectionAgent) self :
  ensures (fun m => the_agents m = A) (move self) (fun _ m => the_agents m = A).
Proof.
  unfold move.
  eapply ensures_bind; [apply cv_log_call_agents|].
  intros _ m HA. unfold bind, self_pos.
  destruct (Grid.agent_pos self (the_grid m)) as [pos|]; [|constructor]. simpl.
  unfold gets. simpl. unfold random_choice.
  destruct (Grid.get_neighborhood (the_grid m) pos) as [|c cs]; [constructor|].
  unfold lift. simpl. constructor. intros i.
  destruct (nth_error (c :: cs) i) as [new_position|]; [|constructor]. simpl.
  unfold on_grid.
  destruct (Grid.move_agent self new_position (the_grid m)); simpl; constructor.
  exact HA.
Qed.

Lemma cv_not_infected (a : InfectionAgent) :
  state a <> Infected -> state_eqb (state a) Infected = false.
Proof. destruct (state a); simpl; congruence. Qed.

(** An agent that is not infected does not change in [update_status]. *)
Lemma cv_update_status_quiet (A : dict InfectionAgent) self :
  (forall a, dict_get self A = Some a -> state a <> Infected) ->
  ensures (fun m => the_agents m = A) (update_status self) (fun _ m => the_agents m = A).
Proof.
  intros Hs. unfold update_status.
  eapply ensures_bind; [apply cv_log_call_agents|].
  intros _ m HA. unfold bind, get_agent.
  destruct (dict_get self (the_agents m)) as [a|] eqn:Ea; [|constructor]. simpl.
  rewrite cv_not_infected; [constructor; exact HA|].
  apply Hs. rewrite <- HA. exact Ea.
Qed.

(** An agent that is not infected infects nobody. *)
Lemma cv_infect_quiet (A : dict InfectionAgent) self :
  (forall a, dict_get self A = Some a -> state a <> Infected) ->
  ensures (fun m => the_agents m = A) (infect self) (fun _ m => the_agents m = A).
Proof.
  intros Hs. unfold infect.
  eapply ensures_bind; [apply cv_log_call_agents|].
  intros _ m HA. unfold bind, get_agent.
  destruct (dict_get self (the_agents m)) as [a|] eqn:Ea; [|constructor]. simpl.
  rewrite cv_not_infected; [constructor; exact HA|].
  apply Hs. rewrite <- HA. exact Ea.
Qed.

Lemma cv_agent_step_quiet (A : dict InfectionAgent) self :
  (forall a, dict_get self A = Some a -> state a <> Infected) ->
  ensures (fun m => the_agents m = A) (agent_step self) (fun _ m => the_agents m = A).
Proof.
  intros Hs. unfold agent_step.
  eapply ensures_bind; [apply cv_update_status_quiet; exact Hs|].
  intros ?. eapply ensures_bind; [apply cv_move_agents|].
  intros ?. apply cv_infect_quiet. exact Hs.
Qed.

Lemma cv_step_quiet (A : dict InfectionAgent) :
  cv_nobody_infected A ->
  ensures (fun m => the_agents m = A) step (fun _ m => the_agents m = A).
Proof.
  intros HA. unfold step.
  eapply ensures_bind with
    (R := fun _ m' => exists m1, the_agents m1 = A /\ m' = MesaTime.tick_clock m1).
  { apply (@RandomActivation_step_ensures _ _ call (fun m => the_agents m = A)).
    intros a. unfold call. simpl. apply cv_agent_step_quiet. apply HA. }
  intros ? m (m1 & H1 & ->).
  unfold bind, collect, modify, gets. simpl.
  match goal with |- context [if ?b then _ else _] => destruct b end;
    constructor; exact H1.
Qed.

End ComportamientoQuiet.

Section ComportamientoExtinction.
Import ComportamientoVirus ComportamientoSpec ComportamientoCourse.
Context {RS : RandomSource}.
Variable laws : RandomLaws RS.

Lemma cv_extinct_run N R0 j :
  forall c (m : Model) g m' g',
    Inv N (frame_of m) R0 c m ->
    report Infected m = 0 ->
    interp (steps_n j m) g = Ok ((tt, m'), g') ->
    the_agents m' = the_agents m /\
    datacollector (MesaTime.fields m') =
      datacollector (MesaTime.fields m) ++ repeat (snapshot_of m) j /\
    ((0 < j)%nat -> running (MesaTime.fields m') = false).
Proof.
  induction j as [|j IH]; intros c m g m' g' HI H0 E.
  - simpl in E. inversion E; subst. simpl. rewrite app_nil_r.
    split; [reflexivity|]. split; [reflexivity|]. lia.
  - cbn [steps_n] in E. rewrite interp_bind in E.
    destruct (cv_tick laws g HI) as (m1 & g1 & E1 & [c1 HI1] & Ht). rewrite E1 in E.
    assert (HA : the_agents m1 = the_agents m).
    { apply (leaves_interp (@cv_step_quiet (the_agents m) (@cv_extinct m H0) m eq_refl) _ E1). }
    assert (Hsnap : snapshot_of m1 = snapshot_of m).
    { unfold snapshot_of, report, MesaTime.agents. unfold the_agents in HA.
      rewrite HA. reflexivity. }
    assert (H1 : report Infected m1 = 0).
    { unfold report, MesaTime.agents in *. unfold the_agents in HA. rewrite HA. exact H0. }
    destruct (IH _ _ _ _ _ HI1 H1 E) as (Ha & Hrows & Hrun).
    destruct Ht as [_ _ Ht3 Ht4 _].
    split; [congruence|]. split.
    + rewrite Hrows, Ht3, Hsnap, <- app_assoc. reflexivity.
    + intros _. destruct j as [|j'].
      * simpl in E. inversion E; subst. rewrite Ht4, H1. apply andb_false_r.
      * apply Hrun. lia.
Qed.

End ComportamientoExtinction.

(** X16.  In both models extinction is final.  If nobody is infected after
    [n] ticks, then [j] further ticks leave the schedule's dictionary as it
    is, so that every agent keeps its identity, state, infection time and,
    in the model with strategies, quarantine flag, and record the row of
    that moment [j] more times; after the first of them [running] is
    false.  Positions are held by the grid and are not part of the
    statement: the agents may go on moving. *)
Theorem extinction_is_final (RS : RandomSource) (laws : RandomLaws RS)
    (cv : ComportamientoVirus.Config) (est : VirusConEstrategias.Config) (n j : nat) (g : rng) :
  0 < ComportamientoVirus.cfg_width cv -> 0 < ComportamientoVirus.cfg_height cv ->
  0 < VirusConEstrategias.cfg_width est -> 0 < VirusConEstrategias.cfg_height est ->
  (exists m g1 m' g2,
     interp (ComportamientoVirus.simulate cv n) g = Ok (m, g1) /\
     interp (ComportamientoVirus.simulate cv (n + j)) g = Ok (m', g2) /\
     (ComportamientoVirus.report Infected m = 0 ->
      ComportamientoVirus.the_agents m' = ComportamientoVirus.the_agents m /\
      ComportamientoVirus.datacollector (MesaTime.fields m') =
        ComportamientoVirus.datacollector (MesaTime.fields m)
        ++ repeat (ComportamientoSpec.snapshot_of m) j /\
      ((0 < j)%nat -> ComportamientoVirus.running (MesaTime.fields m') = false))) /\
  (exists m g1 m' g2,
     interp (VirusConEstrategias.simulate est n) g = Ok (m, g1) /\
     interp (VirusConEstrategias.simulate est (n + j)) g = Ok (m', g2) /\
     (VirusConEstrategias.report Infected m = 0 ->
      VirusConEstrategias.the_agents m' = VirusConEstrategias.the_agents m /\
      VirusConEstrategias.datacollector (MesaTime.fields m') =
        VirusConEstrategias.datacollector (MesaTime.fields m)
        ++ repeat (EstrategiasTick.snapshot_of m) j /\
      ((0 < j)%nat -> VirusConEstrategias.running (MesaTime.fields m') = false))).
Proof.
  intros Hw Hh Hw' Hh'. split.
  - destruct (cv_two_states laws cv n j g Hw Hh)
      as (m & g1 & m' & g2 & c & E & E' & E2 & HI & _).
    exists m, g1, m', g2. split; [exact E|]. split; [exact E'|].
    intros H0. eapply cv_extinct_run; eauto.
  - destruct (est_two_states laws est n j g Hw' Hh')
      as (m & g1 & m' & g2 & c & E & E' & E2 & HI & _).
    exists m, g1, m', g2. split; [exact E|]. split; [exact E'|].
    intros H0. eapply est_extinct_run; eauto.
Qed.


(** ** How long an epidemic can last *)

Section EstrategiasSpreadFacts.
Import VirusConEstrategias EstrategiasSpec EstrategiasTick EstrategiasCourse EstrategiasSpread.

Ltac munfold :=
  unfold frame_of, population, update_agent, modify,
    set_grid, set_calls, set_running, set_datacollector in *;
  unfold the_agents, the_grid, now,
    MesaTime.set_schedule, MesaTime.set_agents, MesaTime.set_fields in *;
  simpl in *.

Lemma est_count_nonneg s (l : list InfectionAgent) : 0 <= count_state s l.
Proof.
  induction l as [|a l IH]; cbn [count_state]; [lia|].
  destruct (state_eqb (state a) s); lia.
Qed.

(** Writing a state other than [s] to an agent does not raise the count of [s]. *)
Lemma est_count_update_le s k (F : InfectionAgent -> InfectionAgent) (d : dict InfectionAgent) :
  (forall x, state (F x) <> s) ->
  count_state s (dict_values (dict_update k F d)) <= count_state s (dict_values d).
Proof.
  intros HF. induction d as [|[k' v] d IH]; [simpl; lia|].
  unfold dict_update, dict_values in *. cbn [map fst snd count_state].
  destruct (k' =? k); cbn [snd].
  - destruct (state_eqb (state (F v)) s) eqn:E.
    + apply state_eqb_eq in E. exfalso. exact (HF v E).
    + destruct (state_eqb (state v) s); lia.
  - destruct (state_eqb (state v) s); lia.
Qed.

(** Infecting a susceptible agent lowers the count of the susceptible. *)
Lemma est_count_update_lt k (F : InfectionAgent -> InfectionAgent) (d : dict InfectionAgent) o :
  dict_get k d = Some o -> state o = Susceptible ->
  (forall x, state (F x) <> Susceptible) ->
  count_state Susceptible (dict_values (dict_update k F d))
    <= count_state Susceptible (dict_values d) - 1.
Proof.
  intros Ho Hs HF. induction d as [|[k' v] d IH]; [discriminate|].
  pose proof (@est_count_update_le Susceptible k F d HF) as Hle.
  unfold dict_update, dict_values in *. cbn [map fst snd count_state dict_get] in *.
  destruct (k' =? k); cbn [snd].
  - inversion Ho; subst v. rewrite Hs. cbn [state_eqb].
    destruct (state_eqb (state (F o)) Susceptible) eqn:E.
    + apply state_eqb_eq in E. exfalso. exact (HF o E).
    + lia.
  - specialize (IH Ho). destruct (state_eqb (state v) Susceptible); lia.
Qed.

Lemma est_timely_same rt C (m m' : Model) :
  timely rt C m ->
  the_agents m' = the_agents m ->
  recovery_time (MesaTime.fields m') = recovery_time (MesaTime.fields m) ->
  timely rt C m'.
Proof.
  intros [H1 H2] Ea Er. split; [congruence|].
  unfold report, MesaTime.agents in *. unfold the_agents in *. rewrite Ea. exact H2.
Qed.

Lemma est_fresh_same self (m m' : Model) :
  fresh self m ->
  the_agents m' = the_agents m -> now m' = now m ->
  recovery_time (MesaTime.fields m') = recovery_time (MesaTime.fields m) ->
  fresh self m'.
Proof. intros H Ea En Er b. rewrite Ea, En, Er. apply H. Qed.

(** A recovery keeps the bound. *)
Lemma est_timely_recover rt C (m m' : Model) k (F : InfectionAgent -> InfectionAgent) :
  timely rt C m ->
  the_agents m' = dict_update k F (the_agents m) ->
  recovery_time (MesaTime.fields m') = recovery_time (MesaTime.fields m) ->
  (forall x, state (F x) = Recovered /\ infection_time (F x) = infection_time x) ->
  (forall a, dict_get k (the_agents m) = Some a -> state a = Infected) ->
  timely rt C m'.
Proof.
  intros [H1 H2] Ea Er HF Hk. split; [congruence|].
  intros k' a' Ea' Hs.
  assert (Hle : report Susceptible m' <= report Susceptible m).
  { unfold report, MesaTime.agents. unfold the_agents in Ea. rewrite Ea.
    apply est_count_update_le. intros x Hx. destruct (HF x) as [Hr _]. congruence. }
  assert (Hmul : report Susceptible m' * Z.max rt 0 <= report Susceptible m * Z.max rt 0).
  { apply Z.mul_le_mono_nonneg_r; lia. }
  rewrite Ea, dict_get_update in Ea'. destruct (Z.eqb_spec k' k) as [->|Hne].
  - destruct (dict_get k (the_agents m)) as [a|] eqn:E; [|discriminate].
    simpl in Ea'. inversion Ea'; subst a'. destruct (HF a) as [_ Hit]. rewrite Hit.
    assert (Ha : state a <> Susceptible). { rewrite (Hk a eq_refl). discriminate. }
    specialize (H2 k a E Ha). lia.
  - specialize (H2 k' a' Ea' Hs). lia.
Qed.

(** An infection by an agent that is not due keeps the bound. *)
Lemma est_timely_infect rt C (m m' : Model) self b other o (F : InfectionAgent -> InfectionAgent) :
  timely rt C m ->
  dict_get self (the_agents m) = Some b -> state b = Infected ->
  now m - infection_time b < recovery_time (MesaTime.fields m) ->
  dict_get other (the_agents m) = Some o -> state o = Susceptible ->
  the_agents m' = dict_update other F (the_agents m) ->
  recovery_time (MesaTime.fields m') = recovery_time (MesaTime.fields m) ->
  (forall x, state (F x) = Infected /\ infection_time (F x) = now m) ->
  timely rt C m'.
Proof.
  intros [H1 H2] Eb Hb Hfresh Eo Ho Ea Er HF. split; [congruence|].
  intros k' a' Ea' Hs.
  assert (Hlt : report Susceptible m' <= report Susceptible m - 1).
  { unfold report, MesaTime.agents. unfold the_agents in Ea, Eo. rewrite Ea.
    eapply est_count_update_lt; eauto.
    intros x Hx. destruct (HF x) as [Hr _]. congruence. }
  assert (Hmul : report Susceptible m' * Z.max rt 0
                 <= (report Susceptible m - 1) * Z.max rt 0).
  { apply Z.mul_le_mono_nonneg_r; lia. }
  assert (Hbb : infection_time b + report Susceptible m * Z.max rt 0 <= C).
  { apply (H2 self b Eb). rewrite Hb. discriminate. }
  rewrite Ea, dict_get_update in Ea'. destruct (Z.eqb_spec k' other) as [->|Hne].
  - rewrite Eo in Ea'. simpl in Ea'. inversion Ea'; subst a'.
    destruct (HF o) as [_ Hit]. rewrite Hit. lia.
  - assert (Hs' := H2 k' a' Ea' Hs). lia.
Qed.

End EstrategiasSpreadFacts.

Section EstrategiasSpreadMethods.
Import VirusConEstrategias EstrategiasSpec EstrategiasTick EstrategiasCourse EstrategiasSpread.

Ltac munfold :=
  unfold frame_of, population, update_agent, modify,
    set_grid, set_calls, set_running, set_datacollector in *;
  unfold the_agents, the_grid, now,
    MesaTime.set_schedule, MesaTime.set_agents, MesaTime.set_fields in *;
  simpl in *.

Variables rt C : Z.

(** After [update_status] the agent, if infected, is not due. *)
Lemma est_update_status_timely self :
  ensures (timely rt C) (update_status self) (fun _ m => timely rt C m /\ fresh self m).
Proof.
  unfold update_status.
  eapply ensures_bind with (R := fun _ => timely rt C).
  { apply ensures_modify. intros m H. eapply est_timely_same; eauto. }
  intros _ m HT. unfold bind, get_agent.
  destruct (dict_get self (the_agents m)) as [a|] eqn:Ea; [|constructor]. simpl.
  destruct (state_eqb (state a) Infected) eqn:Es.
  2: { constructor. simpl. split; [exact HT|]. intros b Eb Hb.
       rewrite Ea in Eb. inversion Eb; subst b. rewrite Hb in Es. discriminate. }
  apply state_eqb_eq in Es. unfold gets. simpl.
  destruct (Z.leb_spec (recovery_time (MesaTime.fields m)) (now m - infection_time a)).
  2: { constructor. simpl. split; [exact HT|]. intros b Eb Hb.
       rewrite Ea in Eb. inversion Eb; subst b. lia. }
  unfold update_agent, modify. simpl.
  destruct (is_quarantined a) eqn:Eq0.
  - simpl.
    match goal with |- leaves _ (place_at_random _ ?m1) =>
      assert (HT1 : timely rt C m1 /\ fresh self m1)
    end.
    { split.
      - eapply est_timely_recover with (k := self)
          (F := fun a => set_is_quarantined false (set_state Recovered a)); eauto;
          try (intros a0 Ea0; rewrite Ea in Ea0; inversion Ea0; subst; exact Es).
        munfold. rewrite dict_update_update. reflexivity.
      - intros b Eb Hb. munfold. rewrite !dict_get_update, Z.eqb_refl in Eb.
        rewrite Ea in Eb. simpl in Eb. inversion Eb; subst b. discriminate. }
    match goal with |- leaves _ (place_at_random _ ?m1) =>
      eapply leaves_mono;
        [|apply (leaves_conj
                   (@est_place_at_random_agents (the_agents m1) self m1 eq_refl)
                   (@est_place_at_random_ensures
                      (recovery_time (MesaTime.fields m1))
                      (quarantine_enabled (MesaTime.fields m1)) (now m1) (now m1) m1 self m1
                      (est_within_refl m1)))]
    end.
    intros [u m'] [HA (Hn & _ & [Hr _ _])]. simpl in *. destruct HT1 as [HT1 HF1]. split.
    + eapply est_timely_same; [exact HT1|exact HA|exact Hr].
    + eapply est_fresh_same; [exact HF1|exact HA|exact Hn|exact Hr].
  - constructor. simpl. split.
    + eapply est_timely_recover with (k := self) (F := set_state Recovered); eauto.
      intros a0 Ea0. rewrite Ea in Ea0. inversion Ea0; subst. exact Es.
    + intros b Eb Hb. munfold. rewrite dict_get_update, Z.eqb_refl in Eb.
      rewrite Ea in Eb. simpl in Eb. inversion Eb; subst b. discriminate.
Qed.

Lemma est_move_timely self k :
  ensures (fun m => timely rt C m /\ fresh k m) (move self)
          (fun _ m => timely rt C m /\ fresh k m).
Proof.
  unfold move.
  eapply ensures_bind with (R := fun _ m => timely rt C m /\ fresh k m).
  { apply ensures_modify. intros m [H1 H2]. split.
    - eapply est_timely_same; eauto.
    - eapply est_fresh_same; eauto. }
  intros _ m HW. unfold bind, random_random, lift. simpl. constructor. intros r.
  unfold gets. simpl.
  destruct (Qlt_bool (social_distancing_rate (MesaTime.fields m)) r);
    [|constructor; exact HW].
  unfold self_pos.
  destruct (Grid.agent_pos self (the_grid m)) as [pos|]; [|constructor]. simpl.
  unfold random_choice.
  destruct (Grid.get_neighborhood (the_grid m) pos) as [|c cs]; [constructor|].
  unfold lift. simpl. constructor. intros i.
  destruct (nth_error (c :: cs) i) as [new_position|]; [|constructor]. simpl.
  unfold on_grid.
  destruct (Grid.move_agent self new_position (the_grid m)); simpl; constructor.
  simpl. destruct HW as [H1 H2]. split.
  - eapply est_timely_same; eauto.
  - eapply est_fresh_same; eauto.
Qed.

(** Inside the loop of [infect]: the infecting agent is infected and not due. *)
Lemma est_infect_other_timely self other :
  ensures (fun m => timely rt C m /\ fresh self m /\
                    exists b, dict_get self (the_agents m) = Some b /\ state b = Infected)
          (infect_other other)
          (fun _ m => timely rt C m /\ fresh self m /\
                      exists b, dict_get self (the_agents m) = Some b /\ state b = Infected).
Proof.
  intros m (HT & HF & b & Eb & Hb). unfold infect_other, bind, get_agent.
  destruct (dict_get other (the_agents m)) as [o|] eqn:Eo; [|constructor]. simpl.
  destruct (state_eqb (state o) Susceptible) eqn:Es; [|constructor; simpl; eauto].
  apply state_eqb_eq in Es.
  assert (Hne : self <> other).
  { intros ->. rewrite Eb in Eo. inversion Eo; subst. congruence. }
  unfold random_random, lift. simpl. constructor. intros r.
  unfold gets. simpl.
  destruct (Qlt_bool r (infection_rate (MesaTime.fields m))); [|constructor; simpl; eauto].
  unfold update_agent, modify. simpl.
  destruct (quarantine_enabled (MesaTime.fields m)) eqn:Eq0; simpl; constructor; simpl.
  - split; [|split].
    + eapply est_timely_infect with (self := self) (other := other)
        (F := fun a => set_is_quarantined true
                         (set_infection_time (now m) (set_state Infected a))); eauto.
      munfold. rewrite !dict_update_update. reflexivity.
    + intros b' Eb' Hb'. munfold. rewrite !dict_get_update in Eb'.
      destruct (Z.eqb_spec self other); [contradiction|]. apply (HF b' Eb' Hb').
    + exists b. split; [|exact Hb]. munfold. rewrite !dict_get_update.
      destruct (Z.eqb_spec self other); [contradiction|]. exact Eb.
  - split; [|split].
    + eapply est_timely_infect with (self := self) (other := other)
        (F := fun a => set_infection_time (now m) (set_state Infected a)); eauto.
      munfold. rewrite !dict_update_update. reflexivity.
    + intros b' Eb' Hb'. munfold. rewrite !dict_get_update in Eb'.
      destruct (Z.eqb_spec self other); [contradiction|]. apply (HF b' Eb' Hb').
    + exists b. split; [|exact Hb]. munfold. rewrite !dict_get_update.
      destruct (Z.eqb_spec self other); [contradiction|]. exact Eb.
Qed.

Lemma est_infect_timely self :
  ensures (fun m => timely rt C m /\ fresh self m) (infect self) (fun _ => timely rt C).
Proof.
  unfold infect.
  eapply ensures_bind with (R := fun _ m => timely rt C m /\ fresh self m).
  { apply ensures_modify. intros m [H1 H2]. split.
    - eapply est_timely_same; eauto.
    - eapply est_fresh_same; eauto. }
  intros _ m [HT HF]. unfold bind, get_agent.
  destruct (dict_get self (the_agents m)) as [a|] eqn:Ea; [|constructor]. simpl.
  destruct (state_eqb (state a) Infected) eqn:Es; [|constructor; exact HT].
  apply state_eqb_eq in Es.
  unfold self_pos.
  destruct (Grid.agent_pos self (the_grid m)) as [pos|]; [|constructor].
  simpl. unfold gets. simpl.
  eapply leaves_mono;
    [|apply (@ensures_for_each _ _
               (fun m => timely rt C m /\ fresh self m /\
                         exists b, dict_get self (the_agents m) = Some b /\ state b = Infected))].
  - intros [u m'] H. apply H.
  - intros other. apply est_infect_other_timely.
  - split; [exact HT|]. split; [exact HF|]. eauto.
Qed.

Lemma est_agent_step_timely self :
  ensures (timely rt C) (agent_step self) (fun _ => timely rt C).
Proof.
  unfold agent_step.
  eapply ensures_bind with (R := fun _ => timely rt C).
  { intros m HW. unfold get_agent.
    destruct (dict_get self (the_agents m)); constructor. exact HW. }
  intros a. destruct (is_quarantined a).
  - eapply ensures_conseq; [apply est_update_status_timely|auto|].
    intros ? m [H _]. exact H.
  - eapply ensures_bind; [apply est_update_status_timely|].
    intros ?. eapply ensures_bind; [apply est_move_timely|].
    intros ?. apply est_infect_timely.
Qed.

Lemma est_step_timely :
  ensures (timely rt C) step (fun _ => timely rt C).
Proof.
  unfold step.
  eapply ensures_bind with
    (R := fun _ m' => exists m1, timely rt C m1 /\ m' = MesaTime.tick_clock m1).
  { apply (@RandomActivation_step_ensures _ _ call (timely rt C)).
    intros a. unfold call. simpl. apply est_agent_step_timely. }
  intros ? m (m1 & H1 & ->).
  unfold bind, collect, modify, gets. simpl.
  match goal with |- context [if ?b then _ else _] => destruct b end;
    constructor; simpl; eapply est_timely_same; eauto.
Qed.

Lemma est_steps_n_timely k :
  ensures (timely rt C) (steps_n k) (fun _ => timely rt C).
Proof.
  induction k as [|k IH]; simpl.
  - apply ensures_ret. auto.
  - eapply ensures_bind; [apply est_step_timely|]. intros ?. exact IH.
Qed.

End EstrategiasSpreadMethods.

Section EstrategiasEnd.
Import VirusConEstrategias EstrategiasSpec EstrategiasTick EstrategiasCourse EstrategiasSpread.
Context {RS : RandomSource}.
Variable laws : RandomLaws RS.

Lemma est_count_below_length s (l : list InfectionAgent) a :
  In a l -> state a <> s -> count_state s l <= Z.of_nat (length l) - 1.
Proof.
  assert (Hle : forall l', count_state s l' <= Z.of_nat (length l')).
  { induction l' as [|x l' IH]; cbn [count_state length]; [lia|].
    destruct (state_eqb (state x) s); lia. }
  induction l as [|x l IH]; intros Hin Hs; [contradiction|].
  cbn [count_state length]. destruct Hin as [->|Hin].
  - destruct (state_eqb (state a) s) eqn:E.
    + apply state_eqb_eq in E. contradiction.
    + specialize (Hle l). lia.
  - specialize (IH Hin Hs). destruct (state_eqb (state x) s); lia.
Qed.

(** The constructed model is within the bound of [N - 1] recovery times. *)
Lemma est_constructed_timely (cfg : Config) (m0 : Model) :
  (forall i a, dict_get i (the_agents m0) = Some a -> constructed_ok cfg i a) ->
  timely (recovery_time (MesaTime.fields m0))
         ((Z.of_nat (length (the_agents m0)) - 1)
          * Z.max (recovery_time (MesaTime.fields m0)) 0) m0.
Proof.
  intros Hc. split; [reflexivity|]. intros k a Ea Hs.
  destruct (Hc k a Ea) as (Hit & _). rewrite Hit.
  assert (Hle : report Susceptible m0 <= Z.of_nat (length (the_agents m0)) - 1).
  { unfold report, MesaTime.agents.
    replace (length (the_agents m0)) with (length (dict_values (the_agents m0)))
      by (unfold dict_values; apply length_map).
    eapply est_count_below_length; [|exact Hs].
    apply dict_get_In in Ea. apply in_map with (f := snd) in Ea. exact Ea. }
  simpl. apply Z.mul_le_mono_nonneg_r; lia.
Qed.

(** An agent that is infected at the end of a tick was infected within the
    last [max rt 1] ticks. *)
Lemma est_infected_recent N R0 c c' (m m' : Model) g g' k a :
  Inv N (frame_of m) R0 c m -> Inv N (frame_of m') R0 c' m' ->
  interp (steps_n 1 m) g = Ok ((tt, m'), g') ->
  dict_get k (the_agents m') = Some a -> state a = Infected ->
  now m' <= infection_time a + Z.max (recovery_time (MesaTime.fields m)) 1.
Proof.
  intros HI HI' E Ea Hs.
  destruct (est_course_of_run _ _ _ E) as [_ _ HF].
  assert (Hnow : now m' = now m + 1).
  { destruct (safe_interp laws (@est_steps_n_triple N R0 1 c m m (conj eq_refl HI)) g)
      as ([[] m1] & g1 & E1 & _ & Hr).
    rewrite E in E1. inversion E1; subst. destruct Hr as [Hr _ _ _]. simpl in Hr. lia. }
  assert (Hk : dict_get k (the_agents m) <> None).
  { apply dict_get_In_keys. destruct HI as [Hk0 _ _ _ _ _]. destruct HI' as [Hk1 _ _ _ _ _].
    unfold population in *. unfold the_agents in *.
    rewrite Hk0, <- Hk1. apply dict_get_In_keys. congruence. }
  destruct (dict_get k (the_agents m)) as [a0|] eqn:Ea0; [|congruence].
  destruct (HF k a0 Ea0) as (a' & Ea' & C0). rewrite Ea in Ea'. inversion Ea'; subst a'.
  destruct (state a0) eqn:Es0.
  - destruct (est_course_from_susceptible C0 Es0) as [->|[_ Ht]]; [congruence|]. lia.
  - destruct (Z.le_gt_cases (now m') (infection_time a
                                      + Z.max (recovery_time (MesaTime.fields m)) 1))
      as [Hle|Hgt]; [exact Hle|exfalso].
    destruct (est_course_from_infected C0 Es0) as [->|[-> _]].
    + destruct (@est_recovers_in_time _ laws N R0 k a0 1 c m g m' g' HI E Ea0 Es0)
        as (a1 & Ea1 & Es1); [lia|lia|].
      rewrite Ea in Ea1. inversion Ea1; subst a1. congruence.
    + rewrite est_recovered_state in Hs. discriminate.
  - rewrite (est_course_from_recovered C0 Es0) in Hs. congruence.
Qed.

(** More than [N] times the recovery time (one tick at least) after
    construction, nobody is infected and the model has stopped running. *)
Lemma est_extinct_after (cfg : Config) n g m0 g0 m g' :
  0 < cfg_width cfg -> 0 < cfg_height cfg -> 0 <= cfg_N cfg ->
  interp (InfectionModel cfg) g = Ok (m0, g0) ->
  interp (steps_n n m0) g0 = Ok ((tt, m), g') ->
  cfg_N cfg * Z.max (cfg_recovery_time cfg) 1 < Z.of_nat n ->
  report Infected m = 0 /\ running (MesaTime.fields m) = false.
Proof.
  intros Hw Hh HN E0 E Hn.
  destruct (safe_interp laws (est_InfectionModel_safe cfg Hw Hh) g) as (m0' & g0' & E0' & HI0).
  rewrite E0 in E0'. inversion E0'; subst m0' g0'.
  destruct (safe_interp laws (est_InfectionModel_window cfg Hw Hh) g) as (m0' & g0' & E0'' & Hc).
  rewrite E0 in E0''. inversion E0''; subst m0' g0'.
  assert (HI0' := HI0). rewrite (est_Inv_frame HI0) in HI0'.
  destruct n as [|n']; [simpl in Hn; lia|].
  replace (S n') with (n' + 1)%nat in E by lia.
  rewrite est_interp_steps_n_add in E.
  destruct (est_continue laws n' g0 HI0') as (m1 & g1 & E1 & [c1 HI1] & Hr1).
  rewrite E1 in E.
  destruct (est_continue laws 1 g1 HI1) as (m2 & g2 & E2 & [c2 HI2] & Hr2).
  rewrite E in E2. inversion E2; subst m2 g2.
  assert (Hfr : frame_of m0 = frame_of (empty_model cfg)).
  { destruct HI0 as [_ Hf _ _ _ _]. exact Hf. }
  unfold frame_of, empty_model in Hfr.
  injection Hfr as _ Htime _ _ _ Hrt _ _ _ _ _. simpl in Htime, Hrt.
  assert (Hrt1 : recovery_time (MesaTime.fields m1) = cfg_recovery_time cfg).
  { destruct Hr1 as [_ Hp _ _]. unfold params_of in Hp. congruence. }
  assert (Hnow1 : now m1 = Z.of_nat n').
  { destruct Hr1 as [Ht _ _ _]. unfold now in *. lia. }
  assert (Hnow : now m = Z.of_nat n' + 1).
  { destruct Hr2 as [Ht _ _ _]. simpl in Ht. lia. }
  assert (HT0 := @est_constructed_timely cfg m0 Hc).
  assert (Erun : interp (steps_n (n' + 1) m0) g0 = Ok ((tt, m), g')).
  { rewrite est_interp_steps_n_add, E1. exact E. }
  assert (HT := leaves_interp (@est_steps_n_timely _ _ (n' + 1) m0 HT0) _ Erun).
  simpl in HT. destruct HT as [_ HT].
  assert (Hlen : Z.of_nat (length (the_agents m0)) = cfg_N cfg).
  { destruct HI0 as [Hk _ _ _ _ _]. unfold population, dict_keys in Hk.
    unfold the_agents. rewrite <- (length_map fst), Hk. apply range_length. exact HN. }
  assert (Hnone : forall k a, dict_get k (the_agents m) = Some a -> state a <> Infected).
  { intros k a Ea Hs.
    assert (Hrec := @est_infected_recent _ _ _ _ _ _ _ _ k a HI1 HI2 E Ea Hs).
    assert (Hb : infection_time a + report Susceptible m * Z.max (recovery_time (MesaTime.fields m0)) 0
                 <= (Z.of_nat (length (the_agents m0)) - 1)
                    * Z.max (recovery_time (MesaTime.fields m0)) 0).
    { apply (HT k a Ea). rewrite Hs. discriminate. }
    assert (Hs0 : 0 <= report Susceptible m) by apply est_count_nonneg.
    assert (HN1 : 1 <= cfg_N cfg).
    { destruct HI2 as [Hk _ _ _ _ _]. unfold population in Hk.
      assert (Hin : In k (range (cfg_N cfg))).
      { rewrite <- Hk. apply dict_get_In_keys. unfold the_agents in Ea. congruence. }
      destruct (Z.le_gt_cases 1 (cfg_N cfg)) as [H1|H1]; [exact H1|].
      unfold range in Hin. replace (Z.to_nat (cfg_N cfg)) with 0%nat in Hin by lia.
      contradiction. }
    rewrite Hlen, Hrt in Hb. rewrite Hrt1, Hnow in Hrec.
    set (rt := cfg_recovery_time cfg) in *. set (N := cfg_N cfg) in *.
    assert (H1 : 0 <= report Susceptible m * Z.max rt 0) by (apply Z.mul_nonneg_nonneg; lia).
    assert (H2 : (N - 1) * Z.max rt 0 <= (N - 1) * Z.max rt 1)
      by (apply Z.mul_le_mono_nonneg_l; lia).
    lia. }
  assert (H0 : report Infected m = 0).
  { unfold report, MesaTime.agents. apply est_count_none. apply Forall_forall.
    intros a Hin. unfold dict_values in Hin. apply in_map_iff in Hin.
    destruct Hin as ([k a'] & <- & Hin). simpl.
    apply (Hnone k). apply dict_get_of_In; [|exact Hin].
    destruct HI2 as [Hk _ _ _ _ _]. unfold population in Hk. unfold the_agents.
    rewrite Hk. apply range_NoDup. }
  split; [exact H0|].
  cbn [steps_n] in E. rewrite interp_bind in E.
  destruct (est_tick laws g1 HI1) as (m2 & g2 & Et & _ & Ht). rewrite Et in E.
  simpl in E. inversion E; subst m2 g2.
  destruct Ht as [_ _ _ Ht4 _]. rewrite Ht4, H0. apply andb_false_r.
Qed.

End EstrategiasEnd.


Section ComportamientoSpreadFacts.
Import ComportamientoVirus ComportamientoSpec ComportamientoCourse ComportamientoSpread.

Ltac cunfold :=
  unfold frame_of, population, update_agent, modify,
    set_grid, set_calls, set_running, set_datacollector in *;
  unfold the_agents, the_grid, now,
    MesaTime.set_schedule, MesaTime.set_agents, MesaTime.set_fields in *;
  simpl in *.

Lemma cv_count_nonneg s (l : list InfectionAgent) : 0 <= count_state s l.
Proof.
  induction l as [|a l IH]; cbn [count_state]; [lia|].
  destruct (state_eqb (state a) s); lia.
Qed.

(** Writing a state other than [s] to an agent does not raise the count of [s]. *)
Lemma cv_count_update_le s k (F : InfectionAgent -> InfectionAgent) (d : dict InfectionAgent) :
  (forall x, state (F x) <> s) ->
  count_state s (dict_values (dict_update k F d)) <= count_state s (dict_values d).
Proof.
  intros HF. induction d as [|[k' v] d IH]; [simpl; lia|].
  unfold dict_update, dict_values in *. cbn [map fst snd count_state].
  destruct (k' =? k); cbn [snd].
  - destruct (state_eqb (state (F v)) s) eqn:E.
    + apply state_eqb_eq in E. exfalso. exact (HF v E).
    + destruct (state_eqb (state v) s); lia.
  - destruct (state_eqb (state v) s); lia.
Qed.

(** Infecting a susceptible agent lowers the count of the susceptible. *)
Lemma cv_count_update_lt k (F : InfectionAgent -> InfectionAgent) (d : dict InfectionAgent) o :
  dict_get k d = Some o -> state o = Susceptible ->
  (forall x, state (F x) <> Susceptible) ->
  count_state Susceptible (dict_values (dict_update k F d))
    <= count_state Susceptible (dict_values d) - 1.
Proof.
  intros Ho Hs HF. induction d as [|[k' v] d IH]; [discriminate|].
  pose proof (@cv_count_update_le Susceptible k F d HF) as Hle.
  unfold dict_update, dict_values in *. cbn [map fst snd count_state dict_get] in *.
  destruct (k' =? k); cbn [snd].
  - inversion Ho; subst v. rewrite Hs. cbn [state_eqb].
    destruct (state_eqb (state (F o)) Susceptible) eqn:E.
    + apply state_eqb_eq in E. exfalso. exact (HF o E).
    + lia.
  - specialize (IH Ho). destruct (state_eqb (state v) Susceptible); lia.
Qed.

Lemma cv_timely_same rt C (m m' : Model) :
  timely rt C m ->
  the_agents m' = the_agents m ->
  recovery_time (MesaTime.fields m') = recovery_time (MesaTime.fields m) ->
  timely rt C m'.
Proof.
  intros [H1 H2] Ea Er. split; [congruence|].
  unfold report, MesaTime.agents in *. unfold the_agents in *. rewrite Ea. exact H2.
Qed.

Lemma cv_fresh_same self (m m' : Model) :
  fresh self m ->
  the_agents m' = the_agents m -> now m' = now m ->
  recovery_time (MesaTime.fields m') = recovery_time (MesaTime.fields m) ->
  fresh self m'.
Proof. intros H Ea En Er b. rewrite Ea, En, Er. apply H. Qed.

(** A recovery keeps the bound. *)
Lemma cv_timely_recover rt C (m m' : Model) k (F : InfectionAgent -> InfectionAgent) :
  timely rt C m ->
  the_agents m' = dict_update k F (the_agents m) ->
  recovery_time (MesaTime.fields m') = recovery_time (MesaTime.fields m) ->
  (forall x, state (F x) = Recovered /\ infection_time (F x) = infection_time x) ->
  (forall a, dict_get k (the_agents m) = Some a -> state a = Infected) ->
  timely rt C m'.
Proof.
  intros [H1 H2] Ea Er HF Hk. split; [congruence|].
  intros k' a' Ea' Hs.
  assert (Hle : report Susceptible m' <= report Susceptible m).
  { unfold report, MesaTime.agents. unfold the_agents in Ea. rewrite Ea.
    apply cv_count_update_le. intros x Hx. destruct (HF x) as [Hr _]. congruence. }
  assert (Hmul : report Susceptible m' * Z.max rt 0 <= report Susceptible m * Z.max rt 0).
  { apply Z.mul_le_mono_nonneg_r; lia. }
  rewrite Ea, dict_get_update in Ea'. destruct (Z.eqb_spec k' k) as [->|Hne].
  - destruct (dict_get k (the_agents m)) as [a|] eqn:E; [|discriminate].
    simpl in Ea'. inversion Ea'; subst a'. destruct (HF a) as [_ Hit]. rewrite Hit.
    assert (Ha : state a <> Susceptible). { rewrite (Hk a eq_refl). discriminate. }
    specialize (H2 k a E Ha). lia.
  - specialize (H2 k' a' Ea' Hs). lia.
Qed.

(** An infection by an agent that is not due keeps the bound. *)
Lemma cv_timely_infect rt C (m m' : Model) self b other o (F : InfectionAgent -> InfectionAgent) :
  timely rt C m ->
  dict_get self (the_agents m) = Some b -> state b = Infected ->
  now m - infection_time b < recovery_time (MesaTime.fields m) ->
  dict_get other (the_agents m) = Some o -> state o = Susceptible ->
  the_agents m' = dict_update other F (the_agents m) ->
  recovery_time (MesaTime.fields m') = recovery_time (MesaTime.fields m) ->
  (forall x, state (F x) = Infected /\ infection_time (F x) = now m) ->
  timely rt C m'.
Proof.
  intros [H1 H2] Eb Hb Hfresh Eo Ho Ea Er HF. split; [congruence|].
  intros k' a' Ea' Hs.
  assert (Hlt : report Susceptible m' <= report Susceptible m - 1).
  { unfold report, MesaTime.agents. unfold the_agents in Ea, Eo. rewrite Ea.
    eapply cv_count_update_lt; eauto.
    intros x Hx. destruct (HF x) as [Hr _]. congruence. }
  assert (Hmul : report Susceptible m' * Z.max rt 0
                 <= (report Susceptible m - 1) * Z.max rt 0).
  { apply Z.mul_le_mono_nonneg_r; lia. }
  assert (Hbb : infection_time b + report Susceptible m * Z.max rt 0 <= C).
  { apply (H2 self b Eb). rewrite Hb. discriminate. }
  rewrite Ea, dict_get_update in Ea'. destruct (Z.eqb_spec k' other) as [->|Hne].
  - rewrite Eo in Ea'. simpl in Ea'. inversion Ea'; subst a'.
    destruct (HF o) as [_ Hit]. rewrite Hit. lia.
  - assert (Hs' := H2 k' a' Ea' Hs). lia.
Qed.

End ComportamientoSpreadFacts.

Section ComportamientoSpreadMethods.
Import ComportamientoVirus ComportamientoSpec ComportamientoCourse ComportamientoSpread.

Ltac cunfold :=
  unfold frame_of, population, update_agent, modify,
    set_grid, set_calls, set_running, set_datacollector in *;
  unfold the_agents, the_grid, now,
    MesaTime.set_schedule, MesaTime.set_agents, MesaTime.set_fields in *;
  simpl in *.

Variables rt C : Z.

(** After [update_status] the agent, if infected, is not due. *)
Lemma cv_update_status_timely self :
  ensures (timely rt C) (update_status self) (fun _ m => timely rt C m /\ fresh self m).
Proof.
  unfold update_status.
  eapply ensures_bind with (R := fun _ => timely rt C).
  { apply ensures_modify. intros m H. eapply cv_timely_same; eauto. }
  intros _ m HT. unfold bind, get_agent.
  destruct (dict_get self (the_agents m)) as [a|] eqn:Ea; [|constructor]. simpl.
  destruct (state_eqb (state a) Infected) eqn:Es.
  2: { constructor. simpl. split; [exact HT|]. intros b Eb Hb.
       rewrite Ea in Eb. inversion Eb; subst b. rewrite Hb in Es. discriminate. }
  apply state_eqb_eq in Es. unfold gets. simpl.
  destruct (Z.leb_spec (recovery_time (MesaTime.fields m)) (now m - infection_time a)).
  2: { constructor. simpl. split; [exact HT|]. intros b Eb Hb.
       rewrite Ea in Eb. inversion Eb; subst b. lia. }
  unfold update_agent, modify. constructor. simpl. split.
  - eapply cv_timely_recover with (k := self) (F := set_state Recovered); eauto.
    intros a0 Ea0. rewrite Ea in Ea0. inversion Ea0; subst. exact Es.
  - intros b Eb Hb. cunfold. rewrite dict_get_update, Z.eqb_refl in Eb.
    rewrite Ea in Eb. simpl in Eb. inversion Eb; subst b. discriminate.
Qed.

Lemma cv_move_timely self k :
  ensures (fun m => timely rt C m /\ fresh k m) (move self)
          (fun _ m => timely rt C m /\ fresh k m).
Proof.
  unfold move.
  eapply ensures_bind with (R := fun _ m => timely rt C m /\ fresh k m).
  { apply ensures_modify. intros m [H1 H2]. split.
    - eapply cv_timely_same; eauto.
    - eapply cv_fresh_same; eauto. }
  intros _ m HW. unfold bind, self_pos.
  destruct (Grid.agent_pos self (the_grid m)) as [pos|]; [|constructor]. simpl.
  unfold gets. simpl. unfold random_choice.
  destruct (Grid.get_neighborhood (the_grid m) pos) as [|c cs]; [constructor|].
  unfold lift. simpl. constructor. intros i.
  destruct (nth_error (c :: cs) i) as [new_position|]; [|constructor]. simpl.
  unfold on_grid.
  destruct (Grid.move_agent self new_position (the_grid m)); simpl; constructor.
  simpl. destruct HW as [H1 H2]. split.
  - eapply cv_timely_same; eauto.
  - eapply cv_fresh_same; eauto.
Qed.

(** Inside the loop of [infect]: the infecting agent is infected and not due. *)
Lemma cv_infect_other_timely self other :
  ensures (fun m => timely rt C m /\ fresh self m /\
                    exists b, dict_get self (the_agents m) = Some b /\ state b = Infected)
          (infect_other other)
          (fun _ m => timely rt C m /\ fresh self m /\
                      exists b, dict_get self (the_agents m) = Some b /\ state b = Infected).
Proof.
  intros m (HT & HF & b & Eb & Hb). unfold infect_other, bind, get_agent.
  destruct (dict_get other (the_agents m)) as [o|] eqn:Eo; [|constructor]. simpl.
  destruct (state_eqb (state o) Susceptible) eqn:Es; [|constructor; simpl; eauto].
  apply state_eqb_eq in Es.
  assert (Hne : self <> other).
  { intros ->. rewrite Eb in Eo. inversion Eo; subst. congruence. }
  unfold random_random, lift. simpl. constructor. intros r.
  unfold gets. simpl.
  destruct (Qlt_bool r (infection_rate (MesaTime.fields m))); [|constructor; simpl; eauto].
  unfold update_agent, modify. simpl. constructor. simpl.
  split; [|split].
  - eapply cv_timely_infect with (self := self) (other := other)
      (F := fun a => set_infection_time (now m) (set_state Infected a)); eauto.
    cunfold. rewrite !dict_update_update. reflexivity.
  - intros b' Eb' Hb'. cunfold. rewrite !dict_get_update in Eb'.
    destruct (Z.eqb_spec self other); [contradiction|]. apply (HF b' Eb' Hb').
  - exists b. split; [|exact Hb]. cunfold. rewrite !dict_get_update.
    destruct (Z.eqb_spec self other); [contradiction|]. exact Eb.
Qed.

Lemma cv_infect_timely self :
  ensures (fun m => timely rt C m /\ fresh self m) (infect self) (fun _ => timely rt C).
Proof.
  unfold infect.
  eapply ensures_bind with (R := fun _ m => timely rt C m /\ fresh self m).
  { apply ensures_modify. intros m [H1 H2]. split.
    - eapply cv_timely_same; eauto.
    - eapply cv_fresh_same; eauto. }
  intros _ m [HT HF]. unfold bind, get_agent.
  destruct (dict_get self (the_agents m)) as [a|] eqn:Ea; [|constructor]. simpl.
  destruct (state_eqb (state a) Infected) eqn:Es; [|constructor; exact HT].
  apply state_eqb_eq in Es.
  unfold self_pos.
  destruct (Grid.agent_pos self (the_grid m)) as [pos|]; [|constructor].
  simpl. unfold gets. simpl.
  match goal with |- context [if ?b then _ else _] => destruct b end;
    [|constructor; exact HT].
  eapply leaves_mono;
    [|apply (@ensures_for_each _ _
               (fun m => timely rt C m /\ fresh self m /\
                         exists b, dict_get self (the_agents m) = Some b /\ state b = Infected))].
  - intros [u m'] H. apply H.
  - intros other. apply cv_infect_other_timely.
  - split; [exact HT|]. split; [exact HF|]. eauto.
Qed.

Lemma cv_agent_step_timely self :
  ensures (timely rt C) (agent_step self) (fun _ => timely rt C).
Proof.
  unfold agent_step.
  eapply ensures_bind; [apply cv_update_status_timely|].
  intros ?. eapply ensures_bind; [apply cv_move_timely|].
  intros ?. apply cv_infect_timely.
Qed.

Lemma cv_step_timely :
  ensures (timely rt C) step (fun _ => timely rt C).
Proof.
  unfold step.
  eapply ensures_bind with
    (R := fun _ m' => exists m1, timely rt C m1 /\ m' = MesaTime.tick_clock m1).
  { apply (@RandomActivation_step_ensures _ _ call (timely rt C)).
    intros a. unfold call. simpl. apply cv_agent_step_timely. }
  intros ? m (m1 & H1 & ->).
  unfold bind, collect, modify, gets. simpl.
  match goal with |- context [if ?b then _ else _] => destruct b end;
    constructor; simpl; eapply cv_timely_same; eauto.
Qed.

Lemma cv_steps_n_timely k :
  ensures (timely rt C) (steps_n k) (fun _ => timely rt C).
Proof.
  induction k as [|k IH]; simpl.
  - apply ensures_ret. auto.
  - eapply ensures_bind; [apply cv_step_timely|]. intros ?. exact IH.
Qed.

End ComportamientoSpreadMethods.

Section ComportamientoEnd.
Import ComportamientoVirus ComportamientoSpec ComportamientoCourse ComportamientoSpread.
Context {RS : RandomSource}.
Variable laws : RandomLaws RS.

Lemma cv_count_below_length s (l : list InfectionAgent) a :
  In a l -> state a <> s -> count_state s l <= Z.of_nat (length l) - 1.
Proof.
  assert (Hle : forall l', count_state s l' <= Z.of_nat (length l')).
  { induction l' as [|x l' IH]; cbn [count_state length]; [lia|].
    destruct (state_eqb (state x) s); lia. }
  induction l as [|x l IH]; intros Hin Hs; [contradiction|].
  cbn [count_state length]. destruct Hin as [->|Hin].
  - destruct (state_eqb (state a) s) eqn:E.
    + apply state_eqb_eq in E. contradiction.
    + specialize (Hle l). lia.
  - specialize (IH Hin Hs). destruct (state_eqb (state x) s); lia.
Qed.

(** The constructed model is within the bound of [N - 1] recovery times. *)
Lemma cv_constructed_timely (m0 : Model) :
  (forall i a, dict_get i (the_agents m0) = Some a -> infection_time a = 0) ->
  timely (recovery_time (MesaTime.fields m0))
         ((Z.of_nat (length (the_agents m0)) - 1)
          * Z.max (recovery_time (MesaTime.fields m0)) 0) m0.
Proof.
  intros Hc. split; [reflexivity|]. intros k a Ea Hs.
  rewrite (Hc k a Ea).
  assert (Hle : report Susceptible m0 <= Z.of_nat (length (the_agents m0)) - 1).
  { unfold report, MesaTime.agents.
    replace (length (the_agents m0)) with (length (dict_values (the_agents m0)))
      by (unfold dict_values; apply length_map).
    eapply cv_count_below_length; [|exact Hs].
    apply dict_get_In in Ea. apply in_map with (f := snd) in Ea. exact Ea. }
  simpl. apply Z.mul_le_mono_nonneg_r; lia.
Qed.

(** An agent that is infected at the end of a tick was infected within the
    last [max rt 1] ticks. *)
Lemma cv_infected_recent N R0 c c' (m m' : Model) g g' k a :
  Inv N (frame_of m) R0 c m -> Inv N (frame_of m') R0 c' m' ->
  interp (steps_n 1 m) g = Ok ((tt, m'), g') ->
  dict_get k (the_agents m') = Some a -> state a = Infected ->
  now m' <= infection_time a + Z.max (recovery_time (MesaTime.fields m)) 1.
Proof.
  intros HI HI' E Ea Hs.
  destruct (cv_course_of_run _ _ _ E) as [_ HF].
  assert (Hnow : now m' = now m + 1).
  { destruct (safe_interp laws (@cv_steps_n_triple N R0 1 c m m (conj eq_refl HI)) g)
      as ([[] m1] & g1 & E1 & _ & Hr).
    rewrite E in E1. inversion E1; subst. destruct Hr as [Hr _ _ _]. simpl in Hr. lia. }
  assert (Hk : dict_get k (the_agents m) <> None).
  { apply dict_get_In_keys. destruct HI as [Hk0 _ _ _ _ _]. destruct HI' as [Hk1 _ _ _ _ _].
    unfold population in *. unfold the_agents in *.
    rewrite Hk0, <- Hk1. apply dict_get_In_keys. congruence. }
  destruct (dict_get k (the_agents m)) as [a0|] eqn:Ea0; [|congruence].
  destruct (HF k a0 Ea0) as (a' & Ea' & C0). rewrite Ea in Ea'. inversion Ea'; subst a'.
  destruct (state a0) eqn:Es0.
  - destruct (cv_course_from_susceptible C0 Es0) as [->|[_ Ht]]; [congruence|]. lia.
  - destruct (Z.le_gt_cases (now m') (infection_time a
                                      + Z.max (recovery_time (MesaTime.fields m)) 1))
      as [Hle|Hgt]; [exact Hle|exfalso].
    destruct (cv_course_from_infected C0 Es0) as [->|[-> _]].
    + destruct (@cv_recovers_in_time _ laws N R0 k a0 1 c m g m' g' HI E Ea0 Es0)
        as (a1 & Ea1 & Es1); [lia|lia|].
      rewrite Ea in Ea1. inversion Ea1; subst a1. congruence.
    + discriminate.
  - rewrite (cv_course_from_recovered C0 Es0) in Hs. congruence.
Qed.

(** More than [N] times the recovery time (one tick at least) after
    construction, nobody is infected and the model has stopped running. *)
Lemma cv_extinct_after (cfg : Config) n g m0 g0 m g' :
  0 < cfg_width cfg -> 0 < cfg_height cfg -> 0 <= cfg_N cfg ->
  interp (InfectionModel cfg) g = Ok (m0, g0) ->
  interp (steps_n n m0) g0 = Ok ((tt, m), g') ->
  cfg_N cfg * Z.max (cfg_recovery_time cfg) 1 < Z.of_nat n ->
  report Infected m = 0 /\ running (MesaTime.fields m) = false.
Proof.
  intros Hw Hh HN E0 E Hn.
  destruct (safe_interp laws (cv_InfectionModel_safe cfg Hw Hh) g) as (m0' & g0' & E0' & HI0).
  rewrite E0 in E0'. inversion E0'; subst m0' g0'.
  destruct (safe_interp laws (cv_InfectionModel_exact cfg Hw Hh) g) as (m0' & g0' & E0'' & Hx).
  rewrite E0 in E0''. inversion E0''; subst m0' g0'.
  assert (Hc : forall i a, dict_get i (the_agents m0) = Some a -> infection_time a = 0).
  { intros i a Ea. rewrite Hx in Ea. apply dict_get_In in Ea.
    unfold constructed_agents in Ea. apply in_map_iff in Ea.
    destruct Ea as (j & Ej & _). inversion Ej; subst.
    unfold constructed_agent.
    match goal with |- context [if ?b then _ else _] => destruct b end; reflexivity. }
  assert (HI0' := HI0). rewrite (cv_Inv_frame HI0) in HI0'.
  destruct n as [|n']; [simpl in Hn; lia|].
  replace (S n') with (n' + 1)%nat in E by lia.
  rewrite cv_interp_steps_n_add in E.
  destruct (cv_continue laws n' g0 HI0') as (m1 & g1 & E1 & [c1 HI1] & Hr1).
  rewrite E1 in E.
  destruct (cv_continue laws 1 g1 HI1) as (m2 & g2 & E2 & [c2 HI2] & Hr2).
  rewrite E in E2. inversion E2; subst m2 g2.
  assert (Hfr : frame_of m0 = frame_of (empty_model cfg)).
  { destruct HI0 as [_ Hf _ _ _ _]. exact Hf. }
  unfold frame_of, empty_model in Hfr.
  injection Hfr as _ Htime _ _ _ Hrt _ _ _. simpl in Htime, Hrt.
  assert (Hrt1 : recovery_time (MesaTime.fields m1) = cfg_recovery_time cfg).
  { destruct Hr1 as [_ Hp _ _]. unfold params_of in Hp. congruence. }
  assert (Hnow1 : now m1 = Z.of_nat n').
  { destruct Hr1 as [Ht _ _ _]. unfold now in *. lia. }
  assert (Hnow : now m = Z.of_nat n' + 1).
  { destruct Hr2 as [Ht _ _ _]. simpl in Ht. lia. }
  assert (HT0 := @cv_constructed_timely m0 Hc).
  assert (Erun : interp (steps_n (n' + 1) m0) g0 = Ok ((tt, m), g')).
  { rewrite cv_interp_steps_n_add, E1. exact E. }
  assert (HT := leaves_interp (@cv_steps_n_timely _ _ (n' + 1) m0 HT0) _ Erun).
  simpl in HT. destruct HT as [_ HT].
  assert (Hlen : Z.of_nat (length (the_agents m0)) = cfg_N cfg).
  { destruct HI0 as [Hk _ _ _ _ _]. unfold population, dict_keys in Hk.
    unfold the_agents. rewrite <- (length_map fst), Hk. apply range_length. exact HN. }
  assert (Hnone : forall k a, dict_get k (the_agents m) = Some a -> state a <> Infected).
  { intros k a Ea Hs.
    assert (Hrec := @cv_infected_recent _ _ _ _ _ _ _ _ k a HI1 HI2 E Ea Hs).
    assert (Hb : infection_time a + report Susceptible m * Z.max (recovery_time (MesaTime.fields m0)) 0
                 <= (Z.of_nat (length (the_agents m0)) - 1)
                    * Z.max (recovery_time (MesaTime.fields m0)) 0).
    { apply (HT k a Ea). rewrite Hs. discriminate. }
    assert (Hs0 : 0 <= report Susceptible m) by apply cv_count_nonneg.
    assert (HN1 : 1 <= cfg_N cfg).
    { destruct HI2 as [Hk _ _ _ _ _]. unfold population in Hk.
      assert (Hin : In k (range (cfg_N cfg))).
      { rewrite <- Hk. apply dict_get_In_keys. unfold the_agents in Ea. congruence. }
      destruct (Z.le_gt_cases 1 (cfg_N cfg)) as [H1|H1]; [exact H1|].
      unfold range in Hin. replace (Z.to_nat (cfg_N cfg)) with 0%nat in Hin by lia.
      contradiction. }
    rewrite Hlen, Hrt in Hb. rewrite Hrt1, Hnow in Hrec.
    set (rt := cfg_recovery_time cfg) in *. set (N := cfg_N cfg) in *.
    assert (H1 : 0 <= report Susceptible m * Z.max rt 0) by (apply Z.mul_nonneg_nonneg; lia).
    assert (H2 : (N - 1) * Z.max rt 0 <= (N - 1) * Z.max rt 1)
      by (apply Z.mul_le_mono_nonneg_l; lia).
    lia. }
  assert (H0 : report Infected m = 0).
  { unfold report, MesaTime.agents. apply cv_count_none. apply Forall_forall.
    intros a Hin. unfold dict_values in Hin. apply in_map_iff in Hin.
    destruct Hin as ([k a'] & <- & Hin). simpl.
    apply (Hnone k). apply dict_get_of_In; [|exact Hin].
    destruct HI2 as [Hk _ _ _ _ _]. unfold population in Hk. unfold the_agents.
    rewrite Hk. apply range_NoDup. }
  split; [exact H0|].
  cbn [steps_n] in E. rewrite interp_bind in E.
  destruct (cv_tick laws g1 HI1) as (m2 & g2 & Et & _ & Ht). rewrite Et in E.
  simpl in E. inversion E; subst m2 g2.
  destruct Ht as [_ _ _ Ht4 _]. rewrite Ht4, H0. apply andb_false_r.
Qed.

End ComportamientoEnd.

Section MainLoopAsRun.
Context {RS : RandomSource}.

(** The loop of the main block runs some number of ticks, all of them unless
    [running] became false. *)
Lemma est_main_loop_as_run l :
  forall (m : VirusConEstrategias.Model) g m' g',
    interp (VirusConEstrategias.main_loop l m) g = Ok ((tt, m'), g') ->
    exists k, (k <= length l)%nat /\
      interp (VirusConEstrategias.steps_n k m) g = Ok ((tt, m'), g') /\
      ((k < length l)%nat -> VirusConEstrategias.running (MesaTime.fields m') = false).
Proof.
  induction l as [|i rest IH]; intros m g m' g' E.
  - exists 0%nat. simpl in *. split; [lia|]. split; [exact E|lia].
  - cbn [VirusConEstrategias.main_loop] in E. rewrite interp_bind in E.
    unfold gets at 1 in E. cbn [interp] in E.
    destruct (VirusConEstrategias.running (MesaTime.fields m)) eqn:Er.
    + rewrite interp_bind in E.
      destruct (interp (VirusConEstrategias.step m) g) as [[[u m1] g1]|e] eqn:E1;
        [|discriminate].
      destruct (IH _ _ _ _ E) as (k & Hk & Ek & Hr).
      exists (S k). cbn [length]. split; [lia|]. split.
      * cbn [VirusConEstrategias.steps_n]. rewrite interp_bind, E1. destruct u. exact Ek.
      * intros Hlt. apply Hr. lia.
    + exists 0%nat. simpl in *. inversion E; subst. split; [lia|]. split; [reflexivity|].
      intros _. exact Er.
Qed.

Lemma cv_main_loop_as_run l :
  forall (m : ComportamientoVirus.Model) g m' g',
    interp (ComportamientoVirus.main_loop l m) g = Ok ((tt, m'), g') ->
    exists k, (k <= length l)%nat /\
      interp (ComportamientoVirus.steps_n k m) g = Ok ((tt, m'), g') /\
      ((k < length l)%nat -> ComportamientoVirus.running (MesaTime.fields m') = false).
Proof.
  induction l as [|i rest IH]; intros m g m' g' E.
  - exists 0%nat. simpl in *. split; [lia|]. split; [exact E|lia].
  - cbn [ComportamientoVirus.main_loop] in E. rewrite interp_bind in E.
    unfold gets at 1 in E. cbn [interp] in E.
    destruct (ComportamientoVirus.running (MesaTime.fields m)) eqn:Er.
    + rewrite interp_bind in E.
      destruct (interp (ComportamientoVirus.step m) g) as [[[u m1] g1]|e] eqn:E1;
        [|discriminate].
      destruct (IH _ _ _ _ E) as (k & Hk & Ek & Hr).
      exists (S k). cbn [length]. split; [lia|]. split.
      * cbn [ComportamientoVirus.steps_n]. rewrite interp_bind, E1. destruct u. exact Ek.
      * intros Hlt. apply Hr. lia.
    + exists 0%nat. simpl in *. inversion E; subst. split; [lia|]. split; [reflexivity|].
      intros _. exact Er.
Qed.

Variable laws : RandomLaws RS.

(** The main block with more steps than [N] times the recovery time ends
    with [running] false. *)
Lemma est_main_block_ends (cfg : VirusConEstrategias.Config) (simulation_steps : Z) g :
  0 < VirusConEstrategias.cfg_width cfg -> 0 < VirusConEstrategias.cfg_height cfg ->
  0 <= VirusConEstrategias.cfg_N cfg ->
  VirusConEstrategias.cfg_N cfg * Z.max (VirusConEstrategias.cfg_recovery_time cfg) 1
    < simulation_steps ->
  exists m g',
    interp (VirusConEstrategias.main_block cfg simulation_steps) g = Ok (m, g') /\
    VirusConEstrategias.running (MesaTime.fields m) = false.
Proof.
  intros Hw Hh HN Hs.
  destruct (est_main_block_outcome laws cfg simulation_steps g Hw Hh) as (m & g' & E & _).
  exists m, g'. split; [exact E|].
  unfold VirusConEstrategias.main_block in E. rewrite interp_pbind in E.
  destruct (interp (VirusConEstrategias.InfectionModel cfg) g) as [[m0 g0]|e] eqn:E0;
    [|discriminate].
  rewrite interp_pbind, interp_bind in E.
  destruct (interp (VirusConEstrategias.step m0) g0) as [[[u m1] g1]|e] eqn:E1;
    [|discriminate].
  destruct (interp (VirusConEstrategias.main_loop (range (simulation_steps - 1)) m1) g1)
    as [[[u' m'] g2]|e] eqn:E2; [|discriminate].
  simpl in E. inversion E; subst m' g2. destruct u, u'.
  destruct (est_main_loop_as_run _ _ _ E2) as (k & Hk & Ek & Hr).
  assert (Hlen : length (range (simulation_steps - 1)) = Z.to_nat (simulation_steps - 1)).
  { unfold range. rewrite length_map, length_seq. reflexivity. }
  destruct (Nat.eq_dec k (length (range (simulation_steps - 1)))) as [Heq|Hne].
  - assert (Erun : interp (VirusConEstrategias.steps_n (S k) m0) g0 = Ok ((tt, m), g')).
    { cbn [VirusConEstrategias.steps_n]. rewrite interp_bind, E1. exact Ek. }
    assert (Hpos : 0 <= VirusConEstrategias.cfg_N cfg
                          * Z.max (VirusConEstrategias.cfg_recovery_time cfg) 1)
      by (apply Z.mul_nonneg_nonneg; lia).
    apply (@est_extinct_after _ laws cfg (S k) g m0 g0 m g' Hw Hh HN E0 Erun). lia.
  - apply Hr. lia.
Qed.

Lemma cv_main_block_ends (cfg : ComportamientoVirus.Config) (simulation_steps : Z) g :
  0 < ComportamientoVirus.cfg_width cfg -> 0 < ComportamientoVirus.cfg_height cfg ->
  0 <= ComportamientoVirus.cfg_N cfg ->
  ComportamientoVirus.cfg_N cfg * Z.max (ComportamientoVirus.cfg_recovery_time cfg) 1
    < simulation_steps ->
  exists m g',
    interp (ComportamientoVirus.main_block cfg simulation_steps) g = Ok (m, g') /\
    ComportamientoVirus.running (MesaTime.fields m) = false.
Proof.
  intros Hw Hh HN Hs.
  destruct (cv_main_block_outcome laws cfg simulation_steps g Hw Hh) as (m & g' & E & _).
  exists m, g'. split; [exact E|].
  unfold ComportamientoVirus.main_block in E. rewrite interp_pbind in E.
  destruct (interp (ComportamientoVirus.InfectionModel cfg) g) as [[m0 g0]|e] eqn:E0;
    [|discriminate].
  rewrite interp_pbind, interp_bind in E.
  destruct (interp (ComportamientoVirus.step m0) g0) as [[[u m1] g1]|e] eqn:E1;
    [|discriminate].
  destruct (interp (ComportamientoVirus.main_loop (range (simulation_steps - 1)) m1) g1)
    as [[[u' m'] g2]|e] eqn:E2; [|discriminate].
  simpl in E. inversion E; subst m' g2. destruct u, u'.
  destruct (cv_main_loop_as_run _ _ _ E2) as (k & Hk & Ek & Hr).
  assert (Hlen : length (range (simulation_steps - 1)) = Z.to_nat (simulation_steps - 1)).
  { unfold range. rewrite length_map, length_seq. reflexivity. }
  destruct (Nat.eq_dec k (length (range (simulation_steps - 1)))) as [Heq|Hne].
  - assert (Erun : interp (ComportamientoVirus.steps_n (S k) m0) g0 = Ok ((tt, m), g')).
    { cbn [ComportamientoVirus.steps_n]. rewrite interp_bind, E1. exact Ek. }
    assert (Hpos : 0 <= ComportamientoVirus.cfg_N cfg
                          * Z.max (ComportamientoVirus.cfg_recovery_time cfg) 1)
      by (apply Z.mul_nonneg_nonneg; lia).
    apply (@cv_extinct_after _ laws cfg (S k) g m0 g0 m g' Hw Hh HN E0 Erun). lia.
  - apply Hr. lia.
Qed.

End MainLoopAsRun.

(** X18.  In both models every epidemic ends, whatever is drawn: once more
    ticks have gone by than [N] times the recovery time (taken as one tick
    when it is less), no agent is Infected, the Infected count is zero, and
    [running] is false. *)
Theorem every_epidemic_ends (RS : RandomSource) (laws : RandomLaws RS)
    (cv : ComportamientoVirus.Config) (est : VirusConEstrategias.Config) (n : nat) (g : rng) :
  0 < ComportamientoVirus.cfg_width cv -> 0 < ComportamientoVirus.cfg_height cv ->
  0 <= ComportamientoVirus.cfg_N cv ->
  0 < VirusConEstrategias.cfg_width est -> 0 < VirusConEstrategias.cfg_height est ->
  0 <= VirusConEstrategias.cfg_N est ->
  ComportamientoVirus.cfg_N cv * Z.max (ComportamientoVirus.cfg_recovery_time cv) 1
    < Z.of_nat n ->
  VirusConEstrategias.cfg_N est * Z.max (VirusConEstrategias.cfg_recovery_time est) 1
    < Z.of_nat n ->
  (exists m g',
     interp (ComportamientoVirus.simulate cv n) g = Ok (m, g') /\
     ComportamientoVirus.report Infected m = 0 /\
     cv_nobody_infected (ComportamientoVirus.the_agents m) /\
     ComportamientoVirus.running (MesaTime.fields m) = false) /\
  (exists m g',
     interp (VirusConEstrategias.simulate est n) g = Ok (m, g') /\
     VirusConEstrategias.report Infected m = 0 /\
     est_nobody_infected (VirusConEstrategias.the_agents m) /\
     VirusConEstrategias.running (MesaTime.fields m) = false).
Proof.
  intros Hw Hh HN Hw' Hh' HN' Hn Hn'. split.
  - destruct (cv_run laws cv n g Hw Hh) as (m0 & g0 & m & g' & E0 & E1 & E & _).
    exists m, g'. split; [exact E|].
    destruct (@cv_extinct_after _ laws cv n g m0 g0 m g' Hw Hh HN E0 E1 Hn) as [H0 Hr].
    split; [exact H0|]. split; [apply cv_extinct; exact H0|exact Hr].
  - destruct (est_run laws est n g Hw' Hh') as (m0 & g0 & m & g' & E0 & E1 & E & _).
    exists m, g'. split; [exact E|].
    destruct (@est_extinct_after _ laws est n g m0 g0 m g' Hw' Hh' HN' E0 E1 Hn') as [H0 Hr].
    split; [exact H0|]. split; [apply est_extinct; exact H0|exact Hr].
Qed.

(** X19.  The [__main__] block of either model, run with more
    [SIMULATION_STEPS] than [N] times the recovery time (taken as one tick
    when it is less), always ends with [running] false: the loop has seen
    the epidemic end. *)
Theorem main_block_sees_the_epidemic_end (RS : RandomSource) (laws : RandomLaws RS)
    (cv : ComportamientoVirus.Config) (est : VirusConEstrategias.Config)
    (simulation_steps : Z) (g : rng) :
  0 < ComportamientoVirus.cfg_width cv -> 0 < ComportamientoVirus.cfg_height cv ->
  0 <= ComportamientoVirus.cfg_N cv ->
  0 < VirusConEstrategias.cfg_width est -> 0 < VirusConEstrategias.cfg_height est ->
  0 <= VirusConEstrategias.cfg_N est ->
  ComportamientoVirus.cfg_N cv * Z.max (ComportamientoVirus.cfg_recovery_time cv) 1
    < simulation_steps ->
  VirusConEstrategias.cfg_N est * Z.max (VirusConEstrategias.cfg_recovery_time est) 1
    < simulation_steps ->
  (exists m g',
     interp (ComportamientoVirus.main_block cv simulation_steps) g = Ok (m, g') /\
     ComportamientoVirus.running (MesaTime.fields m) = false) /\
  (exists m g',
     interp (VirusConEstrategias.main_block est simulation_steps) g = Ok (m, g') /\
     VirusConEstrategias.running (MesaTime.fields m) = false).
Proof.
  intros Hw Hh HN Hw' Hh' HN' Hn Hn'. split.
  - apply cv_main_block_ends; assumption.
  - apply est_main_block_ends; assumption.
Qed.

(** ** Draws in range *)

Lemma leaves_when_of_leaves {A : Type} (D : Q -> Prop) (P : A -> Prop) (p : Prog A) :
  leaves P p -> leaves_when D P p.
Proof. intros L. induction L; constructor; auto. Qed.

Lemma leaves_when_mono {A : Type} (D : Q -> Prop) (P P' : A -> Prop) (p : Prog A) :
  (forall a, P a -> P' a) -> leaves_when D P p -> leaves_when D P' p.
Proof. intros H L. induction L; constructor; auto. Qed.

Lemma leaves_when_pbind {A B : Type} (D : Q -> Prop) (P : B -> Prop) (p : Prog A)
    (f : A -> Prog B) :
  leaves_when D (fun a => leaves_when D P (f a)) p -> leaves_when D P (pbind p f).
Proof. intros L. induction L; simpl; try constructor; auto. Qed.

Lemma leaves_when_interp {RS : RandomSource} {A : Type} (D : Q -> Prop) (P : A -> Prop)
    (p : Prog A) :
  (forall g : rng, D (fst (rng_random g))) ->
  leaves_when D P p -> forall g a g', interp p g = Ok (a, g') -> P a.
Proof.
  intros HD L. induction L; intros g x g' E; simpl in E.
  - inversion E; subst. assumption.
  - discriminate.
  - pose proof (HD g) as Hq. destruct (rng_random g) as [q g1]. simpl in Hq. eauto.
  - destruct (rng_randrange n g) as [z g1]. eauto.
  - destruct (rng_choice n g) as [i g1]. eauto.
  - destruct (rng_shuffle l g) as [l' g1]. eauto.
Qed.

Section EnsuresWhen.
Variable S : Type.
Variable D : Q -> Prop.

Lemma ensures_when_of {A : Type} (P : S -> Prop) (c : M S A) (R : A -> S -> Prop) :
  ensures P c R -> ensures_when D P c R.
Proof. intros H s Hs. apply leaves_when_of_leaves. apply H. exact Hs. Qed.

Lemma ensures_when_ret {A : Type} (P : S -> Prop) (a : A) (R : A -> S -> Prop) :
  (forall s, P s -> R a s) -> ensures_when D P (ret a) R.
Proof. intros H s Hs. constructor. simpl. auto. Qed.

Lemma ensures_when_bind {A B : Type} (P : S -> Prop) (c : M S A) (R : A -> S -> Prop)
    (f : A -> M S B) (R' : B -> S -> Prop) :
  ensures_when D P c R -> (forall a, ensures_when D (R a) (f a) R') ->
  ensures_when D P (bind c f) R'.
Proof.
  intros Hc Hf s Hs. unfold bind. apply leaves_when_pbind.
  eapply leaves_when_mono; [|apply Hc; exact Hs].
  intros [a s'] HR. apply Hf. exact HR.
Qed.

Lemma ensures_when_for_each {X : Type} (I : S -> Prop) (l : list X) (body : X -> M S unit) :
  (forall x, ensures_when D I (body x) (fun _ => I)) ->
  ensures_when D I (for_each l body) (fun _ => I).
Proof.
  intros H. induction l as [|x rest IH]; simpl.
  - apply ensures_when_ret. auto.
  - eapply ensures_when_bind; [apply H|]. intros ?. exact IH.
Qed.

End EnsuresWhen.

Section PassEnsuresWhen.
Variable D : Q -> Prop.
Variables Agent Fields : Type.
Variable call : string -> Agent -> M (MesaTime.Model Agent Fields) unit.
Variable I : MesaTime.Model Agent Fields -> Prop.

Lemma activation_pass_ensures_when method agent_keys :
  (forall a, ensures_when D I (call method a) (fun _ => I)) ->
  ensures_when D I (MesaTime.activation_pass call method agent_keys) (fun _ => I).
Proof.
  intros Hcall. induction agent_keys as [|key rest IH]; simpl.
  - apply ensures_when_ret. auto.
  - eapply ensures_when_bind with (R := fun _ => I).
    { apply ensures_when_of. apply ensures_gets. auto. }
    intros [a|].
    + eapply ensures_when_bind; [apply Hcall|].
      intros ?. eapply ensures_when_bind; [exact IH|].
      intros evs. apply ensures_when_ret. auto.
    + eapply ensures_when_bind; [exact IH|].
      intros evs. apply ensures_when_ret. auto.
Qed.

Lemma RandomActivation_step_ensures_when :
  (forall a, ensures_when D I (call "step" a) (fun _ => I)) ->
  ensures_when D I (MesaTime.RandomActivation_step call)
               (fun _ m' => exists m1, I m1 /\ m' = MesaTime.tick_clock m1).
Proof.
  intros Hcall. unfold MesaTime.RandomActivation_step.
  eapply ensures_when_bind with (R := fun _ => I).
  { apply ensures_when_of. unfold MesaTime.agent_buffer.
    eapply ensures_bind with (R := fun _ => I); [apply ensures_gets; auto|].
    intros agent_keys. apply ensures_shuffle. auto. }
  intros agent_keys.
  eapply ensures_when_bind; [apply activation_pass_ensures_when; exact Hcall|].
  intros evs. apply ensures_when_of.
  eapply ensures_bind with (R := fun _ m' => exists m1, I m1 /\ m' = MesaTime.tick_clock m1).
  { apply ensures_modify. intros m Hm. eauto. }
  intros ?. apply ensures_ret. auto.
Qed.

End PassEnsuresWhen.

(** ** Full social distancing *)

Section EstrategiasLockdown.
Import VirusConEstrategias EstrategiasSpec EstrategiasTick EstrategiasCourse.

Ltac munfold :=
  unfold frame_of, population, update_agent, modify,
    set_grid, set_calls, set_running, set_datacollector in *;
  unfold the_agents, the_grid, now,
    MesaTime.set_schedule, MesaTime.set_agents, MesaTime.set_fields in *;
  simpl in *.

Variable G : Grid.MultiGrid.

Lemma est_locked_same (m m' : Model) :
  est_locked_down G m ->
  the_agents m' = the_agents m -> the_grid m' = the_grid m ->
  quarantine_enabled (MesaTime.fields m') = quarantine_enabled (MesaTime.fields m) ->
  social_distancing_rate (MesaTime.fields m') = social_distancing_rate (MesaTime.fields m) ->
  est_locked_down G m'.
Proof.
  intros (H1 & H2 & H3 & H4) Ea Eg Eq Es. unfold est_locked_down.
  rewrite Ea, Eg, Eq, Es. auto.
Qed.

Lemma est_locked_update (m m' : Model) k (F : InfectionAgent -> InfectionAgent) :
  est_locked_down G m ->
  the_agents m' = dict_update k F (the_agents m) -> the_grid m' = the_grid m ->
  quarantine_enabled (MesaTime.fields m') = quarantine_enabled (MesaTime.fields m) ->
  social_distancing_rate (MesaTime.fields m') = social_distancing_rate (MesaTime.fields m) ->
  (forall a, is_quarantined (F a) = is_quarantined a) ->
  est_locked_down G m'.
Proof.
  intros (H1 & H2 & H3 & H4) Ea Eg Eq Es HF. unfold est_locked_down.
  rewrite Eg, Eq, Es. split; [exact H1|]. split; [exact H2|]. split; [exact H3|].
  intros k' a' Ea'. rewrite Ea, dict_get_update in Ea'.
  destruct (k' =? k).
  - destruct (dict_get k' (the_agents m)) as [a|] eqn:E; [|discriminate].
    simpl in Ea'. inversion Ea'; subst. rewrite HF. eapply H4; eauto.
  - eapply H4; eauto.
Qed.

Lemma est_update_status_locked self :
  ensures (est_locked_down G) (update_status self) (fun _ => est_locked_down G).
Proof.
  unfold update_status.
  eapply ensures_bind with (R := fun _ => est_locked_down G).
  { apply ensures_modify. intros m H. eapply est_locked_same; eauto. }
  intros _ m HL. unfold bind, get_agent.
  destruct (dict_get self (the_agents m)) as [a|] eqn:Ea; [|constructor]. simpl.
  destruct (state_eqb (state a) Infected); [|constructor; exact HL].
  unfold gets. simpl.
  destruct (recovery_time (MesaTime.fields m) <=? now m - infection_time a);
    [|constructor; exact HL].
  unfold update_agent, modify. simpl.
  assert (Hq : is_quarantined a = false).
  { destruct HL as (_ & _ & _ & H4). eapply H4; eauto. }
  rewrite Hq. constructor. simpl.
  eapply est_locked_update with (k := self) (F := set_state Recovered); eauto.
Qed.

(** Under full social distancing [move] moves nobody. *)
Lemma est_move_locked self :
  ensures_when (fun q => (q < 1)%Q) (est_locked_down G) (move self)
               (fun _ => est_locked_down G).
Proof.
  unfold move.
  eapply ensures_when_bind with (R := fun _ => est_locked_down G).
  { apply ensures_when_of. apply ensures_modify. intros m H. eapply est_locked_same; eauto. }
  intros _ m HL. unfold bind, random_random, lift. simpl. constructor. intros r Hr.
  unfold gets. simpl.
  assert (Hle : Qle_bool r (social_distancing_rate (MesaTime.fields m)) = true).
  { apply Qle_bool_iff. destruct HL as (_ & _ & H3 & _).
    eapply Qle_trans; [apply Qlt_le_weak; exact Hr|exact H3]. }
  unfold Qlt_bool. rewrite Hle. simpl. constructor. exact HL.
Qed.

Lemma est_infect_other_locked other :
  ensures (est_locked_down G) (infect_other other) (fun _ => est_locked_down G).
Proof.
  intros m HL. unfold infect_other, bind, get_agent.
  destruct (dict_get other (the_agents m)) as [o|] eqn:Eo; [|constructor]. simpl.
  destruct (state_eqb (state o) Susceptible); [|constructor; exact HL].
  unfold random_random, lift. simpl. constructor. intros r.
  unfold gets. simpl.
  destruct (Qlt_bool r (infection_rate (MesaTime.fields m))); [|constructor; exact HL].
  unfold update_agent, modify. simpl.
  assert (Hq : quarantine_enabled (MesaTime.fields m) = false) by apply HL.
  rewrite Hq. constructor. simpl.
  eapply est_locked_update with (k := other)
    (F := fun a => set_infection_time (now m) (set_state Infected a)); eauto.
  munfold. rewrite !dict_update_update. reflexivity.
Qed.

Lemma est_infect_locked self :
  ensures (est_locked_down G) (infect self) (fun _ => est_locked_down G).
Proof.
  unfold infect.
  eapply ensures_bind with (R := fun _ => est_locked_down G).
  { apply ensures_modify. intros m H. eapply est_locked_same; eauto. }
  intros _ m HL. unfold bind, get_agent.
  destruct (dict_get self (the_agents m)) as [a|] eqn:Ea; [|constructor]. simpl.
  destruct (state_eqb (state a) Infected); [|constructor; exact HL].
  unfold self_pos.
  destruct (Grid.agent_pos self (the_grid m)) as [pos|]; [|constructor].
  simpl. unfold gets. simpl.
  apply ensures_for_each; [|exact HL].
  intros other. apply est_infect_other_locked.
Qed.

Lemma est_agent_step_locked self :
  ensures_when (fun q => (q < 1)%Q) (est_locked_down G) (agent_step self)
               (fun _ => est_locked_down G).
Proof.
  unfold agent_step.
  eapply ensures_when_bind with (R := fun _ => est_locked_down G).
  { apply ensures_when_of. intros m HL. unfold get_agent.
    destruct (dict_get self (the_agents m)); constructor. exact HL. }
  intros a. destruct (is_quarantined a).
  - apply ensures_when_of. apply est_update_status_locked.
  - eapply ensures_when_bind; [apply ensures_when_of; apply est_update_status_locked|].
    intros ?. eapply ensures_when_bind; [apply est_move_locked|].
    intros ?. apply ensures_when_of. apply est_infect_locked.
Qed.

Lemma est_step_locked :
  ensures_when (fun q => (q < 1)%Q) (est_locked_down G) step (fun _ => est_locked_down G).
Proof.
  unfold step.
  eapply ensures_when_bind with
    (R := fun _ m' => exists m1, est_locked_down G m1 /\ m' = MesaTime.tick_clock m1).
  { apply (@RandomActivation_step_ensures_when _ _ _ call (est_locked_down G)).
    intros a. unfold call. simpl. apply est_agent_step_locked. }
  intros ? m (m1 & H1 & ->). apply leaves_when_of_leaves.
  unfold bind, collect, modify, gets. simpl.
  match goal with |- context [if ?b then _ else _] => destruct b end;
    constructor; simpl; eapply est_locked_same; eauto.
Qed.

Lemma est_steps_n_locked k :
  ensures_when (fun q => (q < 1)%Q) (est_locked_down G) (steps_n k)
               (fun _ => est_locked_down G).
Proof.
  induction k as [|k IH]; simpl.
  - apply ensures_when_ret. auto.
  - eapply ensures_when_bind; [apply est_step_locked|]. intros ?. exact IH.
Qed.

End EstrategiasLockdown.

(** X20.  Full social distancing freezes the grid.  With a source whose
    [random()] stays below 1, a model with strategies constructed with
    [social_distancing_rate] at least 1 and without quarantine has, after
    any number of ticks, exactly the grid the constructor left: no agent has
    moved. *)
Theorem full_distancing_freezes_the_grid (RS : RandomSource) (laws : RandomLaws RS)
    (est : VirusConEstrategias.Config) (n : nat) (g : rng) :
  random_below_one RS ->
  0 < VirusConEstrategias.cfg_width est -> 0 < VirusConEstrategias.cfg_height est ->
  VirusConEstrategias.cfg_quarantine_enabled est = false ->
  (1 <= VirusConEstrategias.cfg_social_distancing_rate est)%Q ->
  exists m0 g0 m g',
    interp (VirusConEstrategias.InfectionModel est) g = Ok (m0, g0) /\
    interp (VirusConEstrategias.simulate est n) g = Ok (m, g') /\
    VirusConEstrategias.the_grid m = VirusConEstrategias.the_grid m0 /\
    forall k, Grid.agent_pos k (VirusConEstrategias.the_grid m)
              = Grid.agent_pos k (VirusConEstrategias.the_grid m0).
Proof.
  intros Hlaw Hw Hh Hq Hs.
  destruct (est_run laws est n g Hw Hh) as (m0 & g0 & m & g' & E0 & E1 & E & HI0 & _ & _).
  exists m0, g0, m, g'. split; [exact E0|]. split; [exact E|].
  assert (Hc : forall i a, dict_get i (VirusConEstrategias.the_agents m0) = Some a ->
                           EstrategiasSpec.constructed_ok est i a).
  { destruct (safe_interp laws (est_InfectionModel_window est Hw Hh) g) as (mc & gc & Ec & Hc).
    rewrite E0 in Ec. inversion Ec; subst. exact Hc. }
  assert (HL0 : est_locked_down (VirusConEstrategias.the_grid m0) m0).
  { destruct HI0 as [_ Hf _ _ _ _].
    unfold EstrategiasSpec.frame_of, VirusConEstrategias.empty_model in Hf.
    injection Hf as _ _ _ _ _ _ Hsd Hqe _ _ _. simpl in Hsd, Hqe.
    split; [reflexivity|]. split; [congruence|]. split; [rewrite Hsd; exact Hs|].
    intros k a Ea. apply (Hc k a Ea). }
  assert (HL := leaves_when_interp Hlaw (@est_steps_n_locked _ n m0 HL0) _ E1).
  simpl in HL. destruct HL as (HG & _). split; [exact HG|]. intros k. rewrite HG. reflexivity.
Qed.

(** ** Construction without vaccination *)

Lemma dict_of_keys {A : Type} (f : Z -> A) (d : dict A) :
  NoDup (dict_keys d) ->
  (forall k a, dict_get k d = Some a -> a = f k) ->
  d = map (fun k => (k, f k)) (dict_keys d).
Proof.
  induction d as [|[k a] d IH]; intros Hnd H; [reflexivity|].
  simpl in *. inversion Hnd as [|? ? Hnot Hnd']; subst. f_equal.
  - f_equal. apply H. rewrite Z.eqb_refl. reflexivity.
  - apply IH; [exact Hnd'|]. intros k' a' E. apply H.
    destruct (Z.eqb_spec k k') as [->|Hne]; [|exact E].
    exfalso. apply Hnot. apply dict_get_In_keys. congruence.
Qed.

Section EstrategiasUnvaccinated.
Import VirusConEstrategias EstrategiasSpec EstrategiasTick.

Ltac munfold :=
  unfold frame_of, population, update_agent, modify,
    set_grid, set_calls, set_running, set_datacollector in *;
  unfold the_agents, the_grid, now,
    MesaTime.set_schedule, MesaTime.set_agents, MesaTime.set_fields in *;
  simpl in *.

Variable cfg : Config.
Hypothesis no_vaccination : (cfg_initial_vaccinated_rate cfg == 0)%Q.

Lemma est_window_unvaccinated : infection_window cfg = cfg_initial_infected cfg.
Proof.
  unfold infection_window, int_of_Q. unfold Qeq in no_vaccination. simpl in *.
  replace (Qnum (cfg_initial_vaccinated_rate cfg)) with 0 by lia.
  rewrite Z.mul_0_r. rewrite Z.quot_0_l; [lia|discriminate].
Qed.

Lemma est_create_agent_unvaccinated i :
  ensures_when (fun q => (0 <= q)%Q)
    (fun m => now m = 0 /\
              forall k a, dict_get k (the_agents m) = Some a ->
                          a = est_unvaccinated_agent cfg k)
    (create_agent cfg i)
    (fun _ m => now m = 0 /\
                forall k a, dict_get k (the_agents m) = Some a ->
                            a = est_unvaccinated_agent cfg k).
Proof.
  intros m [Hnow HJ]. unfold create_agent, bind, random_random, lift. simpl.
  constructor. intros r Hr.
  assert (Hle : Qle_bool (cfg_initial_vaccinated_rate cfg) r = true).
  { apply Qle_bool_iff. rewrite no_vaccination. exact Hr. }
  unfold Qlt_bool. rewrite Hle. simpl.
  unfold MesaTime.schedule_add, MesaTime.on_schedule, MesaTime.add. simpl.
  destruct (dict_mem i (MesaTime._agents (MesaTime.schedule m))) eqn:Emem; [constructor|].
  assert (Hnone : dict_get i (the_agents m) = None).
  { unfold dict_mem in Emem. unfold the_agents.
    destruct (dict_get i (MesaTime._agents (MesaTime.schedule m))); [discriminate|reflexivity]. }
  simpl.
  match goal with |- leaves_when _ _ (pbind (place_at_random _ ?m1) _) =>
    apply leaves_when_pbind;
    eapply leaves_when_mono;
      [|apply leaves_when_of_leaves;
        apply (leaves_conj
                 (@est_place_at_random_agents (the_agents m1) i m1 eq_refl)
                 (@est_place_at_random_ensures
                    (recovery_time (MesaTime.fields m1))
                    (quarantine_enabled (MesaTime.fields m1)) (now m1) (now m1) m1 i m1
                    (est_within_refl m1)))]
  end.
  intros [u m2] [HA (Hn & _)]. simpl in HA, Hn. simpl.
  assert (Hget : forall k, dict_get k (the_agents m2) =
                           match dict_get k (the_agents m) with
                           | Some x => Some x
                           | None => if i =? k then Some (new_agent i) else None
                           end).
  { intros k. rewrite HA. munfold. apply dict_get_add. }
  assert (Hnow2 : now m2 = 0).
  { rewrite Hn. munfold. exact Hnow. }
  unfold get_agent. rewrite (Hget i), Hnone, Z.eqb_refl. simpl.
  rewrite est_window_unvaccinated.
  destruct (i <? cfg_initial_infected cfg) eqn:Ei.
  - unfold update_agent, modify, gets. simpl. constructor. simpl. split.
    + exact Hnow2.
    + intros k a Ea.
      change (dict_get k (dict_update i (set_infection_time (now m2))
                            (dict_update i (set_state Infected) (the_agents m2))) = Some a)
        in Ea.
      rewrite !dict_get_update, (Hget k) in Ea.
      destruct (Z.eqb_spec k i) as [->|Hne].
      * rewrite Hnone, Z.eqb_refl in Ea. simpl in Ea. inversion Ea; subst a.
        unfold est_unvaccinated_agent. rewrite Ei. rewrite Hnow2. reflexivity.
      * destruct (dict_get k (the_agents m)) as [x|] eqn:Ex.
        -- simpl in Ea. inversion Ea; subst. eapply HJ; eauto.
        -- destruct (Z.eqb_spec i k); [congruence|discriminate].
  - constructor. simpl. split; [exact Hnow2|].
    intros k a Ea. rewrite (Hget k) in Ea.
    destruct (dict_get k (the_agents m)) as [x|] eqn:Ex.
    + inversion Ea; subst. eapply HJ; eauto.
    + destruct (Z.eqb_spec i k) as [->|Hne]; [|discriminate].
      inversion Ea; subst. unfold est_unvaccinated_agent. rewrite Ei. reflexivity.
Qed.

Lemma est_InfectionModel_unvaccinated :
  leaves_when (fun q => (0 <= q)%Q)
    (fun m => forall k a, dict_get k (the_agents m) = Some a ->
                          a = est_unvaccinated_agent cfg k)
    (InfectionModel cfg).
Proof.
  unfold InfectionModel. apply leaves_when_pbind.
  eapply leaves_when_mono;
    [|apply (@ensures_when_for_each _ _ _
               (fun m => now m = 0 /\
                         forall k a, dict_get k (the_agents m) = Some a ->
                                     a = est_unvaccinated_agent cfg k))].
  - intros [u m] [_ H]. constructor. exact H.
  - intros i. apply est_create_agent_unvaccinated.
  - split; [reflexivity|]. intros k a E. discriminate.
Qed.

End EstrategiasUnvaccinated.

(** X21.  Without vaccination the two constructors agree.  With a source
    whose [random()] is never negative and [initial_vaccinated_rate] zero,
    the constructor of the model with strategies builds the agents
    0, ..., N-1 in this order, those with an index below [initial_infected]
    Infected at time 0 and the others Susceptible, nobody quarantined: the
    population the base constructor builds. *)
Theorem unvaccinated_construction_infects_first (RS : RandomSource) (laws : RandomLaws RS)
    (est : VirusConEstrategias.Config) (g : rng) :
  random_not_negative RS ->
  0 < VirusConEstrategias.cfg_width est -> 0 < VirusConEstrategias.cfg_height est ->
  (VirusConEstrategias.cfg_initial_vaccinated_rate est == 0)%Q ->
  exists m0 g0,
    interp (VirusConEstrategias.InfectionModel est) g = Ok (m0, g0) /\
    VirusConEstrategias.the_agents m0
      = est_unvaccinated_agents est (VirusConEstrategias.cfg_N est).
Proof.
  intros Hlaw Hw Hh Hv.
  destruct (safe_interp laws (est_InfectionModel_safe est Hw Hh) g) as (m0 & g0 & E0 & HI0).
  exists m0, g0. split; [exact E0|].
  assert (H := leaves_when_interp Hlaw (@est_InfectionModel_unvaccinated est Hv) _ E0).
  simpl in H. destruct HI0 as [Hk _ _ _ _ _]. unfold population in Hk.
  unfold est_unvaccinated_agents. rewrite <- Hk.
  apply dict_of_keys; [|exact H].
  unfold VirusConEstrategias.the_agents. rewrite Hk. apply range_NoDup.
Qed.

(** ** The further properties at concrete inputs *)

Lemma add_registers_last_witness :
  ~ In 2 (dict_keys (MesaTime._agents (MesaTime.mkScheduler 0 0 [(1, 1); (3, 3)]))) /\
  exists s',
    MesaTime.add (fun a : Z => a) 2 (MesaTime.mkScheduler 0 0 [(1, 1); (3, 3)]) = Ok s' /\
    dict_get 2 (MesaTime._agents s') = Some 2 /\
    MesaTime.agents s' = [1; 3; 2] /\
    MesaTime.get_agent_count s' = 3.
Proof.
  assert (H : ~ In 2 (dict_keys (MesaTime._agents
                        (MesaTime.mkScheduler 0 0 [(1, 1); (3, 3)])))).
  { simpl. intros [H|[H|[]]]; discriminate. }
  split; [exact H|].
  destruct (@add_registers_last Z (fun a : Z => a) 2
              (MesaTime.mkScheduler 0 0 [(1, 1); (3, 3)]) H)
    as (s' & E & H1 & _ & H3 & H4 & _).
  exists s'. split; [exact E|]. split; [exact H1|]. split; [exact H3|exact H4].
Defined.

Lemma schedule_identities_stay_distinct_witness :
  NoDup (dict_keys (MesaTime._agents (MesaTime.mkScheduler 0 0 [(1, 1); (3, 3)]))) /\
  MesaTime.remove (fun a : Z => a) 3 (MesaTime.mkScheduler 0 0 [(1, 1); (3, 3)])
    = Ok (MesaTime.mkScheduler 0 0 [(1, 1)]) /\
  NoDup (dict_keys (MesaTime._agents (MesaTime.mkScheduler 0 0 [(1, 1)]))).
Proof.
  assert (H : NoDup (dict_keys (MesaTime._agents
                       (MesaTime.mkScheduler 0 0 [(1, 1); (3, 3)])))).
  { simpl. constructor; [intros [H|[]]; discriminate|].
    constructor; [intros []|constructor]. }
  assert (E : MesaTime.remove (fun a : Z => a) 3 (MesaTime.mkScheduler 0 0 [(1, 1); (3, 3)])
              = Ok (MesaTime.mkScheduler 0 0 [(1, 1)])) by reflexivity.
  split; [exact H|]. split; [exact E|].
  exact (@schedule_identities_stay_distinct Z (fun a : Z => a) 3
           (MesaTime.mkScheduler 0 0 [(1, 1); (3, 3)])
           (MesaTime.mkScheduler 0 0 [(1, 1)]) H (or_intror E)).
Defined.

Lemma remove_deletes_one_witness :
  NoDup (dict_keys (MesaTime._agents (MesaTime.mkScheduler 0 0 [(1, 1); (3, 3)]))) /\
  In 3 (dict_keys (MesaTime._agents (MesaTime.mkScheduler 0 0 [(1, 1); (3, 3)]))) /\
  exists s',
    MesaTime.remove (fun a : Z => a) 3 (MesaTime.mkScheduler 0 0 [(1, 1); (3, 3)]) = Ok s' /\
    dict_get 3 (MesaTime._agents s') = None /\
    MesaTime.get_agent_count s' = 1.
Proof.
  assert (H : NoDup (dict_keys (MesaTime._agents
                       (MesaTime.mkScheduler 0 0 [(1, 1); (3, 3)])))).
  { simpl. constructor; [intros [H|[]]; discriminate|].
    constructor; [intros []|constructor]. }
  assert (H' : In 3 (dict_keys (MesaTime._agents
                       (MesaTime.mkScheduler 0 0 [(1, 1); (3, 3)])))).
  { simpl. right. left. reflexivity. }
  split; [exact H|]. split; [exact H'|].
  destruct (@remove_deletes_one Z (fun a : Z => a) 3
              (MesaTime.mkScheduler 0 0 [(1, 1); (3, 3)]) H H')
    as (s' & E & H1 & _ & H3 & _).
  exists s'. split; [exact E|]. split; [exact H1|exact H3].
Defined.

Lemma add_then_remove_witness :
  ~ In 2 (dict_keys (MesaTime._agents (MesaTime.mkScheduler 0 0 [(1, 1); (3, 3)]))) /\
  exists s1,
    MesaTime.add (fun a : Z => a) 2 (MesaTime.mkScheduler 0 0 [(1, 1); (3, 3)]) = Ok s1 /\
    MesaTime.remove (fun a : Z => a) 2 s1 = Ok (MesaTime.mkScheduler 0 0 [(1, 1); (3, 3)]).
Proof.
  assert (H : ~ In 2 (dict_keys (MesaTime._agents
                        (MesaTime.mkScheduler 0 0 [(1, 1); (3, 3)])))).
  { simpl. intros [H|[H|[]]]; discriminate. }
  split; [exact H|].
  exact (@add_then_remove Z (fun a : Z => a) 2
           (MesaTime.mkScheduler 0 0 [(1, 1); (3, 3)]) H).
Defined.

Lemma BaseScheduler_step_in_insertion_order_witness :
  exists passes m' g',
    interp (RS := TapeSource) (MesaTime.BaseScheduler_step remover_call remover_model) []
      = Ok ((passes, m'), g') /\
    exists evs,
      passes = [evs] /\ map event_key evs = [1; 2; 3] /\ Forall (event_calls "step") evs.
Proof.
  eexists. eexists. eexists.
  assert (H : interp (RS := TapeSource)
                (MesaTime.BaseScheduler_step remover_call remover_model) []
              = Ok (([[Activated 1 "step"; Skipped 2; Activated 3 "step"]],
                     MesaTime.tick_clock
                       (MesaTime.mkModel (MesaTime.mkScheduler 0 0 [(1, 1); (3, 3)]) tt)),
                    [])) by reflexivity.
  split; [exact H|].
  destruct (@BaseScheduler_step_in_insertion_order TapeSource Z unit remover_call
              remover_model [] _ _ _ H) as (evs & m1 & H1 & H2 & H3 & _).
  exists evs. split; [exact H1|]. split; [exact H2|exact H3].
Defined.

Lemma StagedActivation_step_stage_by_stage_witness :
  exists passes m' g',
    interp (RS := TapeSource)
      (MesaTime.StagedActivation_step remover_call ["step"; "advance"]%string false false
         remover_model) [] = Ok ((passes, m'), g') /\
    Forall2 (fun stage evs => Forall (event_calls stage) evs) ["step"; "advance"]%string passes.
Proof.
  eexists. eexists. eexists.
  assert (H : interp (RS := TapeSource)
                (MesaTime.StagedActivation_step remover_call ["step"; "advance"]%string
                   false false remover_model) []
              = Ok (([[Activated 1 "step"; Skipped 2; Activated 3 "step"];
                      [Activated 1 "advance"; Skipped 2; Activated 3 "advance"]],
                     MesaTime.tick_clock
                       (MesaTime.mkModel (MesaTime.mkScheduler 0 0 [(1, 1); (3, 3)]) tt)),
                    [])) by reflexivity.
  split; [exact H|].
  exact (proj1 (@StagedActivation_step_stage_by_stage TapeSource Z unit remover_call
                  ["step"; "advance"]%string false false remover_model [] _ _ _ H)).
Defined.

Lemma SimultaneousActivation_step_in_two_phases_witness :
  exists passes m' g',
    interp (RS := TapeSource)
      (MesaTime.SimultaneousActivation_step remover_call remover_model) []
      = Ok ((passes, m'), g') /\
    exists evs1 evs2,
      passes = [evs1; evs2] /\
      map event_key evs1 = [1; 2; 3] /\ Forall (event_calls "step") evs1 /\
      Forall (event_calls "advance") evs2.
Proof.
  eexists. eexists. eexists.
  assert (H : interp (RS := TapeSource)
                (MesaTime.SimultaneousActivation_step remover_call remover_model) []
              = Ok (([[Activated 1 "step"; Skipped 2; Activated 3 "step"];
                      [Activated 1 "advance"; Activated 3 "advance"]],
                     MesaTime.tick_clock
                       (MesaTime.mkModel (MesaTime.mkScheduler 0 0 [(1, 1); (3, 3)]) tt)),
                    [])) by reflexivity.
  split; [exact H|].
  destruct (@SimultaneousActivation_step_in_two_phases TapeSource Z unit remover_call
              remover_model [] _ _ _ H)
    as (evs1 & m1 & g1 & evs2 & m2 & H1 & _ & _ & H4 & H5 & _ & H7 & _).
  exists evs1, evs2. split; [exact H1|]. split; [exact H4|]. split; [exact H5|exact H7].
Defined.

Lemma every_agent_is_activated_once_per_tick_witness :
  0 < ComportamientoVirus.cfg_width ComportamientoVirus.default_config /\
  0 < ComportamientoVirus.cfg_height ComportamientoVirus.default_config /\
  0 < VirusConEstrategias.cfg_width quarantine_config /\
  0 < VirusConEstrategias.cfg_height quarantine_config /\
  exists m g1,
    interp (VirusConEstrategias.simulate quarantine_config 3) ([5; 1; 4] : list Z) = Ok (m, g1) /\
    forall g2 : list Z, exists order m' g3,
      interp (MesaTime.RandomActivation_step VirusConEstrategias.call m) g2
        = Ok (([map (fun key => Activated key "step") order], m'), g3) /\
      Permutation (range (VirusConEstrategias.cfg_N quarantine_config)) order.
Proof.
  assert (H1 : 0 < ComportamientoVirus.cfg_width ComportamientoVirus.default_config) by dims.
  assert (H2 : 0 < ComportamientoVirus.cfg_height ComportamientoVirus.default_config) by dims.
  assert (H4 : 0 < VirusConEstrategias.cfg_width quarantine_config) by dims.
  assert (H5 : 0 < VirusConEstrategias.cfg_height quarantine_config) by dims.
  split; [exact H1|]. split; [exact H2|]. split; [exact H4|]. split; [exact H5|].
  exact (proj2 (every_agent_is_activated_once_per_tick tape_laws
                  ComportamientoVirus.default_config quarantine_config 3
                  ([5; 1; 4] : list Z) H1 H2 H4 H5)).
Defined.

Lemma main_block_stops_when_nobody_is_infected_witness :
  0 < ComportamientoVirus.cfg_width ComportamientoVirus.main_config /\
  0 < ComportamientoVirus.cfg_height ComportamientoVirus.main_config /\
  0 < VirusConEstrategias.cfg_width VirusConEstrategias.main_config /\
  0 < VirusConEstrategias.cfg_height VirusConEstrategias.main_config /\
  exists m g',
    interp VirusConEstrategias.main ([5; 1; 4] : list Z) = Ok (m, g') /\
    main_outcome VirusConEstrategias.SIMULATION_STEPS
      (VirusConEstrategias.datacollector (MesaTime.fields m))
      (VirusConEstrategias.running (MesaTime.fields m)) (VirusConEstrategias.now m).
Proof.
  assert (H1 : 0 < ComportamientoVirus.cfg_width ComportamientoVirus.main_config) by dims.
  assert (H2 : 0 < ComportamientoVirus.cfg_height ComportamientoVirus.main_config) by dims.
  assert (H4 : 0 < VirusConEstrategias.cfg_width VirusConEstrategias.main_config) by dims.
  assert (H5 : 0 < VirusConEstrategias.cfg_height VirusConEstrategias.main_config) by dims.
  split; [exact H1|]. split; [exact H2|]. split; [exact H4|]. split; [exact H5|].
  exact (proj2 (main_block_stops_when_nobody_is_infected tape_laws
                  ComportamientoVirus.main_config VirusConEstrategias.main_config
                  VirusConEstrategias.SIMULATION_STEPS
                  ([5; 1; 4] : list Z) H1 H2 H4 H5)).
Defined.

Lemma clock_counts_ticks_witness :
  0 < ComportamientoVirus.cfg_width ComportamientoVirus.default_config /\
  0 < ComportamientoVirus.cfg_height ComportamientoVirus.default_config /\
  0 < VirusConEstrategias.cfg_width quarantine_config /\
  0 < VirusConEstrategias.cfg_height quarantine_config /\
  exists m g',
    interp (ComportamientoVirus.simulate ComportamientoVirus.default_config 3)
           ([5; 1; 4] : list Z) = Ok (m, g') /\
    MesaTime.steps (MesaTime.schedule m) = 3 /\
    MesaTime.time (MesaTime.schedule m) = 3 /\
    length (ComportamientoVirus.datacollector (MesaTime.fields m)) = 3%nat.
Proof.
  assert (H1 : 0 < ComportamientoVirus.cfg_width ComportamientoVirus.default_config) by dims.
  assert (H2 : 0 < ComportamientoVirus.cfg_height ComportamientoVirus.default_config) by dims.
  assert (H4 : 0 < VirusConEstrategias.cfg_width quarantine_config) by dims.
  assert (H5 : 0 < VirusConEstrategias.cfg_height quarantine_config) by dims.
  split; [exact H1|]. split; [exact H2|]. split; [exact H4|]. split; [exact H5|].
  exact (proj1 (clock_counts_ticks tape_laws
                  ComportamientoVirus.default_config quarantine_config 3
                  ([5; 1; 4] : list Z) H1 H2 H4 H5)).
Defined.

Lemma infection_lasts_the_recovery_time_witness :
  0 < ComportamientoVirus.cfg_width ComportamientoVirus.default_config /\
  0 < ComportamientoVirus.cfg_height ComportamientoVirus.default_config /\
  0 < VirusConEstrategias.cfg_width quarantine_config /\
  0 < VirusConEstrategias.cfg_height quarantine_config /\
  exists m g1 m' g2,
    interp (VirusConEstrategias.simulate quarantine_config 1) ([5; 1; 4] : list Z) = Ok (m, g1) /\
    interp (VirusConEstrategias.simulate quarantine_config (1 + 2)) ([5; 1; 4] : list Z)
      = Ok (m', g2) /\
    forall k a,
      dict_get k (VirusConEstrategias.the_agents m) = Some a ->
      VirusConEstrategias.state a = Infected ->
      (Z.of_nat (1 + 2) <=
         VirusConEstrategias.infection_time a
         + VirusConEstrategias.cfg_recovery_time quarantine_config ->
       dict_get k (VirusConEstrategias.the_agents m') = Some a) /\
      ((0 < 2)%nat ->
       VirusConEstrategias.infection_time a
       + VirusConEstrategias.cfg_recovery_time quarantine_config < Z.of_nat (1 + 2) ->
       dict_get k (VirusConEstrategias.the_agents m') = Some (EstrategiasCourse.recovered a)).
Proof.
  assert (H1 : 0 < ComportamientoVirus.cfg_width ComportamientoVirus.default_config) by dims.
  assert (H2 : 0 < ComportamientoVirus.cfg_height ComportamientoVirus.default_config) by dims.
  assert (H4 : 0 < VirusConEstrategias.cfg_width quarantine_config) by dims.
  assert (H5 : 0 < VirusConEstrategias.cfg_height quarantine_config) by dims.
  split; [exact H1|]. split; [exact H2|]. split; [exact H4|]. split; [exact H5|].
  exact (proj2 (infection_lasts_the_recovery_time tape_laws
                  ComportamientoVirus.default_config quarantine_config 1 2
                  ([5; 1; 4] : list Z) H1 H2 H4 H5)).
Defined.

Lemma states_only_move_forward_witness :
  0 < ComportamientoVirus.cfg_width ComportamientoVirus.default_config /\
  0 < ComportamientoVirus.cfg_height ComportamientoVirus.default_config /\
  0 < VirusConEstrategias.cfg_width quarantine_config /\
  0 < VirusConEstrategias.cfg_height quarantine_config /\
  exists m g1 m' g2,
    interp (ComportamientoVirus.simulate ComportamientoVirus.default_config 1)
           ([5; 1; 4] : list Z) = Ok (m, g1) /\
    interp (ComportamientoVirus.simulate ComportamientoVirus.default_config (1 + 2))
           ([5; 1; 4] : list Z) = Ok (m', g2) /\
    forall k a,
      dict_get k (ComportamientoVirus.the_agents m) = Some a ->
      exists a',
        dict_get k (ComportamientoVirus.the_agents m') = Some a' /\
        ComportamientoVirus.unique_id a' = ComportamientoVirus.unique_id a /\
        EstrategiasCourse.rank (ComportamientoVirus.state a)
          <= EstrategiasCourse.rank (ComportamientoVirus.state a') /\
        (ComportamientoVirus.state a = Recovered -> a' = a) /\
        (ComportamientoVirus.state a = Susceptible ->
         a' = a \/
         (ComportamientoVirus.state a' <> Susceptible /\
          Z.of_nat 1 <= ComportamientoVirus.infection_time a' < Z.of_nat (1 + 2))).
Proof.
  assert (H1 : 0 < ComportamientoVirus.cfg_width ComportamientoVirus.default_config) by dims.
  assert (H2 : 0 < ComportamientoVirus.cfg_height ComportamientoVirus.default_config) by dims.
  assert (H4 : 0 < VirusConEstrategias.cfg_width quarantine_config) by dims.
  assert (H5 : 0 < VirusConEstrategias.cfg_height quarantine_config) by dims.
  split; [exact H1|]. split; [exact H2|]. split; [exact H4|]. split; [exact H5|].
  exact (proj1 (states_only_move_forward tape_laws
                  ComportamientoVirus.default_config quarantine_config 1 2
                  ([5; 1; 4] : list Z) H1 H2 H4 H5)).
Defined.

Lemma nobody_is_quarantined_when_disabled_witness :
  0 < VirusConEstrategias.cfg_width window_config /\
  0 < VirusConEstrategias.cfg_height window_config /\
  VirusConEstrategias.cfg_quarantine_enabled window_config = false /\
  exists m g',
    interp (VirusConEstrategias.simulate window_config 3) nobody_vaccinated_tape = Ok (m, g') /\
    forall k a, dict_get k (VirusConEstrategias.the_agents m) = Some a ->
      VirusConEstrategias.is_quarantined a = false /\
      Grid.agent_pos k (VirusConEstrategias.the_grid m) <> None.
Proof.
  assert (H1 : 0 < VirusConEstrategias.cfg_width window_config) by dims.
  assert (H2 : 0 < VirusConEstrategias.cfg_height window_config) by dims.
  assert (H3 : VirusConEstrategias.cfg_quarantine_enabled window_config = false) by reflexivity.
  split; [exact H1|]. split; [exact H2|]. split; [exact H3|].
  exact (nobody_is_quarantined_when_disabled tape_laws window_config 3
           nobody_vaccinated_tape H1 H2 H3).
Defined.

Lemma susceptible_fall_and_recovered_rise_witness :
  0 < ComportamientoVirus.cfg_width ComportamientoVirus.default_config /\
  0 < ComportamientoVirus.cfg_height ComportamientoVirus.default_config /\
  0 < VirusConEstrategias.cfg_width quarantine_config /\
  0 < VirusConEstrategias.cfg_height quarantine_config /\
  exists m0 g0 m g',
    interp (VirusConEstrategias.InfectionModel quarantine_config) ([5; 1; 4] : list Z)
      = Ok (m0, g0) /\
    interp (VirusConEstrategias.simulate quarantine_config 3) ([5; 1; 4] : list Z)
      = Ok (m, g') /\
    descends (EstrategiasTick.snapshot_of m0)
             (VirusConEstrategias.datacollector (MesaTime.fields m)).
Proof.
  assert (H1 : 0 < ComportamientoVirus.cfg_width ComportamientoVirus.default_config) by dims.
  assert (H2 : 0 < ComportamientoVirus.cfg_height ComportamientoVirus.default_config) by dims.
  assert (H4 : 0 < VirusConEstrategias.cfg_width quarantine_config) by dims.
  assert (H5 : 0 < VirusConEstrategias.cfg_height quarantine_config) by dims.
  split; [exact H1|]. split; [exact H2|]. split; [exact H4|]. split; [exact H5|].
  exact (proj2 (susceptible_fall_and_recovered_rise tape_laws
                  ComportamientoVirus.default_config quarantine_config 3
                  ([5; 1; 4] : list Z) H1 H2 H4 H5)).
Defined.

Lemma extinction_is_final_witness :
  0 < ComportamientoVirus.cfg_width ComportamientoVirus.default_config /\
  0 < ComportamientoVirus.cfg_height ComportamientoVirus.default_config /\
  0 < VirusConEstrategias.cfg_width quarantine_config /\
  0 < VirusConEstrategias.cfg_height quarantine_config /\
  exists m g1 m' g2,
    interp (VirusConEstrategias.simulate quarantine_config 3) ([5; 1; 4] : list Z) = Ok (m, g1) /\
    interp (VirusConEstrategias.simulate quarantine_config (3 + 2)) ([5; 1; 4] : list Z)
      = Ok (m', g2) /\
    (VirusConEstrategias.report Infected m = 0 ->
     VirusConEstrategias.the_agents m' = VirusConEstrategias.the_agents m /\
     VirusConEstrategias.datacollector (MesaTime.fields m') =
       VirusConEstrategias.datacollector (MesaTime.fields m)
       ++ repeat (EstrategiasTick.snapshot_of m) 2 /\
     ((0 < 2)%nat -> VirusConEstrategias.running (MesaTime.fields m') = false)).
Proof.
  assert (H1 : 0 < ComportamientoVirus.cfg_width ComportamientoVirus.default_config) by dims.
  assert (H2 : 0 < ComportamientoVirus.cfg_height ComportamientoVirus.default_config) by dims.
  assert (H4 : 0 < VirusConEstrategias.cfg_width quarantine_config) by dims.
  assert (H5 : 0 < VirusConEstrategias.cfg_height quarantine_config) by dims.
  split; [exact H1|]. split; [exact H2|]. split; [exact H4|]. split; [exact H5|].
  exact (proj2 (extinction_is_final tape_laws
                  ComportamientoVirus.default_config quarantine_config 3 2
                  ([5; 1; 4] : list Z) H1 H2 H4 H5)).
Defined.


Lemma every_epidemic_ends_witness :
  0 < ComportamientoVirus.cfg_width ComportamientoVirus.default_config /\
  0 < ComportamientoVirus.cfg_height ComportamientoVirus.default_config /\
  0 <= ComportamientoVirus.cfg_N ComportamientoVirus.default_config /\
  0 < VirusConEstrategias.cfg_width quarantine_config /\
  0 < VirusConEstrategias.cfg_height quarantine_config /\
  0 <= VirusConEstrategias.cfg_N quarantine_config /\
  ComportamientoVirus.cfg_N ComportamientoVirus.default_config
    * Z.max (ComportamientoVirus.cfg_recovery_time ComportamientoVirus.default_config) 1
    < Z.of_nat 1501 /\
  VirusConEstrategias.cfg_N quarantine_config
    * Z.max (VirusConEstrategias.cfg_recovery_time quarantine_config) 1 < Z.of_nat 1501 /\
  exists m g',
    interp (VirusConEstrategias.simulate quarantine_config 1501) ([5; 1; 4] : list Z)
      = Ok (m, g') /\
    VirusConEstrategias.report Infected m = 0 /\
    est_nobody_infected (VirusConEstrategias.the_agents m) /\
    VirusConEstrategias.running (MesaTime.fields m) = false.
Proof.
  assert (H1 : 0 < ComportamientoVirus.cfg_width ComportamientoVirus.default_config) by dims.
  assert (H2 : 0 < ComportamientoVirus.cfg_height ComportamientoVirus.default_config) by dims.
  assert (H3 : 0 <= ComportamientoVirus.cfg_N ComportamientoVirus.default_config) by dims.
  assert (H4 : 0 < VirusConEstrategias.cfg_width quarantine_config) by dims.
  assert (H5 : 0 < VirusConEstrategias.cfg_height quarantine_config) by dims.
  assert (H6 : 0 <= VirusConEstrategias.cfg_N quarantine_config) by dims.
  assert (H7 : ComportamientoVirus.cfg_N ComportamientoVirus.default_config
               * Z.max (ComportamientoVirus.cfg_recovery_time
                          ComportamientoVirus.default_config) 1 < Z.of_nat 1501) by dims.
  assert (H8 : VirusConEstrategias.cfg_N quarantine_config
               * Z.max (VirusConEstrategias.cfg_recovery_time quarantine_config) 1
               < Z.of_nat 1501) by dims.
  split; [exact H1|]. split; [exact H2|]. split; [exact H3|].
  split; [exact H4|]. split; [exact H5|]. split; [exact H6|].
  split; [exact H7|]. split; [exact H8|].
  exact (proj2 (every_epidemic_ends tape_laws
                  ComportamientoVirus.default_config quarantine_config 1501
                  ([5; 1; 4] : list Z) H1 H2 H3 H4 H5 H6 H7 H8)).
Defined.

Lemma main_block_sees_the_epidemic_end_witness :
  0 < ComportamientoVirus.cfg_width ComportamientoVirus.default_config /\
  0 < ComportamientoVirus.cfg_height ComportamientoVirus.default_config /\
  0 <= ComportamientoVirus.cfg_N ComportamientoVirus.default_config /\
  0 < VirusConEstrategias.cfg_width quarantine_config /\
  0 < VirusConEstrategias.cfg_height quarantine_config /\
  0 <= VirusConEstrategias.cfg_N quarantine_config /\
  ComportamientoVirus.cfg_N ComportamientoVirus.default_config
    * Z.max (ComportamientoVirus.cfg_recovery_time ComportamientoVirus.default_config) 1
    < 1501 /\
  VirusConEstrategias.cfg_N quarantine_config
    * Z.max (VirusConEstrategias.cfg_recovery_time quarantine_config) 1 < 1501 /\
  exists m g',
    interp (ComportamientoVirus.main_block ComportamientoVirus.default_config 1501)
           ([5; 1; 4] : list Z) = Ok (m, g') /\
    ComportamientoVirus.running (MesaTime.fields m) = false.
Proof.
  assert (H1 : 0 < ComportamientoVirus.cfg_width ComportamientoVirus.default_config) by dims.
  assert (H2 : 0 < ComportamientoVirus.cfg_height ComportamientoVirus.default_config) by dims.
  assert (H3 : 0 <= ComportamientoVirus.cfg_N ComportamientoVirus.default_config) by dims.
  assert (H4 : 0 < VirusConEstrategias.cfg_width quarantine_config) by dims.
  assert (H5 : 0 < VirusConEstrategias.cfg_height quarantine_config) by dims.
  assert (H6 : 0 <= VirusConEstrategias.cfg_N quarantine_config) by dims.
  assert (H7 : ComportamientoVirus.cfg_N ComportamientoVirus.default_config
               * Z.max (ComportamientoVirus.cfg_recovery_time
                          ComportamientoVirus.default_config) 1 < 1501) by dims.
  assert (H8 : VirusConEstrategias.cfg_N quarantine_config
               * Z.max (VirusConEstrategias.cfg_recovery_time quarantine_config) 1
               < 1501) by dims.
  split; [exact H1|]. split; [exact H2|]. split; [exact H3|].
  split; [exact H4|]. split; [exact H5|]. split; [exact H6|].
  split; [exact H7|]. split; [exact H8|].
  exact (proj1 (@main_block_sees_the_epidemic_end TapeSource tape_laws
                  ComportamientoVirus.default_config quarantine_config 1501
                  ([5; 1; 4] : list Z) H1 H2 H3 H4 H5 H6 H7 H8)).
Defined.

Lemma tape_random_below_one : random_below_one TapeSource.
Proof.
  intros g. simpl. destruct (tape_pop g) as [d t']. simpl.
  unfold Qlt. simpl. pose proof (Z.mod_pos_bound d 100). lia.
Qed.

Lemma tape_random_not_negative : random_not_negative TapeSource.
Proof.
  intros g. simpl. destruct (tape_pop g) as [d t']. simpl.
  unfold Qle. simpl. pose proof (Z.mod_pos_bound d 100). lia.
Qed.

Lemma full_distancing_freezes_the_grid_witness :
  random_below_one TapeSource /\
  0 < VirusConEstrategias.cfg_width lockdown_config /\
  0 < VirusConEstrategias.cfg_height lockdown_config /\
  VirusConEstrategias.cfg_quarantine_enabled lockdown_config = false /\
  (1 <= VirusConEstrategias.cfg_social_distancing_rate lockdown_config)%Q /\
  exists m0 g0 m g',
    interp (VirusConEstrategias.InfectionModel lockdown_config) ([5; 1; 4] : list Z)
      = Ok (m0, g0) /\
    interp (VirusConEstrategias.simulate lockdown_config 3) ([5; 1; 4] : list Z)
      = Ok (m, g') /\
    VirusConEstrategias.the_grid m = VirusConEstrategias.the_grid m0 /\
    forall k, Grid.agent_pos k (VirusConEstrategias.the_grid m)
              = Grid.agent_pos k (VirusConEstrategias.the_grid m0).
Proof.
  assert (H1 : 0 < VirusConEstrategias.cfg_width lockdown_config) by dims.
  assert (H2 : 0 < VirusConEstrategias.cfg_height lockdown_config) by dims.
  assert (H3 : VirusConEstrategias.cfg_quarantine_enabled lockdown_config = false)
    by reflexivity.
  assert (H4 : (1 <= VirusConEstrategias.cfg_social_distancing_rate lockdown_config)%Q)
    by dims.
  split; [exact tape_random_below_one|].
  split; [exact H1|]. split; [exact H2|]. split; [exact H3|]. split; [exact H4|].
  exact (full_distancing_freezes_the_grid tape_laws lockdown_config 3
           ([5; 1; 4] : list Z) tape_random_below_one H1 H2 H3 H4).
Defined.

Lemma unvaccinated_construction_infects_first_witness :
  random_not_negative TapeSource /\
  0 < VirusConEstrategias.cfg_width lockdown_config /\
  0 < VirusConEstrategias.cfg_height lockdown_config /\
  (VirusConEstrategias.cfg_initial_vaccinated_rate lockdown_config == 0)%Q /\
  exists m0 g0,
    interp (VirusConEstrategias.InfectionModel lockdown_config) ([5; 1; 4] : list Z)
      = Ok (m0, g0) /\
    VirusConEstrategias.the_agents m0
      = est_unvaccinated_agents lockdown_config
          (VirusConEstrategias.cfg_N lockdown_config).
Proof.
  assert (H1 : 0 < VirusConEstrategias.cfg_width lockdown_config) by dims.
  assert (H2 : 0 < VirusConEstrategias.cfg_height lockdown_config) by dims.
  assert (H3 : (VirusConEstrategias.cfg_initial_vaccinated_rate lockdown_config == 0)%Q)
    by reflexivity.
  split; [exact tape_random_not_negative|].
  split; [exact H1|]. split; [exact H2|]. split; [exact H3|].
  exact (unvaccinated_construction_infects_first tape_laws lockdown_config
           ([5; 1; 4] : list Z) tape_random_not_negative H1 H2 H3).
Defined.
